(** * PandaPowerBackend: a shallow embedding of the grid2op / pandapower adapter

    Source: [src/grid2op/Backend/PandaPowerBackend.py].

    The Python object [self] becomes the record [Backend]; the pandapower
    network [self._grid] becomes the record [Grid], one list of rows per
    table.  Python integers are [Z]; numpy and pandas positional indexing is
    written out with its wrap-around of negative indices and its
    [IndexError].  Methods that mutate [self] live in a state-and-exception
    monad [M]: as in Python, the mutations made before an exception is
    raised stay in the state.

    Floating-point numbers are kept abstract behind the interface
    [FloatOps]; no property below depends on rounding.  The power-flow
    solver is an external collaborator and is kept abstract behind the
    interface [Solver]: it reads the network and produces the result
    tables, or raises [LoadflowNotConverged]. *)

From Stdlib Require Import ZArith Lia Bool.
From stdpp Require Import base list strings.

Open Scope Z_scope.

(** ** Exceptions and results *)

Inductive exn : Type :=
| BackendError (msg : string)
| LoadflowNotConverged (msg : string)
| IndexError
| KeyError
| ValueError
| AttributeError.

Inductive result (A : Type) : Type :=
| Ok (a : A)
| Raise (e : exn).
Arguments Ok {A} a.
Arguments Raise {A} e.

Definition rbind {A B} (r : result A) (k : A -> result B) : result B :=
  match r with
  | Ok a => k a
  | Raise e => Raise e
  end.

Notation "'let?' x := r 'in' k" := (rbind r (fun x => k))
  (at level 10, x pattern, r at level 100, k at level 200).

(** ** Python and numpy indexing *)

(** Position designated by index [i] in a sequence of length [n]: a negative
    index counts from the end, anything else out of range has no position. *)
Definition py_index (n : nat) (i : Z) : option nat :=
  if (0 <=? i) && (i <? Z.of_nat n) then Some (Z.to_nat i)
  else if (i <? 0) && (- Z.of_nat n <=? i) then Some (Z.to_nat (Z.of_nat n + i))
  else None.

(** [l[i]] *)
Definition getitem {A} (l : list A) (i : Z) : result A :=
  match py_index (length l) i with
  | Some k => match l !! k with Some x => Ok x | None => Raise IndexError end
  | None => Raise IndexError
  end.

(** [l[i] = x] *)
Definition setitem {A} (l : list A) (i : Z) (x : A) : result (list A) :=
  match py_index (length l) i with
  | Some k => Ok (<[k := x]> l)
  | None => Raise IndexError
  end.

(** [tbl[col].iat[i] = ...]: the row at position [i] is rewritten by [f]. *)
Definition iat_set {A} (l : list A) (i : Z) (f : A -> A) : result (list A) :=
  match py_index (length l) i with
  | Some k => Ok (alter f k l)
  | None => Raise IndexError
  end.

(** [dst[:] = src]: same length, or a single value broadcast to all. *)
Definition assign_all {A} (dst src : list A) : result (list A) :=
  if (length src =? length dst)%nat then Ok src
  else match src with
       | [x] => Ok (replicate (length dst) x)
       | _ => Raise ValueError
       end.

(** [a op b] on arrays, with numpy's broadcasting of one-element arrays. *)
Definition np_zip {A} (op : A -> A -> A) (a b : list A) : result (list A) :=
  if (length a =? length b)%nat then Ok (zip_with op a b)
  else match a, b with
       | [x], _ => Ok (map (op x) b)
       | _, [y] => Ok (map (fun x => op x y) a)
       | _, _ => Raise ValueError
       end.

(** [arr[mask] = val]: every position where the mask holds gets [val]. *)
Definition mask_fill {A} (arr : list A) (mask : list bool) (val : A)
  : result (list A) :=
  if (length mask =? length arr)%nat
  then Ok (zip_with (fun x (m : bool) => if m then val else x) arr mask)
  else Raise IndexError.

(** [col.iloc[changed] = f(values[changed])] on the rows of a table: the
    boolean mask must have the length of the table and of [values]. *)
Definition mask_set {R V} (rows : list R) (changed : list bool) (values : list V)
    (upd : R -> V -> R) : result (list R) :=
  if (length changed =? length rows)%nat && (length changed =? length values)%nat
  then Ok (zip_with (fun (r : R) (cv : bool * V) => if cv.1 then upd r cv.2 else r)
                    rows (zip changed values))
  else Raise IndexError.

(** [np.any(mask)] *)
Definition np_any (mask : list bool) : bool := existsb id mask.

(** ** Floating-point interface *)

Class FloatOps (F : Type) := {
  NaN : F;
  fconst : Z -> F;              (* the literals 0., 1.0, 1000 *)
  fadd : F -> F -> F;
  fmul : F -> F -> F;
  fdiv : F -> F -> F;
  isfinite : F -> bool;         (* np.isfinite *)
  isnull : F -> bool;           (* pandas isnull *)
  int_of_nan : Z                (* what casting NaN to dt_int stores *)
}.

(** ** A value of the action with its "changed" flag vector *)

Record ValueStore (V : Type) := {
  changed : list bool;
  values : list V
}.
Arguments changed {V} v.
Arguments values {V} v.

(** ** The pandapower network *)

Section Model.
Context {F : Type}.

Record BusRow := {
  bus_index : Z;                (* the row label of the pandas index *)
  bus_name : string;
  vn_kv : F;
  bus_type : string;
  bus_zone : string;
  bus_in_service : bool
}.

Record LoadRow := {
  load_bus : Z;
  load_p_mw : F;
  load_q_mvar : F;
  load_in_service : bool
}.

Record GenRow := {
  gen_bus : Z;
  gen_p_mw : F;
  gen_vm_pu : F;
  gen_slack : bool;
  gen_in_service : bool
}.

Record LineRow := {
  from_bus : Z;
  to_bus : Z;
  line_in_service : bool
}.

Record TrafoRow := {
  hv_bus : Z;
  lv_bus : Z;
  trafo_in_service : bool
}.

Record ShuntRow := {
  shunt_bus : Z;
  shunt_p_mw : F;
  shunt_q_mvar : F;
  shunt_in_service : bool
}.

Record ExtGridRow := {
  ext_grid_bus : Z;
  ext_grid_vm_pu : F;
  va_degree : F
}.

(** What the solver writes: the result tables and its internal arrays. *)

Record ResGenRow := {
  res_gen_p_mw : F;
  res_gen_q_mvar : F;
  res_gen_va_degree : F;
  res_gen_vm_pu : F
}.

Record ResLoadRow := {
  res_load_p_mw : F;
  res_load_q_mvar : F
}.

Record ResBusRow := {
  res_bus_index : Z;            (* row label: the bus it belongs to *)
  res_bus_vm_pu : F
}.

Record ResShuntRow := {
  res_shunt_p_mw : F;
  res_shunt_q_mvar : F
}.

Record Ppc := {
  et : option F;                        (* _ppc["et"], when present *)
  ppc_gen : list (list F);              (* _ppc["gen"] *)
  ppc_internal_gen : option (list (list F))   (* _ppc["internal"]["gen"], when present *)
}.

Record SolverOut := {
  res_gen : list ResGenRow;
  res_load : list ResLoadRow;
  res_bus : list ResBusRow;
  res_line : string -> list F;          (* column name to column *)
  res_trafo : string -> list F;
  res_shunt : list ResShuntRow;
  _ppc : option Ppc;                    (* None: "_ppc" not in the network *)
  converged : bool
}.

Record Grid := {
  bus : list BusRow;
  load : list LoadRow;
  gen : list GenRow;
  line : list LineRow;
  trafo : list TrafoRow;
  shunt : list ShuntRow;
  ext_grid : list ExtGridRow;
  solved : SolverOut
}.

(** ** The backend object *)

(** The tables built once by [load_grid] and never written afterwards. *)
Record Tables := {
  _PandaPowerBackend__nb_bus_before : Z;   (* self.__nb_bus_before *)
  _PandaPowerBackend__nb_powerline : Z;    (* self.__nb_powerline *)
  _number_true_line : Z;
  _iref_slack : option Z;
  _id_bus_added : option Z;
  _init_bus_load : list Z;
  _init_bus_gen : list Z;
  _init_bus_lor : list Z;
  _init_bus_lex : list Z;
  _big_topo_to_backend : list (Z * Z * Z);
  dim_topo : nat;
  n_load : nat;
  load_to_subid : list Z;
  gen_to_subid : list Z;
  line_or_to_subid : list Z;
  line_ex_to_subid : list Z;
  shunt_to_subid : list Z;
  load_pos_topo_vect : list Z;
  gen_pos_topo_vect : list Z;
  line_or_pos_topo_vect : list Z;
  line_ex_pos_topo_vect : list Z;
  prod_pu_to_kv : list F;
  load_pu_to_kv : list F;
  lines_or_pu_to_kv : list F;
  lines_ex_pu_to_kv : list F;
  shunts_data_available : bool
}.

(** The published per-element vectors of electrical quantities. *)
Inductive Attr : Type :=
| p_or | q_or | v_or | a_or
| p_ex | q_ex | v_ex | a_ex
| prod_p | prod_q | prod_v
| load_p | load_q | load_v.

Definition all_attrs : list Attr :=
  [p_or; q_or; v_or; a_or; p_ex; q_ex; v_ex; a_ex;
   prod_p; prod_q; prod_v; load_p; load_q; load_v].

Definition Attr_eqb (a b : Attr) : bool :=
  match a, b with
  | p_or, p_or | q_or, q_or | v_or, v_or | a_or, a_or
  | p_ex, p_ex | q_ex, q_ex | v_ex, v_ex | a_ex, a_ex
  | prod_p, prod_p | prod_q, prod_q | prod_v, prod_v
  | load_p, load_p | load_q, load_q | load_v, load_v => true
  | _, _ => false
  end.

(** How the solver was called: [pp.rundcpp] or [pp.runpp(init=...)]. *)
Inductive SolverCall : Type :=
| rundcpp
| runpp (init : string).

Record Backend := {
  _grid : Grid;
  vec : Attr -> list F;                 (* self.p_or ... self.load_v *)
  line_status : list bool;
  _pf_init : string;
  _nb_bus_before : option Z;
  _topo_vect : list Z;
  comp_time : F;
  tables : Tables;
  solver_calls : list SolverCall        (* ghost: the solver calls made so far, latest first *)
}.

(** ** The backend action *)

Record Action := {
  active_bus : list (bool * bool);
  injection : ValueStore F * ValueStore F * ValueStore F * ValueStore F;
  topo__ : list (Z * Z);
  shunts__ : ValueStore F * ValueStore F * ValueStore Z
}.

End Model.

Arguments BusRow F : clear implicits.
Arguments LoadRow F : clear implicits.
Arguments GenRow F : clear implicits.
Arguments ShuntRow F : clear implicits.
Arguments ExtGridRow F : clear implicits.
Arguments ResGenRow F : clear implicits.
Arguments ResLoadRow F : clear implicits.
Arguments ResBusRow F : clear implicits.
Arguments ResShuntRow F : clear implicits.
Arguments Ppc F : clear implicits.
Arguments SolverOut F : clear implicits.
Arguments Grid F : clear implicits.
Arguments Tables F : clear implicits.
Arguments Backend F : clear implicits.
Arguments Action F : clear implicits.

(** The solver: given how it is called and the network, the tables it
    writes and whether it raised [LoadflowNotConverged]. *)
Class Solver (F : Type) := {
  run_solver : SolverCall -> Grid F -> SolverOut F * bool
}.

Section Adapter.
Context {F : Type} `{FloatOps F} `{Solver F}.

(** ** Field updates *)

Definition set_load_bus (v : Z) (r : LoadRow F) : LoadRow F :=
  {| load_bus := v; load_p_mw := load_p_mw r; load_q_mvar := load_q_mvar r;
     load_in_service := load_in_service r |}.
Definition set_load_p_mw (r : LoadRow F) (v : F) : LoadRow F :=
  {| load_bus := load_bus r; load_p_mw := v; load_q_mvar := load_q_mvar r;
     load_in_service := load_in_service r |}.
Definition set_load_q_mvar (r : LoadRow F) (v : F) : LoadRow F :=
  {| load_bus := load_bus r; load_p_mw := load_p_mw r; load_q_mvar := v;
     load_in_service := load_in_service r |}.
Definition set_load_in_service (v : bool) (r : LoadRow F) : LoadRow F :=
  {| load_bus := load_bus r; load_p_mw := load_p_mw r; load_q_mvar := load_q_mvar r;
     load_in_service := v |}.

Definition set_gen_bus (v : Z) (r : GenRow F) : GenRow F :=
  {| gen_bus := v; gen_p_mw := gen_p_mw r; gen_vm_pu := gen_vm_pu r;
     gen_slack := gen_slack r; gen_in_service := gen_in_service r |}.
Definition set_gen_p_mw (r : GenRow F) (v : F) : GenRow F :=
  {| gen_bus := gen_bus r; gen_p_mw := v; gen_vm_pu := gen_vm_pu r;
     gen_slack := gen_slack r; gen_in_service := gen_in_service r |}.
Definition set_gen_vm_pu (r : GenRow F) (v : F) : GenRow F :=
  {| gen_bus := gen_bus r; gen_p_mw := gen_p_mw r; gen_vm_pu := v;
     gen_slack := gen_slack r; gen_in_service := gen_in_service r |}.
Definition set_gen_in_service (v : bool) (r : GenRow F) : GenRow F :=
  {| gen_bus := gen_bus r; gen_p_mw := gen_p_mw r; gen_vm_pu := gen_vm_pu r;
     gen_slack := gen_slack r; gen_in_service := v |}.

Definition set_from_bus (v : Z) (r : LineRow) : LineRow :=
  {| from_bus := v; to_bus := to_bus r; line_in_service := line_in_service r |}.
Definition set_to_bus (v : Z) (r : LineRow) : LineRow :=
  {| from_bus := from_bus r; to_bus := v; line_in_service := line_in_service r |}.
Definition set_line_in_service (v : bool) (r : LineRow) : LineRow :=
  {| from_bus := from_bus r; to_bus := to_bus r; line_in_service := v |}.

Definition set_hv_bus (v : Z) (r : TrafoRow) : TrafoRow :=
  {| hv_bus := v; lv_bus := lv_bus r; trafo_in_service := trafo_in_service r |}.
Definition set_lv_bus (v : Z) (r : TrafoRow) : TrafoRow :=
  {| hv_bus := hv_bus r; lv_bus := v; trafo_in_service := trafo_in_service r |}.
Definition set_trafo_in_service (v : bool) (r : TrafoRow) : TrafoRow :=
  {| hv_bus := hv_bus r; lv_bus := lv_bus r; trafo_in_service := v |}.

Definition set_shunt_bus (v : Z) (r : ShuntRow F) : ShuntRow F :=
  {| shunt_bus := v; shunt_p_mw := shunt_p_mw r; shunt_q_mvar := shunt_q_mvar r;
     shunt_in_service := shunt_in_service r |}.
Definition set_shunt_p_mw (r : ShuntRow F) (v : F) : ShuntRow F :=
  {| shunt_bus := shunt_bus r; shunt_p_mw := v; shunt_q_mvar := shunt_q_mvar r;
     shunt_in_service := shunt_in_service r |}.
Definition set_shunt_q_mvar (r : ShuntRow F) (v : F) : ShuntRow F :=
  {| shunt_bus := shunt_bus r; shunt_p_mw := shunt_p_mw r; shunt_q_mvar := v;
     shunt_in_service := shunt_in_service r |}.
Definition set_shunt_in_service (v : bool) (r : ShuntRow F) : ShuntRow F :=
  {| shunt_bus := shunt_bus r; shunt_p_mw := shunt_p_mw r; shunt_q_mvar := shunt_q_mvar r;
     shunt_in_service := v |}.

Definition set_ext_grid_bus (v : Z) (r : ExtGridRow F) : ExtGridRow F :=
  {| ext_grid_bus := v; ext_grid_vm_pu := ext_grid_vm_pu r; va_degree := va_degree r |}.
Definition set_ext_grid_vm_pu (v : F) (r : ExtGridRow F) : ExtGridRow F :=
  {| ext_grid_bus := ext_grid_bus r; ext_grid_vm_pu := v; va_degree := va_degree r |}.

Definition set_bus_index (v : Z) (r : BusRow F) : BusRow F :=
  {| bus_index := v; bus_name := bus_name r; vn_kv := vn_kv r; bus_type := bus_type r;
     bus_zone := bus_zone r; bus_in_service := bus_in_service r |}.
Definition set_bus_in_service (v : bool) (r : BusRow F) : BusRow F :=
  {| bus_index := bus_index r; bus_name := bus_name r; vn_kv := vn_kv r;
     bus_type := bus_type r; bus_zone := bus_zone r; bus_in_service := v |}.

Definition set_bus (v : list (BusRow F)) (g : Grid F) : Grid F :=
  {| bus := v; load := load g; gen := gen g; line := line g; trafo := trafo g;
     shunt := shunt g; ext_grid := ext_grid g; solved := solved g |}.
Definition set_load (v : list (LoadRow F)) (g : Grid F) : Grid F :=
  {| bus := bus g; load := v; gen := gen g; line := line g; trafo := trafo g;
     shunt := shunt g; ext_grid := ext_grid g; solved := solved g |}.
Definition set_gen (v : list (GenRow F)) (g : Grid F) : Grid F :=
  {| bus := bus g; load := load g; gen := v; line := line g; trafo := trafo g;
     shunt := shunt g; ext_grid := ext_grid g; solved := solved g |}.
Definition set_line (v : list LineRow) (g : Grid F) : Grid F :=
  {| bus := bus g; load := load g; gen := gen g; line := v; trafo := trafo g;
     shunt := shunt g; ext_grid := ext_grid g; solved := solved g |}.
Definition set_trafo (v : list TrafoRow) (g : Grid F) : Grid F :=
  {| bus := bus g; load := load g; gen := gen g; line := line g; trafo := v;
     shunt := shunt g; ext_grid := ext_grid g; solved := solved g |}.
Definition set_shunt (v : list (ShuntRow F)) (g : Grid F) : Grid F :=
  {| bus := bus g; load := load g; gen := gen g; line := line g; trafo := trafo g;
     shunt := v; ext_grid := ext_grid g; solved := solved g |}.
Definition set_ext_grid (v : list (ExtGridRow F)) (g : Grid F) : Grid F :=
  {| bus := bus g; load := load g; gen := gen g; line := line g; trafo := trafo g;
     shunt := shunt g; ext_grid := v; solved := solved g |}.
Definition set_solved (v : SolverOut F) (g : Grid F) : Grid F :=
  {| bus := bus g; load := load g; gen := gen g; line := line g; trafo := trafo g;
     shunt := shunt g; ext_grid := ext_grid g; solved := v |}.

Definition set_grid (v : Grid F) (s : Backend F) : Backend F :=
  {| _grid := v; vec := vec s; line_status := line_status s; _pf_init := _pf_init s;
     _nb_bus_before := _nb_bus_before s; _topo_vect := _topo_vect s;
     comp_time := comp_time s; tables := tables s; solver_calls := solver_calls s |}.
Definition set_vec (a : Attr) (v : list F) (s : Backend F) : Backend F :=
  {| _grid := _grid s;
     vec := fun b => if Attr_eqb a b then v else vec s b;
     line_status := line_status s; _pf_init := _pf_init s;
     _nb_bus_before := _nb_bus_before s; _topo_vect := _topo_vect s;
     comp_time := comp_time s; tables := tables s; solver_calls := solver_calls s |}.
Definition set_line_status (v : list bool) (s : Backend F) : Backend F :=
  {| _grid := _grid s; vec := vec s; line_status := v; _pf_init := _pf_init s;
     _nb_bus_before := _nb_bus_before s; _topo_vect := _topo_vect s;
     comp_time := comp_time s; tables := tables s; solver_calls := solver_calls s |}.
Definition set_pf_init (v : string) (s : Backend F) : Backend F :=
  {| _grid := _grid s; vec := vec s; line_status := line_status s; _pf_init := v;
     _nb_bus_before := _nb_bus_before s; _topo_vect := _topo_vect s;
     comp_time := comp_time s; tables := tables s; solver_calls := solver_calls s |}.
Definition set_nb_bus_before (v : option Z) (s : Backend F) : Backend F :=
  {| _grid := _grid s; vec := vec s; line_status := line_status s; _pf_init := _pf_init s;
     _nb_bus_before := v; _topo_vect := _topo_vect s;
     comp_time := comp_time s; tables := tables s; solver_calls := solver_calls s |}.
Definition set_topo_vect (v : list Z) (s : Backend F) : Backend F :=
  {| _grid := _grid s; vec := vec s; line_status := line_status s; _pf_init := _pf_init s;
     _nb_bus_before := _nb_bus_before s; _topo_vect := v;
     comp_time := comp_time s; tables := tables s; solver_calls := solver_calls s |}.
Definition set_comp_time (v : F) (s : Backend F) : Backend F :=
  {| _grid := _grid s; vec := vec s; line_status := line_status s; _pf_init := _pf_init s;
     _nb_bus_before := _nb_bus_before s; _topo_vect := _topo_vect s;
     comp_time := v; tables := tables s; solver_calls := solver_calls s |}.
Definition set_solver_calls (v : list SolverCall) (s : Backend F) : Backend F :=
  {| _grid := _grid s; vec := vec s; line_status := line_status s; _pf_init := _pf_init s;
     _nb_bus_before := _nb_bus_before s; _topo_vect := _topo_vect s;
     comp_time := comp_time s; tables := tables s; solver_calls := v |}.

(** ** The state-and-exception monad of the methods *)

Definition M (A : Type) : Type := Backend F -> result A * Backend F.

Definition ret {A} (a : A) : M A := fun s => (Ok a, s).

Definition bind {A B} (m : M A) (k : A -> M B) : M B :=
  fun s => match m s with
           | (Ok a, s') => k a s'
           | (Raise e, s') => (Raise e, s')
           end.

Definition raise {A} (e : exn) : M A := fun s => (Raise e, s).

Definition lift {A} (r : result A) : M A := fun s => (r, s).

Definition get : M (Backend F) := fun s => (Ok s, s).

Definition modify (f : Backend F -> Backend F) : M unit := fun s => (Ok tt, f s).

(** [try: body except LoadflowNotConverged: handler] *)
Definition try_except_LoadflowNotConverged {A} (body handler : M A) : M A :=
  fun s => match body s with
           | (Raise (LoadflowNotConverged _), s') => handler s'
           | r => r
           end.

(** A statement guarded by a condition. *)
Definition when (c : bool) (m : M unit) : M unit := if c then m else ret tt.

(** A [for] loop over a list. *)
Fixpoint for_each {A} (l : list A) (body : A -> M unit) : M unit :=
  match l with
  | [] => ret tt
  | x :: l' => bind (body x) (fun _ => for_each l' body)
  end.

End Adapter.

Notation "x <- m ;; k" := (bind m (fun x => k))
  (at level 100, m at next level, right associativity).
Notation "m ;;; k" := (bind m (fun _ => k))
  (at level 100, right associativity).
Section Methods.
Context {F : Type} `{FloatOps F} `{Solver F}.

(** Rewrites one table of the network; the network is left as it was when
    the rewriting raises. *)
Definition update_table {R} (tbl : Grid F -> list R)
    (set : list R -> Grid F -> Grid F)
    (f : list R -> result (list R)) : M unit :=
  fun s => match f (tbl (_grid s)) with
           | Ok l => (Ok tt, set_grid (set l (_grid s)) s)
           | Raise e => (Raise e, s)
           end.

(** [self._grid.<tbl>[<col>].iat[i] = ...] *)
Definition grid_iat {R} (tbl : Grid F -> list R)
    (set : list R -> Grid F -> Grid F) (i : Z) (f : R -> R) : M unit :=
  update_table tbl set (fun l => iat_set l i f).

(** [get_nb_active_bus]: [np.sum(self._grid.bus["in_service"])]. *)
Definition get_nb_active_bus (self : Backend F) : Z :=
  foldr (fun r n => Z.b2z (bus_in_service r) + n) 0 (bus (_grid self)).

(** ** The bus resolver *)

(** [_pp_bus_from_grid2op_bus].  The home-bus tables hold bus row numbers;
    the product with [cst_1] at load time and the final [int(res)] are exact
    on them, so they are kept as integers. *)
Definition _pp_bus_from_grid2op_bus (self : Backend F)
    (grid2op_bus grid2op_bus_init : Z) : result Z :=
  if grid2op_bus =? 1 then Ok grid2op_bus_init
  else if grid2op_bus =? 2
  then Ok (grid2op_bus_init + _PandaPowerBackend__nb_bus_before (tables self))
  else if grid2op_bus =? -1 then Ok (-1)
  else Raise (BackendError "grid2op bus must be -1, 1 or 2").

(** ** The per-kind row mutators *)

Definition _apply_load_bus (new_bus id_el_backend id_topo : Z) : M unit :=
  self <- get ;;
  init <- lift (getitem (_init_bus_load (tables self)) id_el_backend) ;;
  new_bus_backend <- lift (_pp_bus_from_grid2op_bus self new_bus init) ;;
  if 0 <=? new_bus_backend then
    (grid_iat load set_load id_el_backend (set_load_bus new_bus_backend) ;;;
     grid_iat load set_load id_el_backend (set_load_in_service true))
  else
    (grid_iat load set_load id_el_backend (set_load_in_service false) ;;;
     grid_iat load set_load id_el_backend (set_load_bus (-1))).

Definition _apply_gen_bus (new_bus id_el_backend id_topo : Z) : M unit :=
  self <- get ;;
  init <- lift (getitem (_init_bus_gen (tables self)) id_el_backend) ;;
  new_bus_backend <- lift (_pp_bus_from_grid2op_bus self new_bus init) ;;
  if 0 <=? new_bus_backend then
    (grid_iat gen set_gen id_el_backend (set_gen_bus new_bus_backend) ;;;
     grid_iat gen set_gen id_el_backend (set_gen_in_service true) ;;;
     self' <- get ;;
     when ((id_el_backend =? Z.of_nat (length (gen (_grid self'))) - 1)
           && bool_decide (is_Some (_iref_slack (tables self'))))
          (grid_iat ext_grid set_ext_grid 0 (set_ext_grid_bus new_bus_backend)))
  else
    (grid_iat gen set_gen id_el_backend (set_gen_in_service false) ;;;
     grid_iat gen set_gen id_el_backend (set_gen_bus (-1))).

Definition change_bus_powerline_or (id_powerline_backend new_bus_backend : Z) : M unit :=
  if 0 <=? new_bus_backend then
    (grid_iat line set_line id_powerline_backend (set_line_in_service true) ;;;
     grid_iat line set_line id_powerline_backend (set_from_bus new_bus_backend))
  else
    grid_iat line set_line id_powerline_backend (set_line_in_service false).

Definition _apply_lor_bus (new_bus id_el_backend id_topo : Z) : M unit :=
  self <- get ;;
  init <- lift (getitem (_init_bus_lor (tables self)) id_el_backend) ;;
  new_bus_backend <- lift (_pp_bus_from_grid2op_bus self new_bus init) ;;
  change_bus_powerline_or id_el_backend new_bus_backend.

Definition change_bus_powerline_ex (id_powerline_backend new_bus_backend : Z) : M unit :=
  if 0 <=? new_bus_backend then
    (grid_iat line set_line id_powerline_backend (set_line_in_service true) ;;;
     grid_iat line set_line id_powerline_backend (set_to_bus new_bus_backend))
  else
    grid_iat line set_line id_powerline_backend (set_line_in_service false).

Definition _apply_lex_bus (new_bus id_el_backend id_topo : Z) : M unit :=
  self <- get ;;
  init <- lift (getitem (_init_bus_lex (tables self)) id_el_backend) ;;
  new_bus_backend <- lift (_pp_bus_from_grid2op_bus self new_bus init) ;;
  change_bus_powerline_ex id_el_backend new_bus_backend.

Definition change_bus_trafo_hv (id_powerline_backend new_bus_backend : Z) : M unit :=
  if 0 <=? new_bus_backend then
    (grid_iat trafo set_trafo id_powerline_backend (set_trafo_in_service true) ;;;
     grid_iat trafo set_trafo id_powerline_backend (set_hv_bus new_bus_backend))
  else
    grid_iat trafo set_trafo id_powerline_backend (set_trafo_in_service false).

Definition _apply_trafo_hv (new_bus id_el_backend id_topo : Z) : M unit :=
  self <- get ;;
  init <- lift (getitem (_init_bus_lor (tables self)) id_el_backend) ;;
  new_bus_backend <- lift (_pp_bus_from_grid2op_bus self new_bus init) ;;
  change_bus_trafo_hv id_topo new_bus_backend.

Definition change_bus_trafo_lv (id_powerline_backend new_bus_backend : Z) : M unit :=
  if 0 <=? new_bus_backend then
    (grid_iat trafo set_trafo id_powerline_backend (set_trafo_in_service true) ;;;
     grid_iat trafo set_trafo id_powerline_backend (set_lv_bus new_bus_backend))
  else
    grid_iat trafo set_trafo id_powerline_backend (set_trafo_in_service false).

Definition _apply_trafo_lv (new_bus id_el_backend id_topo : Z) : M unit :=
  self <- get ;;
  init <- lift (getitem (_init_bus_lex (tables self)) id_el_backend) ;;
  new_bus_backend <- lift (_pp_bus_from_grid2op_bus self new_bus init) ;;
  change_bus_trafo_lv id_topo new_bus_backend.

(** The dispatch table set up by [__init__], indexed by the kind tag. *)
Definition _type_to_bus_set : list (Z -> Z -> Z -> M unit) :=
  [ _apply_load_bus; _apply_gen_bus; _apply_lor_bus;
    _apply_trafo_hv; _apply_lex_bus; _apply_trafo_lv ].

(** ** The action applicator *)

(** [for i, x in enumerate(l)] *)
Definition enumerate {A} (l : list A) : list (Z * A) :=
  zip (seqZ 0 (Z.of_nat (length l))) l.

Fixpoint mapM_result {A B} (f : A -> result B) (l : list A) : result (list B) :=
  match l with
  | [] => Ok []
  | x :: l' => let? y := f x in let? ys := mapM_result f l' in Ok (y :: ys)
  end.

(** [np.arange(len(shunt_bus))[shunt_bus.changed & shunt_bus.values == k]].
    In Python [&] binds tighter than [==]: the flag is and-ed bitwise with
    the value, and the outcome is compared with [k]. *)
Definition sh_bus_select (shunt_bus : ValueStore Z) (k : Z) : result (list Z) :=
  let? anded := np_zip Z.land (map Z.b2z (changed shunt_bus)) (values shunt_bus) in
  let mask := map (fun v => v =? k) anded in
  if (length mask =? length (values shunt_bus))%nat
  then Ok (map fst (List.filter snd (zip (seqZ 0 (Z.of_nat (length mask))) mask)))
  else Raise IndexError.

(** [self._grid.shunt["bus"][idx] = vals]: rows are designated by label. *)
Fixpoint shunt_bus_set_labels (rows : list (ShuntRow F)) (idx vals : list Z)
  : result (list (ShuntRow F)) :=
  match idx, vals with
  | i :: idx', v :: vals' =>
      if (0 <=? i) && (i <? Z.of_nat (length rows))
      then shunt_bus_set_labels (alter (set_shunt_bus v) (Z.to_nat i) rows) idx' vals'
      else Raise KeyError
  | _, _ => Ok rows
  end.

(** [bus_is[label] = status] on the in-service column of the bus table: the
    rows carrying that label are rewritten. *)
Definition bus_is_set (label : Z) (status : bool) (rows : list (BusRow F))
  : list (BusRow F) :=
  map (fun r => if bus_index r =? label then set_bus_in_service status r else r) rows.

(** Lines 521-539: the injections. *)
Definition apply_action_injection (act : Action F) : M unit :=
  let '(a_prod_p, a_prod_v, a_load_p, a_load_q) := injection act in
  when (np_any (changed a_prod_p))
       (update_table gen set_gen
          (fun rows => mask_set rows (changed a_prod_p) (values a_prod_p) set_gen_p_mw)) ;;;
  self <- get ;;
  when (np_any (changed a_prod_v))
       (update_table gen set_gen
          (fun rows =>
             if (length (changed a_prod_v) =? length (values a_prod_v))%nat
                && (length (changed a_prod_v) =? length (prod_pu_to_kv (tables self)))%nat
             then mask_set rows (changed a_prod_v)
                    (zip_with fdiv (values a_prod_v) (prod_pu_to_kv (tables self)))
                    set_gen_vm_pu
             else Raise IndexError)) ;;;
  match _id_bus_added (tables self) with
  | Some id =>
      flag <- lift (getitem (changed a_prod_v) id) ;;
      when flag
        (self' <- get ;;
         v <- lift (if 0 <=? id
                    then match gen (_grid self') !! Z.to_nat id with
                         | Some r => Ok (gen_vm_pu r)
                         | None => Raise KeyError
                         end
                    else Raise KeyError) ;;
         update_table ext_grid set_ext_grid
           (fun rows => Ok (map (set_ext_grid_vm_pu (fmul (fconst 1) v)) rows)))
  | None => ret tt
  end ;;;
  when (np_any (changed a_load_p))
       (update_table load set_load
          (fun rows => mask_set rows (changed a_load_p) (values a_load_p) set_load_p_mw)) ;;;
  when (np_any (changed a_load_q))
       (update_table load set_load
          (fun rows => mask_set rows (changed a_load_q) (values a_load_q) set_load_q_mvar)).

(** Lines 541-556: the shunts. *)
Definition apply_action_shunts (act : Action F) : M unit :=
  self <- get ;;
  when (shunts_data_available (tables self))
    (let '(shunt_p, shunt_q, shunt_bus) := shunts__ act in
     when (np_any (changed shunt_p))
          (update_table shunt set_shunt
             (fun rows => mask_set rows (changed shunt_p) (values shunt_p) set_shunt_p_mw)) ;;;
     when (np_any (changed shunt_q))
          (update_table shunt set_shunt
             (fun rows => mask_set rows (changed shunt_q) (values shunt_q) set_shunt_q_mvar)) ;;;
     when (np_any (changed shunt_bus))
          (update_table shunt set_shunt
             (fun rows => mask_set rows (changed shunt_bus) (values shunt_bus)
                            (fun r v => set_shunt_in_service (negb (v =? -1)) r)) ;;;
           sh_bus1 <- lift (sh_bus_select shunt_bus 1) ;;
           sh_bus2 <- lift (sh_bus_select shunt_bus 2) ;;
           when (0 <? Z.of_nat (length sh_bus1))
                (update_table shunt set_shunt
                   (fun rows =>
                      let? vals := mapM_result (getitem (shunt_to_subid (tables self))) sh_bus1 in
                      shunt_bus_set_labels rows sh_bus1 vals)) ;;;
           when (0 <? Z.of_nat (length sh_bus2))
                (update_table shunt set_shunt
                   (fun rows =>
                      let? vals := mapM_result (getitem (shunt_to_subid (tables self))) sh_bus2 in
                      shunt_bus_set_labels rows sh_bus2
                        (map (fun v => v + _PandaPowerBackend__nb_bus_before (tables self))
                             vals))))).

(** Lines 559-561: one (slot, selector) pair of the bus changes. *)
Definition apply_action_topo_one (pair : Z * Z) : M unit :=
  let '(id_el, new_bus) := pair in
  self <- get ;;
  entry <- lift (getitem (_big_topo_to_backend (tables self)) id_el) ;;
  let '(id_el_backend, id_topo, type_obj) := entry in
  mutator <- lift (getitem _type_to_bus_set type_obj) ;;
  mutator new_bus id_el_backend id_topo.

(** Lines 563-566: the in-service flags of the two buses of every substation. *)
Definition apply_action_active_bus (act : Action F) : M unit :=
  for_each (enumerate (active_bus act))
    (fun '(i, (bus1_status, bus2_status)) =>
       self <- get ;;
       update_table bus set_bus (fun rows => Ok (bus_is_set i bus1_status rows)) ;;;
       update_table bus set_bus
         (fun rows => Ok (bus_is_set (i + _PandaPowerBackend__nb_bus_before (tables self))
                                     bus2_status rows))).

Definition apply_action (backendAction : option (Action F)) : M unit :=
  match backendAction with
  | None => ret tt
  | Some act =>
      apply_action_injection act ;;;
      apply_action_shunts act ;;;
      for_each (topo__ act) apply_action_topo_one ;;;
      apply_action_active_bus act
  end.

(** ** Result extraction *)

Definition _get_line_status (self : Backend F) : list bool :=
  map line_in_service (line (_grid self)) ++ map trafo_in_service (trafo (_grid self)).

(** [get_line_status] returns the cached vector, not the live tables. *)
Definition get_line_status (self : Backend F) : list bool := line_status self.

Definition _aux_get_line_info (self : Backend F) (colname1 colname2 : string) : list F :=
  res_line (solved (_grid self)) colname1 ++ res_trafo (solved (_grid self)) colname2.

(** [1 if bus_id == subid[i] else 2] *)
Definition decode_bus (bus_id : Z) (subid : list Z) (i : Z) : result Z :=
  let? sub := getitem subid i in
  Ok (if bus_id =? sub then 1 else 2).

(** [res[pos[i]] = v] *)
Definition topo_set (res pos : list Z) (i v : Z) : result (list Z) :=
  let? p := getitem pos i in
  setitem res p v.

(** The body shared by the loop over the lines (row [i] is branch [i]) and
    the loop over the transformers (row [i] is branch [i + nb]); [j] is the
    branch number of the first row of [rows]. *)
Fixpoint _get_topo_vect_branches (self : Backend F) (line_status : list bool)
    (rows : list (Z * Z)) (j : Z) (res : list Z) : result (list Z) :=
  match rows with
  | [] => Ok res
  | (bus_or_id, bus_ex_id) :: rows' =>
      let? status := getitem line_status j in
      let? res1 :=
        (if status : bool then
           let? sel_or := decode_bus bus_or_id (line_or_to_subid (tables self)) j in
           let? r := topo_set res (line_or_pos_topo_vect (tables self)) j sel_or in
           let? sel_ex := decode_bus bus_ex_id (line_ex_to_subid (tables self)) j in
           topo_set r (line_ex_pos_topo_vect (tables self)) j sel_ex
         else
           let? r := topo_set res (line_or_pos_topo_vect (tables self)) j (-1) in
           topo_set r (line_ex_pos_topo_vect (tables self)) j (-1)) in
      _get_topo_vect_branches self line_status rows' (j + 1) res1
  end.

(** The loops over the generators and over the loads: no in-service test. *)
Fixpoint _get_topo_vect_injections (subid pos : list Z) (buses : list Z) (i : Z)
    (res : list Z) : result (list Z) :=
  match buses with
  | [] => Ok res
  | bus_id :: buses' =>
      let? v := decode_bus bus_id subid i in
      let? res1 := topo_set res pos i v in
      _get_topo_vect_injections subid pos buses' (i + 1) res1
  end.

Definition _get_topo_vect (self : Backend F) : result (list Z) :=
  let res := replicate (dim_topo (tables self)) int_of_nan in
  let line_status := get_line_status self in
  let? res1 := _get_topo_vect_branches self line_status
                 (map (fun r => (from_bus r, to_bus r)) (line (_grid self))) 0 res in
  let nb := _number_true_line (tables self) in
  let? res2 := _get_topo_vect_branches self line_status
                 (map (fun r => (hv_bus r, lv_bus r)) (trafo (_grid self))) nb res1 in
  let? res3 := _get_topo_vect_injections (gen_to_subid (tables self))
                 (gen_pos_topo_vect (tables self))
                 (map gen_bus (gen (_grid self))) 0 res2 in
  _get_topo_vect_injections (load_to_subid (tables self))
    (load_pos_topo_vect (tables self))
    (map load_bus (load (_grid self))) 0 res3.

(** [m[i, j]] on a two-dimensional array. *)
Definition getitem2 (m : list (list F)) (i j : Z) : result F :=
  let? row := getitem m i in getitem row j.

(** [arr[idx] += x]; with [idx] being [None] the whole array is a view of
    [arr[None]] and every entry is incremented. *)
Definition iadd_at (arr : list F) (idx : option Z) (x : F) : result (list F) :=
  match idx with
  | Some i => let? old := getitem arr i in setitem arr i (fadd old x)
  | None => Ok (map (fun y => fadd y x) arr)
  end.

Definition cst_1 : F := fconst 1.

(** [_gens_info], lines 875-886.  Every array of this method is of
    [dt_float].  The statements about it hold for any operations [fmul] and
    [fadd], those of that precision among them, for which [fmul cst_1 x] is
    the column entry [x] cast to it, [cst_1] being its 1, and [fadd old x]
    what [arr[i] += x] stores. *)
Definition _gens_info (self : Backend F) : result (list F * list F * list F) :=
  let rg := res_gen (solved (_grid self)) in
  let prod_p0 := map (fun r => fmul cst_1 (res_gen_p_mw r)) rg in
  let prod_q0 := map (fun r => fmul cst_1 (res_gen_q_mvar r)) rg in
  let? prod_v0 := np_zip fmul (map (fun r => fmul cst_1 (res_gen_vm_pu r)) rg)
                         (prod_pu_to_kv (tables self)) in
  match _iref_slack (tables self) with
  | Some iref =>
      match _ppc (solved (_grid self)) with
      | None => Raise AttributeError
      | Some ppc =>
          match ppc_internal_gen ppc with
          | Some internal_gen =>
              let? dp := getitem2 internal_gen iref 1 in
              let? prod_p1 := iadd_at prod_p0 (_id_bus_added (tables self)) dp in
              let? dq := getitem2 internal_gen iref 2 in
              let? prod_q1 := iadd_at prod_q0 (_id_bus_added (tables self)) dq in
              Ok (prod_p1, prod_q1, prod_v0)
          | None => Ok (prod_p0, prod_q0, prod_v0)
          end
      end
  | None => Ok (prod_p0, prod_q0, prod_v0)
  end.

(** [tbl.loc[label]]: the first row carrying the label, [KeyError] without.
    On a table that carries every label once, as the bus tables do, that is
    what pandas returns; for a repeated label pandas returns every row. *)
Definition loc {R} (label_of : R -> Z) (rows : list R) (label : Z) : result R :=
  match List.find (fun r => label_of r =? label) rows with
  | Some r => Ok r
  | None => Raise KeyError
  end.

Definition _loads_info (self : Backend F) : result (list F * list F * list F) :=
  let rl := res_load (solved (_grid self)) in
  let load_p0 := map (fun r => fmul cst_1 (res_load_p_mw r)) rl in
  let load_q0 := map (fun r => fmul cst_1 (res_load_q_mvar r)) rl in
  let? rows := mapM_result (loc res_bus_index (res_bus (solved (_grid self))))
                 (map load_bus (load (_grid self))) in
  let? load_v0 := np_zip fmul (map res_bus_vm_pu rows) (load_pu_to_kv (tables self)) in
  Ok (load_p0, load_q0, load_v0).

Definition shunt_info (self : Backend F)
  : result (list F * list F * list F * list Z) :=
  let rs := res_shunt (solved (_grid self)) in
  let shunt_p := map (fun r => fmul cst_1 (res_shunt_p_mw r)) rs in
  let shunt_q := map (fun r => fmul cst_1 (res_shunt_q_mvar r)) rs in
  let buses := map shunt_bus (shunt (_grid self)) in
  let? vm := mapM_result (loc res_bus_index (res_bus (solved (_grid self)))) buses in
  let? vn := mapM_result (loc bus_index (bus (_grid self))) buses in
  let shunt_v := zip_with fmul (map res_bus_vm_pu vm) (map vn_kv vn) in
  let shunt_bus_lt :=
    map (fun b => b <? _PandaPowerBackend__nb_bus_before (tables self)) buses in
  let shunt_bus := map (fun b : bool => 1 * Z.b2z b) shunt_bus_lt in
  Ok (shunt_p, shunt_q, shunt_v, shunt_bus).

(** ** The solve orchestrator *)

(** [self.<a>[:] = src].  The published arrays are single precision
    ([dt_float]) and the store rounds what it is given; [F] stands for the
    values, the rounding is not modelled, and no statement below depends on
    it: what is proved of a published value is which vector it is in, that
    it is finite, NaN or 0 times a base. *)
Definition assign_vec (a : Attr) (src : list F) : M unit :=
  fun s => match assign_all (vec s a) src with
           | Ok v => (Ok tt, set_vec a v s)
           | Raise e => (Raise e, s)
           end.

(** Rewrites a published vector in place. *)
Definition update_vec (a : Attr) (f : list F -> result (list F)) : M unit :=
  fun s => match f (vec s a) with
           | Ok v => (Ok tt, set_vec a v s)
           | Raise e => (Raise e, s)
           end.

(** [arr[~np.isfinite(arr)] = 0.] *)
Definition zero_non_finite (arr : list F) : result (list F) :=
  mask_fill arr (map (fun x => negb (isfinite x)) arr) (fconst 0).

(** [dst[:] *= src]: [src] is broadcast to the shape of [dst]. *)
Definition imul_all (dst src : list F) : result (list F) :=
  if (length src =? length dst)%nat then Ok (zip_with fmul dst src)
  else match src with
       | [y] => Ok (map (fun x => fmul x y) dst)
       | _ => Raise ValueError
       end.

Definition _reset_all_nan : M unit :=
  for_each all_attrs
    (fun a => modify (fun s => set_vec a (replicate (length (vec s a)) NaN) s)) ;;;
  modify (set_nb_bus_before None).

(** The solver is run on the network; it writes its tables into it and
    may raise. *)
Definition call_solver (c : SolverCall) : M unit :=
  fun s =>
    let '(out, raised) := run_solver c (_grid s) in
    let s' := set_solver_calls (c :: solver_calls s)
                (set_grid (set_solved out (_grid s)) s) in
    if raised : bool then (Raise (LoadflowNotConverged "Power Flow did not converge"), s')
    else (Ok tt, s').

(** Lines 707-713: in the direct-current case a load takes the voltage of
    the first generator of its substation found on the same bus. *)
Fixpoint runpf_dc_load_v_gens (l_id : Z) (ind_gens : list Z) : M unit :=
  match ind_gens with
  | [] => ret tt
  | g_id :: rest =>
      self <- get ;;
      pos_l <- lift (getitem (load_pos_topo_vect (tables self)) l_id) ;;
      topo_l <- lift (getitem (_topo_vect self) pos_l) ;;
      pos_g <- lift (getitem (load_pos_topo_vect (tables self)) g_id) ;;
      topo_g <- lift (getitem (_topo_vect self) pos_g) ;;
      if topo_l =? topo_g then
        (v <- lift (getitem (vec self prod_v) g_id) ;;
         update_vec load_v (fun arr => setitem arr l_id v))
      else runpf_dc_load_v_gens l_id rest
  end.

Definition runpf_dc_load_v : M unit :=
  self <- get ;;
  for_each (seqZ 0 (Z.of_nat (n_load (tables self))))
    (fun l_id =>
       sub <- lift (getitem (load_to_subid (tables self)) l_id) ;;
       let ind_gens :=
         map fst (List.filter (fun ig => snd ig =? sub)
                              (enumerate (gen_to_subid (tables self)))) in
       runpf_dc_load_v_gens l_id ind_gens).

(** [self._grid._ppc["gen"][self._iref_slack, 1] = 0.]; with the index being
    [None] the assignment goes to row 1 of the array as a whole. *)
Definition ppc_gen_reset (iref : option Z) (m : list (list F)) : result (list (list F)) :=
  match iref with
  | Some i =>
      let? row := getitem m i in
      let? row' := setitem row 1 (fconst 0) in
      setitem m i row'
  | None =>
      let? row := getitem m 1 in
      setitem m 1 (map (fun _ => fconst 0) row)
  end.

Definition set_ppc (v : option (Ppc F)) (o : SolverOut F) : SolverOut F :=
  {| res_gen := res_gen o; res_load := res_load o; res_bus := res_bus o;
     res_line := res_line o; res_trafo := res_trafo o; res_shunt := res_shunt o;
     _ppc := v; converged := converged o |}.

Definition runpf_reset_ppc_gen : M unit :=
  fun s =>
    match _ppc (solved (_grid s)) with
    | None => (Raise AttributeError, s)
    | Some ppc =>
        match ppc_gen_reset (_iref_slack (tables s)) (ppc_gen ppc) with
        | Ok m =>
            let ppc' := {| et := et ppc; ppc_gen := m;
                           ppc_internal_gen := ppc_internal_gen ppc |} in
            (Ok tt, set_grid (set_solved (set_ppc (Some ppc') (solved (_grid s))) (_grid s)) s)
        | Raise e => (Raise e, s)
        end
    end.

(** One side of the branches, lines 717-722 and 724-729. *)
Definition runpf_line_side (p q v a : Attr) (cp1 cp2 cq1 cq2 cv1 cv2 ca1 ca2 : string)
  : M unit :=
  self <- get ;;
  assign_vec p (_aux_get_line_info self cp1 cp2) ;;;
  assign_vec q (_aux_get_line_info self cq1 cq2) ;;;
  assign_vec v (_aux_get_line_info self cv1 cv2) ;;;
  assign_vec a (map (fun x => fmul x (fconst 1000)) (_aux_get_line_info self ca1 ca2)) ;;;
  update_vec a zero_non_finite ;;;
  update_vec v zero_non_finite.

(** The body of the [try] of [runpf]. *)
Definition runpf_try (is_dc : bool) (nb_bus : Z) : M bool :=
  self <- get ;;
  modify (set_pf_init
            match _nb_bus_before self with
            | None => "dc"
            | Some before => if nb_bus =? before then "results" else "auto"
            end) ;;;
  when (existsb negb (map load_in_service (load (_grid self))))
       (raise (LoadflowNotConverged "Isolated load")) ;;;
  when (existsb negb (map gen_in_service (gen (_grid self))))
       (raise (LoadflowNotConverged "Isolated gen")) ;;;
  (if is_dc then
     call_solver rundcpp ;;;
     modify (set_nb_bus_before None)
   else
     self <- get ;;
     call_solver (runpp (_pf_init self))) ;;;
  self <- get ;;
  match _ppc (solved (_grid self)) with
  | Some ppc => match et ppc with
                | Some t => modify (set_comp_time (fadd (comp_time self) t))
                | None => ret tt
                end
  | None => ret tt
  end ;;;
  when (existsb (fun r => isnull (res_gen_p_mw r) || isnull (res_gen_q_mvar r)
                          || isnull (res_gen_va_degree r) || isnull (res_gen_vm_pu r))
                (res_gen (solved (_grid self))))
       (raise (LoadflowNotConverged "Isolated gen")) ;;;
  gens <- lift (_gens_info self) ;;
  assign_vec prod_p gens.1.1 ;;;
  assign_vec prod_q gens.1.2 ;;;
  assign_vec prod_v gens.2 ;;;
  self <- get ;;
  loads <- lift (_loads_info self) ;;
  assign_vec load_p loads.1.1 ;;;
  assign_vec load_q loads.1.2 ;;;
  assign_vec load_v loads.2 ;;;
  self <- get ;;
  (if negb is_dc then
     when (negb (forallb isfinite (vec self load_v)))
          (raise (LoadflowNotConverged "Isolated load"))
   else
     assign_vec load_v (load_pu_to_kv (tables self)) ;;;
     runpf_dc_load_v) ;;;
  self <- get ;;
  ls <- lift (assign_all (line_status self) (_get_line_status self)) ;;
  modify (set_line_status ls) ;;;
  runpf_line_side p_or q_or v_or a_or
    "p_from_mw" "p_hv_mw" "q_from_mvar" "q_hv_mvar"
    "vm_from_pu" "vm_hv_pu" "i_from_ka" "i_hv_ka" ;;;
  runpf_line_side p_ex q_ex v_ex a_ex
    "p_to_mw" "p_lv_mw" "q_to_mvar" "q_lv_mvar"
    "vm_to_pu" "vm_lv_pu" "i_to_ka" "i_lv_ka" ;;;
  self <- get ;;
  update_vec v_or (fun arr => mask_fill arr (map negb (line_status self)) (fconst 0)) ;;;
  update_vec v_ex (fun arr => mask_fill arr (map negb (line_status self)) (fconst 0)) ;;;
  update_vec v_or (fun arr => imul_all arr (lines_or_pu_to_kv (tables self))) ;;;
  update_vec v_ex (fun arr => imul_all arr (lines_ex_pu_to_kv (tables self))) ;;;
  modify (set_nb_bus_before None) ;;;
  runpf_reset_ppc_gen ;;;
  self <- get ;;
  topo <- lift (_get_topo_vect self) ;;
  topo' <- lift (assign_all (_topo_vect self) topo) ;;
  modify (set_topo_vect topo') ;;;
  self <- get ;;
  ret (converged (solved (_grid self))).

Definition runpf (is_dc : bool) : M bool :=
  self <- get ;;
  let nb_bus := get_nb_active_bus self in
  try_except_LoadflowNotConverged
    (runpf_try is_dc nb_bus)
    (_reset_all_nan ;;; ret false).

(** ** Loading: the doubling of the bus table (lines 416-420) *)

(** [add_topo]: the copy of the bus table, its labels shifted by the number
    of rows and every row out of service. *)
Definition add_topo (bus_tbl : list (BusRow F)) : list (BusRow F) :=
  let shape0 := Z.of_nat (length bus_tbl) in
  map (set_bus_in_service false)
      (map (fun r => set_bus_index (bus_index r + shape0) r) bus_tbl).

(** [self._grid.bus = pd.concat((self._grid.bus, add_topo))] *)
Definition load_grid_double_bus (g : Grid F) : Grid F :=
  set_bus (bus g ++ add_topo (bus g)) g.

End Methods.

(** ** Vocabulary of the statements *)

Section Vocabulary.
Context {F : Type} `{FloatOps F} `{Solver F}.

(** A method leaves an observation of the state as it was, whether it
    returns or raises. *)
Definition preserves {X A} (obs : Backend F -> X) (m : M A) : Prop :=
  forall s, obs (m s).2 = obs s.

(** The generator outputs as the solver reports them, before any correction. *)
Definition res_gen_p (self : Backend F) : list F :=
  map (fun r => fmul cst_1 (res_gen_p_mw r)) (res_gen (solved (_grid self))).
Definition res_gen_q (self : Backend F) : list F :=
  map (fun r => fmul cst_1 (res_gen_q_mvar r)) (res_gen (solved (_grid self))).

(** The state in which the [try] of [runpf] raises on an isolated element:
    only the initialization mode has been chosen. *)
Definition runpf_pf_init_chosen (nb_bus : Z) (s : Backend F) : Backend F :=
  set_pf_init
    match _nb_bus_before s with
    | None => "dc"
    | Some before => if nb_bus =? before then "results" else "auto"
    end s.

(** The load-time home-bus table read by the mutator of each kind tag. *)
Definition init_bus_table (tb : Tables F) (type_obj : Z) : list Z :=
  if type_obj =? 0 then _init_bus_load tb
  else if type_obj =? 1 then _init_bus_gen tb
  else if (type_obj =? 2) || (type_obj =? 3) then _init_bus_lor tb
  else _init_bus_lex tb.

(** The sizes of the tables an action indexes, with the static tables. *)
Definition table_shape (s : Backend F) : Tables F * nat * nat * nat :=
  (tables s, length (load (_grid s)), length (gen (_grid s)),
   length (ext_grid (_grid s))).

(** The bus column and the in-service flag of the load ([type_obj = 0]) or
    of the generator (otherwise) at row [i]. *)
Definition element_bus_state (s : Backend F) (type_obj i : Z) : option (Z * bool) :=
  if type_obj =? 0
  then (fun r => (load_bus r, load_in_service r)) <$> load (_grid s) !! Z.to_nat i
  else (fun r => (gen_bus r, gen_in_service r)) <$> gen (_grid s) !! Z.to_nat i.

(** Row [i] exists in the table of the kind, and the external-grid row the
    slack generator drags along is there when a slack was synthesized. *)
Definition element_row_exists (s : Backend F) (type_obj i : Z) : Prop :=
  0 <= i /\
  (if type_obj =? 0
   then i < Z.of_nat (length (load (_grid s)))
   else i < Z.of_nat (length (gen (_grid s))) /\
        (_iref_slack (tables s) = None \/ (0 < length (ext_grid (_grid s)))%nat)).

(** The selector the decoding stores for one end of a branch: [-1] when the
    branch is out of service, else 1 on the bus of the substation and 2
    elsewhere. *)
Definition branch_sel (status : bool) (cur : Z) (subid : list Z) (k : nat) : option Z :=
  if status then (fun sub => if cur =? sub then 1 else 2) <$> subid !! k
  else Some (-1).

(** The slots of all elements, table after table. *)
Definition all_slots (tb : Tables F) : list Z :=
  line_or_pos_topo_vect tb ++ line_ex_pos_topo_vect tb
  ++ gen_pos_topo_vect tb ++ load_pos_topo_vect tb.

(** Every element has a slot of its own, a non-negative position. *)
Definition slots_wf (tb : Tables F) : Prop :=
  Forall (fun p => 0 <= p) (all_slots tb) /\ NoDup (all_slots tb).

(** What [load_grid] establishes and the decoding relies on: the slots,
    the number of lines recorded, the sizes of the cached vectors, and a
    bus table that is not empty. *)
Definition topo_wf (s : Backend F) : Prop :=
  slots_wf (tables s) /\
  _number_true_line (tables s) = Z.of_nat (length (line (_grid s))) /\
  length (_topo_vect s) = dim_topo (tables s) /\
  length (line_status s)
    = (length (line (_grid s)) + length (trafo (_grid s)))%nat /\
  _PandaPowerBackend__nb_bus_before (tables s) <> 0.

(** The selector stored at [slot] is the one the specification asks for an
    element with the given in-service flag, current bus [cur] and
    substation bus [orig]. *)
Definition decoded (s : Backend F) (slot : Z) (in_service : bool) (cur orig : Z) : Prop :=
  exists sel, _topo_vect s !! Z.to_nat slot = Some sel /\
    (in_service = false -> sel = -1) /\
    (in_service = true -> cur = orig -> sel = 1) /\
    (in_service = true ->
     cur = orig + _PandaPowerBackend__nb_bus_before (tables s) -> sel = 2).

(** What the decoding reads, and nothing in [runpf] writes before it. *)
Definition decode_inputs (s : Backend F) :=
  (tables s, line (_grid s), trafo (_grid s), gen (_grid s), load (_grid s),
   _topo_vect s, line_status s).

End Vocabulary.

(** ** A small instance to run the adapter on

    Integer-valued floats with a NaN, a solver that always answers with the
    same tables, and a grid of two substations joined by one line and one
    transformer, with the synthesized slack generator on substation 0 and
    one load and one shunt on substation 1. *)

Module Sample.

Inductive fl : Type :=
| fl_nan
| fl_num (z : Z).

Definition fl_lift2 (op : Z -> Z -> Z) (a b : fl) : fl :=
  match a, b with
  | fl_num x, fl_num y => fl_num (op x y)
  | _, _ => fl_nan
  end.

Definition fl_finite (a : fl) : bool :=
  match a with fl_num _ => true | fl_nan => false end.

#[export] Instance fl_ops : FloatOps fl := {|
  NaN := fl_nan;
  fconst := fl_num;
  fadd := fl_lift2 Z.add;
  fmul := fl_lift2 Z.mul;
  fdiv := fun a b => match b with
                     | fl_num 0 => fl_nan
                     | _ => fl_lift2 Z.div a b
                     end;
  isfinite := fl_finite;
  isnull := fun a => negb (fl_finite a);
  int_of_nan := -2147483648
|}.

Definition out : SolverOut fl := {|
  res_gen := [ {| res_gen_p_mw := fl_num 3; res_gen_q_mvar := fl_num 1;
                  res_gen_va_degree := fl_num 0; res_gen_vm_pu := fl_num 1 |} ];
  res_load := [ {| res_load_p_mw := fl_num 3; res_load_q_mvar := fl_num 1 |} ];
  res_bus := [ {| res_bus_index := 0; res_bus_vm_pu := fl_num 1 |};
               {| res_bus_index := 1; res_bus_vm_pu := fl_num 1 |};
               {| res_bus_index := 2; res_bus_vm_pu := fl_nan |};
               {| res_bus_index := 3; res_bus_vm_pu := fl_nan |} ];
  res_line := fun _ => [fl_num 2];
  res_trafo := fun _ => [fl_num 1];
  res_shunt := [ {| res_shunt_p_mw := fl_num 0; res_shunt_q_mvar := fl_num (-19) |} ];
  _ppc := Some {| et := Some (fl_num 1);
                  ppc_gen := [[fl_num 0; fl_num 3; fl_num 1]];
                  ppc_internal_gen := Some [[fl_num 0; fl_num 7; fl_num 2]] |};
  converged := true
|}.

#[export] Instance solver : Solver fl := {| run_solver := fun _ _ => (out, false) |}.

Definition bus_row (i : Z) (on : bool) : BusRow fl :=
  {| bus_index := i; bus_name := "bus"; vn_kv := fl_num 138; bus_type := "b";
     bus_zone := "z"; bus_in_service := on |}.

Definition grid : Grid fl := {|
  bus := [bus_row 0 true; bus_row 1 true; bus_row 2 false; bus_row 3 false];
  load := [ {| load_bus := 1; load_p_mw := fl_num 3; load_q_mvar := fl_num 1;
               load_in_service := true |} ];
  gen := [ {| gen_bus := 0; gen_p_mw := fl_num 3; gen_vm_pu := fl_num 1;
              gen_slack := true; gen_in_service := true |} ];
  line := [ {| from_bus := 0; to_bus := 1; line_in_service := true |} ];
  trafo := [ {| hv_bus := 0; lv_bus := 1; trafo_in_service := true |} ];
  shunt := [ {| shunt_bus := 1; shunt_p_mw := fl_num 0; shunt_q_mvar := fl_num (-19);
                shunt_in_service := true |} ];
  ext_grid := [ {| ext_grid_bus := 0; ext_grid_vm_pu := fl_num 1; va_degree := fl_num 0 |} ];
  solved := out
|}.

Definition tbl : Tables fl := {|
  _PandaPowerBackend__nb_bus_before := 2;
  _PandaPowerBackend__nb_powerline := 1;
  _number_true_line := 1;
  _iref_slack := Some 0;
  _id_bus_added := Some 0;
  _init_bus_load := [1];
  _init_bus_gen := [0];
  _init_bus_lor := [0; 0];
  _init_bus_lex := [1; 1];
  _big_topo_to_backend := [(0, 0, 2); (1, 0, 3); (0, 0, 1); (0, 0, 4); (1, 0, 5); (0, 0, 0)];
  dim_topo := 6;
  n_load := 1;
  load_to_subid := [1];
  gen_to_subid := [0];
  line_or_to_subid := [0; 0];
  line_ex_to_subid := [1; 1];
  shunt_to_subid := [1];
  load_pos_topo_vect := [5];
  gen_pos_topo_vect := [2];
  line_or_pos_topo_vect := [0; 1];
  line_ex_pos_topo_vect := [3; 4];
  prod_pu_to_kv := [fl_num 138];
  load_pu_to_kv := [fl_num 138];
  lines_or_pu_to_kv := [fl_num 138; fl_num 138];
  lines_ex_pu_to_kv := [fl_num 138; fl_num 138];
  shunts_data_available := true
|}.

Definition vec0 (a : Attr) : list fl :=
  match a with
  | prod_p | prod_q | prod_v | load_p | load_q | load_v => [fl_num 5]
  | _ => [fl_num 5; fl_num 5]
  end.

(** The backend after loading. *)
Definition backend : Backend fl := {|
  _grid := grid;
  vec := vec0;
  line_status := [true; true];
  _pf_init := "results";
  _nb_bus_before := None;
  _topo_vect := [1; 1; 1; 1; 1; 1];
  comp_time := fl_num 0;
  tables := tbl;
  solver_calls := []
|}.

(** An action that changes nothing but the listed bus selectors. *)
Definition quiet (n : nat) : ValueStore fl :=
  {| changed := replicate n false; values := replicate n fl_nan |}.

Definition topo_action (pairs : list (Z * Z)) : Action fl := {|
  active_bus := [(true, false); (true, false)];
  injection := (quiet 1, quiet 1, quiet 1, quiet 1);
  topo__ := pairs;
  shunts__ := (quiet 1, quiet 1, {| changed := [false]; values := [1] |})
|}.

(** The backend with its load taken out of service. *)
Definition backend_load_off : Backend fl :=
  (apply_action (Some (topo_action [(5, -1)])) backend).2.

(** The sample grid with its shunt moved to the split bus of substation 1. *)
Definition backend_shunt_split : Backend fl :=
  set_grid (set_shunt [ {| shunt_bus := 3; shunt_p_mw := fl_num 0;
                           shunt_q_mvar := fl_num (-19); shunt_in_service := true |} ]
                      grid) backend.

(** The sample grid with its shunt out of service on the bus of substation 1. *)
Definition backend_shunt_off : Backend fl :=
  set_grid (set_shunt [ {| shunt_bus := 1; shunt_p_mw := fl_num 0;
                           shunt_q_mvar := fl_num (-19); shunt_in_service := false |} ]
                      grid) backend.

End Sample.

(** * Further methods of the backend *)

Section MoreMethods.
Context {F : Type} `{FloatOps F} `{Solver F}.

(** Rewrites the cached topology vector in place. *)
Definition update_topo_vect (f : list Z -> result (list Z)) : M unit :=
  fun s : Backend F => match f (_topo_vect s) with
           | Ok v => (Ok tt, set_topo_vect v s)
           | Raise e => (Raise e, s)
           end.

(** Rewrites the cached line-status vector in place. *)
Definition update_line_status (f : list bool -> result (list bool)) : M unit :=
  fun s : Backend F => match f (line_status s) with
           | Ok v => (Ok tt, set_line_status v s)
           | Raise e => (Raise e, s)
           end.

(** [_disconnect_line], lines 812-819. *)
Definition _disconnect_line (id_ : Z) : M unit :=
  self <- get ;;
  (if id_ <? _number_true_line (tables self)
   then grid_iat line set_line id_ (set_line_in_service false)
   else grid_iat trafo set_trafo (id_ - _number_true_line (tables self))
                 (set_trafo_in_service false)) ;;;
  pos_or <- lift (getitem (line_or_pos_topo_vect (tables self)) id_) ;;
  update_topo_vect (fun tv => setitem tv pos_or (-1)) ;;;
  pos_ex <- lift (getitem (line_ex_pos_topo_vect (tables self)) id_) ;;
  update_topo_vect (fun tv => setitem tv pos_ex (-1)) ;;;
  update_line_status (fun ls => setitem ls id_ false).

(** [_reconnect_line], lines 821-826. *)
Definition _reconnect_line (id_ : Z) : M unit :=
  self <- get ;;
  (if id_ <? _number_true_line (tables self)
   then grid_iat line set_line id_ (set_line_in_service true)
   else grid_iat trafo set_trafo (id_ - _number_true_line (tables self))
                 (set_trafo_in_service true)) ;;;
  update_line_status (fun ls => setitem ls id_ true).

(** [reset], lines 202-216.  The snapshot kept by [load_grid] in
    [self.__pp_backend_initial_state] is an argument: [initial_grid] is its
    network, of which the live network becomes a copy. *)
Definition reset (initial_grid : Grid F) : M unit :=
  modify (set_grid initial_grid) ;;;
  _reset_all_nan ;;;
  self <- get ;;
  topo <- lift (_get_topo_vect self) ;;
  topo' <- lift (assign_all (_topo_vect self) topo) ;;
  modify (set_topo_vect topo') ;;;
  modify (set_comp_time (fconst 0)).

(** [sub_from_bus_id], lines 916-919. *)
Definition sub_from_bus_id (self : Backend F) (bus_id : Z) : Z :=
  if _number_true_line (tables self) <=? bus_id
  then bus_id - _number_true_line (tables self)
  else bus_id.

End MoreMethods.

Section MoreVocabulary.
Context {F : Type} `{FloatOps F} `{Solver F}.

(** The tables of the network that describe the elements, with the static
    tables: what only [apply_action] and [reset] may write. *)
Definition element_tables (s : Backend F) :=
  (tables s, bus (_grid s), load (_grid s), gen (_grid s), line (_grid s),
   trafo (_grid s), shunt (_grid s), ext_grid (_grid s)).

(** The cached line-status vector agrees with the in-service flags of the
    line and transformer tables. *)
Definition line_status_coherent (s : Backend F) : Prop :=
  line_status s = _get_line_status s.

(** Everything of the backend but its network. *)
Definition outside_grid (s : Backend F) :=
  (vec s, line_status s, _pf_init s, _nb_bus_before s, _topo_vect s,
   comp_time s, tables s, solver_calls s).

End MoreVocabulary.


Section ActionVocabulary.
Context {F : Type} `{FloatOps F}.

(** [values[i]] where [changed[i]] holds, the former value elsewhere. *)
Definition masked_value {V} (store : ValueStore V) (i : nat) (old : V) : V :=
  match changed store !! i, values store !! i with
  | Some true, Some v => v
  | _, _ => old
  end.

(** The active-bus matrix read column after column: the flags of the first
    buses of all substations, then those of their second buses. *)
Definition active_bus_flags (act : Action F) : list bool :=
  map fst (active_bus act) ++ map snd (active_bus act).

End ActionVocabulary.

(** Further actions on the sample grid. *)
Module MoreSample.
Import Sample.

(** New setpoints for the generator and the reactive power of the load,
    and the shunt asked onto the second bus of its substation. *)
Definition inject_action : Action fl := {|
  active_bus := [(true, false); (true, true)];
  injection := ({| changed := [true]; values := [fl_num 7] |},
                {| changed := [true]; values := [fl_num 276] |},
                quiet 1,
                {| changed := [true]; values := [fl_num 2] |});
  topo__ := [];
  shunts__ := (quiet 1, quiet 1, {| changed := [true]; values := [2] |})
|}.

End MoreSample.

Section DecodeVocabulary.
Context {F : Type} `{FloatOps F}.

(** The sizes [load_grid] gives the per-element tables, and slots that fit
    in the topology vector. *)
Definition tables_sized (s : Backend F) : Prop :=
  let tb := tables s in
  let n_branch := (length (line (_grid s)) + length (trafo (_grid s)))%nat in
  Forall (fun p => p < Z.of_nat (dim_topo tb)) (all_slots tb) /\
  length (line_or_to_subid tb) = n_branch /\
  length (line_ex_to_subid tb) = n_branch /\
  length (line_or_pos_topo_vect tb) = n_branch /\
  length (line_ex_pos_topo_vect tb) = n_branch /\
  length (gen_to_subid tb) = length (gen (_grid s)) /\
  length (gen_pos_topo_vect tb) = length (gen (_grid s)) /\
  length (load_to_subid tb) = length (load (_grid s)) /\
  length (load_pos_topo_vect tb) = length (load (_grid s)).

(** A bus selector as the topology vector holds it. *)
Definition is_selector (v : Z) : Prop := v = -1 \/ v = 1 \/ v = 2.

(** The slot table and the substation table of the loads ([type_obj = 0])
    or of the generators (otherwise). *)
Definition pos_topo_vect_table (tb : Tables F) (type_obj : Z) : list Z :=
  if type_obj =? 0 then load_pos_topo_vect tb else gen_pos_topo_vect tb.
Definition to_subid_table (tb : Tables F) (type_obj : Z) : list Z :=
  if type_obj =? 0 then load_to_subid tb else gen_to_subid tb.

End DecodeVocabulary.

Section FailureVocabulary.
Context {F : Type} `{FloatOps F}.

(** The exception [runpf] catches. *)
Definition is_LoadflowNotConverged (e : exn) : bool :=
  match e with LoadflowNotConverged _ => true | _ => false end.

(** What a computation raises, if anything, is not caught by [runpf]. *)
Definition raises_uncaught {A} (r : result A) : Prop :=
  forall e, r = Raise e -> is_LoadflowNotConverged e = false.

(** A method that never raises [LoadflowNotConverged]. *)
Definition never_LoadflowNotConverged {A} (m : M (F:=F) A) : Prop :=
  forall s e s', m s = (Raise e, s') -> is_LoadflowNotConverged e = false.

(** When a method raises [LoadflowNotConverged], an observation of the state
    is as it was before the call. *)
Definition failure_keeps {X A} (obs : Backend F -> X) (m : M (F:=F) A) : Prop :=
  forall s msg s', m s = (Raise (LoadflowNotConverged msg), s') -> obs s' = obs s.

(** The cached observations [get_line_status] and [get_topo_vect] answer
    from. *)
Definition cached_topology (s : Backend F) : list bool * list Z :=
  (line_status s, _topo_vect s).

End FailureVocabulary.

Module FailureSample.
Import Sample.

(** The sample backend with its load moved to the second bus of its
    substation, where the solver reports no voltage. *)
Definition backend_load_split : Backend fl :=
  (apply_action (Some (topo_action [(5, 2)])) backend).2.

End FailureSample.

(** ** Loading: the tables from slots to elements (lines 459-490) *)

Section LoadGridTables.
Context {F : Type} `{FloatOps F}.

(** [for id, pos in enumerate(pos_topo_vect): tbl[pos] = entry(id)], on a
    Python list. *)
Fixpoint assign_slots {A} (tbl : list (option A)) (items : list (Z * Z))
    (entry : Z -> A) : result (list (option A)) :=
  match items with
  | [] => Ok tbl
  | (id, pos_big_topo) :: rest =>
      let? tbl' := setitem tbl pos_big_topo (Some (entry id)) in
      assign_slots tbl' rest entry
  end.

(** [self._big_topo_to_obj]; an entry still [(None, None)] is [None]. *)
Definition load_grid_big_topo_to_obj (tb : Tables F)
  : result (list (option (Z * string))) :=
  let t0 := replicate (dim_topo tb) None in
  let? t1 := assign_slots t0 (enumerate (load_pos_topo_vect tb))
               (fun load_id => (load_id, "load")) in
  let? t2 := assign_slots t1 (enumerate (gen_pos_topo_vect tb))
               (fun gen_id => (gen_id, "gen")) in
  let? t3 := assign_slots t2 (enumerate (line_or_pos_topo_vect tb))
               (fun l_id => (l_id, "lineor")) in
  assign_slots t3 (enumerate (line_ex_pos_topo_vect tb))
    (fun l_id => (l_id, "lineex")).

(** [self._big_topo_to_backend]; an entry still [(None, None, None)] is
    [None]. *)
Definition load_grid_big_topo_to_backend (tb : Tables F)
  : result (list (option (Z * Z * Z))) :=
  let nb_powerline := _PandaPowerBackend__nb_powerline tb in
  let t0 := replicate (dim_topo tb) None in
  let? t1 := assign_slots t0 (enumerate (load_pos_topo_vect tb))
               (fun load_id => (load_id, load_id, 0)) in
  let? t2 := assign_slots t1 (enumerate (gen_pos_topo_vect tb))
               (fun gen_id => (gen_id, gen_id, 1)) in
  let? t3 := assign_slots t2 (enumerate (line_or_pos_topo_vect tb))
               (fun l_id => if l_id <? nb_powerline then (l_id, l_id, 2)
                            else (l_id, l_id - nb_powerline, 3)) in
  assign_slots t3 (enumerate (line_ex_pos_topo_vect tb))
    (fun l_id => if l_id <? nb_powerline then (l_id, l_id, 4)
                 else (l_id, l_id - nb_powerline, 5)).

(** [_convert_id_topo], lines 498-508. *)
Definition _convert_id_topo (_big_topo_to_obj : list (option (Z * string)))
    (id_big_topo : Z) : result (option (Z * string)) :=
  getitem _big_topo_to_obj id_big_topo.

End LoadGridTables.

(** ** Loading: the place of every element in its substation (lines 326-406) *)

Module LoadGrid.
Section Placement.
Context {F : Type}.

(** An entry of [_what_object_where]: table, bus column, row number. *)
Definition Tag : Type := string * string * Z.

(** The arrays the four loops fill. *)
Record Placement := {
  sub_info : list Z;
  load_to_subid : list Z;
  gen_to_subid : list Z;
  line_or_to_subid : list Z;
  line_ex_to_subid : list Z;
  load_to_sub_pos : list Z;
  gen_to_sub_pos : list Z;
  line_or_to_sub_pos : list Z;
  line_ex_to_sub_pos : list Z;
  pos_already_used : list Z;
  _what_object_where : list (list Tag)
}.

(** [arr[i] += 1] *)
Definition incr (arr : list Z) (i : Z) : result (list Z) :=
  let? old := getitem arr i in setitem arr i (old + 1).

(** [m[i].append(x)] *)
Definition append_at (m : list (list Tag)) (i : Z) (x : Tag) : result (list (list Tag)) :=
  let? row := getitem m i in setitem m i (row ++ [x]).

(** [np.zeros(n, dtype=dt_int)] *)
Definition zeros (n : nat) : list Z := replicate n 0.

(** Lines 326-345. *)
Definition init (n_sub n_line n_gen n_load : nat) : Placement := {|
  sub_info := zeros n_sub;
  load_to_subid := zeros n_load;
  gen_to_subid := zeros n_gen;
  line_or_to_subid := zeros n_line;
  line_ex_to_subid := zeros n_line;
  load_to_sub_pos := zeros n_load;
  gen_to_sub_pos := zeros n_gen;
  line_or_to_sub_pos := zeros n_line;
  line_ex_to_sub_pos := zeros n_line;
  pos_already_used := zeros n_sub;
  _what_object_where := replicate n_sub []
|}.

(** The body shared by the loop over the lines (lines 352-366, [lag] is 0)
    and the loop over the transformers (lines 370-384, [lag] is
    [lag_transfo]); [i] is the number of the row in its own table. *)
Definition place_branch (kind col_or col_ex : string) (lag : Z) (st : Placement)
    (item : Z * (Z * Z)) : result Placement :=
  let '(i, (sub_or_id, sub_ex_id)) := item in
  let? si := incr (sub_info st) sub_or_id in
  let? si := incr si sub_ex_id in
  let? lo := setitem (line_or_to_subid st) (i + lag) sub_or_id in
  let? le := setitem (line_ex_to_subid st) (i + lag) sub_ex_id in
  let? pos_or := getitem (pos_already_used st) sub_or_id in
  let? lop := setitem (line_or_to_sub_pos st) (i + lag) pos_or in
  let? pau := incr (pos_already_used st) sub_or_id in
  let? pos_ex := getitem pau sub_ex_id in
  let? lep := setitem (line_ex_to_sub_pos st) (i + lag) pos_ex in
  let? pau := incr pau sub_ex_id in
  let? w := append_at (_what_object_where st) sub_or_id (kind, col_or, i) in
  let? w := append_at w sub_ex_id (kind, col_ex, i) in
  Ok {| sub_info := si;
        load_to_subid := load_to_subid st; gen_to_subid := gen_to_subid st;
        line_or_to_subid := lo; line_ex_to_subid := le;
        load_to_sub_pos := load_to_sub_pos st; gen_to_sub_pos := gen_to_sub_pos st;
        line_or_to_sub_pos := lop; line_ex_to_sub_pos := lep;
        pos_already_used := pau; _what_object_where := w |}.

(** Lines 386-393. *)
Definition place_gen (st : Placement) (item : Z * Z) : result Placement :=
  let '(i, sub_id) := item in
  let? si := incr (sub_info st) sub_id in
  let? gs := setitem (gen_to_subid st) i sub_id in
  let? p := getitem (pos_already_used st) sub_id in
  let? gp := setitem (gen_to_sub_pos st) i p in
  let? pau := incr (pos_already_used st) sub_id in
  let? w := append_at (_what_object_where st) sub_id ("gen", "bus", i) in
  Ok {| sub_info := si;
        load_to_subid := load_to_subid st; gen_to_subid := gs;
        line_or_to_subid := line_or_to_subid st; line_ex_to_subid := line_ex_to_subid st;
        load_to_sub_pos := load_to_sub_pos st; gen_to_sub_pos := gp;
        line_or_to_sub_pos := line_or_to_sub_pos st;
        line_ex_to_sub_pos := line_ex_to_sub_pos st;
        pos_already_used := pau; _what_object_where := w |}.

(** Lines 395-402. *)
Definition place_load (st : Placement) (item : Z * Z) : result Placement :=
  let '(i, sub_id) := item in
  let? si := incr (sub_info st) sub_id in
  let? ls := setitem (load_to_subid st) i sub_id in
  let? p := getitem (pos_already_used st) sub_id in
  let? lp := setitem (load_to_sub_pos st) i p in
  let? pau := incr (pos_already_used st) sub_id in
  let? w := append_at (_what_object_where st) sub_id ("load", "bus", i) in
  Ok {| sub_info := si;
        load_to_subid := ls; gen_to_subid := gen_to_subid st;
        line_or_to_subid := line_or_to_subid st; line_ex_to_subid := line_ex_to_subid st;
        load_to_sub_pos := lp; gen_to_sub_pos := gen_to_sub_pos st;
        line_or_to_sub_pos := line_or_to_sub_pos st;
        line_ex_to_sub_pos := line_ex_to_sub_pos st;
        pos_already_used := pau; _what_object_where := w |}.

(** A [for] loop whose body may raise. *)
Fixpoint for_items {A} (body : Placement -> A -> result Placement) (st : Placement)
    (items : list A) : result Placement :=
  match items with
  | [] => Ok st
  | x :: rest => let? st' := body st x in for_items body st' rest
  end.

(** [np.sum] *)
Definition np_sum (arr : list Z) : Z := foldr Z.add 0 arr.

(** Lines 326-404 on the network as read from the file, before its bus
    table is doubled; the second component is [self.dim_topo]. *)
Definition placement (g : Grid F) : result (Placement * Z) :=
  let n_line := (length (line g) + length (trafo g))%nat in
  let st := init (length (bus g)) n_line (length (gen g)) (length (load g)) in
  let? st := for_items (place_branch "line" "from_bus" "to_bus" 0) st
               (enumerate (map (fun r => (from_bus r, to_bus r)) (line g))) in
  let lag_transfo := Z.of_nat (length (line g)) in
  let? st := for_items (place_branch "trafo" "hv_bus" "lv_bus" lag_transfo) st
               (enumerate (map (fun r => (hv_bus r, lv_bus r)) (trafo g))) in
  let? st := for_items place_gen st (enumerate (map gen_bus (gen g))) in
  let? st := for_items place_load st (enumerate (map load_bus (load g))) in
  Ok (st, np_sum (sub_info st)).

(** ** Vocabulary *)

(** The entry at position [p] of substation [sub] is [t]. *)
Definition placed_at (st : Placement) (sub p : Z) (t : Tag) : Prop :=
  exists row, _what_object_where st !! Z.to_nat sub = Some row /\
              row !! Z.to_nat p = Some t.

(** Every bus the elements of the network name is a row of the bus table. *)
Definition buses_exist (g : Grid F) : Prop :=
  let ok := fun b => 0 <= b < Z.of_nat (length (bus g)) in
  Forall (fun r => ok (from_bus r) /\ ok (to_bus r)) (line g) /\
  Forall (fun r => ok (hv_bus r) /\ ok (lv_bus r)) (trafo g) /\
  Forall (fun r => ok (gen_bus r)) (gen g) /\
  Forall (fun r => ok (load_bus r)) (load g).

(** Every bus the elements name is an index Python accepts on an array of
    as many entries as the bus table has rows. *)
Definition buses_indexable (g : Grid F) : Prop :=
  let ok := fun b => - Z.of_nat (length (bus g)) <= b < Z.of_nat (length (bus g)) in
  Forall (fun r => ok (from_bus r) /\ ok (to_bus r)) (line g) /\
  Forall (fun r => ok (hv_bus r) /\ ok (lv_bus r)) (trafo g) /\
  Forall (fun r => ok (gen_bus r)) (gen g) /\
  Forall (fun r => ok (load_bus r)) (load g).

(** The three counters agree: a substation has used as many positions as
    it has elements, and [_what_object_where] lists that many. *)
Definition counts_agree (st : Placement) (n_sub : nat) : Prop :=
  pos_already_used st = sub_info st /\
  length (sub_info st) = n_sub /\
  length (_what_object_where st) = n_sub /\
  forall s row, _what_object_where st !! s = Some row ->
    sub_info st !! s = Some (Z.of_nat (length row)).

(** Entries are only ever appended. *)
Definition extends (w w' : list (list Tag)) : Prop :=
  forall s row, w !! s = Some row -> exists suffix, w' !! s = Some (row ++ suffix).

End Placement.
End LoadGrid.

(** The sample network as read from its file, before [load_grid] doubles
    the bus table. *)
Module LoadSample.
Import Sample.

Definition raw_grid : Grid fl :=
  set_bus [bus_row 0 true; bus_row 1 true] grid.

End LoadSample.

Section BranchVocabulary.
Context {F : Type} `{FloatOps F}.

(** The two bus columns and the in-service flag of the branch a mutator of
    kind [type_obj] writes: row [id_el_backend] of the lines for the kinds 2
    and 4, row [id_topo] of the transformers for the kinds 3 and 5. *)
Definition branch_ends (s : Backend F) (type_obj id_el_backend id_topo : Z)
  : option (Z * Z * bool) :=
  if (type_obj =? 2) || (type_obj =? 4)
  then (fun r => (from_bus r, to_bus r, line_in_service r))
         <$> line (_grid s) !! Z.to_nat id_el_backend
  else (fun r => (hv_bus r, lv_bus r, trafo_in_service r))
         <$> trafo (_grid s) !! Z.to_nat id_topo.

(** What is left of the network when the lines and the transformers are
    taken away. *)
Definition beside_branches (s : Backend F) :=
  (bus (_grid s), load (_grid s), gen (_grid s), shunt (_grid s),
   ext_grid (_grid s), solved (_grid s)).

(** The substation tables hold the bus columns of the element tables, as
    the placement loops of [load_grid] leave them. *)
Definition at_home (s : Backend F) : Prop :=
  line_or_to_subid (tables s)
  = map from_bus (line (_grid s)) ++ map hv_bus (trafo (_grid s)) /\
  line_ex_to_subid (tables s)
  = map to_bus (line (_grid s)) ++ map lv_bus (trafo (_grid s)) /\
  gen_to_subid (tables s) = map gen_bus (gen (_grid s)) /\
  load_to_subid (tables s) = map load_bus (load (_grid s)).

End BranchVocabulary.

Module FlowSample.
Import Sample.

(** The sample backend after an alternating-current run with both of its
    buses counted. *)
Definition solved : Backend fl := (runpf_try false 2 backend).2.

(** The same run on the sample with its line out of service. *)
Definition solved_line_off : Backend fl :=
  (runpf_try false 2
     (set_grid (set_line [ {| from_bus := 0; to_bus := 1; line_in_service := false |} ]
                         grid) backend)).2.

End FlowSample.

(** ** The decoding as the specification words it *)

Section DecodingClaim.
Context {F : Type} `{FloatOps F}.

(** For every kind of element alike: the selector the decoding stores at
    the slot of an element is -1 when the element is marked out of service
    in its table, else 1 on the bus of its substation and 2 on the split
    bus. *)
Definition decoding_as_specified (self : Backend F) : Prop :=
  forall topo, _get_topo_vect self = Ok topo ->
    let s' := set_topo_vect topo self in
    let tb := tables self in
    let nl := length (line (_grid self)) in
    (forall i r p sub, line (_grid self) !! i = Some r ->
       line_or_pos_topo_vect tb !! i = Some p -> line_or_to_subid tb !! i = Some sub ->
       decoded s' p (line_in_service r) (from_bus r) sub) /\
    (forall i r p sub, line (_grid self) !! i = Some r ->
       line_ex_pos_topo_vect tb !! i = Some p -> line_ex_to_subid tb !! i = Some sub ->
       decoded s' p (line_in_service r) (to_bus r) sub) /\
    (forall i r p sub, trafo (_grid self) !! i = Some r ->
       line_or_pos_topo_vect tb !! (nl + i)%nat = Some p ->
       line_or_to_subid tb !! (nl + i)%nat = Some sub ->
       decoded s' p (trafo_in_service r) (hv_bus r) sub) /\
    (forall i r p sub, trafo (_grid self) !! i = Some r ->
       line_ex_pos_topo_vect tb !! (nl + i)%nat = Some p ->
       line_ex_to_subid tb !! (nl + i)%nat = Some sub ->
       decoded s' p (trafo_in_service r) (lv_bus r) sub) /\
    (forall i r p sub, gen (_grid self) !! i = Some r ->
       gen_pos_topo_vect tb !! i = Some p -> gen_to_subid tb !! i = Some sub ->
       decoded s' p (gen_in_service r) (gen_bus r) sub) /\
    (forall i r p sub, load (_grid self) !! i = Some r ->
       load_pos_topo_vect tb !! i = Some p -> load_to_subid tb !! i = Some sub ->
       decoded s' p (load_in_service r) (load_bus r) sub).

End DecodingClaim.

(** ** The slack correction as the specification words it *)

Section SlackClaim.
Context {F : Type} `{FloatOps F}.

(** The condition of the specification.  The generator the synthesized
    slack generator shares its bus with is the reference source: row 0 of
    the table of the external grids, which the source calls the slack bus
    one and which the solver treats as a generator of its own. *)
Definition slack_on_reference_bus (self : Backend F) : Prop :=
  exists id r e,
    _id_bus_added (tables self) = Some id /\ 0 <= id /\
    gen (_grid self) !! Z.to_nat id = Some r /\
    ext_grid (_grid self) !! 0%nat = Some e /\
    gen_bus r = ext_grid_bus e.


(** What [load_grid] sets up (lines 246-272) and every later write keeps.
    Either no slack generator was synthesized, or one was, as the last row
    of the table of the generators, and whenever it is in service it sits
    on the bus of the reference source. *)
Definition slack_follows_reference (self : Backend F) : Prop :=
  match _iref_slack (tables self), _id_bus_added (tables self) with
  | None, None => True
  | Some _, Some id =>
      id = Z.of_nat (length (gen (_grid self))) - 1 /\
      exists r e,
        gen (_grid self) !! Z.to_nat id = Some r /\
        ext_grid (_grid self) !! 0%nat = Some e /\
        (gen_in_service r = true -> gen_bus r = ext_grid_bus e)
  | _, _ => False
  end.

(** The same, on a backend whose table of the slots names every element
    by a number that is not negative, as [load_grid] builds it. *)
Definition slack_tracked (self : Backend F) : Prop :=
  Forall (fun entry : Z * Z * Z => 0 <= entry.1.1)
         (_big_topo_to_backend (tables self)) /\
  slack_follows_reference self.

(** What [slack_tracked] reads. *)
Definition slack_view (s : Backend F) :=
  (_iref_slack (tables s), _id_bus_added (tables s), _big_topo_to_backend (tables s),
   map (fun r => (gen_bus r, gen_in_service r)) (gen (_grid s)),
   map ext_grid_bus (ext_grid (_grid s))).

(** A property of the backend that a method keeps, whether it returns or
    raises. *)
Definition keeps {A} (P : Backend F -> Prop) (m : M A) : Prop :=
  forall s, P s -> P (m s).2.

End SlackClaim.

Module SlackSample.
Import Sample.

(** The sample backend as [load_grid] leaves it for a network that brings
    a slack generator of its own: none is synthesized. *)
Definition backend_own_slack : Backend fl :=
  {| _grid := grid; vec := vec0; line_status := [true; true]; _pf_init := "results";
     _nb_bus_before := None; _topo_vect := [1; 1; 1; 1; 1; 1]; comp_time := fl_num 0;
     tables :=
       {| _PandaPowerBackend__nb_bus_before := 2;
          _PandaPowerBackend__nb_powerline := 1;
          _number_true_line := 1;
          _iref_slack := None;
          _id_bus_added := None;
          _init_bus_load := [1];
          _init_bus_gen := [0];
          _init_bus_lor := [0; 0];
          _init_bus_lex := [1; 1];
          _big_topo_to_backend := _big_topo_to_backend tbl;
          dim_topo := 6;
          n_load := 1;
          load_to_subid := [1];
          gen_to_subid := [0];
          line_or_to_subid := [0; 0];
          line_ex_to_subid := [1; 1];
          shunt_to_subid := [1];
          load_pos_topo_vect := [5];
          gen_pos_topo_vect := [2];
          line_or_pos_topo_vect := [0; 1];
          line_ex_pos_topo_vect := [3; 4];
          prod_pu_to_kv := [fl_num 138];
          load_pu_to_kv := [fl_num 138];
          lines_or_pu_to_kv := [fl_num 138; fl_num 138];
          lines_ex_pu_to_kv := [fl_num 138; fl_num 138];
          shunts_data_available := true |};
     solver_calls := [] |}.

End SlackSample.
(** * Properties *)

Section Proofs.
Context {F : Type} {FO : FloatOps F} {SV : Solver F}.

(** ** The monad *)

Lemma bind_Ok {A B} (m : M A) (k : A -> M B) (s s1 : Backend F) (a : A) :
  m s = (Ok a, s1) -> bind m k s = k a s1.
Proof. intros Hm. unfold bind. now rewrite Hm. Qed.

Lemma bind_Raise {A B} (m : M A) (k : A -> M B) (s s1 : Backend F) (e : exn) :
  m s = (Raise e, s1) -> bind (F:=F) m k s = (Raise e, s1).
Proof. intros Hm. unfold bind. now rewrite Hm. Qed.

Lemma bind_inv {A B} (m : M A) (k : A -> M B) (s s' : Backend F) (r : result B) :
  bind m k s = (r, s') ->
  (exists a s1, m s = (Ok a, s1) /\ k a s1 = (r, s')) \/
  (exists e, m s = (Raise e, s') /\ r = Raise e).
Proof.
  unfold bind. destruct (m s) as [[a|e] s1]; intros Hk.
  - left. eauto.
  - right. exists e. now inversion Hk.
Qed.

Lemma bind_inv_Ok {A B} (m : M A) (k : A -> M B) (s s' : Backend F) (b : B) :
  bind m k s = (Ok b, s') ->
  exists a s1, m s = (Ok a, s1) /\ k a s1 = (Ok b, s').
Proof.
  intros Hb. destruct (bind_inv _ _ _ _ _ Hb) as [Hok | (e & _ & He)]; [exact Hok | discriminate].
Qed.

(** ** Indexing *)

Lemma py_index_nonneg (n : nat) (i : Z) (k : nat) :
  0 <= i -> py_index n i = Some k -> k = Z.to_nat i /\ (k < n)%nat.
Proof.
  intros Hi. unfold py_index.
  destruct (0 <=? i) eqn:E0; [|lia].
  destruct (i <? Z.of_nat n) eqn:E1; simpl.
  - intros [= <-]. split; [reflexivity | lia].
  - destruct (i <? 0) eqn:E2; [lia | discriminate].
Qed.

Lemma py_index_lt (n : nat) (i : Z) (k : nat) :
  py_index n i = Some k -> (k < n)%nat.
Proof.
  unfold py_index.
  destruct ((0 <=? i) && (i <? Z.of_nat n)) eqn:E.
  - intros [= <-]. apply andb_true_iff in E. lia.
  - destruct ((i <? 0) && (- Z.of_nat n <=? i)) eqn:E'; [|discriminate].
    intros [= <-]. apply andb_true_iff in E'. lia.
Qed.

Lemma py_index_in_range (n : nat) (i : Z) :
  0 <= i < Z.of_nat n -> py_index n i = Some (Z.to_nat i).
Proof.
  intros Hi. unfold py_index.
  destruct (0 <=? i) eqn:E0; [|lia].
  destruct (i <? Z.of_nat n) eqn:E1; [reflexivity | lia].
Qed.

Lemma getitem_nonneg {A} (l : list A) (i : Z) (x : A) :
  0 <= i -> getitem l i = Ok x -> l !! Z.to_nat i = Some x.
Proof.
  intros Hi. unfold getitem.
  destruct (py_index (length l) i) as [k|] eqn:E; [|discriminate].
  destruct (py_index_nonneg _ _ _ Hi E) as [-> _].
  destruct (l !! Z.to_nat i); [now intros [= ->] | discriminate].
Qed.

Lemma getitem_lookup {A} (l : list A) (i : Z) (x : A) :
  0 <= i -> l !! Z.to_nat i = Some x -> getitem l i = Ok x.
Proof.
  intros Hi Hx. unfold getitem.
  rewrite py_index_in_range.
  - now rewrite Hx.
  - apply lookup_lt_Some in Hx. lia.
Qed.

Lemma setitem_length {A} (l l' : list A) (i : Z) (x : A) :
  setitem l i x = Ok l' -> length l' = length l.
Proof.
  unfold setitem. destruct (py_index (length l) i); [|discriminate].
  intros [= <-]. apply length_insert.
Qed.

Lemma setitem_nonneg {A} (l l' : list A) (i : Z) (x : A) :
  0 <= i -> setitem l i x = Ok l' ->
  l' = <[Z.to_nat i := x]> l /\ (Z.to_nat i < length l)%nat.
Proof.
  intros Hi. unfold setitem.
  destruct (py_index (length l) i) as [k|] eqn:E; [|discriminate].
  destruct (py_index_nonneg _ _ _ Hi E) as [-> Hlt].
  intros [= <-]. now split.
Qed.

Lemma iat_set_length {A} (l l' : list A) (i : Z) (f : A -> A) :
  iat_set l i f = Ok l' -> length l' = length l.
Proof.
  unfold iat_set. destruct (py_index (length l) i); [|discriminate].
  intros [= <-]. apply length_alter.
Qed.

Lemma assign_all_length {A} (dst src l : list A) :
  assign_all dst src = Ok l -> length l = length dst.
Proof.
  unfold assign_all.
  destruct (length src =? length dst)%nat eqn:E.
  - intros [= <-]. now apply Nat.eqb_eq.
  - destruct src as [|x [|y src]]; try discriminate.
    intros [= <-]. apply length_replicate.
Qed.

Lemma assign_all_same_length {A} (dst src l : list A) :
  length src = length dst -> assign_all dst src = Ok l -> l = src.
Proof.
  intros Hl. unfold assign_all.
  apply Nat.eqb_eq in Hl. rewrite Hl. now intros [= <-].
Qed.

(** ** C1: the bus resolver *)

(** C1.  For every home-bus row [b] the resolver returns [b] for selector 1,
    [b] plus the number of original buses for selector 2 and [-1] for
    selector [-1]; any other selector raises the invalid-selector error
    ([BackendError]) instead of a value. *)
Theorem pp_bus_from_grid2op_bus_spec (self : Backend F) (b : Z) :
  _pp_bus_from_grid2op_bus self 1 b = Ok b /\
  _pp_bus_from_grid2op_bus self 2 b
    = Ok (b + _PandaPowerBackend__nb_bus_before (tables self)) /\
  _pp_bus_from_grid2op_bus self (-1) b = Ok (-1) /\
  forall sel, sel <> 1 -> sel <> 2 -> sel <> -1 ->
    _pp_bus_from_grid2op_bus self sel b
      = Raise (BackendError "grid2op bus must be -1, 1 or 2").
Proof.
  repeat split; try reflexivity.
  intros sel H1 H2 H3. unfold _pp_bus_from_grid2op_bus.
  destruct (sel =? 1) eqn:E1; [lia|].
  destruct (sel =? 2) eqn:E2; [lia|].
  destruct (sel =? -1) eqn:E3; [lia|].
  reflexivity.
Qed.

(** ** C8: the doubling of the bus table at load time *)

Lemma add_topo_lookup (tbl : list (BusRow F)) (i : nat) (r : BusRow F) :
  tbl !! i = Some r ->
  add_topo tbl !! i
    = Some (set_bus_in_service false
              (set_bus_index (bus_index r + Z.of_nat (length tbl)) r)).
Proof.
  intros Hr. unfold add_topo. rewrite !list_lookup_fmap, Hr. reflexivity.
Qed.

Lemma add_topo_length (tbl : list (BusRow F)) : length (add_topo tbl) = length tbl.
Proof. unfold add_topo. now rewrite !length_map. Qed.

(** C8.  Loading doubles the bus table: the original rows stay in place, the
    split-bus block follows them, and the split bus of the original row [i]
    sits at row [i] plus the former length, carries the original label plus
    the former length, has the same attributes and is out of service. *)
Theorem load_grid_doubles_bus_table (g : Grid F) :
  let n := length (bus g) in
  let g' := load_grid_double_bus g in
  length (bus g') = (n + n)%nat /\
  (forall i r, bus g !! i = Some r ->
     bus g' !! i = Some r /\
     exists r', bus g' !! (n + i)%nat = Some r' /\
       bus_index r' = bus_index r + Z.of_nat n /\
       bus_in_service r' = false /\
       vn_kv r' = vn_kv r /\ bus_name r' = bus_name r /\
       bus_type r' = bus_type r /\ bus_zone r' = bus_zone r) /\
  (forall i r', (n <= i)%nat -> bus g' !! i = Some r' -> bus_in_service r' = false).
Proof.
  intros n g'. subst n g'. unfold load_grid_double_bus. simpl.
  split; [|split].
  - now rewrite length_app, add_topo_length.
  - intros i r Hr. split.
    + rewrite lookup_app_l; [exact Hr | now apply lookup_lt_Some in Hr].
    + eexists. split.
      * rewrite lookup_app_r by lia.
        replace (length (bus g) + i - length (bus g))%nat with i by lia.
        exact (add_topo_lookup _ _ _ Hr).
      * simpl. repeat split.
  - intros i r' Hi Hr'.
    rewrite lookup_app_r in Hr' by exact Hi.
    unfold add_topo in Hr'. rewrite !list_lookup_fmap in Hr'.
    destruct (bus g !! (i - length (bus g))%nat); simpl in Hr'; [|discriminate].
    now inversion Hr'.
Qed.

(** ** C6: the bus selector reported for the shunts *)

(** What [shunt_info] reports as bus selector is the truth value of
    "the bus row is below the number of original buses". *)
Lemma shunt_info_bus_flag (self : Backend F) (p q v : list F) (sb : list Z) :
  shunt_info self = Ok (p, q, v, sb) ->
  sb = map (fun r => if shunt_bus r <? _PandaPowerBackend__nb_bus_before (tables self)
                     then 1 else 0)
           (shunt (_grid self)).
Proof.
  unfold shunt_info.
  destruct (mapM_result _ _) as [vm|]; simpl; [|discriminate].
  destruct (mapM_result _ _) as [vn|]; simpl; [|discriminate].
  intros [= _ _ _ <-].
  rewrite <- !list_fmap_compose. apply list_fmap_ext. intros i r _. simpl.
  now destruct (shunt_bus r <? _).
Qed.

(** ** The slack correction of the generator outputs *)

Lemma gens_info_ignores_gen_table (self : Backend F) (rows : list (GenRow F)) :
  _gens_info (set_grid (set_gen rows (_grid self)) self) = _gens_info self.
Proof. reflexivity. Qed.

(** What [_gens_info] tests.  The reference-row active and reactive power
    are added onto the row of the synthesized slack generator whenever a
    slack generator was synthesized at load time and the solver exposes its
    internal generator table; nothing is added when no slack generator was
    synthesized or the internal table is absent.  The generator table is not
    read: that the synthesized generator sits on the bus of the reference
    source is kept by the methods that write the network, not tested
    here. *)
Lemma gens_info_slack_correction (self : Backend F) (v0 : list F) :
  np_zip fmul (map (fun r => fmul cst_1 (res_gen_vm_pu r))
                   (res_gen (solved (_grid self))))
         (prod_pu_to_kv (tables self)) = Ok v0 ->
  (forall iref id ppc internal_gen dp dq p_id q_id,
      _iref_slack (tables self) = Some iref ->
      _id_bus_added (tables self) = Some id ->
      _ppc (solved (_grid self)) = Some ppc ->
      ppc_internal_gen ppc = Some internal_gen ->
      getitem2 internal_gen iref 1 = Ok dp ->
      getitem2 internal_gen iref 2 = Ok dq ->
      0 <= id ->
      res_gen_p self !! Z.to_nat id = Some p_id ->
      res_gen_q self !! Z.to_nat id = Some q_id ->
      _gens_info self
        = Ok (<[Z.to_nat id := fadd p_id dp]> (res_gen_p self),
              <[Z.to_nat id := fadd q_id dq]> (res_gen_q self), v0)) /\
  (_iref_slack (tables self) = None \/
   (exists ppc, _ppc (solved (_grid self)) = Some ppc /\ ppc_internal_gen ppc = None) ->
   _gens_info self = Ok (res_gen_p self, res_gen_q self, v0)) /\
  (forall rows, _gens_info (set_grid (set_gen rows (_grid self)) self) = _gens_info self).
Proof.
  intros Hv. split; [|split].
  - intros iref id ppc ig dp dq p_id q_id Hiref Hid Hppc Hig Hdp Hdq Hnn Hp Hq.
    unfold _gens_info. rewrite Hv. simpl. rewrite Hiref, Hppc, Hig, Hdp, Hid. simpl.
    fold (res_gen_p self). fold (res_gen_q self).
    unfold iadd_at.
    rewrite (getitem_lookup _ _ _ Hnn Hp). simpl.
    unfold setitem at 1. rewrite py_index_in_range
      by (apply lookup_lt_Some in Hp; lia). simpl.
    rewrite Hdq. simpl.
    rewrite (getitem_lookup _ _ _ Hnn Hq). simpl.
    unfold setitem. rewrite py_index_in_range
      by (apply lookup_lt_Some in Hq; lia). reflexivity.
  - intros [Hnone | (ppc & Hppc & Hig)]; unfold _gens_info; rewrite Hv; simpl.
    + now rewrite Hnone.
    + destruct (_iref_slack (tables self)); [|reflexivity].
      now rewrite Hppc, Hig.
  - intros rows. apply gens_info_ignores_gen_table.
Qed.

(** ** What a method leaves untouched *)

Lemma preserves_ret {X A} (obs : Backend F -> X) (a : A) : preserves obs (ret a).
Proof. intros s. reflexivity. Qed.

Lemma preserves_raise {X A} (obs : Backend F -> X) (e : exn) :
  preserves obs (raise (A:=A) e).
Proof. intros s. reflexivity. Qed.

Lemma preserves_lift {X A} (obs : Backend F -> X) (r : result A) :
  preserves obs (lift r).
Proof. intros s. reflexivity. Qed.

Lemma preserves_get {X} (obs : Backend F -> X) : preserves obs get.
Proof. intros s. reflexivity. Qed.

Lemma preserves_bind {X A B} (obs : Backend F -> X) (m : M A) (k : A -> M B) :
  preserves obs m -> (forall a, preserves obs (k a)) -> preserves obs (bind m k).
Proof.
  intros Hm Hk s. unfold bind. specialize (Hm s).
  destruct (m s) as [[a|e] s1]; simpl in *.
  - now rewrite Hk.
  - exact Hm.
Qed.

Lemma preserves_when {X} (obs : Backend F -> X) (c : bool) (m : M unit) :
  preserves obs m -> preserves obs (when c m).
Proof. intros Hm. destruct c; [exact Hm | apply preserves_ret]. Qed.

Lemma preserves_for_each {X A} (obs : Backend F -> X) (l : list A) (body : A -> M unit) :
  (forall x, preserves obs (body x)) -> preserves obs (for_each l body).
Proof.
  intros Hb. induction l as [|x l IH]; simpl.
  - apply preserves_ret.
  - apply preserves_bind; [apply Hb | intros _; exact IH].
Qed.

Lemma preserves_modify {X} (obs : Backend F -> X) (f : Backend F -> Backend F) :
  (forall s, obs (f s) = obs s) -> preserves obs (modify f).
Proof. intros Hf s. apply Hf. Qed.

Lemma preserves_update_table {X R} (obs : Backend F -> X) (tbl : Grid F -> list R)
    (set : list R -> Grid F -> Grid F) (f : list R -> result (list R)) :
  (forall s l, f (tbl (_grid s)) = Ok l -> obs (set_grid (set l (_grid s)) s) = obs s) ->
  preserves obs (update_table tbl set f).
Proof.
  intros Hf s. unfold update_table.
  destruct (f (tbl (_grid s))) eqn:E; simpl; [now apply Hf | reflexivity].
Qed.

Lemma preserves_update_vec {X} (obs : Backend F -> X) (a : Attr)
    (f : list F -> result (list F)) :
  (forall s v, f (vec s a) = Ok v -> obs (set_vec a v s) = obs s) ->
  preserves obs (update_vec a f).
Proof.
  intros Hf s. unfold update_vec.
  destruct (f (vec s a)) eqn:E; simpl; [now apply Hf | reflexivity].
Qed.

Lemma preserves_assign_vec {X} (obs : Backend F -> X) (a : Attr) (src : list F) :
  (forall s v, assign_all (vec s a) src = Ok v -> obs (set_vec a v s) = obs s) ->
  preserves obs (assign_vec a src).
Proof.
  intros Hf s. unfold assign_vec.
  destruct (assign_all (vec s a) src) eqn:E; simpl; [now apply Hf | reflexivity].
Qed.

Lemma preserves_call_solver {X} (obs : Backend F -> X) (c : SolverCall) :
  (forall s o l, obs (set_solver_calls l (set_grid (set_solved o (_grid s)) s)) = obs s) ->
  preserves obs (call_solver c).
Proof.
  intros Hf s. unfold call_solver.
  destruct (run_solver c (_grid s)) as [o raised].
  destruct raised; simpl; apply Hf.
Qed.

Lemma preserves_runpf_reset_ppc_gen {X} (obs : Backend F -> X) :
  (forall s o, obs (set_grid (set_solved o (_grid s)) s) = obs s) ->
  preserves obs runpf_reset_ppc_gen.
Proof.
  intros Hf s. unfold runpf_reset_ppc_gen.
  destruct (_ppc (solved (_grid s))) as [ppc|]; [|reflexivity].
  destruct (ppc_gen_reset _ _); simpl; [apply Hf | reflexivity].
Qed.

Lemma preserves_try_except {X A} (obs : Backend F -> X) (body handler : M A) :
  preserves obs body -> preserves obs handler ->
  preserves obs (try_except_LoadflowNotConverged body handler).
Proof.
  intros Hb Hh s. unfold try_except_LoadflowNotConverged. specialize (Hb s).
  destruct (body s) as [[a|e] s1]; simpl in *; [exact Hb|].
  destruct e; simpl; try exact Hb.
  now rewrite Hh.
Qed.

(** A goal [preserves obs m] is taken apart along the structure of [m];
    what is left is closed by [tac]. *)
Ltac preserves_step tac :=
  lazymatch goal with
  | |- preserves _ (bind _ _) => apply preserves_bind; [|intros ?]
  | |- preserves _ (ret _) => apply preserves_ret
  | |- preserves _ (raise _) => apply preserves_raise
  | |- preserves _ (lift _) => apply preserves_lift
  | |- preserves _ get => apply preserves_get
  | |- preserves _ (when _ _) => apply preserves_when
  | |- preserves _ (for_each _ _) => apply preserves_for_each; intros ?
  | |- preserves _ (modify _) => apply preserves_modify; intros ?; tac
  | |- preserves _ (grid_iat _ _ _ _) => unfold grid_iat
  | |- preserves _ (update_table _ _ _) => apply preserves_update_table; intros ? ? ?; tac
  | |- preserves _ (update_vec _ _) => apply preserves_update_vec; intros ? ? ?; tac
  | |- preserves _ (assign_vec _ _) => apply preserves_assign_vec; intros ? ? ?; tac
  | |- preserves _ (call_solver _) => apply preserves_call_solver; intros ? ? ?; tac
  | |- preserves _ runpf_reset_ppc_gen => apply preserves_runpf_reset_ppc_gen; intros ? ?; tac
  | |- preserves _ (match ?x with _ => _ end) => destruct x
  | |- preserves _ (let '(_, _) := ?x in _) => destruct x
  end.

Ltac preserves_basic tac := repeat preserves_step tac.

Ltac by_computation := intros; reflexivity.

Lemma runpf_dc_load_v_gens_preserves {X} (obs : Backend F -> X) (l_id : Z)
    (ind_gens : list Z) :
  (forall s v, obs (set_vec load_v v s) = obs s) ->
  preserves obs (runpf_dc_load_v_gens l_id ind_gens).
Proof.
  intros Hobs. induction ind_gens as [|g_id rest IH]; simpl.
  - apply preserves_ret.
  - preserves_basic ltac:(apply Hobs). exact IH.
Qed.

Ltac preserves_with tac :=
  repeat first
    [ preserves_step tac
    | lazymatch goal with
      | |- preserves _ (runpf_dc_load_v_gens _ _) =>
          apply runpf_dc_load_v_gens_preserves; intros ? ?; tac
      | |- preserves _ (runpf_line_side _ _ _ _ _ _ _ _ _ _ _ _) => unfold runpf_line_side
      | |- preserves _ runpf_dc_load_v => unfold runpf_dc_load_v
      | |- preserves _ _reset_all_nan => unfold _reset_all_nan
      end ].

(** ** The published vectors keep their length *)

Lemma Attr_eqb_eq (a b : Attr) : Attr_eqb a b = true -> a = b.
Proof. destruct a, b; simpl; intros E; try reflexivity; discriminate. Qed.

Lemma mask_fill_length {A} (arr l : list A) (mask : list bool) (val : A) :
  mask_fill arr mask val = Ok l -> length l = length arr.
Proof.
  unfold mask_fill. destruct (length mask =? length arr)%nat eqn:E; [|discriminate].
  intros [= <-]. apply Nat.eqb_eq in E. rewrite length_zip_with. lia.
Qed.

Lemma zero_non_finite_length (arr l : list F) :
  zero_non_finite arr = Ok l -> length l = length arr.
Proof. apply mask_fill_length. Qed.

Lemma imul_all_length (dst src l : list F) :
  imul_all dst src = Ok l -> length l = length dst.
Proof.
  unfold imul_all. destruct (length src =? length dst)%nat eqn:E.
  - intros [= <-]. apply Nat.eqb_eq in E. rewrite length_zip_with. lia.
  - destruct src as [|y [|z src]]; try discriminate.
    intros [= <-]. apply length_map.
Qed.

Lemma set_vec_length (a b : Attr) (v : list F) (s : Backend F) :
  length v = length (vec s a) ->
  length (vec (set_vec a v s) b) = length (vec s b).
Proof.
  intros Hv. simpl. destruct (Attr_eqb a b) eqn:E; [|reflexivity].
  apply Attr_eqb_eq in E. now subst.
Qed.

Ltac vec_length_tac :=
  first [ reflexivity
        | apply set_vec_length;
          eauto using assign_all_length, mask_fill_length, zero_non_finite_length,
                      imul_all_length, setitem_length ].

Lemma runpf_dc_load_v_gens_vec_length (a : Attr) (l_id : Z) (ind_gens : list Z) :
  preserves (fun s : Backend F => length (vec s a)) (runpf_dc_load_v_gens l_id ind_gens).
Proof.
  induction ind_gens as [|g_id rest IH]; simpl.
  - apply preserves_ret.
  - preserves_basic vec_length_tac. exact IH.
Qed.

Lemma runpf_try_vec_length (a : Attr) (is_dc : bool) (nb_bus : Z) :
  preserves (fun s : Backend F => length (vec s a)) (runpf_try is_dc nb_bus).
Proof.
  unfold runpf_try, runpf_line_side, runpf_dc_load_v.
  preserves_basic vec_length_tac; apply runpf_dc_load_v_gens_vec_length.
Qed.

(** ** C3 and C5: convergence failures *)

Lemma reset_all_nan_spec (s : Backend F) :
  exists s', _reset_all_nan s = (Ok tt, s') /\
    (forall a, vec s' a = replicate (length (vec s a)) NaN) /\
    _nb_bus_before s' = None /\
    _grid s' = _grid s /\ line_status s' = line_status s /\
    _topo_vect s' = _topo_vect s /\ tables s' = tables s /\
    solver_calls s' = solver_calls s.
Proof.
  eexists. split; [reflexivity|].
  split; [|repeat split].
  intros a. destruct a; reflexivity.
Qed.

Lemma runpf_try_isolated_load (is_dc : bool) (nb_bus : Z) (s : Backend F) :
  existsb negb (map load_in_service (load (_grid s))) = true ->
  runpf_try is_dc nb_bus s
    = (Raise (LoadflowNotConverged "Isolated load"), runpf_pf_init_chosen nb_bus s).
Proof.
  intros Hl. unfold runpf_try, bind, get, modify, when. simpl. rewrite Hl. reflexivity.
Qed.

Lemma runpf_try_isolated_gen (is_dc : bool) (nb_bus : Z) (s : Backend F) :
  existsb negb (map load_in_service (load (_grid s))) = false ->
  existsb negb (map gen_in_service (gen (_grid s))) = true ->
  runpf_try is_dc nb_bus s
    = (Raise (LoadflowNotConverged "Isolated gen"), runpf_pf_init_chosen nb_bus s).
Proof.
  intros Hl Hg. unfold runpf_try, bind, get, modify, when. simpl. rewrite Hl, Hg. reflexivity.
Qed.

(** When the solver itself raises, the [try] raises right after the call. *)
Lemma runpf_try_solver_raises (is_dc : bool) (nb_bus : Z) (s : Backend F) :
  existsb negb (map load_in_service (load (_grid s))) = false ->
  existsb negb (map gen_in_service (gen (_grid s))) = false ->
  let s0 := runpf_pf_init_chosen nb_bus s in
  let c := if is_dc then rundcpp else runpp (_pf_init s0) in
  (run_solver c (_grid s)).2 = true ->
  exists s1, runpf_try is_dc nb_bus s
             = (Raise (LoadflowNotConverged "Power Flow did not converge"), s1) /\
             solver_calls s1 = c :: solver_calls s.
Proof.
  intros Hl Hg s0 c Hr. subst s0 c.
  unfold runpf_try, bind, get, modify, when. simpl. rewrite Hl, Hg.
  destruct is_dc; unfold call_solver; simpl in *;
    destruct (run_solver _ (_grid s)) as [o raised]; simpl in Hr; subst raised;
    simpl; eexists; split; reflexivity.
Qed.

Lemma runpf_except (is_dc : bool) (s s1 : Backend F) (msg : string) :
  runpf_try is_dc (get_nb_active_bus s) s = (Raise (LoadflowNotConverged msg), s1) ->
  runpf is_dc s = bind _reset_all_nan (fun _ => ret false) s1.
Proof.
  intros Ht. unfold runpf, bind at 1, get, try_except_LoadflowNotConverged.
  now rewrite Ht.
Qed.

(** C3.  Whenever the solve fails to converge, that is, whenever the body of
    the [try] of [runpf] raises [LoadflowNotConverged] (an isolated load or
    generator, the solver giving up, missing generator results, a
    non-finite load voltage), [runpf] returns [False] and raises nothing,
    each of the fourteen published vectors of electrical quantities holds
    NaN in every entry and has kept its length, and the bus count
    remembered for the warm start is cleared. *)
Theorem runpf_convergence_failure (is_dc : bool) (s s1 : Backend F) (msg : string) :
  runpf_try is_dc (get_nb_active_bus s) s = (Raise (LoadflowNotConverged msg), s1) ->
  exists s2, runpf is_dc s = (Ok false, s2) /\
    (forall a, vec s2 a = replicate (length (vec s a)) NaN) /\
    _nb_bus_before s2 = None.
Proof.
  intros Ht. rewrite (runpf_except _ _ _ _ Ht).
  destruct (reset_all_nan_spec s1) as (s2 & Hr & Hvec & Hnb & _).
  exists s2. split; [|split].
  - now rewrite (bind_Ok _ _ _ _ _ Hr).
  - intros a. rewrite Hvec. f_equal.
    pose proof (runpf_try_vec_length a is_dc (get_nb_active_bus s) s) as Hlen.
    rewrite Ht in Hlen. exact Hlen.
  - exact Hnb.
Qed.

(** C5.  With a load row or a generator row out of service, an
    alternating-current [runpf] returns [False] without raising and without
    calling the solver; every published vector holds NaN in every entry. *)
Theorem runpf_isolated_element (s : Backend F) :
  (exists r, r ∈ load (_grid s) /\ load_in_service r = false) \/
  (exists r, r ∈ gen (_grid s) /\ gen_in_service r = false) ->
  exists s', runpf false s = (Ok false, s') /\
    solver_calls s' = solver_calls s /\
    (forall a, vec s' a = replicate (length (vec s a)) NaN) /\
    _grid s' = _grid s.
Proof.
  intros Hiso.
  assert (Ht : exists msg, runpf_try false (get_nb_active_bus s) s
                 = (Raise (LoadflowNotConverged msg),
                    runpf_pf_init_chosen (get_nb_active_bus s) s)).
  { destruct (existsb negb (map load_in_service (load (_grid s)))) eqn:El.
    - eexists. now apply runpf_try_isolated_load.
    - destruct Hiso as [(r & Hin & Hr) | (r & Hin & Hr)].
      + exfalso. apply not_true_iff_false in El. apply El.
        apply existsb_exists. exists false. split; [|reflexivity].
        apply in_map_iff. exists r. split; [exact Hr | now apply list_elem_of_In].
      + eexists. apply runpf_try_isolated_gen; [exact El|].
        apply existsb_exists. exists false. split; [|reflexivity].
        apply in_map_iff. exists r. split; [exact Hr | now apply list_elem_of_In]. }
  destruct Ht as (msg & Ht).
  rewrite (runpf_except _ _ _ _ Ht).
  destruct (reset_all_nan_spec (runpf_pf_init_chosen (get_nb_active_bus s) s))
    as (s2 & Hr & Hvec & _ & Hg & _ & _ & _ & Hc).
  exists s2. repeat split.
  - now rewrite (bind_Ok _ _ _ _ _ Hr).
  - exact Hc.
  - exact Hvec.
  - exact Hg.
Qed.

(** ** C4: the warm-start memory *)

(** One step of a run that returned: the first statement of the sequence in
    [H] is split off as a hypothesis of its own. *)
Ltac peel H :=
  let a := fresh "a" in
  let s := fresh "s" in
  let Hstep := fresh "Hstep" in
  apply bind_inv_Ok in H as (a & s & Hstep & H); cbv beta in H.

Lemma runpf_try_Ok_forgets_bus_count (is_dc b : bool) (nb_bus : Z) (s s' : Backend F) :
  runpf_try is_dc nb_bus s = (Ok b, s') -> _nb_bus_before s' = None.
Proof.
  intros H. unfold runpf_try in H.
  repeat lazymatch type of H with
         | bind (modify (set_nb_bus_before None)) _ _ = _ => fail
         | _ => peel H
         end.
  apply bind_inv_Ok in H as (u & sm & Hm & H). cbv beta in H.
  unfold modify in Hm. injection Hm as _ <-.
  match type of H with
  | ?k ?sk = _ =>
      assert (Hp : preserves _nb_bus_before k);
      [ preserves_with by_computation | specialize (Hp sk); rewrite H in Hp; exact Hp ]
  end.
Qed.

(** A [runpf] that returns, with either status, leaves no bus count behind. *)
Lemma runpf_forgets_bus_count (is_dc b : bool) (s s' : Backend F) :
  runpf is_dc s = (Ok b, s') -> _nb_bus_before s' = None.
Proof.
  unfold runpf, bind at 1, get, try_except_LoadflowNotConverged.
  destruct (runpf_try is_dc (get_nb_active_bus s) s) as [[b0|e] s1] eqn:E.
  - intros [= <- <-]. exact (runpf_try_Ok_forgets_bus_count _ _ _ _ _ E).
  - destruct e; try discriminate.
    destruct (reset_all_nan_spec s1) as (s2 & Hr & _ & Hnb & _).
    rewrite (bind_Ok _ _ _ _ _ Hr). now intros [= _ <-].
Qed.

Lemma bind_get {B} (k : Backend F -> M B) (s : Backend F) : bind get k s = k s s.
Proof. reflexivity. Qed.

Lemma bind_modify {B} (f : Backend F -> Backend F) (k : unit -> M B) (s : Backend F) :
  bind (modify f) k s = k tt (f s).
Proof. reflexivity. Qed.

(** Without a remembered bus count the initialization mode is "dc",
    whatever the number of active buses. *)
Lemma runpf_without_bus_count_inits_dc (is_dc : bool) (s : Backend F) :
  _nb_bus_before s = None ->
  _pf_init (runpf is_dc s).2 = "dc".
Proof.
  intros Hnb.
  assert (Hp : forall nb_bus (s0 : Backend F), _nb_bus_before s0 = None ->
                 _pf_init (runpf_try is_dc nb_bus s0).2 = "dc").
  { intros nb_bus s0 H0. unfold runpf_try.
    rewrite bind_get, bind_modify, H0.
    match goal with
    | |- _pf_init (?k ?s1).2 = _ =>
        assert (Hk : preserves _pf_init k)
          by (preserves_with by_computation);
        now rewrite (Hk s1)
    end. }
  unfold runpf, bind at 1, get, try_except_LoadflowNotConverged.
  specialize (Hp (get_nb_active_bus s) s Hnb).
  destruct (runpf_try is_dc (get_nb_active_bus s) s) as [[b0|e] s1] eqn:E;
    simpl in Hp; [exact Hp|].
  destruct e; exact Hp.
Qed.

(** After a solve that returned, the next one starts from "dc": the mode
    "results" is never chosen, whether or not the number of active buses
    has changed. *)
Lemma runpf_twice_inits_dc (is_dc is_dc' b : bool) (s s1 : Backend F) :
  runpf is_dc s = (Ok b, s1) ->
  _pf_init (runpf is_dc' s1).2 = "dc".
Proof.
  intros H1. apply runpf_without_bus_count_inits_dc.
  exact (runpf_forgets_bus_count _ _ _ _ H1).
Qed.

(** ** C9: an invalid selector in an action *)

Lemma pp_bus_invalid_selector (self : Backend F) (sel b : Z) :
  sel <> 1 -> sel <> 2 -> sel <> -1 ->
  _pp_bus_from_grid2op_bus self sel b
    = Raise (BackendError "grid2op bus must be -1, 1 or 2").
Proof.
  intros H1 H2 H3. unfold _pp_bus_from_grid2op_bus.
  destruct (sel =? 1) eqn:E1; [lia|].
  destruct (sel =? 2) eqn:E2; [lia|].
  destruct (sel =? -1) eqn:E3; [lia|].
  reflexivity.
Qed.

Lemma for_each_app {A} (l1 l2 : list A) (body : A -> M unit) (s : Backend F) :
  for_each (l1 ++ l2) body s = bind (for_each l1 body) (fun _ => for_each l2 body) s.
Proof.
  revert s. induction l1 as [|x l1 IH]; intros s; simpl.
  - reflexivity.
  - unfold bind in *. destruct (body x s) as [[[]|e] s1]; [|reflexivity].
    apply IH.
Qed.

Lemma type_to_bus_set_cases (type_obj : Z) (mutator : Z -> Z -> Z -> M unit) :
  getitem _type_to_bus_set type_obj = Ok mutator ->
  mutator ∈ (_type_to_bus_set (F:=F)).
Proof.
  unfold getitem. destruct (py_index _ type_obj) as [k|]; [|discriminate].
  destruct (_type_to_bus_set !! k) eqn:E; [|discriminate].
  intros [= <-]. eapply list_elem_of_lookup_2. exact E.
Qed.

(** No mutator writes the static tables. *)
Lemma apply_action_topo_one_tables (pair : Z * Z) :
  preserves (@tables F) (apply_action_topo_one pair).
Proof.
  destruct pair as [id_el new_bus]. intros s. unfold apply_action_topo_one.
  rewrite bind_get. unfold bind at 1, lift at 1.
  destruct (getitem (_big_topo_to_backend (tables s)) id_el)
    as [[[id_el_backend id_topo] type_obj]|e]; [|reflexivity].
  unfold bind at 1, lift at 1.
  destruct (getitem _type_to_bus_set type_obj) as [m|e] eqn:E; [|reflexivity].
  apply type_to_bus_set_cases in E. unfold _type_to_bus_set in E.
  repeat (apply elem_of_cons in E as [-> | E]);
    [ .. | now apply elem_of_nil in E ];
    cbv beta delta [_apply_load_bus _apply_gen_bus _apply_lor_bus _apply_trafo_hv
                    _apply_lex_bus _apply_trafo_lv];
    match goal with
    | |- tables (?m ?s).2 = _ =>
        assert (Hp : preserves (@tables F) m)
          by (unfold change_bus_powerline_or, change_bus_powerline_ex,
                     change_bus_trafo_hv, change_bus_trafo_lv;
              preserves_with by_computation);
        apply Hp
    end.
Qed.

Lemma apply_action_prefix_tables (act : Action F) (s sa s0 : Backend F) :
  apply_action_injection act s = (Ok tt, sa) ->
  apply_action_shunts act sa = (Ok tt, s0) ->
  tables s0 = tables s.
Proof.
  intros Hi Hs.
  assert (Pi : preserves (@tables F) (apply_action_injection act))
    by (unfold apply_action_injection; preserves_with by_computation).
  assert (Ps : preserves (@tables F) (apply_action_shunts act))
    by (unfold apply_action_shunts; preserves_with by_computation).
  specialize (Pi s). specialize (Ps sa). rewrite Hi in Pi. rewrite Hs in Ps.
  simpl in *. congruence.
Qed.

(** The mutator of a valid slot raises on an invalid selector before it
    writes anything. *)
Lemma apply_action_topo_one_invalid (s : Backend F) (slot sel : Z)
    (id_el_backend id_topo type_obj init : Z) :
  sel <> 1 -> sel <> 2 -> sel <> -1 ->
  getitem (_big_topo_to_backend (tables s)) slot = Ok (id_el_backend, id_topo, type_obj) ->
  0 <= type_obj < 6 ->
  getitem (init_bus_table (tables s) type_obj) id_el_backend = Ok init ->
  apply_action_topo_one (slot, sel) s
    = (Raise (BackendError "grid2op bus must be -1, 1 or 2"), s).
Proof.
  intros H1 H2 H3 Hentry Hty Hinit.
  unfold apply_action_topo_one. rewrite bind_get.
  unfold bind at 1, lift at 1. rewrite Hentry.
  assert (Hc : type_obj = 0 \/ type_obj = 1 \/ type_obj = 2 \/ type_obj = 3
               \/ type_obj = 4 \/ type_obj = 5) by lia.
  destruct Hc as [-> | [-> | [-> | [-> | [-> | ->]]]]];
    unfold init_bus_table in Hinit; simpl in Hinit;
    unfold bind at 1, lift at 1; simpl;
    cbv beta delta [_apply_load_bus _apply_gen_bus _apply_lor_bus _apply_trafo_hv
                    _apply_lex_bus _apply_trafo_lv];
    rewrite bind_get; unfold bind at 1, lift at 1; rewrite Hinit;
    unfold bind at 1, lift at 1;
    rewrite (pp_bus_invalid_selector s sel init H1 H2 H3); reflexivity.
Qed.

(** C9.  When [apply_action] reaches a pair whose slot designates an element
    and whose selector is none of -1, 1, 2, it raises the invalid-selector
    error ([BackendError]): the error reaches the caller, and the state is
    the one the preceding pairs left, so that nothing of the element has
    been written on behalf of this pair. *)
Theorem apply_action_invalid_selector (s sa s0 s1 : Backend F) (act : Action F)
    (pre post : list (Z * Z)) (slot sel id_el_backend id_topo type_obj init : Z) :
  topo__ act = pre ++ (slot, sel) :: post ->
  sel <> 1 -> sel <> 2 -> sel <> -1 ->
  apply_action_injection act s = (Ok tt, sa) ->
  apply_action_shunts act sa = (Ok tt, s0) ->
  for_each pre apply_action_topo_one s0 = (Ok tt, s1) ->
  getitem (_big_topo_to_backend (tables s)) slot = Ok (id_el_backend, id_topo, type_obj) ->
  0 <= type_obj < 6 ->
  getitem (init_bus_table (tables s) type_obj) id_el_backend = Ok init ->
  apply_action (Some act) s
    = (Raise (BackendError "grid2op bus must be -1, 1 or 2"), s1).
Proof.
  intros Htopo H1 H2 H3 Hi Hs Hpre Hentry Hty Hinit.
  assert (Ht : tables s1 = tables s).
  { rewrite <- (apply_action_prefix_tables _ _ _ _ Hi Hs).
    assert (P : preserves (@tables F) (for_each pre apply_action_topo_one))
      by (apply preserves_for_each, apply_action_topo_one_tables).
    specialize (P s0). now rewrite Hpre in P. }
  unfold apply_action.
  rewrite (bind_Ok _ _ _ _ _ Hi), (bind_Ok _ _ _ _ _ Hs), Htopo.
  apply bind_Raise. rewrite for_each_app, (bind_Ok _ _ _ _ _ Hpre). simpl.
  apply bind_Raise.
  apply apply_action_topo_one_invalid with id_el_backend id_topo type_obj init;
    try assumption; now rewrite Ht.
Qed.

(** ** C10: disconnecting and reconnecting a load or a generator *)

Lemma iat_set_in_range {A} (l : list A) (i : Z) (f : A -> A) :
  0 <= i < Z.of_nat (length l) -> iat_set l i f = Ok (alter f (Z.to_nat i) l).
Proof. intros Hi. unfold iat_set. now rewrite py_index_in_range. Qed.

Lemma mask_set_length {R V} (rows l : list R) (ch : list bool) (vals : list V)
    (upd : R -> V -> R) :
  mask_set rows ch vals upd = Ok l -> length l = length rows.
Proof.
  unfold mask_set.
  destruct ((length ch =? length rows)%nat && (length ch =? length vals)%nat) eqn:E;
    [|discriminate].
  intros [= <-]. apply andb_true_iff in E as [E1 E2].
  apply Nat.eqb_eq in E1, E2.
  rewrite length_zip_with, length_zip. lia.
Qed.

Ltac table_shape_tac :=
  intros; unfold table_shape; simpl in *;
  repeat match goal with
         | H : (if ?c then _ else _) = Ok _ |- _ => destruct c; [|discriminate]
         | H : Ok _ = Ok _ |- _ => injection H as <-
         end;
  first [ reflexivity
        | match goal with
          | H : mask_set _ _ _ _ = Ok _ |- _ =>
              rewrite (mask_set_length _ _ _ _ _ H); reflexivity
          | H : iat_set _ _ _ = Ok _ |- _ =>
              rewrite (iat_set_length _ _ _ _ H); reflexivity
          | |- _ => rewrite length_map; reflexivity
          end ].

Lemma apply_action_prefix_shape (act : Action F) (s sa s0 : Backend F) :
  apply_action_injection act s = (Ok tt, sa) ->
  apply_action_shunts act sa = (Ok tt, s0) ->
  table_shape s0 = table_shape s.
Proof.
  intros Hi Hs.
  assert (Pi : preserves table_shape (apply_action_injection act))
    by (unfold apply_action_injection; preserves_with table_shape_tac).
  assert (Ps : preserves table_shape (apply_action_shunts act))
    by (unfold apply_action_shunts; preserves_with table_shape_tac).
  specialize (Pi s). specialize (Ps sa). rewrite Hi in Pi. rewrite Hs in Ps.
  simpl in *. congruence.
Qed.

Lemma for_each_total {A} (l : list A) (body : A -> M unit) :
  (forall x (s : Backend F), exists s', body x s = (Ok tt, s')) ->
  forall s, exists s', for_each l body s = (Ok tt, s').
Proof.
  intros Hb. induction l as [|x l IH]; intros s; simpl.
  - now exists s.
  - destruct (Hb x s) as (s1 & H1). rewrite (bind_Ok _ _ _ _ _ H1). apply IH.
Qed.

Lemma apply_action_active_bus_total (act : Action F) (s : Backend F) :
  exists s', apply_action_active_bus act s = (Ok tt, s') /\
    load (_grid s') = load (_grid s) /\ gen (_grid s') = gen (_grid s).
Proof.
  assert (Ht : exists s', apply_action_active_bus act s = (Ok tt, s')).
  { apply for_each_total. intros [i [b1 b2]] s1. eexists. reflexivity. }
  destruct Ht as (s' & Hs'). exists s'. split; [exact Hs'|].
  assert (P : preserves (fun s : Backend F => (load (_grid s), gen (_grid s)))
                        (apply_action_active_bus act)).
  { unfold apply_action_active_bus. preserves_with by_computation. }
  specialize (P s). rewrite Hs' in P. simpl in P. now inversion P.
Qed.

Lemma grid_iat_in_range {R} (tbl : Grid F -> list R) (set : list R -> Grid F -> Grid F)
    (i : Z) (f : R -> R) (s : Backend F) :
  0 <= i < Z.of_nat (length (tbl (_grid s))) ->
  grid_iat tbl set i f s
    = (Ok tt, set_grid (set (alter f (Z.to_nat i) (tbl (_grid s))) (_grid s)) s).
Proof.
  intros Hi. unfold grid_iat, update_table. now rewrite iat_set_in_range.
Qed.

Lemma lift_run {A} (r : result A) (s : Backend F) : lift r s = (r, s).
Proof. reflexivity. Qed.

Lemma apply_load_bus_set (s : Backend F) (sel i t home : Z) :
  getitem (_init_bus_load (tables s)) i = Ok home ->
  0 <= home ->
  0 <= i < Z.of_nat (length (load (_grid s))) ->
  sel = 1 \/ sel = -1 ->
  exists s', _apply_load_bus sel i t s = (Ok tt, s') /\
    (fun r => (load_bus r, load_in_service r)) <$> load (_grid s') !! Z.to_nat i
      = Some (if sel =? 1 then (home, true) else (-1, false)) /\
    table_shape s' = table_shape s.
Proof.
  intros Hinit Hhome Hi Hsel.
  destruct (lookup_lt_is_Some_2 (load (_grid s)) (Z.to_nat i)) as [r Hr]; [lia|].
  unfold _apply_load_bus. rewrite bind_get.
  rewrite (bind_Ok _ _ s s home) by (now rewrite lift_run, Hinit).
  destruct Hsel as [-> | ->].
  - rewrite (bind_Ok _ _ s s home) by reflexivity.
    replace (0 <=? home) with true by (symmetry; now apply Z.leb_le).
    rewrite (bind_Ok _ _ _ _ _ (grid_iat_in_range load set_load i _ s Hi)).
    rewrite grid_iat_in_range by (simpl; rewrite length_alter; exact Hi).
    eexists. split; [reflexivity|]. split.
    + simpl. rewrite !list_lookup_alter_eq, Hr. reflexivity.
    + unfold table_shape. simpl. now rewrite !length_alter.
  - rewrite (bind_Ok _ _ s s (-1)) by reflexivity.
    change (0 <=? -1) with false. cbv iota.
    rewrite (bind_Ok _ _ _ _ _ (grid_iat_in_range load set_load i _ s Hi)).
    rewrite grid_iat_in_range by (simpl; rewrite length_alter; exact Hi).
    eexists. split; [reflexivity|]. split.
    + simpl. rewrite !list_lookup_alter_eq, Hr. reflexivity.
    + unfold table_shape. simpl. now rewrite !length_alter.
Qed.

Lemma apply_gen_bus_set (s : Backend F) (sel i t home : Z) :
  getitem (_init_bus_gen (tables s)) i = Ok home ->
  0 <= home ->
  0 <= i < Z.of_nat (length (gen (_grid s))) ->
  _iref_slack (tables s) = None \/ (0 < length (ext_grid (_grid s)))%nat ->
  sel = 1 \/ sel = -1 ->
  exists s', _apply_gen_bus sel i t s = (Ok tt, s') /\
    (fun r => (gen_bus r, gen_in_service r)) <$> gen (_grid s') !! Z.to_nat i
      = Some (if sel =? 1 then (home, true) else (-1, false)) /\
    table_shape s' = table_shape s.
Proof.
  intros Hinit Hhome Hi Hext Hsel.
  destruct (lookup_lt_is_Some_2 (gen (_grid s)) (Z.to_nat i)) as [r Hr]; [lia|].
  unfold _apply_gen_bus. rewrite bind_get.
  rewrite (bind_Ok _ _ s s home) by (now rewrite lift_run, Hinit).
  destruct Hsel as [-> | ->].
  - rewrite (bind_Ok _ _ s s home) by reflexivity.
    replace (0 <=? home) with true by (symmetry; now apply Z.leb_le).
    rewrite (bind_Ok _ _ _ _ _ (grid_iat_in_range gen set_gen i _ s Hi)).
    erewrite bind_Ok
      by (apply grid_iat_in_range; simpl; rewrite length_alter; exact Hi).
    rewrite bind_get. cbn [tables set_grid _grid].
    destruct ((i =? _) && bool_decide (is_Some (_iref_slack (tables s)))) eqn:Eslack;
      cbn [when].
    + destruct Hext as [Hnone | Hext].
      { rewrite Hnone in Eslack. rewrite andb_comm in Eslack. discriminate. }
      rewrite grid_iat_in_range by (simpl; lia).
      eexists. split; [reflexivity|]. split.
      * simpl. rewrite !list_lookup_alter_eq, Hr. reflexivity.
      * unfold table_shape. simpl. now rewrite !length_alter.
    + eexists. split; [reflexivity|]. split.
      * simpl. rewrite !list_lookup_alter_eq, Hr. reflexivity.
      * unfold table_shape. simpl. now rewrite !length_alter.
  - rewrite (bind_Ok _ _ s s (-1)) by reflexivity.
    change (0 <=? -1) with false. cbv iota.
    rewrite (bind_Ok _ _ _ _ _ (grid_iat_in_range gen set_gen i _ s Hi)).
    rewrite grid_iat_in_range by (simpl; rewrite length_alter; exact Hi).
    eexists. split; [reflexivity|]. split.
    + simpl. rewrite !list_lookup_alter_eq, Hr. reflexivity.
    + unfold table_shape. simpl. now rewrite !length_alter.
Qed.

(** One pair on the slot of a load or of a generator, with selector 1 or -1. *)
Lemma apply_action_topo_one_set_bus (s : Backend F) (slot sel i t type_obj home : Z) :
  getitem (_big_topo_to_backend (tables s)) slot = Ok (i, t, type_obj) ->
  type_obj = 0 \/ type_obj = 1 ->
  getitem (init_bus_table (tables s) type_obj) i = Ok home ->
  0 <= home ->
  element_row_exists s type_obj i ->
  sel = 1 \/ sel = -1 ->
  exists s', apply_action_topo_one (slot, sel) s = (Ok tt, s') /\
    element_bus_state s' type_obj i
      = Some (if sel =? 1 then (home, true) else (-1, false)) /\
    table_shape s' = table_shape s.
Proof.
  intros Hentry Hty Hinit Hhome [Hi Hrow] Hsel.
  unfold apply_action_topo_one. rewrite bind_get.
  rewrite (bind_Ok _ _ s s (i, t, type_obj)) by (now rewrite lift_run, Hentry).
  unfold element_bus_state.
  destruct Hty as [-> | ->]; simpl in Hrow; unfold init_bus_table in Hinit; simpl in Hinit.
  - rewrite (bind_Ok _ _ s s _apply_load_bus) by reflexivity.
    now apply apply_load_bus_set.
  - rewrite (bind_Ok _ _ s s _apply_gen_bus) by reflexivity.
    destruct Hrow as [Hlt Hext]. now apply apply_gen_bus_set.
Qed.

(** An action whose bus changes are one pair on a load or generator slot. *)
Lemma apply_action_set_bus (s sa s0 : Backend F) (act : Action F)
    (slot sel i t type_obj home : Z) :
  topo__ act = [(slot, sel)] ->
  apply_action_injection act s = (Ok tt, sa) ->
  apply_action_shunts act sa = (Ok tt, s0) ->
  getitem (_big_topo_to_backend (tables s)) slot = Ok (i, t, type_obj) ->
  type_obj = 0 \/ type_obj = 1 ->
  getitem (init_bus_table (tables s) type_obj) i = Ok home ->
  0 <= home ->
  element_row_exists s type_obj i ->
  sel = 1 \/ sel = -1 ->
  exists s', apply_action (Some act) s = (Ok tt, s') /\
    element_bus_state s' type_obj i
      = Some (if sel =? 1 then (home, true) else (-1, false)) /\
    table_shape s' = table_shape s.
Proof.
  intros Htopo Hinj Hsh Hentry Hty Hinit Hhome Hrow Hsel.
  pose proof (apply_action_prefix_shape _ _ _ _ Hinj Hsh) as Hshape.
  assert (Htb : tables s0 = tables s) by (unfold table_shape in Hshape; congruence).
  assert (Hrow0 : element_row_exists s0 type_obj i).
  { unfold element_row_exists, table_shape in *.
    injection Hshape as -> -> -> ->. exact Hrow. }
  destruct (apply_action_topo_one_set_bus s0 slot sel i t type_obj home)
    as (s1 & H1 & Hst & Hsh1); try assumption; try (now rewrite Htb).
  destruct (apply_action_active_bus_total act s1) as (s2 & H2 & Hl & Hg).
  exists s2. split; [|split].
  - unfold apply_action.
    rewrite (bind_Ok _ _ _ _ _ Hinj), (bind_Ok _ _ _ _ _ Hsh), Htopo. simpl.
    rewrite (bind_Ok _ _ s0 s1 tt)
      by (now rewrite (bind_Ok _ _ _ _ _ H1)).
    exact H2.
  - unfold element_bus_state in *. now rewrite Hl, Hg.
  - assert (P : preserves table_shape (apply_action_active_bus act))
      by (unfold apply_action_active_bus; preserves_with table_shape_tac).
    specialize (P s1). rewrite H2 in P. simpl in P. congruence.
Qed.

(** C10.  For a load or a generator whose home bus is a valid bus row: an
    action that sets its slot to -1 leaves the row out of service with bus
    -1, and a following action that sets the slot to 1 puts the bus column
    back to the load-time home bus and the row back in service.  The home
    bus comes from the load-time table, not from the current bus column. *)
Theorem apply_action_disconnect_reconnect (s sa s0 : Backend F) (act1 act2 : Action F)
    (slot i t type_obj home : Z) :
  topo__ act1 = [(slot, -1)] ->
  topo__ act2 = [(slot, 1)] ->
  apply_action_injection act1 s = (Ok tt, sa) ->
  apply_action_shunts act1 sa = (Ok tt, s0) ->
  getitem (_big_topo_to_backend (tables s)) slot = Ok (i, t, type_obj) ->
  type_obj = 0 \/ type_obj = 1 ->
  getitem (init_bus_table (tables s) type_obj) i = Ok home ->
  0 <= home ->
  element_row_exists s type_obj i ->
  exists s1, apply_action (Some act1) s = (Ok tt, s1) /\
    element_bus_state s1 type_obj i = Some (-1, false) /\
    forall sb s0',
      apply_action_injection act2 s1 = (Ok tt, sb) ->
      apply_action_shunts act2 sb = (Ok tt, s0') ->
      exists s2, apply_action (Some act2) s1 = (Ok tt, s2) /\
        element_bus_state s2 type_obj i = Some (home, true).
Proof.
  intros Ht1 Ht2 Hinj Hsh Hentry Hty Hinit Hhome Hrow.
  destruct (apply_action_set_bus s sa s0 act1 slot (-1) i t type_obj home)
    as (s1 & H1 & Hst1 & Hshape1); try assumption; [now right|].
  exists s1. split; [exact H1 | split; [exact Hst1|]].
  intros sb s0' Hinj2 Hsh2.
  assert (Htb : tables s1 = tables s) by (unfold table_shape in Hshape1; congruence).
  assert (Hrow1 : element_row_exists s1 type_obj i).
  { unfold element_row_exists, table_shape in *.
    injection Hshape1 as -> -> -> ->. exact Hrow. }
  destruct (apply_action_set_bus s1 sb s0' act2 slot 1 i t type_obj home)
    as (s2 & H2 & Hst2 & _); try assumption; try (now rewrite Htb); [now left|].
  exists s2. split; [exact H2 | exact Hst2].
Qed.

(** ** C2: decoding the topology vector *)

Lemma getitem_nat {A} (l : list A) (j : nat) (x : A) :
  getitem l (Z.of_nat j) = Ok x -> l !! j = Some x.
Proof.
  intros Hg. apply getitem_nonneg in Hg; [|lia]. now rewrite Nat2Z.id in Hg.
Qed.

Lemma decode_bus_spec (bus_id : Z) (subid : list Z) (j : nat) (v : Z) :
  decode_bus bus_id subid (Z.of_nat j) = Ok v ->
  exists sub, subid !! j = Some sub /\ v = if bus_id =? sub then 1 else 2.
Proof.
  unfold decode_bus.
  destruct (getitem subid (Z.of_nat j)) as [sub|] eqn:E; simpl; [|discriminate].
  intros [= <-]. exists sub. split; [now apply getitem_nat | reflexivity].
Qed.

Lemma topo_set_spec (res res1 pos : list Z) (j : nat) (v : Z) :
  Forall (fun p => 0 <= p) pos ->
  topo_set res pos (Z.of_nat j) v = Ok res1 ->
  exists p, pos !! j = Some p /\ (Z.to_nat p < length res)%nat /\
            res1 = <[Z.to_nat p := v]> res.
Proof.
  intros Hpos. unfold topo_set.
  destruct (getitem pos (Z.of_nat j)) as [p|] eqn:E; simpl; [|discriminate].
  apply getitem_nat in E. intros Hs.
  assert (Hp : 0 <= p) by (eapply Forall_lookup_1 in Hpos; eauto).
  destruct (setitem_nonneg _ _ _ _ Hp Hs) as [-> Hlt].
  exists p. auto.
Qed.

(** Slots of one table are written once; slots of two tables never meet. *)
Lemma slot_same_table (pos : list Z) (i j : nat) (p q : Z) :
  NoDup pos -> Forall (fun p => 0 <= p) pos ->
  pos !! i = Some p -> pos !! j = Some q -> i <> j -> Z.to_nat p <> Z.to_nat q.
Proof.
  intros Hnd Hpos Hp Hq Hij Heq.
  assert (0 <= p) by (eapply Forall_lookup_1 in Hpos; eauto).
  assert (0 <= q) by (eapply Forall_lookup_1 in Hpos; eauto).
  assert (p = q) by lia. subst q.
  apply Hij. eapply NoDup_lookup; eauto.
Qed.

Lemma slot_two_tables (pos1 pos2 : list Z) (i j : nat) (p q : Z) :
  NoDup (pos1 ++ pos2) ->
  Forall (fun p => 0 <= p) pos1 -> Forall (fun p => 0 <= p) pos2 ->
  pos1 !! i = Some p -> pos2 !! j = Some q -> Z.to_nat p <> Z.to_nat q.
Proof.
  intros Hnd H1 H2 Hp Hq Heq.
  assert (0 <= p) by (eapply Forall_lookup_1 in H1; eauto).
  assert (0 <= q) by (eapply Forall_lookup_1 in H2; eauto).
  assert (p = q) by lia. subst q.
  apply NoDup_app in Hnd as (_ & Hdis & _).
  apply (Hdis p); eapply list_elem_of_lookup_2; eauto.
Qed.

(** The loop over the generators or the loads. *)
Lemma get_topo_vect_injections_spec (subid pos : list Z) (buses : list Z) :
  Forall (fun p => 0 <= p) pos ->
  forall (i : nat) (res res' : list Z),
  _get_topo_vect_injections subid pos buses (Z.of_nat i) res = Ok res' ->
  length res' = length res /\
  (forall q : nat,
     (forall k p, (i <= k)%nat -> pos !! k = Some p -> Z.to_nat p <> q) ->
     res' !! q = res !! q) /\
  (NoDup pos ->
   forall k bus_id, buses !! k = Some bus_id ->
     exists p sub, pos !! (i + k)%nat = Some p /\ subid !! (i + k)%nat = Some sub /\
       res' !! Z.to_nat p = Some (if bus_id =? sub then 1 else 2)).
Proof.
  intros Hpos. induction buses as [|b buses IH]; intros i res res' Hrun.
  - simpl in Hrun. injection Hrun as <-. repeat split.
    intros _ k bus_id Hk. now rewrite lookup_nil in Hk.
  - simpl in Hrun.
    destruct (decode_bus b subid (Z.of_nat i)) as [v|] eqn:Ed; simpl in Hrun; [|discriminate].
    destruct (topo_set res pos (Z.of_nat i) v) as [res1|] eqn:Es; simpl in Hrun; [|discriminate].
    destruct (decode_bus_spec _ _ _ _ Ed) as (sub & Hsub & ->).
    destruct (topo_set_spec _ _ _ _ _ Hpos Es) as (p & Hp & Hlt & ->).
    replace (Z.of_nat i + 1) with (Z.of_nat (S i)) in Hrun by lia.
    destruct (IH _ _ _ Hrun) as (Hlen & Hframe & Hspec).
    split; [|split].
    + rewrite Hlen. apply length_insert.
    + intros q Hq. rewrite Hframe.
      * apply list_lookup_insert_ne. apply (Hq i p); [lia | exact Hp].
      * intros k p' Hk Hp'. apply (Hq k p'); [lia | exact Hp'].
    + intros Hnd k bus_id Hk. destruct k as [|k]; simpl in Hk.
      * injection Hk as <-. exists p, sub. rewrite Nat.add_0_r.
        split; [exact Hp | split; [exact Hsub|]].
        rewrite Hframe.
        -- now apply list_lookup_insert_eq.
        -- intros k p' Hk Hp'.
           apply (slot_same_table pos k i p' p); try assumption. lia.
      * destruct (Hspec Hnd k bus_id Hk) as (p' & sub' & Hp' & Hsub' & Hres).
        exists p', sub'. replace (i + S k)%nat with (S i + k)%nat by lia. auto.
Qed.

(** One iteration of the loop over the branches, as two writes. *)
Lemma get_topo_vect_branch_step (self : Backend F) (status : bool)
    (bus_or_id bus_ex_id : Z) (j : nat) (res res1 : list Z) :
  Forall (fun p => 0 <= p) (line_or_pos_topo_vect (tables self)) ->
  Forall (fun p => 0 <= p) (line_ex_pos_topo_vect (tables self)) ->
  (if status then
     let? sel_or := decode_bus bus_or_id (line_or_to_subid (tables self)) (Z.of_nat j) in
     let? r := topo_set res (line_or_pos_topo_vect (tables self)) (Z.of_nat j) sel_or in
     let? sel_ex := decode_bus bus_ex_id (line_ex_to_subid (tables self)) (Z.of_nat j) in
     topo_set r (line_ex_pos_topo_vect (tables self)) (Z.of_nat j) sel_ex
   else
     let? r := topo_set res (line_or_pos_topo_vect (tables self)) (Z.of_nat j) (-1) in
     topo_set r (line_ex_pos_topo_vect (tables self)) (Z.of_nat j) (-1)) = Ok res1 ->
  exists p_or p_ex sel_or sel_ex,
    line_or_pos_topo_vect (tables self) !! j = Some p_or /\
    line_ex_pos_topo_vect (tables self) !! j = Some p_ex /\
    branch_sel status bus_or_id (line_or_to_subid (tables self)) j = Some sel_or /\
    branch_sel status bus_ex_id (line_ex_to_subid (tables self)) j = Some sel_ex /\
    (Z.to_nat p_or < length res)%nat /\ (Z.to_nat p_ex < length res)%nat /\
    res1 = <[Z.to_nat p_ex := sel_ex]> (<[Z.to_nat p_or := sel_or]> res).
Proof.
  intros Hor Hex Hrun. destruct status.
  - destruct (decode_bus bus_or_id _ _) as [sel_or|] eqn:E1; simpl in Hrun; [|discriminate].
    destruct (topo_set res _ _ sel_or) as [r|] eqn:E2; simpl in Hrun; [|discriminate].
    destruct (decode_bus bus_ex_id _ _) as [sel_ex|] eqn:E3; simpl in Hrun; [|discriminate].
    destruct (decode_bus_spec _ _ _ _ E1) as (sub_or & Hsor & ->).
    destruct (decode_bus_spec _ _ _ _ E3) as (sub_ex & Hsex & ->).
    destruct (topo_set_spec _ _ _ _ _ Hor E2) as (p_or & Hpor & Hlt1 & ->).
    destruct (topo_set_spec _ _ _ _ _ Hex Hrun) as (p_ex & Hpex & Hlt2 & ->).
    rewrite length_insert in Hlt2.
    exists p_or, p_ex. do 2 eexists.
    unfold branch_sel. rewrite Hsor, Hsex. simpl. repeat split; assumption.
  - destruct (topo_set res _ _ (-1)) as [r|] eqn:E2; simpl in Hrun; [|discriminate].
    destruct (topo_set_spec _ _ _ _ _ Hor E2) as (p_or & Hpor & Hlt1 & ->).
    destruct (topo_set_spec _ _ _ _ _ Hex Hrun) as (p_ex & Hpex & Hlt2 & ->).
    rewrite length_insert in Hlt2.
    exists p_or, p_ex, (-1), (-1). repeat split; assumption.
Qed.

(** The loop over the lines or the transformers. *)
Lemma get_topo_vect_branches_spec (self : Backend F) (ls : list bool)
    (rows : list (Z * Z)) :
  Forall (fun p => 0 <= p) (line_or_pos_topo_vect (tables self)) ->
  Forall (fun p => 0 <= p) (line_ex_pos_topo_vect (tables self)) ->
  forall (j : nat) (res res' : list Z),
  _get_topo_vect_branches self ls rows (Z.of_nat j) res = Ok res' ->
  length res' = length res /\
  (forall q : nat,
     (forall k p, (j <= k)%nat ->
        line_or_pos_topo_vect (tables self) !! k = Some p -> Z.to_nat p <> q) ->
     (forall k p, (j <= k)%nat ->
        line_ex_pos_topo_vect (tables self) !! k = Some p -> Z.to_nat p <> q) ->
     res' !! q = res !! q) /\
  (NoDup (line_or_pos_topo_vect (tables self) ++ line_ex_pos_topo_vect (tables self)) ->
   forall k bus_or_id bus_ex_id, rows !! k = Some (bus_or_id, bus_ex_id) ->
     exists status p_or p_ex sel_or sel_ex,
       ls !! (j + k)%nat = Some status /\
       line_or_pos_topo_vect (tables self) !! (j + k)%nat = Some p_or /\
       line_ex_pos_topo_vect (tables self) !! (j + k)%nat = Some p_ex /\
       branch_sel status bus_or_id (line_or_to_subid (tables self)) (j + k) = Some sel_or /\
       branch_sel status bus_ex_id (line_ex_to_subid (tables self)) (j + k) = Some sel_ex /\
       res' !! Z.to_nat p_or = Some sel_or /\
       res' !! Z.to_nat p_ex = Some sel_ex).
Proof.
  intros Hor Hex. induction rows as [|[bo be] rows IH]; intros j res res' Hrun.
  - simpl in Hrun. injection Hrun as <-. repeat split.
    intros _ k ? ? Hk. now rewrite lookup_nil in Hk.
  - simpl in Hrun.
    destruct (getitem ls (Z.of_nat j)) as [status|] eqn:Est; simpl in Hrun; [|discriminate].
    apply getitem_nat in Est.
    match type of Hrun with
    | rbind ?step _ = _ => destruct step as [res1|] eqn:Estep; simpl in Hrun; [|discriminate]
    end.
    destruct (get_topo_vect_branch_step _ _ _ _ _ _ _ Hor Hex Estep)
      as (p_or & p_ex & sel_or & sel_ex & Hpor & Hpex & Hsor & Hsex & Hlt1 & Hlt2 & ->).
    replace (Z.of_nat j + 1) with (Z.of_nat (S j)) in Hrun by lia.
    destruct (IH _ _ _ Hrun) as (Hlen & Hframe & Hspec).
    split; [|split].
    + rewrite Hlen, !length_insert. reflexivity.
    + intros q Hq1 Hq2. rewrite Hframe.
      * rewrite list_lookup_insert_ne by (apply (Hq2 j p_ex); [lia | exact Hpex]).
        apply list_lookup_insert_ne. apply (Hq1 j p_or); [lia | exact Hpor].
      * intros k p' Hk Hp'. apply (Hq1 k p'); [lia | exact Hp'].
      * intros k p' Hk Hp'. apply (Hq2 k p'); [lia | exact Hp'].
    + intros Hnd k bus_or_id bus_ex_id Hk. destruct k as [|k]; simpl in Hk.
      * injection Hk as <- <-. rewrite Nat.add_0_r.
        exists status, p_or, p_ex, sel_or, sel_ex.
        assert (Hnd1 : NoDup (line_or_pos_topo_vect (tables self)))
          by (now apply NoDup_app in Hnd as (? & _ & _)).
        assert (Hnd2 : NoDup (line_ex_pos_topo_vect (tables self)))
          by (now apply NoDup_app in Hnd as (_ & _ & ?)).
        assert (Hne : Z.to_nat p_or <> Z.to_nat p_ex)
          by (eapply slot_two_tables; eauto).
        repeat split; try assumption.
        -- rewrite Hframe.
           ++ rewrite list_lookup_insert_ne by auto.
              now apply list_lookup_insert_eq.
           ++ intros k p' Hk Hp'.
              apply (slot_same_table _ k j p' p_or Hnd1 Hor Hp' Hpor). lia.
           ++ intros k p' Hk Hp' Heq.
              apply (slot_two_tables _ _ j k p_or p' Hnd Hor Hex Hpor Hp'). lia.
        -- rewrite Hframe.
           ++ apply list_lookup_insert_eq. now rewrite length_insert.
           ++ intros k p' Hk Hp' Heq.
              apply (slot_two_tables _ _ k j p' p_ex Hnd Hor Hex Hp' Hpex). lia.
           ++ intros k p' Hk Hp'.
              apply (slot_same_table _ k j p' p_ex Hnd2 Hex Hp' Hpex). lia.
      * destruct (Hspec Hnd k _ _ Hk)
          as (st & q_or & q_ex & s_or & s_ex & H1 & H2 & H3 & H4 & H5 & H6 & H7).
        exists st, q_or, q_ex, s_or, s_ex.
        replace (j + S k)%nat with (S j + k)%nat by lia. repeat split; assumption.
Qed.

Section Slots.
Variable tb : Tables F.
Hypothesis Hwf : slots_wf tb.

Lemma slots_line_or (k : nat) (p : Z) :
  line_or_pos_topo_vect tb !! k = Some p -> all_slots tb !! k = Some p.
Proof. intros Hp. unfold all_slots. now apply lookup_app_l_Some. Qed.

Lemma slots_line_ex (k : nat) (p : Z) :
  line_ex_pos_topo_vect tb !! k = Some p ->
  all_slots tb !! (length (line_or_pos_topo_vect tb) + k)%nat = Some p.
Proof.
  intros Hp. unfold all_slots.
  rewrite lookup_app_r by lia.
  replace (length (line_or_pos_topo_vect tb) + k - length (line_or_pos_topo_vect tb))%nat
    with k by lia.
  now apply lookup_app_l_Some.
Qed.

Lemma slots_gen (k : nat) (p : Z) :
  gen_pos_topo_vect tb !! k = Some p ->
  all_slots tb !! (length (line_or_pos_topo_vect tb)
                   + length (line_ex_pos_topo_vect tb) + k)%nat = Some p.
Proof.
  intros Hp. unfold all_slots.
  rewrite lookup_app_r by lia. rewrite lookup_app_r by lia.
  match goal with |- _ !! ?n = _ => replace n with k by lia end.
  now apply lookup_app_l_Some.
Qed.

Lemma slots_load (k : nat) (p : Z) :
  load_pos_topo_vect tb !! k = Some p ->
  all_slots tb !! (length (line_or_pos_topo_vect tb)
                   + length (line_ex_pos_topo_vect tb)
                   + length (gen_pos_topo_vect tb) + k)%nat = Some p.
Proof.
  intros Hp. unfold all_slots.
  rewrite lookup_app_r by lia. rewrite lookup_app_r by lia. rewrite lookup_app_r by lia.
  match goal with |- _ !! ?n = _ => replace n with k by lia end.
  exact Hp.
Qed.

(** Two entries of the slot tables at different places are different slots. *)
Lemma slots_apart (a b : nat) (p q : Z) :
  all_slots tb !! a = Some p -> all_slots tb !! b = Some q -> a <> b ->
  Z.to_nat p <> Z.to_nat q.
Proof.
  destruct Hwf as [Hpos Hnd]. intros Hp Hq Hab.
  exact (slot_same_table _ a b p q Hnd Hpos Hp Hq Hab).
Qed.

Lemma slots_nonneg :
  Forall (fun p => 0 <= p) (line_or_pos_topo_vect tb) /\
  Forall (fun p => 0 <= p) (line_ex_pos_topo_vect tb) /\
  Forall (fun p => 0 <= p) (gen_pos_topo_vect tb) /\
  Forall (fun p => 0 <= p) (load_pos_topo_vect tb).
Proof.
  destruct Hwf as [Hpos _]. unfold all_slots in Hpos.
  apply Forall_app in Hpos as [H1 Hpos].
  apply Forall_app in Hpos as [H2 Hpos].
  apply Forall_app in Hpos as [H3 H4]. auto.
Qed.

Lemma slots_NoDup :
  NoDup (line_or_pos_topo_vect tb ++ line_ex_pos_topo_vect tb) /\
  NoDup (gen_pos_topo_vect tb) /\ NoDup (load_pos_topo_vect tb).
Proof.
  destruct Hwf as [_ Hnd]. unfold all_slots in Hnd.
  apply NoDup_app in Hnd as (N1 & D1 & Hnd).
  apply NoDup_app in Hnd as (N2 & D2 & Hnd).
  apply NoDup_app in Hnd as (N3 & D3 & N4).
  split; [|auto].
  apply NoDup_app. split; [exact N1 | split; [|exact N2]].
  intros x Hx Hx'. apply (D1 x Hx). apply elem_of_app. now left.
Qed.

End Slots.

Ltac slot_place :=
  first [ eapply slots_line_or; eassumption | eapply slots_line_ex; eassumption
        | eapply slots_gen; eassumption | eapply slots_load; eassumption ].

Ltac slots_apart_tac Hwf :=
  eapply (slots_apart _ Hwf);
  [ slot_place | slot_place
  | repeat match goal with
           | H : _ !! _ = Some _ |- _ => apply lookup_lt_Some in H
           end; lia ].

(** What [_get_topo_vect] returns, element by element. *)
Lemma get_topo_vect_spec (self : Backend F) (topo : list Z) :
  slots_wf (tables self) ->
  _number_true_line (tables self) = Z.of_nat (length (line (_grid self))) ->
  _get_topo_vect self = Ok topo ->
  length topo = dim_topo (tables self) /\
  (forall i r, line (_grid self) !! i = Some r ->
     exists status p_or p_ex sel_or sel_ex,
       line_status self !! i = Some status /\
       line_or_pos_topo_vect (tables self) !! i = Some p_or /\
       line_ex_pos_topo_vect (tables self) !! i = Some p_ex /\
       branch_sel status (from_bus r) (line_or_to_subid (tables self)) i = Some sel_or /\
       branch_sel status (to_bus r) (line_ex_to_subid (tables self)) i = Some sel_ex /\
       topo !! Z.to_nat p_or = Some sel_or /\ topo !! Z.to_nat p_ex = Some sel_ex) /\
  (forall i r, trafo (_grid self) !! i = Some r ->
     let j := (length (line (_grid self)) + i)%nat in
     exists status p_or p_ex sel_or sel_ex,
       line_status self !! j = Some status /\
       line_or_pos_topo_vect (tables self) !! j = Some p_or /\
       line_ex_pos_topo_vect (tables self) !! j = Some p_ex /\
       branch_sel status (hv_bus r) (line_or_to_subid (tables self)) j = Some sel_or /\
       branch_sel status (lv_bus r) (line_ex_to_subid (tables self)) j = Some sel_ex /\
       topo !! Z.to_nat p_or = Some sel_or /\ topo !! Z.to_nat p_ex = Some sel_ex) /\
  (forall i r, gen (_grid self) !! i = Some r ->
     exists p sub, gen_pos_topo_vect (tables self) !! i = Some p /\
       gen_to_subid (tables self) !! i = Some sub /\
       topo !! Z.to_nat p = Some (if gen_bus r =? sub then 1 else 2)) /\
  (forall i r, load (_grid self) !! i = Some r ->
     exists p sub, load_pos_topo_vect (tables self) !! i = Some p /\
       load_to_subid (tables self) !! i = Some sub /\
       topo !! Z.to_nat p = Some (if load_bus r =? sub then 1 else 2)).
Proof.
  intros Hwf Hnl Hrun. unfold _get_topo_vect, get_line_status in Hrun.
  destruct (slots_nonneg _ Hwf) as (Por & Pex & Pgen & Pload).
  destruct (slots_NoDup _ Hwf) as (Nbr & Ngen & Nload).
  rewrite Hnl in Hrun.
  destruct (_get_topo_vect_branches self _ _ 0 _) as [res1|] eqn:E1;
    simpl in Hrun; [|discriminate].
  destruct (_get_topo_vect_branches self _ _ _ res1) as [res2|] eqn:E2;
    simpl in Hrun; [|discriminate].
  destruct (_get_topo_vect_injections _ _ _ 0 res2) as [res3|] eqn:E3;
    simpl in Hrun; [|discriminate].
  rename Hrun into E4.
  change 0 with (Z.of_nat 0) in E1, E3, E4.
  destruct (get_topo_vect_branches_spec _ _ _ Por Pex _ _ _ E1) as (L1 & _ & S1).
  destruct (get_topo_vect_branches_spec _ _ _ Por Pex _ _ _ E2) as (L2 & F2 & S2).
  destruct (get_topo_vect_injections_spec _ _ _ Pgen _ _ _ E3) as (L3 & F3 & S3).
  destruct (get_topo_vect_injections_spec _ _ _ Pload _ _ _ E4) as (L4 & F4 & S4).
  split; [|split; [|split; [|split]]].
  - rewrite L4, L3, L2, L1. apply length_replicate.
  - intros i r Hr.
    destruct (S1 Nbr i (from_bus r) (to_bus r))
      as (st & p_or & p_ex & s_or & s_ex & H1 & H2 & H3 & H4 & H5 & H6 & H7).
    { rewrite list_lookup_fmap, Hr. reflexivity. }
    simpl in *. exists st, p_or, p_ex, s_or, s_ex.
    assert (Hi : (i < length (line (_grid self)))%nat) by (now apply lookup_lt_Some in Hr).
    repeat split; try assumption.
    + rewrite F4, F3, F2; [exact H6 | | | |];
        intros k p' Hk Hp'; slots_apart_tac Hwf.
    + rewrite F4, F3, F2; [exact H7 | | | |];
        intros k p' Hk Hp'; slots_apart_tac Hwf.
  - intros i r Hr j. subst j.
    destruct (S2 Nbr i (hv_bus r) (lv_bus r))
      as (st & p_or & p_ex & s_or & s_ex & H1 & H2 & H3 & H4 & H5 & H6 & H7).
    { rewrite list_lookup_fmap, Hr. reflexivity. }
    exists st, p_or, p_ex, s_or, s_ex.
    repeat split; try assumption.
    + rewrite F4, F3; [exact H6 | |]; intros k p' Hk Hp'; slots_apart_tac Hwf.
    + rewrite F4, F3; [exact H7 | |]; intros k p' Hk Hp'; slots_apart_tac Hwf.
  - intros i r Hr.
    destruct (S3 Ngen i (gen_bus r)) as (p & sub & H1 & H2 & H3).
    { rewrite list_lookup_fmap, Hr. reflexivity. }
    simpl in *. exists p, sub. repeat split; try assumption.
    rewrite F4; [exact H3|]. intros k p' Hk Hp'; slots_apart_tac Hwf.
  - intros i r Hr.
    destruct (S4 Nload i (load_bus r)) as (p & sub & H1 & H2 & H3).
    { rewrite list_lookup_fmap, Hr. reflexivity. }
    simpl in *. exists p, sub. repeat split; assumption.
Qed.

(** Taking apart a run of the [try] of [runpf] that returned. *)

Ltac peel_all H := repeat peel H.

Ltac run_facts :=
  repeat match goal with
         | H : get _ = (Ok _, _) |- _ => unfold get in H; injection H as ? ?; subst
         | H : ret _ _ = (Ok _, _) |- _ => unfold ret in H; injection H as ? ?; subst
         | H : lift _ _ = (Ok _, _) |- _ => unfold lift in H; injection H as H ?; subst
         | H : modify _ _ = (Ok _, _) |- _ => unfold modify in H; injection H as ? ?; subst
         end.

Ltac keep_all obs :=
  repeat match goal with
         | Hs : ?m ?s0 = (Ok ?a, ?s1) |- _ =>
             is_var s1;
             let P := fresh "P" in
             assert (P : preserves obs m) by (preserves_with by_computation);
             specialize (P s0); rewrite Hs in P; cbn [snd] in P; clear Hs
         end.

Lemma runpf_try_Ok_inv (is_dc b : bool) (nb_bus : Z) (s s' : Backend F) :
  runpf_try is_dc nb_bus s = (Ok b, s') ->
  existsb negb (map load_in_service (load (_grid s))) = false /\
  existsb negb (map gen_in_service (gen (_grid s))) = false /\
  exists sN ls topo topo',
    assign_all (line_status s) (_get_line_status s) = Ok ls /\
    decode_inputs sN
      = (tables s, line (_grid s), trafo (_grid s), gen (_grid s), load (_grid s),
         _topo_vect s, ls) /\
    _get_topo_vect sN = Ok topo /\
    assign_all (_topo_vect sN) topo = Ok topo' /\
    s' = set_topo_vect topo' sN.
Proof.
  intros H. unfold runpf_try in H. peel_all H. run_facts.
  repeat match goal with
         | Hw : when ?c (raise _) _ = (Ok _, _) |- _ =>
             destruct c eqn:?; [discriminate Hw | cbn [when] in Hw]
         end.
  run_facts.
  split; [reflexivity | split; [reflexivity|]].
  keep_all (@decode_inputs F).
  unfold decode_inputs in *. simpl in *.
  match goal with
  | Ht : _get_topo_vect ?sN = Ok ?topo,
    Ha : assign_all (_topo_vect ?sN) ?topo = Ok ?topo',
    Hl : assign_all (line_status ?sl) (_get_line_status ?sl) = Ok ?ls
    |- exists _ _ _ _, assign_all (line_status ?s) _ = _ /\ _ =>
      exists sN, ls, topo, topo';
      assert (Hls : line_status sl = line_status s) by congruence;
      assert (Hgl : _get_line_status sl = _get_line_status s)
        by (unfold _get_line_status; congruence);
      rewrite Hls, Hgl in Hl
  end.
  repeat split; try assumption; try reflexivity.
  congruence.
Qed.

Lemma branch_sel_cases (status : bool) (cur sub nbb sel : Z) (subid : list Z) (k : nat) :
  nbb <> 0 ->
  branch_sel status cur subid k = Some sel ->
  subid !! k = Some sub ->
  (status = false -> sel = -1) /\
  (status = true -> cur = sub -> sel = 1) /\
  (status = true -> cur = sub + nbb -> sel = 2).
Proof.
  intros Hnbb Hsel Hsub. unfold branch_sel in Hsel. rewrite Hsub in Hsel.
  destruct status; simpl in Hsel; injection Hsel as <-.
  - split; [discriminate|]. split; intros _ ->.
    + now rewrite Z.eqb_refl.
    + destruct (sub + nbb =? sub) eqn:E; [lia | reflexivity].
  - split; [reflexivity|]. split; discriminate.
Qed.

Lemma all_in_service {R} (in_service : R -> bool) (rows : list R) (i : nat) (r : R) :
  existsb negb (map in_service rows) = false ->
  rows !! i = Some r -> in_service r = true.
Proof.
  intros Hall Hr. destruct (in_service r) eqn:E; [reflexivity|].
  exfalso. apply not_true_iff_false in Hall. apply Hall.
  apply existsb_exists. exists false. split; [|reflexivity].
  apply in_map_iff. exists r. split; [exact E|].
  apply list_elem_of_In. eapply list_elem_of_lookup_2. exact Hr.
Qed.

(** The decoding inside [runpf].  After a solve that went through, the
    topology vector holds, for each end of a line or transformer, -1 when
    the branch is out of service, else 1 when the end sits on the bus of
    its substation and 2 when it sits on the split bus; every generator and
    every load is in service there, the solve having passed the check of
    the isolated elements, and holds 1 on the bus of its substation and 2
    on the split bus. *)
Lemma runpf_decodes_topology (is_dc b : bool) (nb_bus : Z) (s s' : Backend F) :
  topo_wf s ->
  runpf_try is_dc nb_bus s = (Ok b, s') ->
  (forall i r, line (_grid s') !! i = Some r ->
     exists p_or p_ex,
       line_or_pos_topo_vect (tables s') !! i = Some p_or /\
       line_ex_pos_topo_vect (tables s') !! i = Some p_ex /\
       (forall sub, line_or_to_subid (tables s') !! i = Some sub ->
          decoded s' p_or (line_in_service r) (from_bus r) sub) /\
       (forall sub, line_ex_to_subid (tables s') !! i = Some sub ->
          decoded s' p_ex (line_in_service r) (to_bus r) sub)) /\
  (forall i r, trafo (_grid s') !! i = Some r ->
     let j := (length (line (_grid s')) + i)%nat in
     exists p_or p_ex,
       line_or_pos_topo_vect (tables s') !! j = Some p_or /\
       line_ex_pos_topo_vect (tables s') !! j = Some p_ex /\
       (forall sub, line_or_to_subid (tables s') !! j = Some sub ->
          decoded s' p_or (trafo_in_service r) (hv_bus r) sub) /\
       (forall sub, line_ex_to_subid (tables s') !! j = Some sub ->
          decoded s' p_ex (trafo_in_service r) (lv_bus r) sub)) /\
  (forall i r, gen (_grid s') !! i = Some r ->
     gen_in_service r = true /\
     exists p, gen_pos_topo_vect (tables s') !! i = Some p /\
       forall sub, gen_to_subid (tables s') !! i = Some sub ->
         decoded s' p (gen_in_service r) (gen_bus r) sub) /\
  (forall i r, load (_grid s') !! i = Some r ->
     load_in_service r = true /\
     exists p, load_pos_topo_vect (tables s') !! i = Some p /\
       forall sub, load_to_subid (tables s') !! i = Some sub ->
         decoded s' p (load_in_service r) (load_bus r) sub).
Proof.
  intros (Hslots & Hnl & Hlt & Hlls & Hnbb) Hrun.
  destruct (runpf_try_Ok_inv _ _ _ _ _ Hrun)
    as (Hloads & Hgens & sN & ls & topo & topo' & Hls & Hin & Htopo & Hassign & ->).
  unfold decode_inputs in Hin.
  injection Hin as Htb Hline Htrafo Hgen Hload Htv Hstatus.
  apply assign_all_same_length in Hls;
    [|unfold _get_line_status; rewrite length_app, !length_map; lia].
  subst ls.
  destruct (get_topo_vect_spec sN topo) as (Hlen & Slines & Strafos & Sgens & Sloads);
    [now rewrite Htb | now rewrite Htb, Hline | exact Htopo |].
  apply assign_all_same_length in Hassign; [|rewrite Hlen, Htv, Htb; lia].
  subst topo'. unfold decoded. simpl.
  rewrite Htb in *. rewrite Hline, Htrafo, Hgen, Hload in *.
  split; [|split; [|split]].
  - intros i r Hr.
    destruct (Slines i r Hr)
      as (st & p_or & p_ex & s_or & s_ex & H1 & H2 & H3 & H4 & H5 & H6 & H7).
    rewrite Hstatus in H1. unfold _get_line_status in H1.
    rewrite lookup_app_l in H1 by (rewrite length_map; now apply lookup_lt_Some in Hr).
    rewrite list_lookup_fmap, Hr in H1. injection H1 as <-.
    exists p_or, p_ex. split; [exact H2 | split; [exact H3|]].
    split; intros sub Hsub; eexists; (split; [eassumption|]);
      eapply branch_sel_cases; eassumption.
  - intros i r Hr. cbv zeta.
    pose proof (Strafos i r Hr) as St. cbv zeta in St.
    destruct St
      as (st & p_or & p_ex & s_or & s_ex & H1 & H2 & H3 & H4 & H5 & H6 & H7).
    rewrite Hstatus in H1. unfold _get_line_status in H1.
    rewrite lookup_app_r in H1 by (rewrite length_map; lia).
    rewrite length_map in H1.
    replace (length (line (_grid s)) + i - length (line (_grid s)))%nat with i in H1 by lia.
    rewrite list_lookup_fmap, Hr in H1. injection H1 as <-.
    exists p_or, p_ex. split; [exact H2 | split; [exact H3|]].
    split; intros sub Hsub; eexists; (split; [eassumption|]);
      eapply branch_sel_cases; eassumption.
  - intros i r Hr.
    pose proof (all_in_service _ _ _ _ Hgens Hr) as Hon.
    split; [exact Hon|].
    destruct (Sgens i r Hr) as (p & sub & H1 & H2 & H3).
    exists p. split; [exact H1|]. intros sub' Hsub'.
    rewrite H2 in Hsub'. injection Hsub' as <-.
    eexists. split; [exact H3|]. rewrite Hon.
    split; [discriminate|]. split; intros _ ->.
    + now rewrite Z.eqb_refl.
    + destruct (sub + _ =? sub) eqn:E; [lia | reflexivity].
  - intros i r Hr.
    pose proof (all_in_service _ _ _ _ Hloads Hr) as Hon.
    split; [exact Hon|].
    destruct (Sloads i r Hr) as (p & sub & H1 & H2 & H3).
    exists p. split; [exact H1|]. intros sub' Hsub'.
    rewrite H2 in Hsub'. injection Hsub' as <-.
    eexists. split; [exact H3|]. rewrite Hon.
    split; [discriminate|]. split; intros _ ->.
    + now rewrite Z.eqb_refl.
    + destruct (sub + _ =? sub) eqn:E; [lia | reflexivity].
Qed.


(** * Further properties *)

(** ** The solve orchestrator: what it leaves alone *)

(** X1.  [runpf] writes neither the static tables nor any element table of
    the network (buses, loads, generators, lines, transformers, shunts,
    external grid), whether it succeeds, reports a failure or raises. *)
Theorem runpf_keeps_element_tables (is_dc : bool) :
  preserves element_tables (runpf is_dc).
Proof.
  unfold runpf, runpf_try.
  preserves_with by_computation.
  apply preserves_try_except; preserves_with by_computation.
Qed.

Lemma runpf_try_calls_solver_once (is_dc : bool) (nb_bus : Z) (s : Backend F) :
  solver_calls (runpf_try is_dc nb_bus s).2
  = if existsb negb (map load_in_service (load (_grid s)))
       || existsb negb (map gen_in_service (gen (_grid s)))
    then solver_calls s
    else (if is_dc then rundcpp else runpp (_pf_init (runpf_pf_init_chosen nb_bus s)))
         :: solver_calls s.
Proof.
  unfold runpf_try. rewrite bind_get, bind_modify.
  fold (runpf_pf_init_chosen nb_bus s).
  destruct (existsb negb (map load_in_service (load (_grid s)))); [reflexivity|].
  destruct (existsb negb (map gen_in_service (gen (_grid s)))); [reflexivity|].
  cbn [orb].
  unfold when at 1 2. rewrite !(bind_Ok _ _ _ _ tt eq_refl).
  match goal with
  | |- solver_calls (bind ?call ?k _).2 = _ =>
      assert (Hk : forall u, preserves (@solver_calls F) (k u))
        by (intros u; preserves_with by_computation);
      assert (Hc : solver_calls (call (runpf_pf_init_chosen nb_bus s)).2
                   = (if is_dc then rundcpp
                      else runpp (_pf_init (runpf_pf_init_chosen nb_bus s)))
                     :: solver_calls s)
  end.
  { destruct is_dc.
    - unfold bind, call_solver, modify.
      destruct (run_solver rundcpp _) as [o [|]]; reflexivity.
    - rewrite bind_get. unfold call_solver.
      destruct (run_solver _ _) as [o [|]]; reflexivity. }
  unfold bind at 1.
  match type of Hc with
  | solver_calls (?m ?s0).2 = _ => destruct (m s0) as [[u|e] s1]
  end; simpl in Hc |- *.
  - now rewrite Hk.
  - exact Hc.
Qed.

(** X2.  One [runpf] calls the solver at most once, whether the solve then
    goes through, fails or raises: not at all when a load or a generator is
    out of service, and otherwise exactly once, with [rundcpp] in the
    direct-current case and in the alternating-current case with [runpp],
    started from "dc" when no bus count is remembered, from "results" when
    the remembered count is the current number of active buses, and from
    "auto" otherwise. *)
Theorem runpf_calls_solver_at_most_once (is_dc : bool) (s : Backend F) :
  solver_calls (runpf is_dc s).2
  = if existsb negb (map load_in_service (load (_grid s)))
       || existsb negb (map gen_in_service (gen (_grid s)))
    then solver_calls s
    else (if is_dc then rundcpp
          else runpp match _nb_bus_before s with
                     | None => "dc"
                     | Some before =>
                         if get_nb_active_bus s =? before then "results" else "auto"
                     end)
         :: solver_calls s.
Proof.
  unfold runpf. rewrite bind_get.
  unfold try_except_LoadflowNotConverged.
  pose proof (runpf_try_calls_solver_once is_dc (get_nb_active_bus s) s) as Hcalls.
  assert (Hs' : solver_calls
                  (match runpf_try is_dc (get_nb_active_bus s) s with
                   | (Raise (LoadflowNotConverged _), s1) =>
                       bind _reset_all_nan (fun _ => ret false) s1
                   | r => r
                   end).2
                = solver_calls (runpf_try is_dc (get_nb_active_bus s) s).2).
  { destruct (runpf_try is_dc (get_nb_active_bus s) s) as [[b|e] s1]; [reflexivity|].
    destruct e; reflexivity. }
  rewrite Hs', Hcalls. reflexivity.
Qed.

(** X3.  After a solve that went through, the cached line-status vector is
    the in-service column of the lines followed by that of the transformers
    (when the cache had one entry per branch before the solve). *)
Theorem runpf_refreshes_line_status (is_dc b : bool) (nb_bus : Z) (s s' : Backend F) :
  length (line_status s)
    = (length (line (_grid s)) + length (trafo (_grid s)))%nat ->
  runpf_try is_dc nb_bus s = (Ok b, s') ->
  line_status_coherent s'.
Proof.
  intros Hlen Hrun.
  destruct (runpf_try_Ok_inv _ _ _ _ _ Hrun)
    as (_ & _ & sN & ls & topo & topo' & Hls & Hin & _ & _ & ->).
  unfold decode_inputs in Hin. injection Hin as _ Hline Htrafo _ _ _ Hstatus.
  apply assign_all_same_length in Hls;
    [|unfold _get_line_status; rewrite length_app, !length_map; lia].
  unfold line_status_coherent, _get_line_status in *. simpl.
  rewrite Hstatus, Hline, Htrafo. exact Hls.
Qed.

(** ** Reset *)

Lemma preserves_update_topo_vect {X} (obs : Backend F -> X)
    (f : list Z -> result (list Z)) :
  (forall s v, f (_topo_vect s) = Ok v -> obs (set_topo_vect v s) = obs s) ->
  preserves obs (update_topo_vect f).
Proof.
  intros Hf s. unfold update_topo_vect.
  destruct (f (_topo_vect s)) eqn:E; simpl; [now apply Hf | reflexivity].
Qed.

Lemma preserves_update_line_status {X} (obs : Backend F -> X)
    (f : list bool -> result (list bool)) :
  (forall s v, f (line_status s) = Ok v -> obs (set_line_status v s) = obs s) ->
  preserves obs (update_line_status f).
Proof.
  intros Hf s. unfold update_line_status.
  destruct (f (line_status s)) eqn:E; simpl; [now apply Hf | reflexivity].
Qed.

(** No mutator writes anything outside the network. *)
Lemma apply_action_topo_one_outside_grid {X} (obs : Backend F -> X) (pair : Z * Z) :
  (forall s g, obs (set_grid g s) = obs s) ->
  preserves obs (apply_action_topo_one pair).
Proof.
  intros Hobs. destruct pair as [id_el new_bus]. intros s.
  unfold apply_action_topo_one.
  rewrite bind_get. unfold bind at 1, lift at 1.
  destruct (getitem (_big_topo_to_backend (tables s)) id_el)
    as [[[id_el_backend id_topo] type_obj]|e]; [|reflexivity].
  unfold bind at 1, lift at 1.
  destruct (getitem _type_to_bus_set type_obj) as [m|e] eqn:E; [|reflexivity].
  apply type_to_bus_set_cases in E. unfold _type_to_bus_set in E.
  repeat (apply elem_of_cons in E as [-> | E]);
    [ .. | now apply elem_of_nil in E ];
    cbv beta delta [_apply_load_bus _apply_gen_bus _apply_lor_bus _apply_trafo_hv
                    _apply_lex_bus _apply_trafo_lv];
    match goal with
    | |- obs (?m ?s).2 = _ =>
        assert (Hp : preserves obs m)
          by (unfold change_bus_powerline_or, change_bus_powerline_ex,
                     change_bus_trafo_hv, change_bus_trafo_lv;
              preserves_with ltac:(apply Hobs));
        apply Hp
    end.
Qed.

Lemma apply_action_outside_grid (backendAction : option (Action F)) :
  preserves outside_grid (apply_action backendAction).
Proof.
  destruct backendAction as [act|]; [|apply preserves_ret].
  unfold apply_action, apply_action_injection, apply_action_shunts,
         apply_action_active_bus.
  preserves_with by_computation.
  apply apply_action_topo_one_outside_grid. reflexivity.
Qed.

Lemma outside_grid_eq (s s1 : Backend F) :
  outside_grid s1 = outside_grid s -> s1 = set_grid (_grid s1) s.
Proof.
  destruct s, s1. unfold outside_grid. simpl. intros [= -> -> -> -> -> -> -> ->].
  reflexivity.
Qed.

Lemma reset_unfold (initial_grid : Grid F) (s : Backend F) :
  reset initial_grid s =
  bind _reset_all_nan
    (fun _ => self <- get ;;
              topo <- lift (_get_topo_vect self) ;;
              topo' <- lift (assign_all (_topo_vect self) topo) ;;
              modify (set_topo_vect topo') ;;;
              modify (set_comp_time (fconst 0)))
    (set_grid initial_grid s).
Proof. unfold reset. apply bind_modify. Qed.

(** X4.  A reset wipes out whatever actions were applied since: resetting
    after an [apply_action], whether the action went through or raised
    half-way, gives the same result and the same state as resetting
    before it. *)
Theorem reset_discards_applied_action (initial_grid : Grid F)
    (backendAction : option (Action F)) (s : Backend F) :
  reset initial_grid (apply_action backendAction s).2 = reset initial_grid s.
Proof.
  pose proof (apply_action_outside_grid backendAction s) as Hout.
  apply outside_grid_eq in Hout. rewrite Hout.
  rewrite !reset_unfold. reflexivity.
Qed.

(** X5.  A reset that returns puts the snapshot in place of the network,
    every published vector to NaN, the solve-time counter to zero, and
    calls no solver.  It keeps the cached line-status vector, and the
    topology vector it publishes is the decoding of the snapshot against
    that cached vector: an end of a line cached as out of service is
    published as -1 whatever the snapshot says, an end of a line cached as
    in service as 1 or 2 after the snapshot. *)
Theorem reset_spec (initial_grid : Grid F) (s s' : Backend F) :
  slots_wf (tables s) ->
  _number_true_line (tables s) = Z.of_nat (length (line initial_grid)) ->
  length (_topo_vect s) = dim_topo (tables s) ->
  reset initial_grid s = (Ok tt, s') ->
  _grid s' = initial_grid /\
  (forall a, vec s' a = replicate (length (vec s a)) NaN) /\
  comp_time s' = fconst 0 /\
  _nb_bus_before s' = None /\
  solver_calls s' = solver_calls s /\
  line_status s' = line_status s /\
  (forall i r, line initial_grid !! i = Some r ->
     exists status p_or p_ex sel_or sel_ex,
       line_status s !! i = Some status /\
       line_or_pos_topo_vect (tables s) !! i = Some p_or /\
       line_ex_pos_topo_vect (tables s) !! i = Some p_ex /\
       branch_sel status (from_bus r) (line_or_to_subid (tables s)) i = Some sel_or /\
       branch_sel status (to_bus r) (line_ex_to_subid (tables s)) i = Some sel_ex /\
       _topo_vect s' !! Z.to_nat p_or = Some sel_or /\
       _topo_vect s' !! Z.to_nat p_ex = Some sel_ex).
Proof.
  intros Hslots Hnl Hlen Hrun. rewrite reset_unfold in Hrun.
  destruct (reset_all_nan_spec (set_grid initial_grid s))
    as (s1 & Hr & Hvec & Hnb & Hg & Hls & Htv & Htb & Hsc).
  rewrite (bind_Ok _ _ _ _ _ Hr), bind_get in Hrun.
  change (_grid s1 = initial_grid) in Hg.
  change (line_status s1 = line_status s) in Hls.
  change (_topo_vect s1 = _topo_vect s) in Htv.
  change (tables s1 = tables s) in Htb.
  change (solver_calls s1 = solver_calls s) in Hsc.
  change (forall a, vec s1 a = replicate (length (vec s a)) NaN) in Hvec.
  clear Hr.
  apply bind_inv_Ok in Hrun as (topo & sx & Ht & Hrun).
  unfold lift in Ht. injection Ht as Ht <-.
  apply bind_inv_Ok in Hrun as (topo' & sy & Ha & Hrun).
  unfold lift in Ha. injection Ha as Ha <-.
  rewrite bind_modify in Hrun. unfold modify in Hrun. injection Hrun as <-.
  destruct (get_topo_vect_spec s1 topo) as (Hlt & Slines & _);
    [now rewrite Htb | now rewrite Htb, Hg | assumption |].
  apply assign_all_same_length in Ha; [subst topo' | rewrite Hlt, Htv, Htb; lia].
  split; [exact Hg|]. split; [exact Hvec|]. split; [reflexivity|].
  split; [exact Hnb|]. split; [exact Hsc|]. split; [exact Hls|].
  intros i r Hr'. rewrite Hg in Slines.
  destruct (Slines i r Hr')
    as (st & p_or & p_ex & s_or & s_ex & H1 & H2 & H3 & H4 & H5 & H6 & H7).
  rewrite Htb in H2, H3, H4, H5. rewrite Hls in H1.
  exists st, p_or, p_ex, s_or, s_ex. repeat split; assumption.
Qed.

(** ** Disconnecting and reconnecting a branch outside an action *)

Lemma setitem_getitem_same {A} (l l' : list A) (p : Z) (v : A) :
  setitem l p v = Ok l' -> getitem l' p = Ok v.
Proof.
  unfold setitem, getitem.
  destruct (py_index (length l) p) as [k|] eqn:E; [|discriminate].
  intros [= <-]. rewrite length_insert, E.
  rewrite list_lookup_insert_eq by (eapply py_index_lt; eauto). reflexivity.
Qed.

Lemma setitem_getitem_keep {A} (l l' : list A) (p q : Z) (v : A) :
  setitem l q v = Ok l' -> getitem l p = Ok v -> getitem l' p = Ok v.
Proof.
  unfold setitem, getitem.
  destruct (py_index (length l) q) as [kq|] eqn:Eq; [|discriminate].
  intros [= <-]. rewrite length_insert.
  destruct (py_index (length l) p) as [kp|] eqn:Ep; [|discriminate].
  destruct (decide (kq = kp)) as [->|Hne].
  - rewrite list_lookup_insert_eq by (eapply py_index_lt; eauto). reflexivity.
  - now rewrite list_lookup_insert_ne.
Qed.

Lemma setitem_in_range {A} (l : list A) (i : Z) (v : A) :
  0 <= i < Z.of_nat (length l) -> setitem l i v = Ok (<[Z.to_nat i := v]> l).
Proof. intros Hi. unfold setitem. now rewrite py_index_in_range. Qed.

Lemma setitem_total {A} (l : list A) (p : Z) (v : A) :
  is_Some (py_index (length l) p) -> exists l', setitem l p v = Ok l'.
Proof. intros [k Hk]. unfold setitem. rewrite Hk. eauto. Qed.

Lemma fmap_alter_const {A} (f : A -> bool) (g : A -> A) (b : bool) (l : list A) (k : nat) :
  (forall x, f (g x) = b) -> (k < length l)%nat ->
  f <$> alter g k l = <[k := b]> (f <$> l).
Proof.
  intros Hfg. revert k. induction l as [|x l IH]; intros k Hk; simpl in *; [lia|].
  destruct k as [|k]; simpl.
  - now rewrite Hfg.
  - f_equal. apply IH. lia.
Qed.

(** Switching one branch in the tables switches one entry of the live
    line status. *)
Lemma switch_branch_status (b : bool) (id_ : Z) (s : Backend F) :
  _number_true_line (tables s) = Z.of_nat (length (line (_grid s))) ->
  0 <= id_ < Z.of_nat (length (line (_grid s)) + length (trafo (_grid s))) ->
  exists s1,
    (if id_ <? _number_true_line (tables s)
     then grid_iat line set_line id_ (set_line_in_service b)
     else grid_iat trafo set_trafo (id_ - _number_true_line (tables s))
                   (set_trafo_in_service b)) s = (Ok tt, s1) /\
    _get_line_status s1 = <[Z.to_nat id_ := b]> (_get_line_status s) /\
    outside_grid s1 = outside_grid s /\
    (bus (_grid s1), load (_grid s1), gen (_grid s1), shunt (_grid s1),
     ext_grid (_grid s1))
    = (bus (_grid s), load (_grid s), gen (_grid s), shunt (_grid s),
       ext_grid (_grid s)).
Proof.
  intros Hnl Hid. rewrite Hnl.
  destruct (id_ <? Z.of_nat (length (line (_grid s)))) eqn:E.
  - apply Z.ltb_lt in E.
    rewrite grid_iat_in_range by lia.
    eexists. split; [reflexivity|]. split; [|split; reflexivity].
    unfold _get_line_status. simpl.
    rewrite (fmap_alter_const _ _ b) by (try reflexivity; lia).
    rewrite insert_app_l by (rewrite length_map; lia). reflexivity.
  - apply Z.ltb_ge in E.
    rewrite grid_iat_in_range by lia.
    eexists. split; [reflexivity|]. split; [|split; reflexivity].
    unfold _get_line_status. simpl.
    rewrite (fmap_alter_const _ _ b) by (try reflexivity; lia).
    rewrite insert_app_r_alt by (rewrite length_map; lia).
    rewrite length_map. do 2 f_equal. lia.
Qed.

(** X6.  [_disconnect_line] on a branch number in range: the branch goes out
    of service in its table, the cached line status of the branch becomes
    False, both of its slots of the topology vector become -1, and a cache
    that agreed with the tables still agrees.  Nothing else of the network
    is written. *)
Theorem disconnect_line_spec (id_ pos_or pos_ex : Z) (s : Backend F) :
  _number_true_line (tables s) = Z.of_nat (length (line (_grid s))) ->
  0 <= id_ < Z.of_nat (length (line (_grid s)) + length (trafo (_grid s))) ->
  length (line_status s) = (length (line (_grid s)) + length (trafo (_grid s)))%nat ->
  getitem (line_or_pos_topo_vect (tables s)) id_ = Ok pos_or ->
  getitem (line_ex_pos_topo_vect (tables s)) id_ = Ok pos_ex ->
  is_Some (py_index (length (_topo_vect s)) pos_or) ->
  is_Some (py_index (length (_topo_vect s)) pos_ex) ->
  exists s', _disconnect_line id_ s = (Ok tt, s') /\
    _get_line_status s' !! Z.to_nat id_ = Some false /\
    line_status s' !! Z.to_nat id_ = Some false /\
    getitem (_topo_vect s') pos_or = Ok (-1) /\
    getitem (_topo_vect s') pos_ex = Ok (-1) /\
    (line_status_coherent s -> line_status_coherent s') /\
    (bus (_grid s'), load (_grid s'), gen (_grid s'), shunt (_grid s'),
     ext_grid (_grid s'))
    = (bus (_grid s), load (_grid s), gen (_grid s), shunt (_grid s),
       ext_grid (_grid s)).
Proof.
  intros Hnl Hid Hlen Hpo Hpe Hso Hse.
  destruct (switch_branch_status false id_ s Hnl Hid) as (s1 & H1 & Hst & Hout & Hrest).
  unfold outside_grid in Hout. injection Hout as _ Hls1 _ _ Htv1 _ Htb1 _.
  destruct (setitem_total (_topo_vect s1) pos_or (-1)) as (tv1 & Htv); [now rewrite Htv1|].
  destruct (setitem_total tv1 pos_ex (-1)) as (tv2 & Htv');
    [now rewrite (setitem_length _ _ _ _ Htv), Htv1|].
  unfold _disconnect_line. rewrite bind_get, (bind_Ok _ _ _ _ _ H1).
  rewrite (bind_Ok _ _ s1 s1 pos_or) by (unfold lift; now rewrite Hpo).
  rewrite (bind_Ok _ _ s1 (set_topo_vect tv1 s1) tt)
    by (unfold update_topo_vect; now rewrite Htv).
  rewrite (bind_Ok _ _ _ (set_topo_vect tv1 s1) pos_ex) by (unfold lift; now rewrite Hpe).
  rewrite (bind_Ok _ _ _ (set_topo_vect tv2 (set_topo_vect tv1 s1)) tt)
    by (unfold update_topo_vect; simpl; now rewrite Htv').
  unfold update_line_status. simpl.
  rewrite setitem_in_range by (rewrite Hls1; lia).
  eexists. split; [reflexivity|]. simpl.
  assert (Hk : (Z.to_nat id_ < length (_get_line_status s))%nat)
    by (unfold _get_line_status; rewrite length_app, !length_map; lia).
  split; [|split; [|split; [|split; [|split]]]].
  - change (_get_line_status s1 !! Z.to_nat id_ = Some false).
    rewrite Hst. now apply list_lookup_insert_eq.
  - apply list_lookup_insert_eq. rewrite Hls1. lia.
  - eapply setitem_getitem_keep; [exact Htv'|].
    eapply setitem_getitem_same; exact Htv.
  - eapply setitem_getitem_same; exact Htv'.
  - unfold line_status_coherent. simpl. intros Hco.
    change (<[Z.to_nat id_:=false]> (line_status s1) = _get_line_status s1).
    now rewrite Hst, Hls1, Hco.
  - exact Hrest.
Qed.

(** X7.  [_reconnect_line] on a branch number in range: the branch is back
    in service in its table and in the cached line status, a cache that
    agreed with the tables still agrees, and the topology vector is left
    as it is: after a [_disconnect_line] the two slots of the branch keep
    their -1. *)
Theorem reconnect_line_spec (id_ : Z) (s : Backend F) :
  _number_true_line (tables s) = Z.of_nat (length (line (_grid s))) ->
  0 <= id_ < Z.of_nat (length (line (_grid s)) + length (trafo (_grid s))) ->
  length (line_status s) = (length (line (_grid s)) + length (trafo (_grid s)))%nat ->
  exists s', _reconnect_line id_ s = (Ok tt, s') /\
    _get_line_status s' !! Z.to_nat id_ = Some true /\
    line_status s' !! Z.to_nat id_ = Some true /\
    _topo_vect s' = _topo_vect s /\
    (line_status_coherent s -> line_status_coherent s').
Proof.
  intros Hnl Hid Hlen.
  destruct (switch_branch_status true id_ s Hnl Hid) as (s1 & H1 & Hst & Hout & Hrest).
  unfold outside_grid in Hout. injection Hout as _ Hls1 _ _ Htv1 _ Htb1 _.
  unfold _reconnect_line. rewrite bind_get, (bind_Ok _ _ _ _ _ H1).
  unfold update_line_status.
  rewrite setitem_in_range by (rewrite Hls1; lia).
  eexists. split; [reflexivity|]. simpl.
  assert (Hk : (Z.to_nat id_ < length (_get_line_status s))%nat)
    by (unfold _get_line_status; rewrite length_app, !length_map; lia).
  split; [|split; [|split]].
  - change (_get_line_status s1 !! Z.to_nat id_ = Some true).
    rewrite Hst. now apply list_lookup_insert_eq.
  - apply list_lookup_insert_eq. rewrite Hls1. lia.
  - exact Htv1.
  - unfold line_status_coherent. simpl. intros Hco.
    change (<[Z.to_nat id_:=true]> (line_status s1) = _get_line_status s1).
    now rewrite Hst, Hls1, Hco.
Qed.

(** ** The substation of a bus *)

(** X8.  [sub_from_bus_id] gives back the substation of both buses that
    [_pp_bus_from_grid2op_bus] makes for it exactly when the number of lines
    equals the number of substations: it subtracts [_number_true_line]
    where the resolver added the bus count. *)
Theorem sub_from_bus_id_inverts_resolver (s : Backend F) (init : Z) :
  0 <= init < _PandaPowerBackend__nb_bus_before (tables s) ->
  (forall sel b, sel = 1 \/ sel = 2 ->
     _pp_bus_from_grid2op_bus s sel init = Ok b -> sub_from_bus_id s b = init)
  <-> _number_true_line (tables s) = _PandaPowerBackend__nb_bus_before (tables s).
Proof.
  intros Hinit. unfold sub_from_bus_id. split.
  - intros Hall.
    pose proof (Hall 1 init (or_introl eq_refl) eq_refl) as H1.
    pose proof (Hall 2 _ (or_intror eq_refl) eq_refl) as H2.
    destruct (_number_true_line (tables s) <=? init) eqn:E1;
      destruct (_number_true_line (tables s) <=?
                init + _PandaPowerBackend__nb_bus_before (tables s)) eqn:E2; lia.
  - intros Heq sel b [-> | ->] [= <-]; rewrite Heq.
    + destruct (_ <=? _) eqn:E; lia.
    + destruct (_ <=? _) eqn:E; lia.
Qed.

(** ** The bus flags of an action *)

Lemma bus_is_set_lookup (label : Z) (b : bool) (rows : list (BusRow F)) (p : nat) :
  bus_is_set label b rows !! p
  = (fun r => if bus_index r =? label then set_bus_in_service b r else r) <$> rows !! p.
Proof. unfold bus_is_set. apply list_lookup_fmap. Qed.

Lemma active_bus_run (nbb : Z) (l : list (Z * (bool * bool))) (s : Backend F) :
  _PandaPowerBackend__nb_bus_before (tables s) = nbb ->
  exists s',
    for_each l
      (fun '(i, (bus1_status, bus2_status)) =>
         self <- get ;;
         update_table bus set_bus (fun rows => Ok (bus_is_set i bus1_status rows)) ;;;
         update_table bus set_bus
           (fun rows => Ok (bus_is_set (i + _PandaPowerBackend__nb_bus_before (tables self))
                                       bus2_status rows))) s = (Ok tt, s') /\
    bus (_grid s')
    = foldl (fun rows '(i, (b1, b2)) => bus_is_set (i + nbb) b2 (bus_is_set i b1 rows))
            (bus (_grid s)) l /\
    outside_grid s' = outside_grid s /\
    (load (_grid s'), gen (_grid s'), line (_grid s'), trafo (_grid s'),
     shunt (_grid s'), ext_grid (_grid s'), solved (_grid s'))
    = (load (_grid s), gen (_grid s), line (_grid s), trafo (_grid s),
       shunt (_grid s), ext_grid (_grid s), solved (_grid s)).
Proof.
  intros Hn. revert s Hn. induction l as [|[i [b1 b2]] l IH]; intros s Hn.
  - exists s. repeat split.
  - cbn [for_each].
    rewrite (bind_Ok _ _ s
      (set_grid (set_bus (bus_is_set (i + nbb) b2 (bus_is_set i b1 (bus (_grid s))))
                         (_grid s)) s) tt).
    2:{ rewrite bind_get. unfold update_table, bind. simpl. now rewrite Hn. }
    destruct (IH (set_grid (set_bus (bus_is_set (i + nbb) b2
                                       (bus_is_set i b1 (bus (_grid s)))) (_grid s)) s))
      as (s' & Hrun & Hbus & Hout & Hrest); [exact Hn|].
    exists s'. split; [exact Hrun|]. split; [exact Hbus|]. split; assumption.
Qed.

Lemma active_bus_fold_lookup (nbb : Z) (l : list (bool * bool)) :
  forall (k : Z) (rows : list (BusRow F)) (p : nat) (r : BusRow F),
    0 <= k -> k + Z.of_nat (length l) <= nbb ->
    rows !! p = Some r -> bus_index r = Z.of_nat p ->
    foldl (fun rows '(i, (b1, b2)) => bus_is_set (i + nbb) b2 (bus_is_set i b1 rows))
          rows (zip (seqZ k (Z.of_nat (length l))) l) !! p
    = Some (set_bus_in_service
              (if decide (k <= Z.of_nat p < k + Z.of_nat (length l))
               then (l !!! Z.to_nat (Z.of_nat p - k)).1
               else if decide (k + nbb <= Z.of_nat p < k + nbb + Z.of_nat (length l))
               then (l !!! Z.to_nat (Z.of_nat p - (k + nbb))).2
               else bus_in_service r) r).
Proof.
  induction l as [|[b1 b2] l IH]; intros k rows p r Hk Hle Hp Hlab.
  - simpl. rewrite Hp. rewrite decide_False by lia. rewrite decide_False by lia.
    now destruct r.
  - cbn [length] in *. rewrite Nat2Z.inj_succ, seqZ_cons by lia.
    rewrite Z.pred_succ. cbn [zip zip_with foldl].
    set (r1 := (if bus_index r =? k then set_bus_in_service b1 r else r)).
    set (r2 := (if bus_index r1 =? k + nbb then set_bus_in_service b2 r1 else r1)).
    assert (Hlab2 : bus_index r2 = Z.of_nat p)
      by (subst r2 r1; repeat (destruct (_ =? _)); exact Hlab).
    assert (Hr2 : r2 = set_bus_in_service
                          (if Z.of_nat p =? k then b1
                           else if Z.of_nat p =? k + nbb then b2 else bus_in_service r) r).
    { subst r2 r1. rewrite Hlab.
      destruct (Z.of_nat p =? k) eqn:E1; cbn [bus_index set_bus_in_service];
        rewrite ?Hlab; destruct (Z.of_nat p =? k + nbb) eqn:E2;
        try lia; now destruct r. }
    rewrite (IH (Z.succ k) _ p r2); [| lia | lia | | exact Hlab2].
    2:{ rewrite !bus_is_set_lookup, Hp. reflexivity. }
    rewrite Hr2. clear Hr2 Hlab2 r2 r1.
    cbn [set_bus_in_service bus_in_service]. unfold set_bus_in_service.
    cbn [bus_index bus_name vn_kv bus_type bus_zone]. do 2 f_equal.
    destruct (decide (Z.of_nat p = k)) as [Hpk|Hpk].
    { rewrite decide_False by lia. rewrite decide_False by lia.
      rewrite decide_True by lia.
      replace (Z.to_nat (Z.of_nat p - k)) with 0%nat by lia.
      destruct (Z.of_nat p =? k) eqn:E; [reflexivity | lia]. }
    destruct (decide (Z.of_nat p = k + nbb)) as [Hpn|Hpn].
    { rewrite decide_False by lia. rewrite decide_False by lia.
      rewrite decide_False by lia. rewrite decide_True by lia.
      replace (Z.to_nat (Z.of_nat p - (k + nbb))) with 0%nat by lia.
      destruct (Z.of_nat p =? k) eqn:E1; [lia|].
      destruct (Z.of_nat p =? k + nbb) eqn:E2; [reflexivity | lia]. }
    destruct (Z.of_nat p =? k) eqn:E1; [lia|].
    destruct (Z.of_nat p =? k + nbb) eqn:E2; [lia|].
    repeat case_decide; try lia; try reflexivity.
    + replace (Z.to_nat (Z.of_nat p - k)) with (S (Z.to_nat (Z.of_nat p - Z.succ k)))
        by lia.
      reflexivity.
    + replace (Z.to_nat (Z.of_nat p - (k + nbb)))
        with (S (Z.to_nat (Z.of_nat p - (Z.succ k + nbb)))) by lia.
      reflexivity.
Qed.

Lemma active_bus_fold_length (nbb : Z) (l : list (Z * (bool * bool))) (rows : list (BusRow F)) :
  length (foldl (fun rows '(i, (b1, b2)) => bus_is_set (i + nbb) b2 (bus_is_set i b1 rows))
                rows l) = length rows.
Proof.
  revert rows. induction l as [|[i [b1 b2]] l IH]; intros rows; simpl; [reflexivity|].
  rewrite IH. unfold bus_is_set. now rewrite !length_map.
Qed.

Lemma get_nb_active_bus_count (s : Backend F) :
  get_nb_active_bus s
  = Z.of_nat (length (List.filter id (map bus_in_service (bus (_grid s))))).
Proof.
  unfold get_nb_active_bus. induction (bus (_grid s)) as [|r rows IH]; [reflexivity|].
  cbn [foldr map List.filter]. rewrite IH.
  destruct (bus_in_service r); cbn [id length Z.b2z]; lia.
Qed.

(** X9.  On a bus table labelled 0 .. 2n-1 (what [load_grid] makes of a
    table labelled 0 .. n-1), with an active-bus matrix of n rows: after
    the last loop of [apply_action] the in-service column of the bus table
    is the first column of the matrix followed by its second column, every
    other attribute of every bus is kept, and [get_nb_active_bus] counts
    the flags that are set.  This part of [apply_action] never fails. *)
Theorem apply_action_active_bus_spec (act : Action F) (s : Backend F) :
  let n := length (active_bus act) in
  map bus_index (bus (_grid s)) = seqZ 0 (Z.of_nat (n + n)) ->
  _PandaPowerBackend__nb_bus_before (tables s) = Z.of_nat n ->
  exists s', apply_action_active_bus act s = (Ok tt, s') /\
    (forall i b1 b2, active_bus act !! i = Some (b1, b2) ->
       exists r1 r2,
         bus (_grid s) !! i = Some r1 /\ bus (_grid s) !! (n + i)%nat = Some r2 /\
         bus (_grid s') !! i = Some (set_bus_in_service b1 r1) /\
         bus (_grid s') !! (n + i)%nat = Some (set_bus_in_service b2 r2)) /\
    map bus_in_service (bus (_grid s')) = active_bus_flags act /\
    get_nb_active_bus s' = Z.of_nat (length (List.filter id (active_bus_flags act))) /\
    outside_grid s' = outside_grid s /\
    (load (_grid s'), gen (_grid s'), line (_grid s'), trafo (_grid s'),
     shunt (_grid s'), ext_grid (_grid s'), solved (_grid s'))
    = (load (_grid s), gen (_grid s), line (_grid s), trafo (_grid s),
       shunt (_grid s), ext_grid (_grid s), solved (_grid s)).
Proof.
  intros n Hlab Hn.
  destruct (active_bus_run (Z.of_nat n) (enumerate (active_bus act)) s Hn)
    as (s' & Hrun & Hbus & Hout & Hrest).
  assert (Hlen : length (bus (_grid s)) = (n + n)%nat).
  { rewrite <- (length_map bus_index), Hlab, length_seqZ. lia. }
  assert (Hidx : forall p r, bus (_grid s) !! p = Some r -> bus_index r = Z.of_nat p).
  { intros p r Hp.
    assert (Hq : map bus_index (bus (_grid s)) !! p = Some (bus_index r))
      by (rewrite list_lookup_fmap, Hp; reflexivity).
    rewrite Hlab in Hq. apply lookup_seqZ in Hq. lia. }
  assert (Hpt : forall p r, bus (_grid s) !! p = Some r ->
            bus (_grid s') !! p
            = Some (set_bus_in_service
                      (if decide (p < n)%nat then (active_bus act !!! p).1
                       else (active_bus act !!! (p - n)%nat).2) r)).
  { intros p r Hp. rewrite Hbus. unfold enumerate.
    rewrite (active_bus_fold_lookup (Z.of_nat n) (active_bus act) 0 _ p r);
      [| lia | fold n; lia | exact Hp | now apply Hidx].
    fold n. apply lookup_lt_Some in Hp. rewrite Hlen in Hp.
    do 2 f_equal. repeat case_decide; try lia.
    - f_equal. f_equal. lia.
    - f_equal. f_equal. lia. }
  exists s'. split; [exact Hrun|].
  assert (Hflags : map bus_in_service (bus (_grid s')) = active_bus_flags act).
  { apply list_eq. intros p. rewrite list_lookup_fmap. unfold active_bus_flags.
    destruct (bus (_grid s) !! p) as [r|] eqn:Hp.
    - rewrite (Hpt p r Hp). cbn [fmap option_fmap option_map set_bus_in_service bus_in_service].
      apply lookup_lt_Some in Hp. rewrite Hlen in Hp.
      case_decide.
      + rewrite lookup_app_l by (rewrite length_map; fold n; lia).
        rewrite list_lookup_fmap.
        destruct (active_bus act !! p) as [f|] eqn:Ef;
          [| apply lookup_ge_None in Ef; fold n in Ef; lia].
        now rewrite (list_lookup_total_correct _ _ _ Ef).
      + rewrite lookup_app_r by (rewrite length_map; fold n; lia).
        rewrite length_map. fold n. rewrite list_lookup_fmap.
        destruct (active_bus act !! (p - n)%nat) as [f|] eqn:Ef;
          [| apply lookup_ge_None in Ef; fold n in Ef; lia].
        now rewrite (list_lookup_total_correct _ _ _ Ef).
    - apply lookup_ge_None in Hp. rewrite Hlen in Hp.
      rewrite (lookup_ge_None_2 (bus (_grid s')))
        by (rewrite Hbus, active_bus_fold_length, Hlen; lia).
      symmetry. apply lookup_ge_None.
      rewrite length_app, !length_map. fold n. lia. }
  split; [|split; [exact Hflags | split; [| split; assumption]]].
  - intros i b1 b2 Hi.
    pose proof (lookup_lt_Some _ _ _ Hi) as Hin. fold n in Hin.
    destruct (lookup_lt_is_Some_2 (bus (_grid s)) i) as [r1 Hr1]; [lia|].
    destruct (lookup_lt_is_Some_2 (bus (_grid s)) (n + i)) as [r2 Hr2]; [lia|].
    exists r1, r2. split; [exact Hr1|]. split; [exact Hr2|]. split.
    + rewrite (Hpt i r1 Hr1). rewrite decide_True by lia.
      now rewrite (list_lookup_total_correct _ _ _ Hi).
    + rewrite (Hpt _ r2 Hr2). rewrite decide_False by lia.
      replace (n + i - n)%nat with i by lia.
      now rewrite (list_lookup_total_correct _ _ _ Hi).
  - rewrite get_nb_active_bus_count, Hflags. reflexivity.
Qed.

Lemma load_grid_double_bus_labels (g : Grid F) :
  map bus_index (bus g) = seqZ 0 (Z.of_nat (length (bus g))) ->
  map bus_index (bus (load_grid_double_bus g))
  = seqZ 0 (Z.of_nat (length (bus g) + length (bus g))).
Proof.
  intros Hlab. unfold load_grid_double_bus, add_topo. cbn [bus set_bus].
  rewrite map_app, !map_map. cbn [bus_index set_bus_in_service set_bus_index].
  rewrite Nat2Z.inj_add, seqZ_app by lia. f_equal; [exact Hlab|].
  rewrite Z.add_0_l. rewrite <- (map_map bus_index (fun z => z + Z.of_nat (length (bus g)))).
  rewrite Hlab.
  transitivity (Z.add (Z.of_nat (length (bus g))) <$> seqZ 0 (Z.of_nat (length (bus g)))).
  - apply map_ext. intros z. lia.
  - rewrite fmap_add_seqZ. now rewrite Z.add_0_r.
Qed.

(** ** The injections of an action *)

Lemma mask_set_lookup {R V} (rows rows' : list R) (c : list bool) (v : list V)
    (upd : R -> V -> R) (i : nat) (r : R) :
  mask_set rows c v upd = Ok rows' -> rows !! i = Some r ->
  rows' !! i = Some (match c !! i, v !! i with
                     | Some true, Some x => upd r x
                     | _, _ => r
                     end).
Proof.
  unfold mask_set. intros Hm Hr.
  destruct ((length c =? length rows)%nat && (length c =? length v)%nat) eqn:E;
    [|discriminate].
  apply andb_true_iff in E as [E1 E2]. apply Nat.eqb_eq in E1, E2.
  injection Hm as <-.
  pose proof (lookup_lt_Some _ _ _ Hr) as Hlt.
  destruct (lookup_lt_is_Some_2 c i) as [b Hb]; [lia|].
  destruct (lookup_lt_is_Some_2 v i) as [x Hx]; [lia|].
  rewrite lookup_zip_with, Hr. cbn [mbind option_bind].
  rewrite (proj2 (lookup_zip_Some c v i b x) (conj Hb Hx)).
  cbn [mbind option_bind fst snd]. rewrite Hb, Hx. now destruct b.
Qed.

Lemma np_any_false (c : list bool) (i : nat) :
  np_any c = false -> c !! i <> Some true.
Proof.
  unfold np_any. revert i. induction c as [|b c IH]; intros i Hany Hi; [discriminate|].
  cbn [existsb] in Hany. apply orb_false_iff in Hany as [Hb Hc].
  destruct i as [|i]; cbn in Hi.
  - injection Hi as ->. discriminate.
  - exact (IH i Hc Hi).
Qed.

Lemma when_update_table_inv {R} (c : bool) (tbl : Grid F -> list R)
    (set : list R -> Grid F -> Grid F) (f : list R -> result (list R))
    (s s1 : Backend F) :
  when c (update_table tbl set f) s = (Ok tt, s1) ->
  (c = false /\ s1 = s) \/
  (c = true /\ exists l, f (tbl (_grid s)) = Ok l /\ s1 = set_grid (set l (_grid s)) s).
Proof.
  destruct c; cbn [when].
  - unfold update_table. destruct (f (tbl (_grid s))) as [l|e]; [|discriminate].
    intros [= <-]. right. eauto.
  - intros [= <-]. now left.
Qed.

(** A masked write seen from one row, whether or not the guard let the
    write happen. *)
Lemma when_mask_set_row {R V} (tbl : Grid F -> list R) (set : list R -> Grid F -> Grid F)
    (c : list bool) (v : list V) (upd : R -> V -> R) (s s1 : Backend F) :
  (forall l g, tbl (set l g) = l) ->
  when (np_any c) (update_table tbl set (fun rows => mask_set rows c v upd)) s
    = (Ok tt, s1) ->
  (s1 = s \/ exists l, s1 = set_grid (set l (_grid s)) s) /\
  forall i r, tbl (_grid s) !! i = Some r ->
    tbl (_grid s1) !! i = Some (match c !! i, v !! i with
                                | Some true, Some x => upd r x
                                | _, _ => r
                                end).
Proof.
  intros Hgs Hw. apply when_update_table_inv in Hw as [[Hc ->] | [Hc (l & Hl & ->)]].
  - split; [now left|]. intros i r Hr. rewrite Hr.
    pose proof (np_any_false c i Hc) as Hn.
    destruct (c !! i) as [[|]|]; [congruence | reflexivity | reflexivity].
  - split; [right; eauto|]. intros i r Hr. cbn [_grid set_grid]. rewrite Hgs.
    now apply (mask_set_lookup _ _ _ _ _ _ _ Hl).
Qed.

(** X10.  The injection part of [apply_action], when it completes, writes
    exactly the flagged entries: the active power of a generator and the
    two powers of a load take the value of the action where its flag is
    set and keep their former value elsewhere; the voltage setpoint of a
    flagged generator becomes the value divided by the generator's kV
    base; bus and in-service columns, lines, transformers, shunts and
    buses are not written.  A flagged setpoint of the generator added for
    the slack is copied to every ext_grid row. *)
Theorem apply_action_injection_spec (act : Action F) (s s' : Backend F)
    (a_prod_p a_prod_v a_load_p a_load_q : ValueStore F) :
  injection act = (a_prod_p, a_prod_v, a_load_p, a_load_q) ->
  apply_action_injection act s = (Ok tt, s') ->
  (forall i r, gen (_grid s) !! i = Some r ->
     gen (_grid s') !! i
     = Some (set_gen_vm_pu
               (set_gen_p_mw r (masked_value a_prod_p i (gen_p_mw r)))
               (masked_value
                  {| changed := changed a_prod_v;
                     values := zip_with fdiv (values a_prod_v) (prod_pu_to_kv (tables s)) |}
                  i (gen_vm_pu r)))) /\
  (forall i r, load (_grid s) !! i = Some r ->
     load (_grid s') !! i
     = Some (set_load_q_mvar
               (set_load_p_mw r (masked_value a_load_p i (load_p_mw r)))
               (masked_value a_load_q i (load_q_mvar r)))) /\
  ext_grid (_grid s')
  = match _id_bus_added (tables s) with
    | Some id =>
        match getitem (changed a_prod_v) id, gen (_grid s') !! Z.to_nat id with
        | Ok true, Some g =>
            map (set_ext_grid_vm_pu (fmul (fconst 1) (gen_vm_pu g))) (ext_grid (_grid s))
        | _, _ => ext_grid (_grid s)
        end
    | None => ext_grid (_grid s)
    end /\
  (bus (_grid s'), line (_grid s'), trafo (_grid s'), shunt (_grid s'), solved (_grid s'))
  = (bus (_grid s), line (_grid s), trafo (_grid s), shunt (_grid s), solved (_grid s)) /\
  outside_grid s' = outside_grid s.
Proof.
  intros Hinj Hrun. unfold apply_action_injection in Hrun. rewrite Hinj in Hrun.
  apply bind_inv_Ok in Hrun as ([] & s1 & H1 & Hrun).
  rewrite bind_get in Hrun.
  apply bind_inv_Ok in Hrun as ([] & s2 & H2 & Hrun).
  apply bind_inv_Ok in Hrun as ([] & s3 & H3 & Hrun).
  apply bind_inv_Ok in Hrun as ([] & s4 & H4 & H5).
  apply when_mask_set_row in H1 as [S1 G1]; [|reflexivity].
  apply when_mask_set_row in H4 as [S4 L4]; [|reflexivity].
  apply when_mask_set_row in H5 as [S5 L5]; [|reflexivity].
  assert (T1 : tables s1 = tables s) by (destruct S1 as [->|[l ->]]; reflexivity).
  (* the voltage setpoints *)
  assert (S2 : (s2 = s1 \/ exists l, s2 = set_grid (set_gen l (_grid s1)) s1) /\
               forall i r, gen (_grid s1) !! i = Some r ->
                 gen (_grid s2) !! i
                 = Some (set_gen_vm_pu r
                           (masked_value
                              {| changed := changed a_prod_v;
                                 values := zip_with fdiv (values a_prod_v)
                                             (prod_pu_to_kv (tables s)) |}
                              i (gen_vm_pu r)))).
  { rewrite <- T1.
    apply when_update_table_inv in H2 as [[Hc ->] | [Hc (l & Hl & ->)]].
    - split; [now left|]. intros i r Hr. rewrite Hr. unfold masked_value. cbn [changed].
      pose proof (np_any_false _ i Hc) as Hn.
      destruct (changed a_prod_v !! i) as [[|]|]; [congruence | | ];
        now destruct r.
    - split; [right; eauto|]. intros i r Hr. cbn [_grid set_grid gen set_gen].
      destruct (_ && _); [|discriminate].
      rewrite (mask_set_lookup _ _ _ _ _ _ _ Hl Hr). unfold masked_value.
      cbn [changed values].
      destruct (changed a_prod_v !! i) as [[|]|];
        [destruct (zip_with _ _ _ !! i)| |]; now destruct r. }
  destruct S2 as [S2 G2].
  (* the copy to the external grid *)
  assert (S3 : gen (_grid s3) = gen (_grid s2) /\ load (_grid s3) = load (_grid s2) /\
               (bus (_grid s3), line (_grid s3), trafo (_grid s3), shunt (_grid s3),
                solved (_grid s3))
               = (bus (_grid s2), line (_grid s2), trafo (_grid s2), shunt (_grid s2),
                  solved (_grid s2)) /\
               outside_grid s3 = outside_grid s2 /\
               ext_grid (_grid s3)
               = match _id_bus_added (tables s) with
                 | Some id =>
                     match getitem (changed a_prod_v) id, gen (_grid s2) !! Z.to_nat id with
                     | Ok true, Some g =>
                         map (set_ext_grid_vm_pu (fmul (fconst 1) (gen_vm_pu g)))
                             (ext_grid (_grid s2))
                     | _, _ => ext_grid (_grid s2)
                     end
                 | None => ext_grid (_grid s2)
                 end).
  { rewrite <- T1. destruct (_id_bus_added (tables s1)) as [id|].
    - apply bind_inv_Ok in H3 as (flag & sx & Hf & H3).
      unfold lift in Hf. injection Hf as Hf <-. rewrite Hf.
      destruct flag; cbn [when] in H3.
      + rewrite bind_get in H3.
        apply bind_inv_Ok in H3 as (v & sy & Hv & H3).
        unfold lift in Hv. injection Hv as Hv <-.
        destruct (0 <=? id); [|discriminate].
        destruct (gen (_grid s2) !! Z.to_nat id) as [g|]; [|discriminate].
        injection Hv as <-. unfold update_table in H3. injection H3 as <-.
        repeat split.
      + injection H3 as <-.
        destruct (gen (_grid s2) !! Z.to_nat id); repeat split.
    - injection H3 as <-. repeat split. }
  destruct S3 as (G3 & L3 & R3 & O3 & E3).
  assert (K12 : load (_grid s2) = load (_grid s) /\
                ext_grid (_grid s2) = ext_grid (_grid s) /\
                (bus (_grid s2), line (_grid s2), trafo (_grid s2), shunt (_grid s2),
                 solved (_grid s2))
                = (bus (_grid s), line (_grid s), trafo (_grid s), shunt (_grid s),
                   solved (_grid s)) /\
                outside_grid s2 = outside_grid s).
  { destruct S1 as [->|[l1 ->]]; destruct S2 as [->|[l2 ->]]; repeat split. }
  destruct K12 as (L12 & E12 & R12 & O12).
  assert (K45 : gen (_grid s') = gen (_grid s3) /\
                ext_grid (_grid s') = ext_grid (_grid s3) /\
                (bus (_grid s'), line (_grid s'), trafo (_grid s'), shunt (_grid s'),
                 solved (_grid s'))
                = (bus (_grid s3), line (_grid s3), trafo (_grid s3), shunt (_grid s3),
                   solved (_grid s3)) /\
                outside_grid s' = outside_grid s3).
  { destruct S4 as [->|[l4 ->]]; destruct S5 as [->|[l5 ->]]; repeat split. }
  destruct K45 as (G45 & E45 & R45 & O45).
  split; [|split; [|split; [|split]]].
  - intros i r Hr. rewrite G45, G3.
    rewrite (G2 i _ (G1 i r Hr)). unfold masked_value.
    destruct (changed a_prod_p !! i) as [[|]|]; [destruct (values a_prod_p !! i)| |];
      reflexivity.
  - intros i r Hr. rewrite <- L12, <- L3 in Hr.
    rewrite (L5 i _ (L4 i r Hr)). unfold masked_value.
    destruct (changed a_load_p !! i) as [[|]|]; [destruct (values a_load_p !! i)| |];
      destruct (changed a_load_q !! i) as [[|]|]; try destruct (values a_load_q !! i);
      now destruct r.
  - rewrite E45, E3, G45, G3, E12. reflexivity.
  - rewrite R45, R3, R12. reflexivity.
  - rewrite O45, O3, O12. reflexivity.
Qed.

(** ** The shunts of an action *)

Lemma land_flag_cases (c : bool) (v : Z) :
  Z.land (Z.b2z c) v = if c && Z.odd v then 1 else 0.
Proof.
  destruct c; cbn [Z.b2z andb].
  - rewrite Z.land_comm. change 1 with (Z.ones 1) at 1.
    rewrite Z.land_ones by lia. change (2 ^ 1) with 2.
    rewrite Zmod_odd. now destruct (Z.odd v).
  - apply Z.land_0_l.
Qed.

Lemma mapM_result_Forall2 {A B} (f : A -> result B) (l : list A) (ys : list B) :
  mapM_result f l = Ok ys -> Forall2 (fun x y => f x = Ok y) l ys.
Proof.
  revert ys. induction l as [|x l IH]; intros ys; cbn [mapM_result].
  - intros [= <-]. constructor.
  - destruct (f x) as [y|e] eqn:Ef; cbn [rbind]; [|discriminate].
    destruct (mapM_result f l) as [ys'|e]; cbn [rbind]; [|discriminate].
    intros [= <-]. constructor; [exact Ef | now apply IH].
Qed.

(** The rows [sh_bus_select] picks: those whose flag, and-ed with the
    value, equals [k]. *)
Lemma sh_bus_select_elem (shunt_bus : ValueStore Z) (k : Z) (l : list Z) :
  length (changed shunt_bus) = length (values shunt_bus) ->
  sh_bus_select shunt_bus k = Ok l ->
  forall z, z ∈ l <->
    exists i c v, z = Z.of_nat i /\ changed shunt_bus !! i = Some c /\
      values shunt_bus !! i = Some v /\ (if c && Z.odd v then 1 else 0) = k.
Proof.
  intros Hlen. unfold sh_bus_select, np_zip.
  rewrite length_map. apply Nat.eqb_eq in Hlen as Hlen'. rewrite Hlen'. cbn [rbind].
  rewrite length_map, length_zip_with, length_map.
  replace (length (changed shunt_bus) `min` length (values shunt_bus))%nat
    with (length (values shunt_bus)) by lia.
  rewrite Nat.eqb_refl. intros [= <-] z.
  rewrite list_elem_of_fmap. split.
  - intros ([z' b] & -> & Hin). apply list_elem_of_In, filter_In in Hin as [Hin Hb].
    cbn [snd] in Hb. subst b. apply list_elem_of_In in Hin.
    apply elem_of_lookup_zip_with in Hin as (i & z1 & b1 & [= <- <-] & Hz & Hm).
    apply lookup_seqZ in Hz as [-> _].
    rewrite list_lookup_fmap, lookup_zip_with, list_lookup_fmap in Hm.
    destruct (changed shunt_bus !! i) as [c|] eqn:Ec; [|discriminate].
    destruct (values shunt_bus !! i) as [v|] eqn:Ev; [|discriminate].
    cbn in Hm. injection Hm as Hm. apply Z.eqb_eq in Hm.
    rewrite land_flag_cases in Hm.
    exists i, c, v. split; [cbn; lia|]. repeat split; assumption.
  - intros (i & c & v & -> & Ec & Ev & Hk).
    exists (Z.of_nat i, true). split; [reflexivity|].
    apply list_elem_of_In, filter_In. split; [|reflexivity].
    apply list_elem_of_In, elem_of_lookup_zip_with.
    exists i, (Z.of_nat i), true. split; [reflexivity|]. split.
    + apply lookup_seqZ. apply lookup_lt_Some in Ev. lia.
    + rewrite list_lookup_fmap, lookup_zip_with, list_lookup_fmap, Ec, Ev. cbn.
      rewrite land_flag_cases, Hk. now rewrite Z.eqb_refl.
Qed.

Lemma sh_bus_select_2 (shunt_bus : ValueStore Z) (l : list Z) :
  length (changed shunt_bus) = length (values shunt_bus) ->
  sh_bus_select shunt_bus 2 = Ok l -> l = [].
Proof.
  intros Hlen Hsel. destruct l as [|z l]; [reflexivity|]. exfalso.
  destruct (proj1 (sh_bus_select_elem _ _ _ Hlen Hsel z)) as (i & c & v & _ & _ & _ & Hk).
  - left.
  - destruct (c && Z.odd v); discriminate.
Qed.

Lemma shunt_bus_set_labels_spec (subid : list Z) :
  forall (idx vals : list Z) (rows rows' : list (ShuntRow F)),
    Forall2 (fun j v => getitem subid j = Ok v) idx vals ->
    Forall (fun j => 0 <= j) idx ->
    shunt_bus_set_labels rows idx vals = Ok rows' ->
    forall i r, rows !! i = Some r ->
      exists r', rows' !! i = Some r' /\
        (shunt_p_mw r', shunt_q_mvar r', shunt_in_service r')
        = (shunt_p_mw r, shunt_q_mvar r, shunt_in_service r) /\
        if decide (Z.of_nat i ∈ idx) then subid !! i = Some (shunt_bus r')
        else shunt_bus r' = shunt_bus r.
Proof.
  induction idx as [|j idx IH]; intros vals rows rows' Hv Hpos Hset i r Hr.
  - assert (rows' = rows) as -> by (destruct vals; cbn in Hset; now injection Hset).
    exists r. split; [exact Hr|]. split; [reflexivity|].
    rewrite decide_False by (apply not_elem_of_nil). reflexivity.
  - inversion Hv as [|? v ? vals' Hj Hv']; subst. cbn [shunt_bus_set_labels] in Hset.
    inversion Hpos as [|? ? Hj0 Hpos']; subst.
    destruct ((0 <=? j) && (j <? Z.of_nat (length rows))) eqn:E; [|discriminate].
    apply getitem_nonneg in Hj; [|exact Hj0].
    set (r1 := if decide (i = Z.to_nat j) then set_shunt_bus v r else r).
    assert (Hr1 : alter (set_shunt_bus v) (Z.to_nat j) rows !! i = Some r1).
    { subst r1. destruct (decide (i = Z.to_nat j)) as [->|Hne].
      - rewrite list_lookup_alter_eq, Hr. reflexivity.
      - rewrite list_lookup_alter_ne by congruence. exact Hr. }
    destruct (IH vals' _ rows' Hv' Hpos' Hset i r1 Hr1) as (r' & Hr' & Hkeep & Hbus).
    exists r'. split; [exact Hr'|]. split.
    + rewrite Hkeep. subst r1. now destruct (decide (i = Z.to_nat j)).
    + destruct (decide (Z.of_nat i ∈ idx)) as [Hin|Hnin].
      * rewrite decide_True by (now right). exact Hbus.
      * subst r1. destruct (decide (i = Z.to_nat j)) as [->|Hne].
        -- rewrite decide_True by (rewrite Z2Nat.id by lia; left).
           rewrite Hbus. exact Hj.
        -- rewrite decide_False; [exact Hbus|].
           intros Hin. apply elem_of_cons in Hin as [Heq|Hin]; [lia | contradiction].
Qed.

(** X11.  The shunt part of [apply_action], when it completes: active and
    reactive power take the flagged values; a flagged shunt is in service
    unless its selector is -1; its bus column is set to the bus of its
    substation when the selector is odd (1, but also -1) and is kept
    otherwise.  In particular selector 2 never moves a shunt to the second
    bus of its substation: the mask [changed & values == 2] is always
    empty. *)
Theorem apply_action_shunts_spec (act : Action F) (s s' : Backend F)
    (shunt_p shunt_q : ValueStore F) (shunt_bus_ : ValueStore Z) :
  shunts__ act = (shunt_p, shunt_q, shunt_bus_) ->
  apply_action_shunts act s = (Ok tt, s') ->
  (shunts_data_available (tables s) = false -> s' = s) /\
  (shunts_data_available (tables s) = true ->
   forall i r, shunt (_grid s) !! i = Some r ->
     exists r', shunt (_grid s') !! i = Some r' /\
       shunt_p_mw r' = masked_value shunt_p i (shunt_p_mw r) /\
       shunt_q_mvar r' = masked_value shunt_q i (shunt_q_mvar r) /\
       shunt_in_service r'
       = match changed shunt_bus_ !! i, values shunt_bus_ !! i with
         | Some true, Some v => negb (v =? -1)
         | _, _ => shunt_in_service r
         end /\
       match changed shunt_bus_ !! i, values shunt_bus_ !! i with
       | Some true, Some v =>
           if Z.odd v then shunt_to_subid (tables s) !! i = Some (shunt_bus r')
           else shunt_bus r' = shunt_bus r
       | _, _ => shunt_bus r' = shunt_bus r
       end).
Proof.
  intros Hsh Hrun. unfold apply_action_shunts in Hrun. rewrite bind_get in Hrun.
  destruct (shunts_data_available (tables s)) eqn:Hav; cbn [when] in Hrun.
  2:{ injection Hrun as <-. split; [reflexivity | discriminate]. }
  split; [discriminate|]. intros _ i r Hr.
  rewrite Hsh in Hrun.
  apply bind_inv_Ok in Hrun as ([] & s1 & H1 & Hrun).
  apply bind_inv_Ok in Hrun as ([] & s2 & H2 & H3).
  apply when_mask_set_row in H1 as [_ R1]; [|reflexivity].
  apply when_mask_set_row in H2 as [_ R2]; [|reflexivity].
  pose proof (R2 i _ (R1 i r Hr)) as Hr2. clear R1 R2.
  set (r2 := match changed shunt_q !! i with
             | Some true => match values shunt_q !! i with
                            | Some x => set_shunt_q_mvar _ x
                            | None => _
                            end
             | _ => _
             end) in Hr2.
  assert (Hr2p : shunt_p_mw r2 = masked_value shunt_p i (shunt_p_mw r) /\
                 shunt_q_mvar r2 = masked_value shunt_q i (shunt_q_mvar r) /\
                 shunt_in_service r2 = shunt_in_service r /\
                 shunt_bus r2 = shunt_bus r).
  { subst r2. unfold masked_value.
    destruct (changed shunt_p !! i) as [[|]|]; [destruct (values shunt_p !! i)| |];
      destruct (changed shunt_q !! i) as [[|]|]; try destruct (values shunt_q !! i);
      repeat split. }
  clearbody r2. destruct Hr2p as (Hp & Hq & Hs & Hb).
  destruct (np_any (changed shunt_bus_)) eqn:Hany; cbn [when] in H3.
  2:{ injection H3 as <-. exists r2. split; [exact Hr2|].
      pose proof (np_any_false _ i Hany) as Hn.
      destruct (changed shunt_bus_ !! i) as [[|]|]; [congruence | |]; repeat split;
        assumption. }
  apply bind_inv_Ok in H3 as ([] & s3 & H3 & Hrun).
  unfold update_table in H3.
  destruct (mask_set (shunt (_grid s2)) _ _ _) as [rows3|] eqn:Hm; [|discriminate].
  injection H3 as <-.
  pose proof (mask_set_lookup _ _ _ _ _ _ _ Hm Hr2) as Hr3.
  assert (Hlen : length (changed shunt_bus_) = length (values shunt_bus_)).
  { unfold mask_set in Hm. destruct (_ && _) eqn:E; [|discriminate].
    apply andb_true_iff in E as [_ E]. now apply Nat.eqb_eq in E. }
  clear Hm.
  apply bind_inv_Ok in Hrun as (sh_bus1 & sx & Hs1 & Hrun).
  unfold lift in Hs1. injection Hs1 as Hs1 <-.
  apply bind_inv_Ok in Hrun as (sh_bus2 & sx & Hs2 & Hrun).
  unfold lift in Hs2. injection Hs2 as Hs2 <-.
  apply (sh_bus_select_2 _ _ Hlen) in Hs2. subst sh_bus2. cbn [length] in Hrun.
  pose proof (sh_bus_select_elem _ _ _ Hlen Hs1) as Hsel.
  apply bind_inv_Ok in Hrun as ([] & s4 & H4 & H5).
  cbn [when Z.ltb Z.of_nat Z.compare] in H5. injection H5 as <-.
  set (r3 := match changed shunt_bus_ !! i with
             | Some true => match values shunt_bus_ !! i with
                            | Some x => set_shunt_in_service (negb (x =? -1)) r2
                            | None => r2
                            end
             | _ => r2
             end) in Hr3.
  assert (Hr3p : shunt_p_mw r3 = shunt_p_mw r2 /\ shunt_q_mvar r3 = shunt_q_mvar r2 /\
                 shunt_bus r3 = shunt_bus r2 /\
                 shunt_in_service r3
                 = match changed shunt_bus_ !! i, values shunt_bus_ !! i with
                   | Some true, Some v => negb (v =? -1)
                   | _, _ => shunt_in_service r2
                   end).
  { subst r3. destruct (changed shunt_bus_ !! i) as [[|]|];
      [destruct (values shunt_bus_ !! i)| |]; repeat split. }
  clearbody r3. destruct Hr3p as (Hp3 & Hq3 & Hb3 & Hs3).
  assert (Hfin : exists r', shunt (_grid s4) !! i = Some r' /\
            (shunt_p_mw r', shunt_q_mvar r', shunt_in_service r')
            = (shunt_p_mw r3, shunt_q_mvar r3, shunt_in_service r3) /\
            if decide (Z.of_nat i ∈ sh_bus1)
            then shunt_to_subid (tables s) !! i = Some (shunt_bus r')
            else shunt_bus r' = shunt_bus r3).
  { destruct (0 <? Z.of_nat (length sh_bus1)) eqn:E1; cbn [when] in H4.
    - unfold update_table in H4. cbn [_grid set_grid shunt set_shunt] in H4.
      destruct (mapM_result _ sh_bus1) as [vals|] eqn:Hvals; cbn [rbind] in H4;
        [|discriminate].
      destruct (shunt_bus_set_labels rows3 sh_bus1 vals) as [rows4|] eqn:Hset;
        [|discriminate].
      injection H4 as <-. cbn [_grid set_grid shunt set_shunt].
      eapply shunt_bus_set_labels_spec; [| | exact Hset | exact Hr3].
      + now apply mapM_result_Forall2.
      + apply Forall_forall. intros z Hz.
        apply Hsel in Hz as (k & _ & _ & -> & _). lia.
    - injection H4 as <-. cbn [_grid set_grid shunt set_shunt].
      exists r3. split; [exact Hr3|]. split; [reflexivity|].
      apply Z.ltb_ge in E1. destruct sh_bus1; [|cbn [length] in E1; lia].
      rewrite decide_False by (apply not_elem_of_nil). reflexivity. }
  destruct Hfin as (r' & Hr' & Hkeep & Hbus). injection Hkeep as Hp4 Hq4 Hs4.
  exists r'. split; [exact Hr'|].
  split; [congruence|]. split; [congruence|]. split.
  - rewrite Hs4, Hs3, Hs. reflexivity.
  - destruct (decide (Z.of_nat i ∈ sh_bus1)) as [Hin|Hnin].
    + apply Hsel in Hin as (k & c & v & Hk & Hc & Hv & Hcv).
      apply Nat2Z.inj in Hk. subst k. rewrite Hc, Hv.
      destruct c; cbn [andb] in Hcv; [|discriminate].
      destruct (Z.odd v); [exact Hbus | discriminate].
    + assert (Hb' : shunt_bus r' = shunt_bus r) by congruence.
      destruct (changed shunt_bus_ !! i) as [[|]|] eqn:Hc; try exact Hb'.
      destruct (values shunt_bus_ !! i) as [v|] eqn:Hv; try exact Hb'.
      destruct (Z.odd v) eqn:Hodd; [|exact Hb'].
      exfalso. apply Hnin, Hsel. exists i, true, v.
      repeat split; try assumption. now rewrite Hodd.
Qed.

(** ** The decoding always returns *)

Lemma getitem_total {A} (l : list A) (i : Z) :
  0 <= i < Z.of_nat (length l) -> exists x, getitem l i = Ok x.
Proof.
  intros Hi. destruct (lookup_lt_is_Some_2 l (Z.to_nat i)) as [x Hx]; [lia|].
  exists x. apply getitem_lookup; [lia | exact Hx].
Qed.

Lemma topo_set_total (res pos : list Z) (i v : Z) :
  0 <= i < Z.of_nat (length pos) ->
  Forall (fun p => 0 <= p < Z.of_nat (length res)) pos ->
  exists res', topo_set res pos i v = Ok res' /\ length res' = length res.
Proof.
  intros Hi Hpos. destruct (lookup_lt_is_Some_2 pos (Z.to_nat i)) as [p Hp]; [lia|].
  unfold topo_set. rewrite (getitem_lookup _ _ _ (proj1 Hi) Hp). cbn [rbind].
  pose proof (Forall_lookup_1 _ _ _ _ Hpos Hp) as Hr. cbn beta in Hr.
  rewrite setitem_in_range by exact Hr.
  eexists. split; [reflexivity | apply length_insert].
Qed.

Lemma decode_bus_total (bus_id : Z) (subid : list Z) (i : Z) :
  0 <= i < Z.of_nat (length subid) -> exists v, decode_bus bus_id subid i = Ok v.
Proof.
  intros Hi. destruct (getitem_total subid i Hi) as (sub & Hs).
  unfold decode_bus. rewrite Hs. eexists. reflexivity.
Qed.

Lemma get_topo_vect_injections_total (subid pos buses : list Z) :
  forall (i : Z) (res : list Z),
    0 <= i ->
    i + Z.of_nat (length buses) <= Z.of_nat (length subid) ->
    i + Z.of_nat (length buses) <= Z.of_nat (length pos) ->
    Forall (fun p => 0 <= p < Z.of_nat (length res)) pos ->
    exists res', _get_topo_vect_injections subid pos buses i res = Ok res' /\
      length res' = length res.
Proof.
  induction buses as [|b buses IH]; intros i res Hi Hs Hp Hpos; cbn [length] in *.
  - exists res. split; reflexivity.
  - cbn [_get_topo_vect_injections].
    destruct (decode_bus_total b subid i) as (v & Hv); [lia|]. rewrite Hv. cbn [rbind].
    destruct (topo_set_total res pos i v) as (res1 & H1 & L1); [lia | exact Hpos |].
    rewrite H1. cbn [rbind].
    destruct (IH (i + 1) res1) as (res' & Hr & L); [lia | lia | lia | now rewrite L1 |].
    exists res'. split; [exact Hr | congruence].
Qed.

Lemma get_topo_vect_branches_total (self : Backend F) (ls : list bool)
    (rows : list (Z * Z)) :
  forall (j : Z) (res : list Z),
    0 <= j ->
    j + Z.of_nat (length rows) <= Z.of_nat (length ls) ->
    j + Z.of_nat (length rows) <= Z.of_nat (length (line_or_to_subid (tables self))) ->
    j + Z.of_nat (length rows) <= Z.of_nat (length (line_ex_to_subid (tables self))) ->
    j + Z.of_nat (length rows) <= Z.of_nat (length (line_or_pos_topo_vect (tables self))) ->
    j + Z.of_nat (length rows) <= Z.of_nat (length (line_ex_pos_topo_vect (tables self))) ->
    Forall (fun p => 0 <= p < Z.of_nat (length res)) (line_or_pos_topo_vect (tables self)) ->
    Forall (fun p => 0 <= p < Z.of_nat (length res)) (line_ex_pos_topo_vect (tables self)) ->
    exists res', _get_topo_vect_branches self ls rows j res = Ok res' /\
      length res' = length res.
Proof.
  induction rows as [|[bo be] rows IH]; intros j res Hj Hls Hso Hse Hpo Hpe Fo Fe;
    cbn [length] in *.
  - exists res. split; reflexivity.
  - cbn [_get_topo_vect_branches].
    destruct (getitem_total ls j) as (status & Hst); [lia|]. rewrite Hst. cbn [rbind].
    assert (Hstep : exists res1,
              (if status
               then let? sel_or := decode_bus bo (line_or_to_subid (tables self)) j in
                    let? r := topo_set res (line_or_pos_topo_vect (tables self)) j sel_or in
                    let? sel_ex := decode_bus be (line_ex_to_subid (tables self)) j in
                    topo_set r (line_ex_pos_topo_vect (tables self)) j sel_ex
               else let? r := topo_set res (line_or_pos_topo_vect (tables self)) j (-1) in
                    topo_set r (line_ex_pos_topo_vect (tables self)) j (-1)) = Ok res1 /\
              length res1 = length res).
    { destruct status.
      - destruct (decode_bus_total bo (line_or_to_subid (tables self)) j) as (v1 & Hv1);
          [lia|]. rewrite Hv1. cbn [rbind].
        destruct (topo_set_total res (line_or_pos_topo_vect (tables self)) j v1)
          as (r1 & H1 & L1); [lia | exact Fo |]. rewrite H1. cbn [rbind].
        destruct (decode_bus_total be (line_ex_to_subid (tables self)) j) as (v2 & Hv2);
          [lia|]. rewrite Hv2. cbn [rbind].
        destruct (topo_set_total r1 (line_ex_pos_topo_vect (tables self)) j v2)
          as (r2 & H2 & L2); [lia | now rewrite L1 |].
        exists r2. split; [exact H2 | congruence].
      - destruct (topo_set_total res (line_or_pos_topo_vect (tables self)) j (-1))
          as (r1 & H1 & L1); [lia | exact Fo |]. rewrite H1. cbn [rbind].
        destruct (topo_set_total r1 (line_ex_pos_topo_vect (tables self)) j (-1))
          as (r2 & H2 & L2); [lia | now rewrite L1 |].
        exists r2. split; [exact H2 | congruence]. }
    destruct Hstep as (res1 & H1 & L1). rewrite H1. cbn [rbind].
    destruct (IH (j + 1) res1) as (res' & Hr & L); try lia; try (now rewrite L1).
    exists res'. split; [exact Hr | congruence].
Qed.

(** Slots that are apart, fit in the vector and are as many as the vector
    is long fill it. *)
Lemma slots_cover (l : list Z) (n : nat) :
  NoDup l -> Forall (fun p => 0 <= p < Z.of_nat n) l -> length l = n ->
  forall k, (k < n)%nat -> Z.of_nat k ∈ l.
Proof.
  intros Hnd Hin Hlen k Hk.
  assert (Hnd' : NoDup (Z.to_nat <$> l)).
  { apply NoDup_fmap_2_strong; [|exact Hnd].
    intros x y Hx Hy Hxy.
    pose proof (proj1 (Forall_forall _ _) Hin x Hx).
    pose proof (proj1 (Forall_forall _ _) Hin y Hy). cbn beta in *. lia. }
  assert (Hsub : (Z.to_nat <$> l) ⊆+ seq 0 n).
  { apply NoDup_submseteq; [exact Hnd'|].
    intros x Hx. apply list_elem_of_fmap in Hx as (p & -> & Hp).
    pose proof (proj1 (Forall_forall _ _) Hin p Hp). cbn beta in *.
    apply elem_of_seq. lia. }
  apply submseteq_length_Permutation in Hsub;
    [| rewrite length_fmap, length_seq; lia].
  assert (Hk' : k ∈ Z.to_nat <$> l)
    by (rewrite Hsub; apply elem_of_seq; lia).
  apply list_elem_of_fmap in Hk' as (p & -> & Hp).
  pose proof (proj1 (Forall_forall _ _) Hin p Hp). cbn beta in *.
  now rewrite Z2Nat.id by lia.
Qed.

Lemma branch_sel_selector (status : bool) (cur : Z) (subid : list Z) (k : nat) (sel : Z) :
  branch_sel status cur subid k = Some sel -> is_selector sel.
Proof.
  unfold branch_sel, is_selector. destruct status.
  - destruct (subid !! k) as [sub|]; [|discriminate].
    cbn. intros [= <-]. destruct (cur =? sub); auto.
  - intros [= <-]. auto.
Qed.

(** X12.  On a backend whose tables have the sizes [load_grid] gives them
    and whose slots are apart and fit in the topology vector,
    [_get_topo_vect] always returns, never raises, and returns a vector of
    [dim_topo] entries; when the slots are as many as the vector is long,
    every entry is -1, 1 or 2: nothing of the initial filling is left. *)
Theorem get_topo_vect_total (s : Backend F) :
  slots_wf (tables s) ->
  tables_sized s ->
  _number_true_line (tables s) = Z.of_nat (length (line (_grid s))) ->
  length (line_status s) = (length (line (_grid s)) + length (trafo (_grid s)))%nat ->
  exists topo, _get_topo_vect s = Ok topo /\
    length topo = dim_topo (tables s) /\
    (length (all_slots (tables s)) = dim_topo (tables s) -> Forall is_selector topo).
Proof.
  intros Hwf Hsz Hnl Hls.
  destruct Hsz as (Hfit & Lso & Lse & Lpo & Lpe & Lgs & Lgp & Lls & Llp).
  cbn zeta in *.
  destruct (slots_nonneg _ Hwf) as (Por & Pex & Pgen & Pload).
  assert (Hrange : forall n, n = dim_topo (tables s) ->
            Forall (fun p => 0 <= p < Z.of_nat n) (all_slots (tables s))).
  { intros n ->. destruct Hwf as [Hpos _].
    apply Forall_forall. intros p Hp.
    pose proof (proj1 (Forall_forall _ _) Hpos p Hp).
    pose proof (proj1 (Forall_forall _ _) Hfit p Hp). cbn beta in *. lia. }
  assert (Hparts : forall n, n = dim_topo (tables s) ->
            Forall (fun p => 0 <= p < Z.of_nat n) (line_or_pos_topo_vect (tables s)) /\
            Forall (fun p => 0 <= p < Z.of_nat n) (line_ex_pos_topo_vect (tables s)) /\
            Forall (fun p => 0 <= p < Z.of_nat n) (gen_pos_topo_vect (tables s)) /\
            Forall (fun p => 0 <= p < Z.of_nat n) (load_pos_topo_vect (tables s))).
  { intros n Hn. specialize (Hrange n Hn). unfold all_slots in Hrange.
    apply Forall_app in Hrange as [H1 Hrange].
    apply Forall_app in Hrange as [H2 Hrange].
    apply Forall_app in Hrange as [H3 H4]. auto. }
  assert (Hrun : exists topo, _get_topo_vect s = Ok topo).
  { unfold _get_topo_vect, get_line_status.
    destruct (get_topo_vect_branches_total s (line_status s)
                (map (fun r => (from_bus r, to_bus r)) (line (_grid s))) 0
                (replicate (dim_topo (tables s)) int_of_nan))
      as (res1 & H1 & L1); rewrite ?length_map, ?length_replicate; try lia;
      try (apply Hparts; reflexivity).
    rewrite H1. cbn [rbind]. rewrite length_replicate in L1.
    destruct (get_topo_vect_branches_total s (line_status s)
                (map (fun r => (hv_bus r, lv_bus r)) (trafo (_grid s)))
                (_number_true_line (tables s)) res1)
      as (res2 & H2 & L2); rewrite ?length_map, ?L1; try lia;
      try (apply Hparts; reflexivity).
    rewrite H2. cbn [rbind]. rewrite L1 in L2.
    destruct (get_topo_vect_injections_total (gen_to_subid (tables s))
                (gen_pos_topo_vect (tables s)) (map gen_bus (gen (_grid s))) 0 res2)
      as (res3 & H3 & L3); rewrite ?length_map, ?L2; try lia;
      try (apply Hparts; reflexivity).
    rewrite H3. cbn [rbind]. rewrite L2 in L3.
    destruct (get_topo_vect_injections_total (load_to_subid (tables s))
                (load_pos_topo_vect (tables s)) (map load_bus (load (_grid s))) 0 res3)
      as (res4 & H4 & L4); rewrite ?length_map, ?L3; try lia;
      try (apply Hparts; reflexivity).
    exists res4. exact H4. }
  destruct Hrun as (topo & Hrun). exists topo. split; [exact Hrun|].
  destruct (get_topo_vect_spec s topo Hwf Hnl Hrun) as (Hlen & Slines & Strafos & Sgens & Sloads).
  split; [exact Hlen|].
  intros Hfull. apply Forall_lookup. intros k v Hv.
  pose proof (lookup_lt_Some _ _ _ Hv) as Hk. rewrite Hlen in Hk.
  pose proof (slots_cover _ _ (proj2 Hwf) (Hrange _ eq_refl) Hfull k Hk) as Hin.
  unfold all_slots in Hin. rewrite !elem_of_app in Hin.
  assert (Hbranch : forall j : nat,
            (j < length (line (_grid s)) + length (trafo (_grid s)))%nat ->
            exists status p_or p_ex sel_or sel_ex,
              line_or_pos_topo_vect (tables s) !! j = Some p_or /\
              line_ex_pos_topo_vect (tables s) !! j = Some p_ex /\
              branch_sel status (if decide (j < length (line (_grid s)))%nat
                                 then default 0 (from_bus <$> line (_grid s) !! j)
                                 else default 0 (hv_bus <$> trafo (_grid s)
                                                   !! (j - length (line (_grid s)))%nat))
                         (line_or_to_subid (tables s)) j = Some sel_or /\
              branch_sel status (if decide (j < length (line (_grid s)))%nat
                                 then default 0 (to_bus <$> line (_grid s) !! j)
                                 else default 0 (lv_bus <$> trafo (_grid s)
                                                   !! (j - length (line (_grid s)))%nat))
                         (line_ex_to_subid (tables s)) j = Some sel_ex /\
              topo !! Z.to_nat p_or = Some sel_or /\ topo !! Z.to_nat p_ex = Some sel_ex).
  { intros j Hj. destruct (decide (j < length (line (_grid s)))%nat) as [Hjl|Hjl].
    - destruct (lookup_lt_is_Some_2 (line (_grid s)) j Hjl) as [r Hr].
      destruct (Slines j r Hr) as (st & po & pe & so & se & _ & A & B & C & D & E & G).
      rewrite Hr. exists st, po, pe, so, se. auto 10.
    - destruct (lookup_lt_is_Some_2 (trafo (_grid s)) (j - length (line (_grid s))))
        as [r Hr]; [lia|].
      destruct (Strafos _ r Hr) as (st & po & pe & so & se & _ & A & B & C & D & E & G).
      cbn zeta in *.
      replace (length (line (_grid s)) + (j - length (line (_grid s))))%nat with j
        in * by lia.
      rewrite Hr. exists st, po, pe, so, se. auto 10. }
  destruct Hin as [Hin | [Hin | [Hin | Hin]]];
    apply list_elem_of_lookup in Hin as (j & Hj);
    pose proof (lookup_lt_Some _ _ _ Hj) as Hjlt.
  - destruct (Hbranch j) as (st & po & pe & so & se & A & B & C & D & E & G); [lia|].
    rewrite Hj in A. injection A as <-. rewrite Nat2Z.id in E.
    rewrite Hv in E. injection E as ->. eapply branch_sel_selector; eauto.
  - destruct (Hbranch j) as (st & po & pe & so & se & A & B & C & D & E & G); [lia|].
    rewrite Hj in B. injection B as <-. rewrite Nat2Z.id in G.
    rewrite Hv in G. injection G as ->. eapply branch_sel_selector; eauto.
  - destruct (lookup_lt_is_Some_2 (gen (_grid s)) j) as [r Hr]; [lia|].
    destruct (Sgens j r Hr) as (p & sub & A & B & C).
    rewrite Hj in A. injection A as <-. rewrite Nat2Z.id, Hv in C.
    injection C as ->. unfold is_selector. destruct (_ =? _); auto.
  - destruct (lookup_lt_is_Some_2 (load (_grid s)) j) as [r Hr]; [lia|].
    destruct (Sloads j r Hr) as (p & sub & A & B & C).
    rewrite Hj in A. injection A as <-. rewrite Nat2Z.id, Hv in C.
    injection C as ->. unfold is_selector. destruct (_ =? _); auto.
Qed.

(** ** A bus selector written and read back *)

Lemma apply_load_bus_connect (s : Backend F) (sel i t home : Z) :
  getitem (_init_bus_load (tables s)) i = Ok home ->
  0 <= home -> 0 <= _PandaPowerBackend__nb_bus_before (tables s) ->
  0 <= i < Z.of_nat (length (load (_grid s))) ->
  sel = 1 \/ sel = 2 ->
  exists rows,
    _apply_load_bus sel i t s = (Ok tt, set_grid (set_load rows (_grid s)) s) /\
    length rows = length (load (_grid s)) /\
    load_bus <$> rows !! Z.to_nat i
    = Some (if sel =? 1 then home
            else home + _PandaPowerBackend__nb_bus_before (tables s)).
Proof.
  intros Hinit Hhome Hnbb Hi Hsel.
  destruct (lookup_lt_is_Some_2 (load (_grid s)) (Z.to_nat i)) as [r Hr]; [lia|].
  unfold _apply_load_bus. rewrite bind_get.
  rewrite (bind_Ok _ _ s s home) by (now rewrite lift_run, Hinit).
  set (b := if sel =? 1 then home
            else home + _PandaPowerBackend__nb_bus_before (tables s)).
  rewrite (bind_Ok _ _ s s b)
    by (subst b; destruct Hsel as [-> | ->]; reflexivity).
  replace (0 <=? b) with true
    by (symmetry; apply Z.leb_le; subst b; destruct (sel =? 1); lia).
  rewrite (bind_Ok _ _ _ _ _ (grid_iat_in_range load set_load i _ s Hi)).
  rewrite grid_iat_in_range by (simpl; rewrite length_alter; exact Hi).
  eexists. split; [reflexivity|]. cbn [_grid set_grid load set_load]. split.
  - now rewrite !length_alter.
  - rewrite !list_lookup_alter_eq, Hr. reflexivity.
Qed.

Lemma apply_gen_bus_connect (s : Backend F) (sel i t home : Z) :
  getitem (_init_bus_gen (tables s)) i = Ok home ->
  0 <= home -> 0 <= _PandaPowerBackend__nb_bus_before (tables s) ->
  0 <= i < Z.of_nat (length (gen (_grid s))) ->
  _iref_slack (tables s) = None \/ (0 < length (ext_grid (_grid s)))%nat ->
  sel = 1 \/ sel = 2 ->
  exists rows ext,
    _apply_gen_bus sel i t s
    = (Ok tt, set_grid (set_ext_grid ext (set_gen rows (_grid s))) s) /\
    length rows = length (gen (_grid s)) /\
    gen_bus <$> rows !! Z.to_nat i
    = Some (if sel =? 1 then home
            else home + _PandaPowerBackend__nb_bus_before (tables s)).
Proof.
  intros Hinit Hhome Hnbb Hi Hext Hsel.
  destruct (lookup_lt_is_Some_2 (gen (_grid s)) (Z.to_nat i)) as [r Hr]; [lia|].
  unfold _apply_gen_bus. rewrite bind_get.
  rewrite (bind_Ok _ _ s s home) by (now rewrite lift_run, Hinit).
  set (b := if sel =? 1 then home
            else home + _PandaPowerBackend__nb_bus_before (tables s)).
  rewrite (bind_Ok _ _ s s b)
    by (subst b; destruct Hsel as [-> | ->]; reflexivity).
  replace (0 <=? b) with true
    by (symmetry; apply Z.leb_le; subst b; destruct (sel =? 1); lia).
  rewrite (bind_Ok _ _ _ _ _ (grid_iat_in_range gen set_gen i _ s Hi)).
  erewrite bind_Ok
    by (apply grid_iat_in_range; simpl; rewrite length_alter; exact Hi).
  rewrite bind_get. cbn [tables set_grid _grid].
  destruct ((i =? _) && bool_decide (is_Some (_iref_slack (tables s)))) eqn:Eslack;
    cbn [when].
  - destruct Hext as [Hnone | Hext].
    { rewrite Hnone in Eslack. rewrite andb_comm in Eslack. discriminate. }
    rewrite grid_iat_in_range by (simpl; lia).
    eexists _, _. split; [reflexivity|]. cbn [_grid set_grid gen set_gen]. split.
    + now rewrite !length_alter.
    + rewrite !list_lookup_alter_eq, Hr. reflexivity.
  - exists (alter (set_gen_in_service true) (Z.to_nat i)
              (alter (set_gen_bus b) (Z.to_nat i) (gen (_grid s)))),
           (ext_grid (_grid s)).
    split; [reflexivity|]. split.
    + now rewrite !length_alter.
    + rewrite !list_lookup_alter_eq, Hr. reflexivity.
Qed.

(** X13.  A selector 1 or 2 written by an action on the slot of a load or
    of a generator is the selector read back: after the pair (slot,
    selector) has been applied, [_get_topo_vect] returns a vector that
    holds the selector at the slot.  The tables are those [load_grid]
    builds: the slot belongs to the element, the home bus of the element is
    the bus of its substation, and there is at least one bus. *)
Theorem set_bus_round_trip (s : Backend F) (slot sel i t type_obj home : Z) :
  slots_wf (tables s) ->
  tables_sized s ->
  _number_true_line (tables s) = Z.of_nat (length (line (_grid s))) ->
  length (line_status s) = (length (line (_grid s)) + length (trafo (_grid s)))%nat ->
  getitem (_big_topo_to_backend (tables s)) slot = Ok (i, t, type_obj) ->
  type_obj = 0 \/ type_obj = 1 ->
  pos_topo_vect_table (tables s) type_obj !! Z.to_nat i = Some slot ->
  getitem (init_bus_table (tables s) type_obj) i = Ok home ->
  to_subid_table (tables s) type_obj !! Z.to_nat i = Some home ->
  0 <= home ->
  0 < _PandaPowerBackend__nb_bus_before (tables s) ->
  element_row_exists s type_obj i ->
  sel = 1 \/ sel = 2 ->
  exists s' topo,
    apply_action_topo_one (slot, sel) s = (Ok tt, s') /\
    _get_topo_vect s' = Ok topo /\
    topo !! Z.to_nat slot = Some sel.
Proof.
  intros Hwf Hsz Hnl Hls Hentry Hty Hslot Hinit Hsub Hhome Hnbb [Hi Hrow] Hsel.
  unfold apply_action_topo_one. rewrite bind_get.
  rewrite (bind_Ok _ _ s s (i, t, type_obj)) by (now rewrite lift_run, Hentry).
  destruct Hsz as (Hfit & Lso & Lse & Lpo & Lpe & Lgs & Lgp & Lls & Llp).
  cbn zeta in *.
  destruct Hty as [-> | ->]; cbn in Hrow, Hslot, Hsub;
    unfold init_bus_table in Hinit; cbn in Hinit.
  - rewrite (bind_Ok _ _ s s _apply_load_bus) by reflexivity.
    destruct (apply_load_bus_connect s sel i t home Hinit Hhome) as (rows & Hrun & Hlen & Hbus);
      [lia | lia | exact Hsel |].
    set (s' := set_grid (set_load rows (_grid s)) s) in *.
    destruct (get_topo_vect_total s') as (topo & Htopo & _ & _);
      [exact Hwf | | exact Hnl | exact Hls |].
    { subst s'. unfold tables_sized. cbn. rewrite Hlen. auto 10. }
    exists s', topo. split; [exact Hrun|]. split; [exact Htopo|].
    destruct (get_topo_vect_spec s' topo Hwf Hnl Htopo) as (_ & _ & _ & _ & Sloads).
    destruct (rows !! Z.to_nat i) as [r|] eqn:Hr; [|discriminate].
    injection Hbus as Hbus.
    destruct (Sloads (Z.to_nat i) r Hr) as (p & sub & Hp & Hs & Ht).
    change (tables s') with (tables s) in Hp, Hs.
    rewrite Hslot in Hp. injection Hp as <-. rewrite Hsub in Hs. injection Hs as <-.
    rewrite Ht, Hbus. f_equal.
    destruct Hsel as [-> | ->].
    + change (1 =? 1) with true. cbv iota. now rewrite Z.eqb_refl.
    + change (2 =? 1) with false. cbv iota.
      destruct (home + _ =? home) eqn:E; [lia | reflexivity].
  - rewrite (bind_Ok _ _ s s _apply_gen_bus) by reflexivity.
    destruct Hrow as [Hlt Hext].
    destruct (apply_gen_bus_connect s sel i t home Hinit Hhome)
      as (rows & ext & Hrun & Hlen & Hbus); [lia | lia | exact Hext | exact Hsel |].
    set (s' := set_grid (set_ext_grid ext (set_gen rows (_grid s))) s) in *.
    destruct (get_topo_vect_total s') as (topo & Htopo & _ & _);
      [exact Hwf | | exact Hnl | exact Hls |].
    { subst s'. unfold tables_sized. cbn. rewrite Hlen. auto 10. }
    exists s', topo. split; [exact Hrun|]. split; [exact Htopo|].
    destruct (get_topo_vect_spec s' topo Hwf Hnl Htopo) as (_ & _ & _ & Sgens & _).
    destruct (rows !! Z.to_nat i) as [r|] eqn:Hr; [|discriminate].
    injection Hbus as Hbus.
    destruct (Sgens (Z.to_nat i) r Hr) as (p & sub & Hp & Hs & Ht).
    change (tables s') with (tables s) in Hp, Hs.
    rewrite Hslot in Hp. injection Hp as <-. rewrite Hsub in Hs. injection Hs as <-.
    rewrite Ht, Hbus. f_equal.
    destruct Hsel as [-> | ->].
    + change (1 =? 1) with true. cbv iota. now rewrite Z.eqb_refl.
    + change (2 =? 1) with false. cbv iota.
      destruct (home + _ =? home) eqn:E; [lia | reflexivity].
Qed.

(** ** What a failed solve leaves in the cache *)

Lemma raises_uncaught_Ok {A} (a : A) : raises_uncaught (Ok a).
Proof. intros e He. discriminate. Qed.

Lemma raises_uncaught_rbind {A B} (r : result A) (k : A -> result B) :
  raises_uncaught r -> (forall a, raises_uncaught (k a)) ->
  raises_uncaught (let? x := r in k x).
Proof.
  intros Hr Hk e. destruct r as [a|e']; cbn [rbind].
  - apply Hk.
  - intros [= <-]. now apply Hr.
Qed.

Lemma raises_uncaught_getitem {A} (l : list A) (i : Z) : raises_uncaught (getitem l i).
Proof.
  intros e. unfold getitem.
  destruct (py_index _ _); [destruct (l !! _)|]; intros [= <-]; reflexivity.
Qed.

Lemma raises_uncaught_setitem {A} (l : list A) (i : Z) (x : A) :
  raises_uncaught (setitem l i x).
Proof. intros e. unfold setitem. destruct (py_index _ _); intros [= <-]; reflexivity. Qed.

Lemma raises_uncaught_assign_all {A} (dst src : list A) :
  raises_uncaught (assign_all dst src).
Proof.
  intros e. unfold assign_all. destruct (_ =? _)%nat; [discriminate|].
  destruct src as [|x [|y src]]; intros [= <-]; reflexivity.
Qed.

Lemma raises_uncaught_mask_fill {A} (arr : list A) (mask : list bool) (val : A) :
  raises_uncaught (mask_fill arr mask val).
Proof. intros e. unfold mask_fill. destruct (_ =? _)%nat; intros [= <-]; reflexivity. Qed.

Lemma raises_uncaught_imul_all (dst src : list F) : raises_uncaught (imul_all dst src).
Proof.
  intros e. unfold imul_all. destruct (_ =? _)%nat; [discriminate|].
  destruct src as [|x [|y src]]; intros [= <-]; reflexivity.
Qed.

Lemma raises_uncaught_decode_bus (bus_id : Z) (subid : list Z) (i : Z) :
  raises_uncaught (decode_bus bus_id subid i).
Proof.
  unfold decode_bus. apply raises_uncaught_rbind.
  - apply raises_uncaught_getitem.
  - intros sub. apply raises_uncaught_Ok.
Qed.

Lemma raises_uncaught_topo_set (res pos : list Z) (i v : Z) :
  raises_uncaught (topo_set res pos i v).
Proof.
  unfold topo_set. apply raises_uncaught_rbind.
  - apply raises_uncaught_getitem.
  - intros p. apply raises_uncaught_setitem.
Qed.

Lemma raises_uncaught_get_topo_vect_injections (subid pos buses : list Z) :
  forall i res, raises_uncaught (_get_topo_vect_injections subid pos buses i res).
Proof.
  induction buses as [|b buses IH]; intros i res; cbn [_get_topo_vect_injections].
  - apply raises_uncaught_Ok.
  - apply raises_uncaught_rbind; [apply raises_uncaught_decode_bus | intros v].
    apply raises_uncaught_rbind; [apply raises_uncaught_topo_set | intros res1].
    apply IH.
Qed.

Lemma raises_uncaught_get_topo_vect_branches (self : Backend F) (ls : list bool)
    (rows : list (Z * Z)) :
  forall j res, raises_uncaught (_get_topo_vect_branches self ls rows j res).
Proof.
  induction rows as [|[bo be] rows IH]; intros j res; cbn [_get_topo_vect_branches].
  - apply raises_uncaught_Ok.
  - apply raises_uncaught_rbind; [apply raises_uncaught_getitem | intros status].
    apply raises_uncaught_rbind; [|intros res1; apply IH].
    destruct status;
      repeat first [ apply raises_uncaught_topo_set
                   | apply raises_uncaught_rbind;
                     [first [apply raises_uncaught_decode_bus
                            | apply raises_uncaught_topo_set] | intros ?] ].
Qed.

Lemma raises_uncaught_get_topo_vect (self : Backend F) :
  raises_uncaught (_get_topo_vect self).
Proof.
  unfold _get_topo_vect.
  apply raises_uncaught_rbind;
    [apply raises_uncaught_get_topo_vect_branches | intros res1].
  apply raises_uncaught_rbind;
    [apply raises_uncaught_get_topo_vect_branches | intros res2].
  apply raises_uncaught_rbind;
    [apply raises_uncaught_get_topo_vect_injections | intros res3].
  apply raises_uncaught_get_topo_vect_injections.
Qed.

Lemma raises_uncaught_ppc_gen_reset (iref : option Z) (m : list (list F)) :
  raises_uncaught (ppc_gen_reset iref m).
Proof.
  unfold ppc_gen_reset. destruct iref as [i|].
  - apply raises_uncaught_rbind; [apply raises_uncaught_getitem | intros row].
    apply raises_uncaught_rbind; [apply raises_uncaught_setitem | intros row'].
    apply raises_uncaught_setitem.
  - apply raises_uncaught_rbind; [apply raises_uncaught_getitem | intros row].
    apply raises_uncaught_setitem.
Qed.

Lemma never_ret {A} (a : A) : never_LoadflowNotConverged (ret (F:=F) a).
Proof. intros s e s' Hr. discriminate. Qed.

Lemma never_get : never_LoadflowNotConverged (get (F:=F)).
Proof. intros s e s' Hr. discriminate. Qed.

Lemma never_modify (f : Backend F -> Backend F) : never_LoadflowNotConverged (modify f).
Proof. intros s e s' Hr. discriminate. Qed.

Lemma never_lift {A} (r : result A) :
  raises_uncaught r -> never_LoadflowNotConverged (lift (F:=F) r).
Proof. intros Hr s e s' [= He _]. now apply Hr. Qed.

Lemma never_bind {A B} (m : M A) (k : A -> M B) :
  never_LoadflowNotConverged m -> (forall a, never_LoadflowNotConverged (k a)) ->
  never_LoadflowNotConverged (bind (F:=F) m k).
Proof.
  intros Hm Hk s e s' Hr. apply bind_inv in Hr as [(a & s1 & H1 & H2) | (e' & H1 & He)].
  - exact (Hk a s1 e s' H2).
  - injection He as ->. exact (Hm s e' s' H1).
Qed.

Lemma never_update_vec (a : Attr) (f : list F -> result (list F)) :
  (forall l, raises_uncaught (f l)) -> never_LoadflowNotConverged (update_vec a f).
Proof.
  intros Hf s e s'. unfold update_vec.
  destruct (f (vec s a)) as [v|e'] eqn:E; [discriminate|].
  intros [= <- _]. exact (Hf _ _ E).
Qed.

Lemma never_assign_vec (a : Attr) (src : list F) :
  never_LoadflowNotConverged (assign_vec a src).
Proof.
  intros s e s'. unfold assign_vec.
  destruct (assign_all (vec s a) src) as [v|e'] eqn:E; [discriminate|].
  intros [= <- _]. exact (raises_uncaught_assign_all _ _ _ E).
Qed.

Lemma never_runpf_reset_ppc_gen : never_LoadflowNotConverged runpf_reset_ppc_gen.
Proof.
  intros s e s'. unfold runpf_reset_ppc_gen.
  destruct (_ppc (solved (_grid s))) as [ppc|]; [|intros [= <- _]; reflexivity].
  destruct (ppc_gen_reset _ _) as [m|e'] eqn:E; [discriminate|].
  intros [= <- _]. exact (raises_uncaught_ppc_gen_reset _ _ _ E).
Qed.

Ltac never_step :=
  lazymatch goal with
  | |- never_LoadflowNotConverged (bind _ _) => apply never_bind; [|intros ?]
  | |- never_LoadflowNotConverged (ret _) => apply never_ret
  | |- never_LoadflowNotConverged get => apply never_get
  | |- never_LoadflowNotConverged (modify _) => apply never_modify
  | |- never_LoadflowNotConverged (lift _) =>
      apply never_lift;
      first [apply raises_uncaught_assign_all | apply raises_uncaught_get_topo_vect]
  | |- never_LoadflowNotConverged (update_vec _ _) =>
      apply never_update_vec; intros ?;
      first [apply raises_uncaught_mask_fill | apply raises_uncaught_imul_all]
  | |- never_LoadflowNotConverged (assign_vec _ _) => apply never_assign_vec
  | |- never_LoadflowNotConverged runpf_reset_ppc_gen => apply never_runpf_reset_ppc_gen
  | |- never_LoadflowNotConverged (runpf_line_side _ _ _ _ _ _ _ _ _ _ _ _) =>
      unfold runpf_line_side
  end.

Lemma failure_keeps_never {X A} (obs : Backend F -> X) (m : M A) :
  never_LoadflowNotConverged m -> failure_keeps obs m.
Proof. intros Hm s msg s' Hr. apply Hm in Hr. discriminate. Qed.

Lemma failure_keeps_bind {X A B} (obs : Backend F -> X) (m : M A) (k : A -> M B) :
  preserves obs m -> (forall a, failure_keeps obs (k a)) ->
  failure_keeps obs (bind m k).
Proof.
  intros Hm Hk s msg s' Hr. specialize (Hm s).
  apply bind_inv in Hr as [(a & s1 & H1 & H2) | (e' & H1 & He)].
  - rewrite H1 in Hm. cbn [snd] in Hm. rewrite <- Hm. exact (Hk a s1 msg s' H2).
  - rewrite H1 in Hm. exact Hm.
Qed.

(** The cached line status and topology vector are written only after the
    last point where the body of the [try] can raise [LoadflowNotConverged]. *)
Lemma runpf_try_failure_keeps_cache (is_dc : bool) (nb_bus : Z) :
  failure_keeps cached_topology (runpf_try is_dc nb_bus).
Proof.
  unfold runpf_try.
  repeat first
    [ apply failure_keeps_never; solve [repeat never_step]
    | apply failure_keeps_bind;
      [ solve [preserves_with by_computation] | intros ? ] ].
Qed.

(** X14.  When the solve fails to converge, [runpf] returns [False] with the
    cached line status and the cached topology vector as they were before
    the call: what [get_line_status] and [get_topo_vect] answer afterwards
    dates from before the failed solve. *)
Theorem runpf_failure_keeps_cache (is_dc : bool) (s s1 : Backend F) (msg : string) :
  runpf_try is_dc (get_nb_active_bus s) s = (Raise (LoadflowNotConverged msg), s1) ->
  exists s2, runpf is_dc s = (Ok false, s2) /\
    get_line_status s2 = get_line_status s /\
    _topo_vect s2 = _topo_vect s.
Proof.
  intros Ht. rewrite (runpf_except _ _ _ _ Ht).
  destruct (reset_all_nan_spec s1) as (s2 & Hr & _ & _ & _ & Hls & Htv & _).
  exists s2. split; [now rewrite (bind_Ok _ _ _ _ _ Hr)|].
  pose proof (runpf_try_failure_keeps_cache is_dc _ s msg s1 Ht) as Hkeep.
  unfold cached_topology in Hkeep. injection Hkeep as Hl Hv.
  unfold get_line_status. split; congruence.
Qed.

(** ** Loading: the tables from slots to elements *)

Lemma assign_slots_spec {A} (entry : Z -> A) (pos : list Z) :
  forall (k : Z) (tbl : list (option A)),
    NoDup pos -> Forall (fun p => 0 <= p < Z.of_nat (length tbl)) pos ->
    exists tbl',
      assign_slots tbl (zip (seqZ k (Z.of_nat (length pos))) pos) entry = Ok tbl' /\
      length tbl' = length tbl /\
      (forall (i : nat) p, pos !! i = Some p ->
         tbl' !! Z.to_nat p = Some (Some (entry (k + Z.of_nat i)))) /\
      (forall q : nat, Z.of_nat q ∉ pos -> tbl' !! q = tbl !! q).
Proof.
  induction pos as [|p pos IH]; intros k tbl Hnd Hin.
  - exists tbl. split; [reflexivity|]. split; [reflexivity|]. split; [|reflexivity].
    intros i p Hp. now rewrite lookup_nil in Hp.
  - apply NoDup_cons in Hnd as [Hp Hnd]. apply Forall_cons in Hin as [Hpr Hin].
    cbn [length]. rewrite Nat2Z.inj_succ, seqZ_cons by lia. rewrite Z.pred_succ.
    cbn [zip zip_with assign_slots]. rewrite setitem_in_range by exact Hpr. cbn [rbind].
    destruct (IH (Z.succ k) (<[Z.to_nat p := Some (entry k)]> tbl) Hnd)
      as (tbl' & Hrun & Hlen & Hset & Hframe).
    { now rewrite length_insert. }
    exists tbl'. split; [exact Hrun|]. split; [now rewrite Hlen, length_insert|]. split.
    + intros [|i] q Hq; cbn in Hq.
      * injection Hq as <-. rewrite Hframe by (rewrite Z2Nat.id by lia; exact Hp).
        rewrite list_lookup_insert_eq by lia. do 3 f_equal. lia.
      * rewrite (Hset i q Hq). do 3 f_equal. lia.
    + intros q Hq. apply not_elem_of_cons in Hq as [Hqp Hq].
      rewrite (Hframe q Hq). apply list_lookup_insert_ne. lia.
Qed.

Lemma slots_parts_in_range (tb : Tables F) (n : nat) :
  Forall (fun p => 0 <= p) (all_slots tb) ->
  Forall (fun p => p < Z.of_nat n) (all_slots tb) ->
  Forall (fun p => 0 <= p < Z.of_nat n) (line_or_pos_topo_vect tb) /\
  Forall (fun p => 0 <= p < Z.of_nat n) (line_ex_pos_topo_vect tb) /\
  Forall (fun p => 0 <= p < Z.of_nat n) (gen_pos_topo_vect tb) /\
  Forall (fun p => 0 <= p < Z.of_nat n) (load_pos_topo_vect tb).
Proof.
  intros Hpos Hfit.
  assert (Hall : Forall (fun p => 0 <= p < Z.of_nat n) (all_slots tb)).
  { apply Forall_forall. intros p Hp.
    pose proof (proj1 (Forall_forall _ _) Hpos p Hp).
    pose proof (proj1 (Forall_forall _ _) Hfit p Hp). cbn beta in *. lia. }
  unfold all_slots in Hall.
  apply Forall_app in Hall as [H1 Hall].
  apply Forall_app in Hall as [H2 Hall].
  apply Forall_app in Hall as [H3 H4]. auto.
Qed.

(** The four passes over the slot tables, for any choice of entries. *)
Lemma assign_all_slots_spec {A} (tb : Tables F) (e_load e_gen e_or e_ex : Z -> A) :
  slots_wf tb ->
  Forall (fun p => p < Z.of_nat (dim_topo tb)) (all_slots tb) ->
  exists l,
    (let? t1 := assign_slots (replicate (dim_topo tb) None)
                  (enumerate (load_pos_topo_vect tb)) e_load in
     let? t2 := assign_slots t1 (enumerate (gen_pos_topo_vect tb)) e_gen in
     let? t3 := assign_slots t2 (enumerate (line_or_pos_topo_vect tb)) e_or in
     assign_slots t3 (enumerate (line_ex_pos_topo_vect tb)) e_ex) = Ok l /\
    length l = dim_topo tb /\
    (forall (i : nat) p, load_pos_topo_vect tb !! i = Some p ->
       l !! Z.to_nat p = Some (Some (e_load (Z.of_nat i)))) /\
    (forall (i : nat) p, gen_pos_topo_vect tb !! i = Some p ->
       l !! Z.to_nat p = Some (Some (e_gen (Z.of_nat i)))) /\
    (forall (i : nat) p, line_or_pos_topo_vect tb !! i = Some p ->
       l !! Z.to_nat p = Some (Some (e_or (Z.of_nat i)))) /\
    (forall (i : nat) p, line_ex_pos_topo_vect tb !! i = Some p ->
       l !! Z.to_nat p = Some (Some (e_ex (Z.of_nat i)))) /\
    (length (all_slots tb) = dim_topo tb -> Forall (fun entry => entry <> None) l).
Proof.
  intros Hwf Hfit.
  destruct (slots_parts_in_range tb _ (proj1 Hwf) Hfit) as (Ror & Rex & Rgen & Rload).
  pose proof (proj2 Hwf) as Hnd. unfold all_slots in Hnd.
  apply NoDup_app in Hnd as (Nor & Dor & Hnd).
  apply NoDup_app in Hnd as (Nex & Dex & Hnd).
  apply NoDup_app in Hnd as (Ngen & Dgen & Nload).
  unfold enumerate.
  destruct (assign_slots_spec e_load (load_pos_topo_vect tb) 0
              (replicate (dim_topo tb) None) Nload) as (t1 & H1 & L1 & S1 & F1).
  { now rewrite length_replicate. }
  rewrite length_replicate in L1. rewrite H1. cbn [rbind].
  destruct (assign_slots_spec e_gen (gen_pos_topo_vect tb) 0 t1 Ngen)
    as (t2 & H2 & L2 & S2 & F2); [now rewrite L1|].
  rewrite L1 in L2. rewrite H2. cbn [rbind].
  destruct (assign_slots_spec e_or (line_or_pos_topo_vect tb) 0 t2 Nor)
    as (t3 & H3 & L3 & S3 & F3); [now rewrite L2|].
  rewrite L2 in L3. rewrite H3. cbn [rbind].
  destruct (assign_slots_spec e_ex (line_ex_pos_topo_vect tb) 0 t3 Nex)
    as (t4 & H4 & L4 & S4 & F4); [now rewrite L3|].
  rewrite L3 in L4.
  assert (Hnn : forall (pos : list Z) (i : nat) p,
            Forall (fun p => 0 <= p < Z.of_nat (dim_topo tb)) pos ->
            pos !! i = Some p -> Z.of_nat (Z.to_nat p) = p).
  { intros pos i p Hr Hp. pose proof (Forall_lookup_1 _ _ _ _ Hr Hp). cbn beta in *. lia. }
  assert (Sload : forall (i : nat) p, load_pos_topo_vect tb !! i = Some p ->
            t4 !! Z.to_nat p = Some (Some (e_load (Z.of_nat i)))).
  { intros i p Hp. pose proof (list_elem_of_lookup_2 _ _ _ Hp) as Hin.
    rewrite F4, F3, F2, (S1 i p Hp); [reflexivity | | |];
      rewrite (Hnn _ _ _ Rload Hp); intros Hc.
    - apply (Dgen p Hc Hin).
    - apply (Dor p Hc). rewrite !elem_of_app. auto.
    - apply (Dex p Hc). rewrite elem_of_app. auto. }
  assert (Sgen : forall (i : nat) p, gen_pos_topo_vect tb !! i = Some p ->
            t4 !! Z.to_nat p = Some (Some (e_gen (Z.of_nat i)))).
  { intros i p Hp. pose proof (list_elem_of_lookup_2 _ _ _ Hp) as Hin.
    rewrite F4, F3, (S2 i p Hp); [reflexivity | |];
      rewrite (Hnn _ _ _ Rgen Hp); intros Hc.
    - apply (Dor p Hc). rewrite !elem_of_app. auto.
    - apply (Dex p Hc). rewrite elem_of_app. auto. }
  assert (Sor : forall (i : nat) p, line_or_pos_topo_vect tb !! i = Some p ->
            t4 !! Z.to_nat p = Some (Some (e_or (Z.of_nat i)))).
  { intros i p Hp. pose proof (list_elem_of_lookup_2 _ _ _ Hp) as Hin.
    rewrite F4, (S3 i p Hp); [reflexivity |].
    rewrite (Hnn _ _ _ Ror Hp); intros Hc.
    apply (Dor p Hin). rewrite elem_of_app. auto. }
  exists t4. split; [exact H4|]. split; [exact L4|].
  split; [exact Sload|]. split; [exact Sgen|]. split; [exact Sor|].
  split; [intros i p Hp; rewrite (S4 i p Hp); reflexivity|].
  intros Hfull. apply Forall_lookup. intros q entry Hq.
  pose proof (lookup_lt_Some _ _ _ Hq) as Hlt. rewrite L4 in Hlt.
  assert (Hrange : Forall (fun p => 0 <= p < Z.of_nat (dim_topo tb)) (all_slots tb)).
  { unfold all_slots. rewrite !Forall_app. auto. }
  pose proof (slots_cover _ _ (proj2 Hwf) Hrange Hfull q Hlt) as Hin.
  unfold all_slots in Hin. rewrite !elem_of_app in Hin.
  destruct Hin as [Hin | [Hin | [Hin | Hin]]];
    apply list_elem_of_lookup in Hin as (i & Hi).
  - pose proof (Sor i _ Hi) as E. rewrite Nat2Z.id, Hq in E. now injection E as ->.
  - pose proof (S4 i _ Hi) as E. rewrite Nat2Z.id, Hq in E. now injection E as ->.
  - pose proof (Sgen i _ Hi) as E. rewrite Nat2Z.id, Hq in E. now injection E as ->.
  - pose proof (Sload i _ Hi) as E. rewrite Nat2Z.id, Hq in E. now injection E as ->.
Qed.

(** X15.  With slots that are non-negative, pairwise distinct and below
    [dim_topo], the construction of [_big_topo_to_backend] in [load_grid]
    never fails, and the table it builds sends the slot of load i to
    (i, i, 0), of generator i to (i, i, 1), of the origin of branch i to
    (i, i, 2) for a line and (i, i - nb_powerline, 3) for a transformer,
    and of its extremity to kind 4 or 5 in the same way; when the slots
    are as many as [dim_topo], no entry is left at its initial value. *)
Theorem load_grid_big_topo_to_backend_spec (tb : Tables F) :
  slots_wf tb ->
  Forall (fun p => p < Z.of_nat (dim_topo tb)) (all_slots tb) ->
  exists l, load_grid_big_topo_to_backend tb = Ok l /\
    length l = dim_topo tb /\
    (forall (i : nat) p, load_pos_topo_vect tb !! i = Some p ->
       l !! Z.to_nat p = Some (Some (Z.of_nat i, Z.of_nat i, 0))) /\
    (forall (i : nat) p, gen_pos_topo_vect tb !! i = Some p ->
       l !! Z.to_nat p = Some (Some (Z.of_nat i, Z.of_nat i, 1))) /\
    (forall (i : nat) p, line_or_pos_topo_vect tb !! i = Some p ->
       l !! Z.to_nat p
       = Some (Some (if Z.of_nat i <? _PandaPowerBackend__nb_powerline tb
                     then (Z.of_nat i, Z.of_nat i, 2)
                     else (Z.of_nat i, Z.of_nat i - _PandaPowerBackend__nb_powerline tb, 3)))) /\
    (forall (i : nat) p, line_ex_pos_topo_vect tb !! i = Some p ->
       l !! Z.to_nat p
       = Some (Some (if Z.of_nat i <? _PandaPowerBackend__nb_powerline tb
                     then (Z.of_nat i, Z.of_nat i, 4)
                     else (Z.of_nat i, Z.of_nat i - _PandaPowerBackend__nb_powerline tb, 5)))) /\
    (length (all_slots tb) = dim_topo tb -> Forall (fun entry => entry <> None) l).
Proof.
  intros Hwf Hfit. unfold load_grid_big_topo_to_backend.
  exact (assign_all_slots_spec tb _ _ _ _ Hwf Hfit).
Qed.

(** X16.  With the same slots, [_convert_id_topo] on the table
    [load_grid] builds gives back, for the slot of every element, the
    number of the element in its own table and its kind: "load", "gen",
    "lineor" or "lineex". *)
Theorem convert_id_topo_spec (tb : Tables F) :
  slots_wf tb ->
  Forall (fun p => p < Z.of_nat (dim_topo tb)) (all_slots tb) ->
  exists l, load_grid_big_topo_to_obj tb = Ok l /\
    (forall (i : nat) p, load_pos_topo_vect tb !! i = Some p ->
       _convert_id_topo l p = Ok (Some (Z.of_nat i, "load"))) /\
    (forall (i : nat) p, gen_pos_topo_vect tb !! i = Some p ->
       _convert_id_topo l p = Ok (Some (Z.of_nat i, "gen"))) /\
    (forall (i : nat) p, line_or_pos_topo_vect tb !! i = Some p ->
       _convert_id_topo l p = Ok (Some (Z.of_nat i, "lineor"))) /\
    (forall (i : nat) p, line_ex_pos_topo_vect tb !! i = Some p ->
       _convert_id_topo l p = Ok (Some (Z.of_nat i, "lineex"))).
Proof.
  intros Hwf Hfit. unfold load_grid_big_topo_to_obj.
  destruct (assign_all_slots_spec tb (fun load_id => (load_id, "load"))
              (fun gen_id => (gen_id, "gen")) (fun l_id => (l_id, "lineor"))
              (fun l_id => (l_id, "lineex")) Hwf Hfit)
    as (l & Hrun & _ & Sload & Sgen & Sor & Sex & _).
  destruct (slots_parts_in_range tb _ (proj1 Hwf) Hfit) as (Ror & Rex & Rgen & Rload).
  exists l. split; [exact Hrun|]. unfold _convert_id_topo.
  repeat split; intros i p Hp; apply getitem_lookup;
    first [ exact (proj1 (Forall_lookup_1 _ _ _ _ Ror Hp))
          | exact (proj1 (Forall_lookup_1 _ _ _ _ Rex Hp))
          | exact (proj1 (Forall_lookup_1 _ _ _ _ Rgen Hp))
          | exact (proj1 (Forall_lookup_1 _ _ _ _ Rload Hp))
          | auto ].
Qed.

(** ** Loading: the place of every element in its substation *)

Lemma np_sum_insert (arr : list Z) (k : nat) (x v : Z) :
  arr !! k = Some x -> LoadGrid.np_sum (<[k := v]> arr) = LoadGrid.np_sum arr - x + v.
Proof.
  unfold LoadGrid.np_sum. revert k. induction arr as [|a arr IH]; intros k Hk.
  - now rewrite lookup_nil in Hk.
  - destruct k as [|k].
    + injection Hk as ->. change (v + foldr Z.add 0 arr = x + foldr Z.add 0 arr - x + v).
      lia.
    + change (arr !! k = Some x) in Hk.
      change (a + foldr Z.add 0 (<[k := v]> arr) = a + foldr Z.add 0 arr - x + v).
      rewrite (IH k Hk). lia.
Qed.

Lemma np_sum_zeros (n : nat) : LoadGrid.np_sum (LoadGrid.zeros n) = 0.
Proof. induction n as [|n IH]; [reflexivity|]. cbn. exact IH. Qed.

Lemma extends_refl (w : list (list LoadGrid.Tag)) : LoadGrid.extends w w.
Proof. intros s row Hs. exists []. now rewrite app_nil_r. Qed.

Lemma extends_trans (w1 w2 w3 : list (list LoadGrid.Tag)) :
  LoadGrid.extends w1 w2 -> LoadGrid.extends w2 w3 -> LoadGrid.extends w1 w3.
Proof.
  intros H12 H23 s row Hs. destruct (H12 s row Hs) as (s1 & H1).
  destruct (H23 s _ H1) as (s2 & H2). exists (s1 ++ s2). now rewrite app_assoc.
Qed.

Lemma placed_at_extends (st st' : LoadGrid.Placement) (sub p : Z) (t : LoadGrid.Tag) :
  LoadGrid.extends (LoadGrid._what_object_where st) (LoadGrid._what_object_where st') ->
  LoadGrid.placed_at st sub p t -> LoadGrid.placed_at st' sub p t.
Proof.
  intros Hext (row & Hrow & Ht). destruct (Hext _ _ Hrow) as (suffix & Hs).
  exists (row ++ suffix). split; [exact Hs|]. now apply lookup_app_l_Some.
Qed.

(** One element placed: the three steps on the counters and the list of
    its substation, in closed form. *)
Lemma place_one (si : list Z) (w : list (list LoadGrid.Tag)) (o : Z) (t : LoadGrid.Tag)
    (n : nat) :
  length si = n -> length w = n ->
  (forall s row, w !! s = Some row -> si !! s = Some (Z.of_nat (length row))) ->
  0 <= o < Z.of_nat n ->
  exists row,
    w !! Z.to_nat o = Some row /\
    getitem si o = Ok (Z.of_nat (length row)) /\
    LoadGrid.incr si o = Ok (<[Z.to_nat o := Z.of_nat (length row) + 1]> si) /\
    LoadGrid.append_at w o t = Ok (<[Z.to_nat o := row ++ [t]]> w) /\
    (forall s row', <[Z.to_nat o := row ++ [t]]> w !! s = Some row' ->
       <[Z.to_nat o := Z.of_nat (length row) + 1]> si !! s
       = Some (Z.of_nat (length row'))) /\
    LoadGrid.extends w (<[Z.to_nat o := row ++ [t]]> w) /\
    LoadGrid.np_sum (<[Z.to_nat o := Z.of_nat (length row) + 1]> si)
    = LoadGrid.np_sum si + 1.
Proof.
  intros Hsi Hw Hag Ho.
  destruct (lookup_lt_is_Some_2 w (Z.to_nat o)) as [row Hrow]; [lia|].
  pose proof (Hag _ _ Hrow) as Hcount.
  assert (Hget : getitem si o = Ok (Z.of_nat (length row)))
    by (apply getitem_lookup; [lia | exact Hcount]).
  exists row. split; [exact Hrow|]. split; [exact Hget|]. split; [|split; [|split; [|split]]].
  - unfold LoadGrid.incr. rewrite Hget. cbn [rbind]. apply setitem_in_range. lia.
  - unfold LoadGrid.append_at.
    rewrite (getitem_lookup _ _ _ (proj1 Ho) Hrow). cbn [rbind].
    apply setitem_in_range. lia.
  - intros s row' Hs. destruct (decide (s = Z.to_nat o)) as [->|Hne].
    + rewrite list_lookup_insert_eq in Hs by lia. injection Hs as <-.
      rewrite list_lookup_insert_eq by lia. rewrite length_app. cbn [length].
      f_equal. lia.
    + rewrite list_lookup_insert_ne in Hs by congruence.
      rewrite list_lookup_insert_ne by congruence. now apply Hag.
  - intros s row' Hs. destruct (decide (s = Z.to_nat o)) as [->|Hne].
    + rewrite Hrow in Hs. injection Hs as <-. exists [t].
      apply list_lookup_insert_eq. lia.
    + exists []. rewrite app_nil_r. now rewrite list_lookup_insert_ne by congruence.
  - rewrite (np_sum_insert _ _ _ _ Hcount). lia.
Qed.

Lemma place_gen_step (st : LoadGrid.Placement) (n : nat) (i sub_id : Z) :
  LoadGrid.counts_agree st n ->
  0 <= sub_id < Z.of_nat n ->
  0 <= i < Z.of_nat (length (LoadGrid.gen_to_subid st)) ->
  length (LoadGrid.gen_to_sub_pos st) = length (LoadGrid.gen_to_subid st) ->
  exists st' p,
    LoadGrid.place_gen st (i, sub_id) = Ok st' /\
    LoadGrid.counts_agree st' n /\
    LoadGrid.extends (LoadGrid._what_object_where st) (LoadGrid._what_object_where st') /\
    LoadGrid.np_sum (LoadGrid.sub_info st') = LoadGrid.np_sum (LoadGrid.sub_info st) + 1 /\
    LoadGrid.gen_to_subid st' = <[Z.to_nat i := sub_id]> (LoadGrid.gen_to_subid st) /\
    LoadGrid.gen_to_sub_pos st' = <[Z.to_nat i := p]> (LoadGrid.gen_to_sub_pos st) /\
    LoadGrid.placed_at st' sub_id p ("gen", "bus", i) /\
    (LoadGrid.load_to_subid st', LoadGrid.load_to_sub_pos st',
     LoadGrid.line_or_to_subid st', LoadGrid.line_ex_to_subid st',
     LoadGrid.line_or_to_sub_pos st', LoadGrid.line_ex_to_sub_pos st')
    = (LoadGrid.load_to_subid st, LoadGrid.load_to_sub_pos st,
       LoadGrid.line_or_to_subid st, LoadGrid.line_ex_to_subid st,
       LoadGrid.line_or_to_sub_pos st, LoadGrid.line_ex_to_sub_pos st).
Proof.
  intros (Hpau & Hsi & Hw & Hag) Hsub Hi Hlen.
  destruct (place_one _ _ sub_id ("gen", "bus", i) n Hsi Hw Hag Hsub)
    as (row & Hrow & Hget & Hincr & Happ & Hag' & Hext & Hsum).
  unfold LoadGrid.place_gen. cbv beta iota. rewrite Hpau, Hincr, Hget, Happ.
  cbn [rbind]. rewrite (setitem_in_range (LoadGrid.gen_to_subid st)) by lia.
  cbn [rbind]. rewrite (setitem_in_range (LoadGrid.gen_to_sub_pos st)) by (rewrite Hlen; lia).
  cbn [rbind].
  eexists _, (Z.of_nat (length row)). split; [reflexivity|].
  split.
  { unfold LoadGrid.counts_agree. cbn. rewrite !length_insert. auto. }
  split; [exact Hext|]. split; [exact Hsum|].
  split; [reflexivity|]. split; [reflexivity|]. split; [|reflexivity].
  exists (row ++ [("gen", "bus", i)]). cbn. split.
  - apply list_lookup_insert_eq. lia.
  - rewrite Nat2Z.id. rewrite lookup_app_r by lia. now rewrite Nat.sub_diag.
Qed.

Lemma place_load_step (st : LoadGrid.Placement) (n : nat) (i sub_id : Z) :
  LoadGrid.counts_agree st n ->
  0 <= sub_id < Z.of_nat n ->
  0 <= i < Z.of_nat (length (LoadGrid.load_to_subid st)) ->
  length (LoadGrid.load_to_sub_pos st) = length (LoadGrid.load_to_subid st) ->
  exists st' p,
    LoadGrid.place_load st (i, sub_id) = Ok st' /\
    LoadGrid.counts_agree st' n /\
    LoadGrid.extends (LoadGrid._what_object_where st) (LoadGrid._what_object_where st') /\
    LoadGrid.np_sum (LoadGrid.sub_info st') = LoadGrid.np_sum (LoadGrid.sub_info st) + 1 /\
    LoadGrid.load_to_subid st' = <[Z.to_nat i := sub_id]> (LoadGrid.load_to_subid st) /\
    LoadGrid.load_to_sub_pos st' = <[Z.to_nat i := p]> (LoadGrid.load_to_sub_pos st) /\
    LoadGrid.placed_at st' sub_id p ("load", "bus", i) /\
    (LoadGrid.gen_to_subid st', LoadGrid.gen_to_sub_pos st',
     LoadGrid.line_or_to_subid st', LoadGrid.line_ex_to_subid st',
     LoadGrid.line_or_to_sub_pos st', LoadGrid.line_ex_to_sub_pos st')
    = (LoadGrid.gen_to_subid st, LoadGrid.gen_to_sub_pos st,
       LoadGrid.line_or_to_subid st, LoadGrid.line_ex_to_subid st,
       LoadGrid.line_or_to_sub_pos st, LoadGrid.line_ex_to_sub_pos st).
Proof.
  intros (Hpau & Hsi & Hw & Hag) Hsub Hi Hlen.
  destruct (place_one _ _ sub_id ("load", "bus", i) n Hsi Hw Hag Hsub)
    as (row & Hrow & Hget & Hincr & Happ & Hag' & Hext & Hsum).
  unfold LoadGrid.place_load. cbv beta iota. rewrite Hpau, Hincr, Hget, Happ.
  cbn [rbind]. rewrite (setitem_in_range (LoadGrid.load_to_subid st)) by lia.
  cbn [rbind]. rewrite (setitem_in_range (LoadGrid.load_to_sub_pos st)) by (rewrite Hlen; lia).
  cbn [rbind].
  eexists _, (Z.of_nat (length row)). split; [reflexivity|].
  split.
  { unfold LoadGrid.counts_agree. cbn. rewrite !length_insert. auto. }
  split; [exact Hext|]. split; [exact Hsum|].
  split; [reflexivity|]. split; [reflexivity|]. split; [|reflexivity].
  exists (row ++ [("load", "bus", i)]). cbn. split.
  - apply list_lookup_insert_eq. lia.
  - rewrite Nat2Z.id. rewrite lookup_app_r by lia. now rewrite Nat.sub_diag.
Qed.

Lemma place_branch_step (kind col_or col_ex : string) (lag : Z)
    (st : LoadGrid.Placement) (n : nat) (i o e : Z) :
  LoadGrid.counts_agree st n ->
  0 <= o < Z.of_nat n -> 0 <= e < Z.of_nat n ->
  0 <= i + lag < Z.of_nat (length (LoadGrid.line_or_to_subid st)) ->
  length (LoadGrid.line_ex_to_subid st) = length (LoadGrid.line_or_to_subid st) ->
  length (LoadGrid.line_or_to_sub_pos st) = length (LoadGrid.line_or_to_subid st) ->
  length (LoadGrid.line_ex_to_sub_pos st) = length (LoadGrid.line_or_to_subid st) ->
  exists st' p p',
    LoadGrid.place_branch kind col_or col_ex lag st (i, (o, e)) = Ok st' /\
    LoadGrid.counts_agree st' n /\
    LoadGrid.extends (LoadGrid._what_object_where st) (LoadGrid._what_object_where st') /\
    LoadGrid.np_sum (LoadGrid.sub_info st') = LoadGrid.np_sum (LoadGrid.sub_info st) + 2 /\
    LoadGrid.line_or_to_subid st'
    = <[Z.to_nat (i + lag) := o]> (LoadGrid.line_or_to_subid st) /\
    LoadGrid.line_ex_to_subid st'
    = <[Z.to_nat (i + lag) := e]> (LoadGrid.line_ex_to_subid st) /\
    LoadGrid.line_or_to_sub_pos st'
    = <[Z.to_nat (i + lag) := p]> (LoadGrid.line_or_to_sub_pos st) /\
    LoadGrid.line_ex_to_sub_pos st'
    = <[Z.to_nat (i + lag) := p']> (LoadGrid.line_ex_to_sub_pos st) /\
    LoadGrid.placed_at st' o p (kind, col_or, i) /\
    LoadGrid.placed_at st' e p' (kind, col_ex, i) /\
    (LoadGrid.load_to_subid st', LoadGrid.load_to_sub_pos st',
     LoadGrid.gen_to_subid st', LoadGrid.gen_to_sub_pos st')
    = (LoadGrid.load_to_subid st, LoadGrid.load_to_sub_pos st,
       LoadGrid.gen_to_subid st, LoadGrid.gen_to_sub_pos st).
Proof.
  intros (Hpau & Hsi & Hw & Hag) Ho He Hi Lle Llop Llep.
  destruct (place_one _ _ o (kind, col_or, i) n Hsi Hw Hag Ho)
    as (row1 & Hrow1 & Hget1 & Hincr1 & Happ1 & Hag1 & Hext1 & Hsum1).
  remember (<[Z.to_nat o := Z.of_nat (length row1) + 1]> (LoadGrid.sub_info st))
    as si1 eqn:Esi1.
  remember (<[Z.to_nat o := row1 ++ [(kind, col_or, i)]]>
              (LoadGrid._what_object_where st)) as w1 eqn:Ew1.
  assert (Hsi1 : length si1 = n) by (subst si1; now rewrite length_insert).
  assert (Hw1 : length w1 = n) by (subst w1; now rewrite length_insert).
  assert (Hag1' : forall s row, w1 !! s = Some row ->
                    si1 !! s = Some (Z.of_nat (length row)))
    by (subst w1 si1; exact Hag1).
  assert (Hext1' : LoadGrid.extends (LoadGrid._what_object_where st) w1)
    by (subst w1; exact Hext1).
  assert (Happ1' : LoadGrid.append_at (LoadGrid._what_object_where st) o
                     (kind, col_or, i) = Ok w1)
    by (subst w1; exact Happ1).
  clear Hag1 Hext1 Happ1.
  destruct (place_one si1 w1 e (kind, col_ex, i) n Hsi1 Hw1 Hag1' He)
    as (row2 & Hrow2 & Hget2 & Hincr2 & Happ2 & Hag2 & Hext2 & Hsum2).
  unfold LoadGrid.place_branch. cbv beta iota. rewrite Hpau.
  repeat (first [ rewrite Hincr1 | rewrite Hincr2 | rewrite Hget1 | rewrite Hget2
                | rewrite Happ1' | rewrite Happ2
                | rewrite setitem_in_range by lia ];
          cbn [rbind]).
  eexists _, (Z.of_nat (length row1)), (Z.of_nat (length row2)).
  split; [reflexivity|].
  split.
  { unfold LoadGrid.counts_agree. cbn. rewrite !length_insert. auto. }
  split; [exact (extends_trans _ _ _ Hext1' Hext2)|].
  split; [cbn; fold (LoadGrid.np_sum
                       (<[Z.to_nat e := Z.of_nat (length row2) + 1]> si1));
          rewrite Hsum2, Hsum1; lia|].
  do 4 (split; [reflexivity|]).
  split; [|split; [|reflexivity]].
  - destruct (Hext2 (Z.to_nat o) (row1 ++ [(kind, col_or, i)])) as (suffix & Hs).
    { rewrite Ew1. apply list_lookup_insert_eq. lia. }
    exists ((row1 ++ [(kind, col_or, i)]) ++ suffix). cbn. split; [exact Hs|].
    rewrite Nat2Z.id. apply lookup_app_l_Some.
    rewrite lookup_app_r by lia. now rewrite Nat.sub_diag.
  - exists (row2 ++ [(kind, col_ex, i)]). cbn. split.
    + apply list_lookup_insert_eq. lia.
    + rewrite Nat2Z.id. rewrite lookup_app_r by lia. now rewrite Nat.sub_diag.
Qed.

Lemma place_gen_loop (n : nat) (buses : list Z) :
  forall (k : nat) (st : LoadGrid.Placement),
    LoadGrid.counts_agree st n ->
    Forall (fun b => 0 <= b < Z.of_nat n) buses ->
    length (LoadGrid.gen_to_sub_pos st) = length (LoadGrid.gen_to_subid st) ->
    (k + length buses <= length (LoadGrid.gen_to_subid st))%nat ->
    exists st',
      LoadGrid.for_items LoadGrid.place_gen st
        (zip (seqZ (Z.of_nat k) (Z.of_nat (length buses))) buses) = Ok st' /\
      LoadGrid.counts_agree st' n /\
      LoadGrid.extends (LoadGrid._what_object_where st) (LoadGrid._what_object_where st') /\
      LoadGrid.np_sum (LoadGrid.sub_info st')
      = LoadGrid.np_sum (LoadGrid.sub_info st) + Z.of_nat (length buses) /\
      length (LoadGrid.gen_to_subid st') = length (LoadGrid.gen_to_subid st) /\
      length (LoadGrid.gen_to_sub_pos st') = length (LoadGrid.gen_to_sub_pos st) /\
      (forall j, (j < k)%nat ->
         LoadGrid.gen_to_subid st' !! j = LoadGrid.gen_to_subid st !! j /\
         LoadGrid.gen_to_sub_pos st' !! j = LoadGrid.gen_to_sub_pos st !! j) /\
      (forall i b, buses !! i = Some b ->
         LoadGrid.gen_to_subid st' !! (k + i)%nat = Some b /\
         exists p, LoadGrid.gen_to_sub_pos st' !! (k + i)%nat = Some p /\
           LoadGrid.placed_at st' b p ("gen", "bus", Z.of_nat (k + i))) /\
      (LoadGrid.load_to_subid st', LoadGrid.load_to_sub_pos st',
       LoadGrid.line_or_to_subid st', LoadGrid.line_ex_to_subid st',
       LoadGrid.line_or_to_sub_pos st', LoadGrid.line_ex_to_sub_pos st')
      = (LoadGrid.load_to_subid st, LoadGrid.load_to_sub_pos st,
         LoadGrid.line_or_to_subid st, LoadGrid.line_ex_to_subid st,
         LoadGrid.line_or_to_sub_pos st, LoadGrid.line_ex_to_sub_pos st).
Proof.
  induction buses as [|b buses IH]; intros k st Hag Hin Hlen Hk.
  - exists st. split; [reflexivity|]. split; [exact Hag|].
    split; [apply extends_refl|]. split; [cbn; lia|].
    do 2 (split; [reflexivity|]). split; [auto|]. split; [|reflexivity].
    intros i b Hb. now rewrite lookup_nil in Hb.
  - apply Forall_cons in Hin as [Hb Hin]. cbn [length] in Hk |- *.
    rewrite Nat2Z.inj_succ, seqZ_cons by lia. rewrite Z.pred_succ.
    cbn [zip zip_with LoadGrid.for_items].
    destruct (place_gen_step st n (Z.of_nat k) b Hag Hb) as
      (st1 & p & Hrun & Hag1 & Hext1 & Hsum1 & Hgs & Hgp & Hpl & Hrest1);
      [lia | exact Hlen |].
    rewrite Hrun. cbn [rbind]. rewrite Nat2Z.id in Hgs, Hgp.
    replace (Z.succ (Z.of_nat k)) with (Z.of_nat (S k)) by lia.
    destruct (IH (S k) st1 Hag1 Hin) as
      (st' & Hrun' & Hag' & Hext' & Hsum' & Lgs & Lgp & Hkeep & Hset & Hrest');
      [rewrite Hgs, Hgp, !length_insert; exact Hlen
      | rewrite Hgs, length_insert; lia |].
    exists st'. split; [exact Hrun'|]. split; [exact Hag'|].
    split; [exact (extends_trans _ _ _ Hext1 Hext')|].
    split; [rewrite Hsum', Hsum1; lia|].
    split; [rewrite Lgs, Hgs; apply length_insert|].
    split; [rewrite Lgp, Hgp; apply length_insert|].
    split; [|split; [|congruence]].
    + intros j Hj. destruct (Hkeep j) as [K1 K2]; [lia|].
      rewrite K1, K2, Hgs, Hgp. split; apply list_lookup_insert_ne; lia.
    + intros [|i] b' Hb'.
      * cbn in Hb'. injection Hb' as <-. rewrite Nat.add_0_r.
        destruct (Hkeep k) as [K1 K2]; [lia|]. rewrite K1, K2, Hgs, Hgp.
        split; [apply list_lookup_insert_eq; lia|].
        exists p. split; [apply list_lookup_insert_eq; lia|].
        exact (placed_at_extends _ _ _ _ _ Hext' Hpl).
      * cbn in Hb'. replace (k + S i)%nat with (S k + i)%nat by lia.
        exact (Hset i b' Hb').
Qed.

Lemma place_load_loop (n : nat) (buses : list Z) :
  forall (k : nat) (st : LoadGrid.Placement),
    LoadGrid.counts_agree st n ->
    Forall (fun b => 0 <= b < Z.of_nat n) buses ->
    length (LoadGrid.load_to_sub_pos st) = length (LoadGrid.load_to_subid st) ->
    (k + length buses <= length (LoadGrid.load_to_subid st))%nat ->
    exists st',
      LoadGrid.for_items LoadGrid.place_load st
        (zip (seqZ (Z.of_nat k) (Z.of_nat (length buses))) buses) = Ok st' /\
      LoadGrid.counts_agree st' n /\
      LoadGrid.extends (LoadGrid._what_object_where st) (LoadGrid._what_object_where st') /\
      LoadGrid.np_sum (LoadGrid.sub_info st')
      = LoadGrid.np_sum (LoadGrid.sub_info st) + Z.of_nat (length buses) /\
      length (LoadGrid.load_to_subid st') = length (LoadGrid.load_to_subid st) /\
      length (LoadGrid.load_to_sub_pos st') = length (LoadGrid.load_to_sub_pos st) /\
      (forall j, (j < k)%nat ->
         LoadGrid.load_to_subid st' !! j = LoadGrid.load_to_subid st !! j /\
         LoadGrid.load_to_sub_pos st' !! j = LoadGrid.load_to_sub_pos st !! j) /\
      (forall i b, buses !! i = Some b ->
         LoadGrid.load_to_subid st' !! (k + i)%nat = Some b /\
         exists p, LoadGrid.load_to_sub_pos st' !! (k + i)%nat = Some p /\
           LoadGrid.placed_at st' b p ("load", "bus", Z.of_nat (k + i))) /\
      (LoadGrid.gen_to_subid st', LoadGrid.gen_to_sub_pos st',
       LoadGrid.line_or_to_subid st', LoadGrid.line_ex_to_subid st',
       LoadGrid.line_or_to_sub_pos st', LoadGrid.line_ex_to_sub_pos st')
      = (LoadGrid.gen_to_subid st, LoadGrid.gen_to_sub_pos st,
         LoadGrid.line_or_to_subid st, LoadGrid.line_ex_to_subid st,
         LoadGrid.line_or_to_sub_pos st, LoadGrid.line_ex_to_sub_pos st).
Proof.
  induction buses as [|b buses IH]; intros k st Hag Hin Hlen Hk.
  - exists st. split; [reflexivity|]. split; [exact Hag|].
    split; [apply extends_refl|]. split; [cbn; lia|].
    do 2 (split; [reflexivity|]). split; [auto|]. split; [|reflexivity].
    intros i b Hb. now rewrite lookup_nil in Hb.
  - apply Forall_cons in Hin as [Hb Hin]. cbn [length] in Hk |- *.
    rewrite Nat2Z.inj_succ, seqZ_cons by lia. rewrite Z.pred_succ.
    cbn [zip zip_with LoadGrid.for_items].
    destruct (place_load_step st n (Z.of_nat k) b Hag Hb) as
      (st1 & p & Hrun & Hag1 & Hext1 & Hsum1 & Hgs & Hgp & Hpl & Hrest1);
      [lia | exact Hlen |].
    rewrite Hrun. cbn [rbind]. rewrite Nat2Z.id in Hgs, Hgp.
    replace (Z.succ (Z.of_nat k)) with (Z.of_nat (S k)) by lia.
    destruct (IH (S k) st1 Hag1 Hin) as
      (st' & Hrun' & Hag' & Hext' & Hsum' & Lgs & Lgp & Hkeep & Hset & Hrest');
      [rewrite Hgs, Hgp, !length_insert; exact Hlen
      | rewrite Hgs, length_insert; lia |].
    exists st'. split; [exact Hrun'|]. split; [exact Hag'|].
    split; [exact (extends_trans _ _ _ Hext1 Hext')|].
    split; [rewrite Hsum', Hsum1; lia|].
    split; [rewrite Lgs, Hgs; apply length_insert|].
    split; [rewrite Lgp, Hgp; apply length_insert|].
    split; [|split; [|congruence]].
    + intros j Hj. destruct (Hkeep j) as [K1 K2]; [lia|].
      rewrite K1, K2, Hgs, Hgp. split; apply list_lookup_insert_ne; lia.
    + intros [|i] b' Hb'.
      * cbn in Hb'. injection Hb' as <-. rewrite Nat.add_0_r.
        destruct (Hkeep k) as [K1 K2]; [lia|]. rewrite K1, K2, Hgs, Hgp.
        split; [apply list_lookup_insert_eq; lia|].
        exists p. split; [apply list_lookup_insert_eq; lia|].
        exact (placed_at_extends _ _ _ _ _ Hext' Hpl).
      * cbn in Hb'. replace (k + S i)%nat with (S k + i)%nat by lia.
        exact (Hset i b' Hb').
Qed.

Lemma place_branch_loop (kind col_or col_ex : string) (lag n : nat)
    (rows : list (Z * Z)) :
  forall (k : nat) (st : LoadGrid.Placement),
    LoadGrid.counts_agree st n ->
    Forall (fun oe => (0 <= oe.1 < Z.of_nat n) /\ (0 <= oe.2 < Z.of_nat n)) rows ->
    length (LoadGrid.line_ex_to_subid st) = length (LoadGrid.line_or_to_subid st) ->
    length (LoadGrid.line_or_to_sub_pos st) = length (LoadGrid.line_or_to_subid st) ->
    length (LoadGrid.line_ex_to_sub_pos st) = length (LoadGrid.line_or_to_subid st) ->
    (lag + k + length rows <= length (LoadGrid.line_or_to_subid st))%nat ->
    exists st',
      LoadGrid.for_items (LoadGrid.place_branch kind col_or col_ex (Z.of_nat lag)) st
        (zip (seqZ (Z.of_nat k) (Z.of_nat (length rows))) rows) = Ok st' /\
      LoadGrid.counts_agree st' n /\
      LoadGrid.extends (LoadGrid._what_object_where st) (LoadGrid._what_object_where st') /\
      LoadGrid.np_sum (LoadGrid.sub_info st')
      = LoadGrid.np_sum (LoadGrid.sub_info st) + 2 * Z.of_nat (length rows) /\
      (length (LoadGrid.line_or_to_subid st'), length (LoadGrid.line_ex_to_subid st'),
       length (LoadGrid.line_or_to_sub_pos st'), length (LoadGrid.line_ex_to_sub_pos st'))
      = (length (LoadGrid.line_or_to_subid st), length (LoadGrid.line_ex_to_subid st),
         length (LoadGrid.line_or_to_sub_pos st), length (LoadGrid.line_ex_to_sub_pos st)) /\
      (forall j, (j < lag + k)%nat ->
         LoadGrid.line_or_to_subid st' !! j = LoadGrid.line_or_to_subid st !! j /\
         LoadGrid.line_ex_to_subid st' !! j = LoadGrid.line_ex_to_subid st !! j /\
         LoadGrid.line_or_to_sub_pos st' !! j = LoadGrid.line_or_to_sub_pos st !! j /\
         LoadGrid.line_ex_to_sub_pos st' !! j = LoadGrid.line_ex_to_sub_pos st !! j) /\
      (forall i o e, rows !! i = Some (o, e) ->
         LoadGrid.line_or_to_subid st' !! (lag + k + i)%nat = Some o /\
         LoadGrid.line_ex_to_subid st' !! (lag + k + i)%nat = Some e /\
         exists p p',
           LoadGrid.line_or_to_sub_pos st' !! (lag + k + i)%nat = Some p /\
           LoadGrid.line_ex_to_sub_pos st' !! (lag + k + i)%nat = Some p' /\
           LoadGrid.placed_at st' o p (kind, col_or, Z.of_nat (k + i)) /\
           LoadGrid.placed_at st' e p' (kind, col_ex, Z.of_nat (k + i))) /\
      (LoadGrid.load_to_subid st', LoadGrid.load_to_sub_pos st',
       LoadGrid.gen_to_subid st', LoadGrid.gen_to_sub_pos st')
      = (LoadGrid.load_to_subid st, LoadGrid.load_to_sub_pos st,
         LoadGrid.gen_to_subid st, LoadGrid.gen_to_sub_pos st).
Proof.
  induction rows as [|[o e] rows IH]; intros k st Hag Hin Lle Llop Llep Hk.
  - exists st. split; [reflexivity|]. split; [exact Hag|].
    split; [apply extends_refl|]. split; [cbn; lia|].
    split; [reflexivity|]. split; [auto|]. split; [|reflexivity].
    intros i o e Hb. now rewrite lookup_nil in Hb.
  - apply Forall_cons in Hin as [[Ho He] Hin]. cbn [fst snd] in Ho, He.
    cbn [length] in Hk |- *.
    rewrite Nat2Z.inj_succ, seqZ_cons by lia. rewrite Z.pred_succ.
    cbn [zip zip_with LoadGrid.for_items].
    destruct (place_branch_step kind col_or col_ex (Z.of_nat lag) st n (Z.of_nat k) o e
                Hag Ho He) as
      (st1 & p & p' & Hrun & Hag1 & Hext1 & Hsum1 & Hlo & Hle & Hlop & Hlep
       & Hpl & Hpl' & Hrest1); [lia | exact Lle | exact Llop | exact Llep |].
    rewrite Hrun. cbn [rbind].
    replace (Z.to_nat (Z.of_nat k + Z.of_nat lag)) with (lag + k)%nat
      in Hlo, Hle, Hlop, Hlep by lia.
    replace (Z.succ (Z.of_nat k)) with (Z.of_nat (S k)) by lia.
    destruct (IH (S k) st1 Hag1 Hin) as
      (st' & Hrun' & Hag' & Hext' & Hsum' & Hlens & Hkeep & Hset & Hrest');
      [ rewrite Hlo, Hle, !length_insert; exact Lle
      | rewrite Hlo, Hlop, !length_insert; exact Llop
      | rewrite Hlo, Hlep, !length_insert; exact Llep
      | rewrite Hlo, length_insert; lia |].
    exists st'. split; [exact Hrun'|]. split; [exact Hag'|].
    split; [exact (extends_trans _ _ _ Hext1 Hext')|].
    split; [rewrite Hsum', Hsum1; lia|].
    split; [rewrite Hlens, Hlo, Hle, Hlop, Hlep, !length_insert; reflexivity|].
    split; [|split; [|congruence]].
    + intros j Hj. destruct (Hkeep j) as (K1 & K2 & K3 & K4); [lia|].
      rewrite K1, K2, K3, K4, Hlo, Hle, Hlop, Hlep.
      repeat split; apply list_lookup_insert_ne; lia.
    + intros [|i] o' e' Hb'.
      * cbn in Hb'. injection Hb' as <- <-. rewrite !Nat.add_0_r.
        destruct (Hkeep (lag + k)%nat) as (K1 & K2 & K3 & K4); [lia|].
        rewrite K1, K2, K3, K4, Hlo, Hle, Hlop, Hlep.
        split; [apply list_lookup_insert_eq; lia|].
        split; [apply list_lookup_insert_eq; lia|].
        exists p, p'.
        split; [apply list_lookup_insert_eq; lia|].
        split; [apply list_lookup_insert_eq; lia|].
        split; [exact (placed_at_extends _ _ _ _ _ Hext' Hpl)
               | exact (placed_at_extends _ _ _ _ _ Hext' Hpl')].
      * cbn in Hb'.
        replace (lag + k + S i)%nat with (lag + S k + i)%nat by lia.
        replace (k + S i)%nat with (S k + i)%nat by lia.
        exact (Hset i o' e' Hb').
Qed.

Lemma counts_agree_init (n_sub n_line n_gen n_load : nat) :
  LoadGrid.counts_agree (LoadGrid.init n_sub n_line n_gen n_load) n_sub.
Proof.
  unfold LoadGrid.counts_agree, LoadGrid.init, LoadGrid.zeros. cbn.
  rewrite !length_replicate. repeat split.
  intros s row Hs. apply lookup_replicate in Hs as [-> Hs].
  now apply lookup_replicate_2.
Qed.

(** Everything the four loops establish. *)
Lemma placement_facts (g : Grid F) :
  LoadGrid.buses_exist g ->
  exists st,
    LoadGrid.placement g
    = Ok (st, Z.of_nat (2 * (length (line g) + length (trafo g))
                        + length (gen g) + length (load g))) /\
    LoadGrid.counts_agree st (length (bus g)) /\
    LoadGrid.line_or_to_subid st = map from_bus (line g) ++ map hv_bus (trafo g) /\
    LoadGrid.line_ex_to_subid st = map to_bus (line g) ++ map lv_bus (trafo g) /\
    LoadGrid.gen_to_subid st = map gen_bus (gen g) /\
    LoadGrid.load_to_subid st = map load_bus (load g) /\
    (forall i r, line g !! i = Some r ->
       exists p p',
         LoadGrid.line_or_to_sub_pos st !! i = Some p /\
         LoadGrid.line_ex_to_sub_pos st !! i = Some p' /\
         LoadGrid.placed_at st (from_bus r) p ("line", "from_bus", Z.of_nat i) /\
         LoadGrid.placed_at st (to_bus r) p' ("line", "to_bus", Z.of_nat i)) /\
    (forall i r, trafo g !! i = Some r ->
       exists p p',
         LoadGrid.line_or_to_sub_pos st !! (length (line g) + i)%nat = Some p /\
         LoadGrid.line_ex_to_sub_pos st !! (length (line g) + i)%nat = Some p' /\
         LoadGrid.placed_at st (hv_bus r) p ("trafo", "hv_bus", Z.of_nat i) /\
         LoadGrid.placed_at st (lv_bus r) p' ("trafo", "lv_bus", Z.of_nat i)) /\
    (forall i r, gen g !! i = Some r ->
       exists p, LoadGrid.gen_to_sub_pos st !! i = Some p /\
         LoadGrid.placed_at st (gen_bus r) p ("gen", "bus", Z.of_nat i)) /\
    (forall i r, load g !! i = Some r ->
       exists p, LoadGrid.load_to_sub_pos st !! i = Some p /\
         LoadGrid.placed_at st (load_bus r) p ("load", "bus", Z.of_nat i)).
Proof.
  intros (Bl & Bt & Bg & Bo). cbn zeta in *.
  pose proof (counts_agree_init (length (bus g))
                (length (line g) + length (trafo g)) (length (gen g))
                (length (load g))) as A0.
  remember (LoadGrid.init (length (bus g)) (length (line g) + length (trafo g))
              (length (gen g)) (length (load g))) as st0 eqn:Est0.
  assert (L0 : length (LoadGrid.line_or_to_subid st0) = (length (line g) + length (trafo g))%nat
               /\ length (LoadGrid.line_ex_to_subid st0) = (length (line g) + length (trafo g))%nat
               /\ length (LoadGrid.line_or_to_sub_pos st0) = (length (line g) + length (trafo g))%nat
               /\ length (LoadGrid.line_ex_to_sub_pos st0) = (length (line g) + length (trafo g))%nat
               /\ length (LoadGrid.gen_to_subid st0) = length (gen g)
               /\ length (LoadGrid.gen_to_sub_pos st0) = length (gen g)
               /\ length (LoadGrid.load_to_subid st0) = length (load g)
               /\ length (LoadGrid.load_to_sub_pos st0) = length (load g)
               /\ LoadGrid.np_sum (LoadGrid.sub_info st0) = 0).
  { rewrite Est0. unfold LoadGrid.init, LoadGrid.zeros. cbn [LoadGrid.line_or_to_subid
      LoadGrid.line_ex_to_subid LoadGrid.line_or_to_sub_pos LoadGrid.line_ex_to_sub_pos
      LoadGrid.gen_to_subid LoadGrid.gen_to_sub_pos LoadGrid.load_to_subid
      LoadGrid.load_to_sub_pos LoadGrid.sub_info].
    rewrite !length_replicate. repeat split. apply np_sum_zeros. }
  destruct L0 as (Lo0 & Le0 & Lop0 & Lep0 & Lg0 & Lgp0 & Ll0 & Llp0 & S0).
  (* the lines *)
  destruct (place_branch_loop "line" "from_bus" "to_bus" 0 (length (bus g))
              (map (fun r => (from_bus r, to_bus r)) (line g)) 0 st0 A0)
    as (st1 & R1 & A1 & E1 & S1 & Len1 & _ & Set1 & Rest1);
    [ apply Forall_fmap; exact Bl | congruence | congruence | congruence
    | rewrite length_map; lia |].
  rewrite length_map in S1.
  injection Len1 as Lo1 Le1 Lop1 Lep1. injection Rest1 as Rl1 Rlp1 Rg1 Rgp1.
  (* the transformers *)
  destruct (place_branch_loop "trafo" "hv_bus" "lv_bus" (length (line g)) (length (bus g))
              (map (fun r => (hv_bus r, lv_bus r)) (trafo g)) 0 st1 A1)
    as (st2 & R2 & A2 & E2 & S2 & Len2 & Keep2 & Set2 & Rest2);
    [ apply Forall_fmap; exact Bt | congruence | congruence | congruence
    | rewrite length_map; lia |].
  rewrite length_map in S2.
  injection Len2 as Lo2 Le2 Lop2 Lep2. injection Rest2 as Rl2 Rlp2 Rg2 Rgp2.
  (* the generators *)
  destruct (place_gen_loop (length (bus g)) (map gen_bus (gen g)) 0 st2 A2)
    as (st3 & R3 & A3 & E3 & S3 & Lg3 & Lgp3 & _ & Set3 & Rest3);
    [ apply Forall_fmap; exact Bg | congruence
    | rewrite length_map, Rg2, Rg1, Lg0; lia |].
  rewrite length_map in S3.
  injection Rest3 as Rl3 Rlp3 Ro3 Re3 Rop3 Rep3.
  (* the loads *)
  destruct (place_load_loop (length (bus g)) (map load_bus (load g)) 0 st3 A3)
    as (st4 & R4 & A4 & E4 & S4 & Ll4 & Llp4 & _ & Set4 & Rest4);
    [ apply Forall_fmap; exact Bo | congruence
    | rewrite length_map, Rl3, Rl2, Rl1, Ll0; lia |].
  rewrite length_map in S4.
  injection Rest4 as Rg4 Rgp4 Ro4 Re4 Rop4 Rep4.
  exists st4. split.
  { unfold LoadGrid.placement. rewrite <- Est0. unfold enumerate.
    change (Z.of_nat 0) with 0 in R1, R2, R3, R4.
    rewrite R1. cbn [rbind]. rewrite R2. cbn [rbind].
    rewrite R3. cbn [rbind]. rewrite R4. cbn [rbind].
    do 2 f_equal. rewrite S4, S3, S2, S1, S0. lia. }
  split; [exact A4|].
  assert (Hor : forall j,
            LoadGrid.line_or_to_subid st4 !! j
            = (map from_bus (line g) ++ map hv_bus (trafo g)) !! j /\
            LoadGrid.line_ex_to_subid st4 !! j
            = (map to_bus (line g) ++ map lv_bus (trafo g)) !! j).
  { intros j. rewrite Ro4, Ro3, Re4, Re3.
    destruct (decide (j < length (line g))%nat) as [Hj|Hj].
    - destruct (lookup_lt_is_Some_2 (line g) j Hj) as [r Hr].
      destruct (Keep2 j) as (K1 & K2 & _); [lia|]. rewrite K1, K2.
      destruct (Set1 j (from_bus r) (to_bus r)) as (X1 & X2 & _).
      { rewrite list_lookup_fmap, Hr. reflexivity. }
      cbn in X1, X2. rewrite X1, X2.
      rewrite !lookup_app_l by (rewrite length_map; exact Hj).
      rewrite !list_lookup_fmap, Hr. split; reflexivity.
    - destruct (decide (j < length (line g) + length (trafo g))%nat) as [Hj'|Hj'].
      + destruct (lookup_lt_is_Some_2 (trafo g) (j - length (line g))) as [r Hr]; [lia|].
        destruct (Set2 (j - length (line g))%nat (hv_bus r) (lv_bus r)) as (X1 & X2 & _).
        { rewrite list_lookup_fmap, Hr. reflexivity. }
        replace (length (line g) + 0 + (j - length (line g)))%nat with j in X1, X2 by lia.
        rewrite X1, X2.
        rewrite !lookup_app_r by (rewrite length_map; lia).
        rewrite !length_map.
        rewrite !list_lookup_fmap, Hr. split; reflexivity.
      + rewrite !lookup_ge_None_2; [split; reflexivity | | | |];
          rewrite ?length_app, ?length_map; lia. }
  split; [apply list_eq; intros j; apply Hor|].
  split; [apply list_eq; intros j; apply Hor|].
  split.
  { rewrite Rg4. apply list_eq. intros j.
    destruct (map gen_bus (gen g) !! j) as [b|] eqn:Hb.
    - exact (proj1 (Set3 j b Hb)).
    - apply lookup_ge_None in Hb. rewrite length_map in Hb.
      apply lookup_ge_None. rewrite Lg3, Rg2, Rg1, Lg0. lia. }
  split.
  { apply list_eq. intros j.
    destruct (map load_bus (load g) !! j) as [b|] eqn:Hb.
    - exact (proj1 (Set4 j b Hb)).
    - apply lookup_ge_None in Hb. rewrite length_map in Hb.
      apply lookup_ge_None. rewrite Ll4, Rl3, Rl2, Rl1, Ll0. lia. }
  assert (E24 : LoadGrid.extends (LoadGrid._what_object_where st2)
                                 (LoadGrid._what_object_where st4))
    by exact (extends_trans _ _ _ E3 E4).
  split; [|split; [|split]].
  - intros i r Hr. pose proof (lookup_lt_Some _ _ _ Hr) as Hi.
    destruct (Set1 i (from_bus r) (to_bus r)) as (_ & _ & p & p' & X1 & X2 & P1 & P2).
    { rewrite list_lookup_fmap, Hr. reflexivity. }
    cbn in X1, X2, P1, P2.
    destruct (Keep2 i) as (_ & _ & K3 & K4); [lia|].
    exists p, p'. rewrite Rop4, Rop3, Rep4, Rep3, K3, K4.
    split; [exact X1|]. split; [exact X2|].
    split; eapply placed_at_extends; try exact E24;
      eapply placed_at_extends; try exact E2; assumption.
  - intros i r Hr.
    destruct (Set2 i (hv_bus r) (lv_bus r)) as (_ & _ & p & p' & X1 & X2 & P1 & P2).
    { rewrite list_lookup_fmap, Hr. reflexivity. }
    replace (length (line g) + 0 + i)%nat with (length (line g) + i)%nat in X1, X2 by lia.
    cbn in P1, P2.
    exists p, p'. rewrite Rop4, Rop3, Rep4, Rep3.
    split; [exact X1|]. split; [exact X2|].
    split; eapply placed_at_extends; try exact E24; assumption.
  - intros i r Hr.
    destruct (Set3 i (gen_bus r)) as (_ & p & X & P).
    { rewrite list_lookup_fmap, Hr. reflexivity. }
    cbn in X, P. exists p. rewrite Rgp4. split; [exact X|].
    eapply placed_at_extends; [exact E4 | exact P].
  - intros i r Hr.
    destruct (Set4 i (load_bus r)) as (_ & p & X & P).
    { rewrite list_lookup_fmap, Hr. reflexivity. }
    cbn in X, P. exists p. split; [exact X | exact P].
Qed.

(** X17.  When every bus named by a line, a transformer, a generator or a
    load is a row of the bus table, the four placement loops of
    [load_grid] complete; [dim_topo] is twice the number of branches plus
    the numbers of generators and loads; the substation tables are the
    bus columns of the element tables (lines first, then transformers);
    and the three counters agree: [pos_already_used] equals [sub_info],
    and a substation counts as many elements as [_what_object_where] lists
    for it. *)
Theorem load_grid_placement_counts (g : Grid F) :
  LoadGrid.buses_exist g ->
  exists st,
    LoadGrid.placement g
    = Ok (st, Z.of_nat (2 * (length (line g) + length (trafo g))
                        + length (gen g) + length (load g))) /\
    LoadGrid.line_or_to_subid st = map from_bus (line g) ++ map hv_bus (trafo g) /\
    LoadGrid.line_ex_to_subid st = map to_bus (line g) ++ map lv_bus (trafo g) /\
    LoadGrid.gen_to_subid st = map gen_bus (gen g) /\
    LoadGrid.load_to_subid st = map load_bus (load g) /\
    LoadGrid.pos_already_used st = LoadGrid.sub_info st /\
    length (LoadGrid.sub_info st) = length (bus g) /\
    (forall s row, LoadGrid._what_object_where st !! s = Some row ->
       LoadGrid.sub_info st !! s = Some (Z.of_nat (length row))).
Proof.
  intros Hb.
  destruct (placement_facts g Hb)
    as (st & Hrun & (Hpau & Hlen & _ & Hag) & Hor & Hex & Hgen & Hload & _).
  exists st. auto 10.
Qed.

(** X18.  Under the same condition, every end of every element is listed
    in [_what_object_where] of its substation at the position recorded
    for it in the [*_to_sub_pos] table, under its own table, column and
    row number: inside a substation no two element ends share a position,
    and the positions are 0, 1, ... without a gap. *)
Theorem load_grid_placement_positions (g : Grid F) :
  LoadGrid.buses_exist g ->
  exists st dim,
    LoadGrid.placement g = Ok (st, dim) /\
    (forall i r, line g !! i = Some r ->
       exists p p',
         LoadGrid.line_or_to_sub_pos st !! i = Some p /\
         LoadGrid.line_ex_to_sub_pos st !! i = Some p' /\
         LoadGrid.placed_at st (from_bus r) p ("line", "from_bus", Z.of_nat i) /\
         LoadGrid.placed_at st (to_bus r) p' ("line", "to_bus", Z.of_nat i)) /\
    (forall i r, trafo g !! i = Some r ->
       exists p p',
         LoadGrid.line_or_to_sub_pos st !! (length (line g) + i)%nat = Some p /\
         LoadGrid.line_ex_to_sub_pos st !! (length (line g) + i)%nat = Some p' /\
         LoadGrid.placed_at st (hv_bus r) p ("trafo", "hv_bus", Z.of_nat i) /\
         LoadGrid.placed_at st (lv_bus r) p' ("trafo", "lv_bus", Z.of_nat i)) /\
    (forall i r, gen g !! i = Some r ->
       exists p, LoadGrid.gen_to_sub_pos st !! i = Some p /\
         LoadGrid.placed_at st (gen_bus r) p ("gen", "bus", Z.of_nat i)) /\
    (forall i r, load g !! i = Some r ->
       exists p, LoadGrid.load_to_sub_pos st !! i = Some p /\
         LoadGrid.placed_at st (load_bus r) p ("load", "bus", Z.of_nat i)).
Proof.
  intros Hb.
  destruct (placement_facts g Hb)
    as (st & Hrun & _ & _ & _ & _ & _ & Hl & Ht & Hg & Ho).
  exists st. eexists. split; [exact Hrun|]. auto.
Qed.

(** *** The placement on buses that do not exist *)

Lemma getitem_Raise {A} (l : list A) (i : Z) (e : exn) :
  getitem l i = Raise e -> e = IndexError.
Proof.
  unfold getitem. destruct (py_index _ _); [destruct (l !! _)|]; now intros [= <-].
Qed.

Lemma setitem_Raise {A} (l : list A) (i : Z) (x : A) (e : exn) :
  setitem l i x = Raise e -> e = IndexError.
Proof. unfold setitem. destruct (py_index _ _); now intros [= <-]. Qed.

Lemma getitem_Ok_index {A} (l : list A) (i : Z) (x : A) :
  getitem l i = Ok x -> - Z.of_nat (length l) <= i < Z.of_nat (length l).
Proof.
  unfold getitem, py_index.
  destruct ((0 <=? i) && (i <? Z.of_nat (length l))) eqn:E1.
  - intros _. apply andb_true_iff in E1. lia.
  - destruct ((i <? 0) && (- Z.of_nat (length l) <=? i)) eqn:E2; [|discriminate].
    intros _. apply andb_true_iff in E2. lia.
Qed.

Lemma incr_Ok (arr arr' : list Z) (i : Z) :
  LoadGrid.incr arr i = Ok arr' ->
  - Z.of_nat (length arr) <= i < Z.of_nat (length arr) /\ length arr' = length arr.
Proof.
  unfold LoadGrid.incr. destruct (getitem arr i) as [old|] eqn:E; [|discriminate].
  cbn [rbind]. intros Hs. split; [exact (getitem_Ok_index _ _ _ E)|].
  exact (setitem_length _ _ _ _ Hs).
Qed.

Lemma incr_Raise (arr : list Z) (i : Z) (e : exn) :
  LoadGrid.incr arr i = Raise e -> e = IndexError.
Proof.
  unfold LoadGrid.incr. destruct (getitem arr i) as [old|] eqn:E; cbn [rbind].
  - apply setitem_Raise.
  - intros [= <-]. exact (getitem_Raise _ _ _ E).
Qed.

Lemma append_at_Raise (m : list (list LoadGrid.Tag)) (i : Z) (x : LoadGrid.Tag) (e : exn) :
  LoadGrid.append_at m i x = Raise e -> e = IndexError.
Proof.
  unfold LoadGrid.append_at. destruct (getitem m i) as [row|] eqn:E; cbn [rbind].
  - apply setitem_Raise.
  - intros [= <-]. exact (getitem_Raise _ _ _ E).
Qed.

(** A chain of [let?] is followed step by step: a step that raises raises
    [IndexError]. *)
Ltac follow_steps H :=
  repeat match type of H with
         | rbind ?r _ = _ =>
             let E := fresh "E" in
             destruct r eqn:E; cbn [rbind] in H;
             [| injection H as <-;
                first [ exact (incr_Raise _ _ _ E) | exact (getitem_Raise _ _ _ E)
                      | exact (setitem_Raise _ _ _ _ E)
                      | exact (append_at_Raise _ _ _ _ E) ] ]
         end.

Lemma place_branch_Raise (kind col_or col_ex : string) (lag : Z)
    (st : LoadGrid.Placement) (item : Z * (Z * Z)) (e : exn) :
  LoadGrid.place_branch kind col_or col_ex lag st item = Raise e -> e = IndexError.
Proof.
  destruct item as [i [o e']]. unfold LoadGrid.place_branch. cbv beta iota.
  intros H. follow_steps H. discriminate.
Qed.

Lemma place_gen_Raise (st : LoadGrid.Placement) (item : Z * Z) (e : exn) :
  LoadGrid.place_gen st item = Raise e -> e = IndexError.
Proof.
  destruct item as [i b]. unfold LoadGrid.place_gen. cbv beta iota.
  intros H. follow_steps H. discriminate.
Qed.

Lemma place_load_Raise (st : LoadGrid.Placement) (item : Z * Z) (e : exn) :
  LoadGrid.place_load st item = Raise e -> e = IndexError.
Proof.
  destruct item as [i b]. unfold LoadGrid.place_load. cbv beta iota.
  intros H. follow_steps H. discriminate.
Qed.

Lemma place_branch_Ok (kind col_or col_ex : string) (lag : Z)
    (st st' : LoadGrid.Placement) (i o e : Z) :
  LoadGrid.place_branch kind col_or col_ex lag st (i, (o, e)) = Ok st' ->
  let n := Z.of_nat (length (LoadGrid.sub_info st)) in
  (- n <= o < n /\ - n <= e < n) /\
  length (LoadGrid.sub_info st') = length (LoadGrid.sub_info st).
Proof.
  unfold LoadGrid.place_branch. cbv beta iota. intros H.
  destruct (LoadGrid.incr (LoadGrid.sub_info st) o) as [si1|] eqn:E1; [|discriminate].
  cbn [rbind] in H.
  destruct (LoadGrid.incr si1 e) as [si2|] eqn:E2; [|discriminate].
  cbn [rbind] in H.
  apply incr_Ok in E1 as [R1 L1]. apply incr_Ok in E2 as [R2 L2]. rewrite L1 in R2.
  repeat match type of H with
         | rbind ?r _ = _ => destruct r; cbn [rbind] in H; [|discriminate]
         end.
  injection H as <-. cbn. split; [split; assumption | congruence].
Qed.

Lemma place_gen_Ok (st st' : LoadGrid.Placement) (i b : Z) :
  LoadGrid.place_gen st (i, b) = Ok st' ->
  let n := Z.of_nat (length (LoadGrid.sub_info st)) in
  - n <= b < n /\ length (LoadGrid.sub_info st') = length (LoadGrid.sub_info st).
Proof.
  unfold LoadGrid.place_gen. cbv beta iota. intros H.
  destruct (LoadGrid.incr (LoadGrid.sub_info st) b) as [si1|] eqn:E1; [|discriminate].
  cbn [rbind] in H. apply incr_Ok in E1 as [R1 L1].
  repeat match type of H with
         | rbind ?r _ = _ => destruct r; cbn [rbind] in H; [|discriminate]
         end.
  injection H as <-. cbn. split; assumption.
Qed.

Lemma place_load_Ok (st st' : LoadGrid.Placement) (i b : Z) :
  LoadGrid.place_load st (i, b) = Ok st' ->
  let n := Z.of_nat (length (LoadGrid.sub_info st)) in
  - n <= b < n /\ length (LoadGrid.sub_info st') = length (LoadGrid.sub_info st).
Proof.
  unfold LoadGrid.place_load. cbv beta iota. intros H.
  destruct (LoadGrid.incr (LoadGrid.sub_info st) b) as [si1|] eqn:E1; [|discriminate].
  cbn [rbind] in H. apply incr_Ok in E1 as [R1 L1].
  repeat match type of H with
         | rbind ?r _ = _ => destruct r; cbn [rbind] in H; [|discriminate]
         end.
  injection H as <-. cbn. split; assumption.
Qed.

Lemma for_items_outcome {A} (body : LoadGrid.Placement -> Z * A -> result LoadGrid.Placement)
    (P : A -> Prop) (n : nat) :
  (forall st i x st', length (LoadGrid.sub_info st) = n -> body st (i, x) = Ok st' ->
     P x /\ length (LoadGrid.sub_info st') = n) ->
  (forall st x e, body st x = Raise e -> e = IndexError) ->
  forall (rows : list A) (k : Z) (st : LoadGrid.Placement),
    length (LoadGrid.sub_info st) = n ->
    match LoadGrid.for_items body st (zip (seqZ k (Z.of_nat (length rows))) rows) with
    | Ok st' => Forall P rows /\ length (LoadGrid.sub_info st') = n
    | Raise e => e = IndexError
    end.
Proof.
  intros Hok Hraise. induction rows as [|x rows IH]; intros k st Hn.
  - cbn. split; [constructor | exact Hn].
  - cbn [length]. rewrite Nat2Z.inj_succ, seqZ_cons by lia. rewrite Z.pred_succ.
    cbn [zip zip_with LoadGrid.for_items].
    destruct (body st (k, x)) as [st1|e] eqn:E; cbn [rbind].
    + destruct (Hok _ _ _ _ Hn E) as [Hx Hn1].
      specialize (IH (Z.succ k) st1 Hn1).
      destruct (LoadGrid.for_items body st1 _) as [st'|e]; [|exact IH].
      destruct IH as [Hall Hn']. split; [now constructor | exact Hn'].
    + exact (Hraise _ _ _ E).
Qed.

(** X19.  The placement loops on any network: if they complete, every bus
    named by an element is an index that Python accepts on an array with
    one entry per bus, at least minus the number of buses and below it;
    otherwise the exception is IndexError.  A bus number at or above the
    number of buses therefore stops [load_grid] with IndexError. *)
Theorem load_grid_placement_outcome (g : Grid F) :
  match LoadGrid.placement g with
  | Ok _ => LoadGrid.buses_indexable g
  | Raise e => e = IndexError
  end.
Proof.
  unfold LoadGrid.placement, enumerate.
  set (st0 := LoadGrid.init _ _ _ _).
  assert (H0 : length (LoadGrid.sub_info st0) = length (bus g))
    by (apply length_replicate).
  pose proof (for_items_outcome
                (LoadGrid.place_branch "line" "from_bus" "to_bus" 0)
                (fun oe : Z * Z =>
                   (- Z.of_nat (length (bus g)) <= oe.1 < Z.of_nat (length (bus g))) /\
                   (- Z.of_nat (length (bus g)) <= oe.2 < Z.of_nat (length (bus g))))
                (length (bus g))) as L1.
  specialize (L1 ltac:(intros st i [o e] st' Hn Hr; apply place_branch_Ok in Hr;
                       cbn zeta in Hr; rewrite Hn in Hr; exact Hr)
                 ltac:(intros st x e; apply place_branch_Raise)
                 (map (fun r => (from_bus r, to_bus r)) (line g)) 0 st0 H0).
  destruct (LoadGrid.for_items _ st0 _) as [st1|e]; cbn [rbind]; [|exact L1].
  destruct L1 as [Fl H1].
  pose proof (for_items_outcome
                (LoadGrid.place_branch "trafo" "hv_bus" "lv_bus"
                                       (Z.of_nat (length (line g))))
                (fun oe : Z * Z =>
                   (- Z.of_nat (length (bus g)) <= oe.1 < Z.of_nat (length (bus g))) /\
                   (- Z.of_nat (length (bus g)) <= oe.2 < Z.of_nat (length (bus g))))
                (length (bus g))) as L2.
  specialize (L2 ltac:(intros st i [o e] st' Hn Hr; apply place_branch_Ok in Hr;
                       cbn zeta in Hr; rewrite Hn in Hr; exact Hr)
                 ltac:(intros st x e; apply place_branch_Raise)
                 (map (fun r => (hv_bus r, lv_bus r)) (trafo g)) 0 st1 H1).
  destruct (LoadGrid.for_items _ st1 _) as [st2|e]; cbn [rbind]; [|exact L2].
  destruct L2 as [Ft H2].
  pose proof (for_items_outcome LoadGrid.place_gen
                (fun b : Z => - Z.of_nat (length (bus g)) <= b < Z.of_nat (length (bus g)))
                (length (bus g))) as L3.
  specialize (L3 ltac:(intros st i b st' Hn Hr; apply place_gen_Ok in Hr;
                       cbn zeta in Hr; rewrite Hn in Hr; exact Hr)
                 ltac:(intros st x e; apply place_gen_Raise)
                 (map gen_bus (gen g)) 0 st2 H2).
  destruct (LoadGrid.for_items _ st2 _) as [st3|e]; cbn [rbind]; [|exact L3].
  destruct L3 as [Fg H3].
  pose proof (for_items_outcome LoadGrid.place_load
                (fun b : Z => - Z.of_nat (length (bus g)) <= b < Z.of_nat (length (bus g)))
                (length (bus g))) as L4.
  specialize (L4 ltac:(intros st i b st' Hn Hr; apply place_load_Ok in Hr;
                       cbn zeta in Hr; rewrite Hn in Hr; exact Hr)
                 ltac:(intros st x e; apply place_load_Raise)
                 (map load_bus (load g)) 0 st3 H3).
  destruct (LoadGrid.for_items _ st3 _) as [st4|e]; cbn [rbind]; [|exact L4].
  destruct L4 as [Fo H4].
  unfold LoadGrid.buses_indexable. cbn zeta.
  apply Forall_fmap in Fl, Ft, Fg, Fo. auto.
Qed.

(** ** What an action leaves alone *)

Lemma apply_action_topo_one_preserves {X} (obs : Backend F -> X) (pair : Z * Z) :
  (forall s l, obs (set_grid (set_load l (_grid s)) s) = obs s) ->
  (forall s l, obs (set_grid (set_gen l (_grid s)) s) = obs s) ->
  (forall s l, obs (set_grid (set_line l (_grid s)) s) = obs s) ->
  (forall s l, obs (set_grid (set_trafo l (_grid s)) s) = obs s) ->
  (forall s l, obs (set_grid (set_ext_grid l (_grid s)) s) = obs s) ->
  preserves obs (apply_action_topo_one pair).
Proof.
  intros Hload Hgen Hline Htrafo Hext.
  destruct pair as [id_el new_bus]. intros s.
  unfold apply_action_topo_one.
  rewrite bind_get. unfold bind at 1, lift at 1.
  destruct (getitem (_big_topo_to_backend (tables s)) id_el)
    as [[[id_el_backend id_topo] type_obj]|e]; [|reflexivity].
  unfold bind at 1, lift at 1.
  destruct (getitem _type_to_bus_set type_obj) as [m|e] eqn:E; [|reflexivity].
  apply type_to_bus_set_cases in E. unfold _type_to_bus_set in E.
  repeat (apply elem_of_cons in E as [-> | E]);
    [ .. | now apply elem_of_nil in E ];
    cbv beta delta [_apply_load_bus _apply_gen_bus _apply_lor_bus _apply_trafo_hv
                    _apply_lex_bus _apply_trafo_lv];
    match goal with
    | |- obs (?m ?s).2 = _ =>
        assert (Hp : preserves obs m)
          by (unfold change_bus_powerline_or, change_bus_powerline_ex,
                     change_bus_trafo_hv, change_bus_trafo_lv;
              preserves_with ltac:(first [ apply Hload | apply Hgen | apply Hline
                                         | apply Htrafo | apply Hext ]));
        apply Hp
    end.
Qed.

(** X20.  [apply_action] writes the tables of the network and nothing
    else: the results of the last solve, the published vectors, the cached
    line status and topology vector, the bus count of the last solve, the
    computation time and the static tables are as before, whether the
    action is applied in full or stops on an exception.  What
    [get_topo_vect] and [get_line_status] answer changes only with the next
    [runpf]. *)
Theorem apply_action_keeps_cache (backendAction : option (Action F)) (s : Backend F) :
  outside_grid (apply_action backendAction s).2 = outside_grid s /\
  solved (_grid (apply_action backendAction s).2) = solved (_grid s).
Proof.
  split; [apply apply_action_outside_grid|].
  assert (P : preserves (fun s : Backend F => solved (_grid s))
                        (apply_action backendAction)).
  { destruct backendAction as [act|]; [|apply preserves_ret].
    unfold apply_action, apply_action_injection, apply_action_shunts,
           apply_action_active_bus.
    preserves_with by_computation.
    apply apply_action_topo_one_preserves; reflexivity. }
  apply P.
Qed.

(** ** A bus selector on one end of a branch *)

Ltac branch_end_done Hr :=
  eexists; split; [reflexivity|];
  split; [| split; reflexivity];
  unfold branch_ends; cbn [orb Z.eqb Pos.eqb _grid set_grid line set_line trafo set_trafo];
  rewrite ?list_lookup_alter_eq, Hr; reflexivity.

Ltac branch_end_case tbl set_tbl idx Hr Hlt :=
  cbv beta delta [_apply_lor_bus _apply_trafo_hv _apply_lex_bus _apply_trafo_lv];
  rewrite bind_get;
  match goal with
  | Hinit : getitem _ _ = Ok ?home |- _ =>
      rewrite (bind_Ok _ _ _ _ home) by (now rewrite lift_run, Hinit)
  end;
  match goal with
  | Hsel : _ = -1 \/ _ = 1 \/ _ = 2 |- _ => destruct Hsel as [-> | [-> | ->]]
  end;
  [ erewrite bind_Ok by reflexivity;
    unfold change_bus_powerline_or, change_bus_powerline_ex,
           change_bus_trafo_hv, change_bus_trafo_lv;
    change (0 <=? -1) with false; cbv iota;
    rewrite grid_iat_in_range by exact Hlt;
    branch_end_done Hr
  | erewrite bind_Ok by reflexivity;
    unfold change_bus_powerline_or, change_bus_powerline_ex,
           change_bus_trafo_hv, change_bus_trafo_lv;
    match goal with
    | |- context [0 <=? ?b] =>
        replace (0 <=? b) with true by (symmetry; apply Z.leb_le; lia)
    end;
    rewrite (bind_Ok _ _ _ _ _ (grid_iat_in_range tbl set_tbl idx _ _ Hlt));
    rewrite grid_iat_in_range
      by (cbn [_grid set_grid line set_line trafo set_trafo];
          rewrite length_alter; exact Hlt);
    branch_end_done Hr
  | erewrite bind_Ok by reflexivity;
    unfold change_bus_powerline_or, change_bus_powerline_ex,
           change_bus_trafo_hv, change_bus_trafo_lv;
    match goal with
    | |- context [0 <=? ?b] =>
        replace (0 <=? b) with true by (symmetry; apply Z.leb_le; lia)
    end;
    rewrite (bind_Ok _ _ _ _ _ (grid_iat_in_range tbl set_tbl idx _ _ Hlt));
    rewrite grid_iat_in_range
      by (cbn [_grid set_grid line set_line trafo set_trafo];
          rewrite length_alter; exact Hlt);
    branch_end_done Hr ].

(** X21.  A bus selector applied to one end of a branch (kinds 2 to 5 of
    [_big_topo_to_backend]): with -1 the whole branch goes out of service
    and both bus columns stay as they are; with 1 or 2 the branch is put in
    service and the bus column of that end alone becomes the home bus of
    the end, or the home bus plus the number of buses, while the other end
    keeps its bus.  The home bus is read at the branch number, and the row
    written is the row of the branch in its own table.  Nothing but that
    row of the line or transformer table is written. *)
Theorem apply_action_topo_one_branch (s : Backend F)
    (slot sel i t type_obj home o e : Z) (status : bool) :
  getitem (_big_topo_to_backend (tables s)) slot = Ok (i, t, type_obj) ->
  type_obj = 2 \/ type_obj = 3 \/ type_obj = 4 \/ type_obj = 5 ->
  getitem (init_bus_table (tables s) type_obj) i = Ok home ->
  0 <= home -> 0 <= _PandaPowerBackend__nb_bus_before (tables s) ->
  0 <= i -> 0 <= t ->
  branch_ends s type_obj i t = Some (o, e, status) ->
  sel = -1 \/ sel = 1 \/ sel = 2 ->
  exists s', apply_action_topo_one (slot, sel) s = (Ok tt, s') /\
    branch_ends s' type_obj i t
    = Some (let b := if sel =? 1 then home
                     else home + _PandaPowerBackend__nb_bus_before (tables s) in
            if sel =? -1 then (o, e, false)
            else if (type_obj =? 2) || (type_obj =? 3) then (b, e, true)
            else (o, b, true)) /\
    beside_branches s' = beside_branches s /\
    outside_grid s' = outside_grid s.
Proof.
  intros Hentry Hty Hinit Hhome Hnbb Hi Ht Hends Hsel.
  unfold apply_action_topo_one. rewrite bind_get.
  rewrite (bind_Ok _ _ s s (i, t, type_obj)) by (now rewrite lift_run, Hentry).
  cbv beta iota.
  destruct Hty as [-> | [-> | [-> | ->]]];
    unfold init_bus_table in Hinit; cbn [Z.eqb Pos.eqb orb] in Hinit;
    unfold branch_ends in Hends; cbn [Z.eqb Pos.eqb orb] in Hends.
  - destruct (line (_grid s) !! Z.to_nat i) as [r|] eqn:Hr; [|discriminate].
    injection Hends as <- <- <-.
    assert (Hlt : 0 <= i < Z.of_nat (length (line (_grid s))))
      by (apply lookup_lt_Some in Hr; lia).
    rewrite (bind_Ok _ _ s s _apply_lor_bus) by reflexivity.
    branch_end_case (@line F) (@set_line F) i Hr Hlt.
  - destruct (trafo (_grid s) !! Z.to_nat t) as [r|] eqn:Hr; [|discriminate].
    injection Hends as <- <- <-.
    assert (Hlt : 0 <= t < Z.of_nat (length (trafo (_grid s))))
      by (apply lookup_lt_Some in Hr; lia).
    rewrite (bind_Ok _ _ s s _apply_trafo_hv) by reflexivity.
    branch_end_case (@trafo F) (@set_trafo F) t Hr Hlt.
  - destruct (line (_grid s) !! Z.to_nat i) as [r|] eqn:Hr; [|discriminate].
    injection Hends as <- <- <-.
    assert (Hlt : 0 <= i < Z.of_nat (length (line (_grid s))))
      by (apply lookup_lt_Some in Hr; lia).
    rewrite (bind_Ok _ _ s s _apply_lex_bus) by reflexivity.
    branch_end_case (@line F) (@set_line F) i Hr Hlt.
  - destruct (trafo (_grid s) !! Z.to_nat t) as [r|] eqn:Hr; [|discriminate].
    injection Hends as <- <- <-.
    assert (Hlt : 0 <= t < Z.of_nat (length (trafo (_grid s))))
      by (apply lookup_lt_Some in Hr; lia).
    rewrite (bind_Ok _ _ s s _apply_trafo_lv) by reflexivity.
    branch_end_case (@trafo F) (@set_trafo F) t Hr Hlt.
Qed.

(** ** The topology vector after loading and after a reset *)

(** Every entry of the decoded vector is the selector of one end of one
    element. *)
Lemma get_topo_vect_entries (s : Backend F) (topo : list Z) :
  slots_wf (tables s) ->
  tables_sized s ->
  _number_true_line (tables s) = Z.of_nat (length (line (_grid s))) ->
  length (all_slots (tables s)) = dim_topo (tables s) ->
  _get_topo_vect s = Ok topo ->
  forall k v, topo !! k = Some v ->
    (exists j status cur subid,
       (j < length (line (_grid s)) + length (trafo (_grid s)))%nat /\
       line_status s !! j = Some status /\
       ((subid = line_or_to_subid (tables s) /\
         (map from_bus (line (_grid s)) ++ map hv_bus (trafo (_grid s))) !! j = Some cur) \/
        (subid = line_ex_to_subid (tables s) /\
         (map to_bus (line (_grid s)) ++ map lv_bus (trafo (_grid s))) !! j = Some cur)) /\
       branch_sel status cur subid j = Some v) \/
    (exists j cur sub,
       ((map gen_bus (gen (_grid s)) !! j = Some cur /\
         gen_to_subid (tables s) !! j = Some sub) \/
        (map load_bus (load (_grid s)) !! j = Some cur /\
         load_to_subid (tables s) !! j = Some sub)) /\
       v = if cur =? sub then 1 else 2).
Proof.
  intros Hwf Hsz Hnl Hfull Hrun k v Hv.
  destruct Hsz as (Hfit & Lso & Lse & Lpo & Lpe & Lgs & Lgp & Lls & Llp).
  cbn zeta in *.
  destruct (get_topo_vect_spec s topo Hwf Hnl Hrun)
    as (Hlen & Slines & Strafos & Sgens & Sloads).
  pose proof (lookup_lt_Some _ _ _ Hv) as Hk. rewrite Hlen in Hk.
  assert (Hrange : Forall (fun p => 0 <= p < Z.of_nat (dim_topo (tables s)))
                          (all_slots (tables s))).
  { destruct Hwf as [Hpos _]. apply Forall_forall. intros p Hp.
    pose proof (proj1 (Forall_forall _ _) Hpos p Hp).
    pose proof (proj1 (Forall_forall _ _) Hfit p Hp). cbn beta in *. lia. }
  pose proof (slots_cover _ _ (proj2 Hwf) Hrange Hfull k Hk) as Hin.
  unfold all_slots in Hin. rewrite !elem_of_app in Hin.
  assert (Hbranch : forall j : nat,
            (j < length (line (_grid s)) + length (trafo (_grid s)))%nat ->
            exists status p_or p_ex sel_or sel_ex cur_or cur_ex,
              line_status s !! j = Some status /\
              line_or_pos_topo_vect (tables s) !! j = Some p_or /\
              line_ex_pos_topo_vect (tables s) !! j = Some p_ex /\
              (map from_bus (line (_grid s)) ++ map hv_bus (trafo (_grid s))) !! j
              = Some cur_or /\
              (map to_bus (line (_grid s)) ++ map lv_bus (trafo (_grid s))) !! j
              = Some cur_ex /\
              branch_sel status cur_or (line_or_to_subid (tables s)) j = Some sel_or /\
              branch_sel status cur_ex (line_ex_to_subid (tables s)) j = Some sel_ex /\
              topo !! Z.to_nat p_or = Some sel_or /\ topo !! Z.to_nat p_ex = Some sel_ex).
  { intros j Hj. destruct (decide (j < length (line (_grid s)))%nat) as [Hjl|Hjl].
    - destruct (lookup_lt_is_Some_2 (line (_grid s)) j Hjl) as [r Hr].
      destruct (Slines j r Hr) as (st & po & pe & so & se & Z0 & A & B & C & D & E & G).
      exists st, po, pe, so, se, (from_bus r), (to_bus r).
      rewrite !lookup_app_l by (rewrite length_map; exact Hjl).
      rewrite !list_lookup_fmap, Hr. auto 10.
    - destruct (lookup_lt_is_Some_2 (trafo (_grid s)) (j - length (line (_grid s))))
        as [r Hr]; [lia|].
      destruct (Strafos _ r Hr) as (st & po & pe & so & se & Z0 & A & B & C & D & E & G).
      cbn zeta in *.
      replace (length (line (_grid s)) + (j - length (line (_grid s))))%nat with j
        in * by lia.
      exists st, po, pe, so, se, (hv_bus r), (lv_bus r).
      rewrite !lookup_app_r by (rewrite length_map; lia).
      rewrite !length_map, !list_lookup_fmap, Hr. auto 10. }
  destruct Hin as [Hin | [Hin | [Hin | Hin]]];
    apply list_elem_of_lookup in Hin as (j & Hj);
    pose proof (lookup_lt_Some _ _ _ Hj) as Hjlt.
  - destruct (Hbranch j) as (st & po & pe & so & se & co & ce & Z0 & A & B & Co & Ce
                             & C & D & E & G); [lia|].
    rewrite Hj in A. injection A as <-. rewrite Nat2Z.id, Hv in E. injection E as ->.
    left. exists j, st, co, (line_or_to_subid (tables s)).
    split; [lia|]. split; [exact Z0|]. split; [left; auto | exact C].
  - destruct (Hbranch j) as (st & po & pe & so & se & co & ce & Z0 & A & B & Co & Ce
                             & C & D & E & G); [lia|].
    rewrite Hj in B. injection B as <-. rewrite Nat2Z.id, Hv in G. injection G as ->.
    left. exists j, st, ce, (line_ex_to_subid (tables s)).
    split; [lia|]. split; [exact Z0|]. split; [right; auto | exact D].
  - destruct (lookup_lt_is_Some_2 (gen (_grid s)) j) as [r Hr]; [lia|].
    destruct (Sgens j r Hr) as (p & sub & A & B & C).
    rewrite Hj in A. injection A as <-. rewrite Nat2Z.id, Hv in C. injection C as ->.
    right. exists j, (gen_bus r), sub. split; [|reflexivity].
    left. rewrite list_lookup_fmap, Hr. auto.
  - destruct (lookup_lt_is_Some_2 (load (_grid s)) j) as [r Hr]; [lia|].
    destruct (Sloads j r Hr) as (p & sub & A & B & C).
    rewrite Hj in A. injection A as <-. rewrite Nat2Z.id, Hv in C. injection C as ->.
    right. exists j, (load_bus r), sub. split; [|reflexivity].
    right. rewrite list_lookup_fmap, Hr. auto.
Qed.

(** X22.  The topology vector [load_grid] computes at its end is all ones:
    with the substation tables equal to the bus columns of the elements and
    a line status that is True everywhere, as [np.full(n_line, dtype=bool,
    fill_value=NaN)] makes it, [_get_topo_vect] returns 1 at every slot,
    also for a line or a transformer whose table says it is out of
    service. *)
Theorem get_topo_vect_after_loading (s : Backend F) :
  slots_wf (tables s) ->
  tables_sized s ->
  _number_true_line (tables s) = Z.of_nat (length (line (_grid s))) ->
  length (all_slots (tables s)) = dim_topo (tables s) ->
  at_home s ->
  line_status s
  = replicate (length (line (_grid s)) + length (trafo (_grid s))) true ->
  _get_topo_vect s = Ok (replicate (dim_topo (tables s)) 1).
Proof.
  intros Hwf Hsz Hnl Hfull (Hor & Hex & Hgen & Hload) Hls.
  destruct (get_topo_vect_total s Hwf Hsz Hnl) as (topo & Hrun & Hlen & _).
  { rewrite Hls. apply length_replicate. }
  rewrite Hrun. f_equal. symmetry.
  apply (list_eq_same_length _ _ (dim_topo (tables s)));
    [exact Hlen | apply length_replicate |].
  intros k x y Hk Hx Hy. apply lookup_replicate in Hx as [-> _].
  destruct (get_topo_vect_entries s topo Hwf Hsz Hnl Hfull Hrun k y Hy)
    as [(j & status & cur & subid & Hj & Hst & Hcur & Hsel)
       | (j & cur & sub & Hcur & ->)].
  - rewrite Hls in Hst. apply lookup_replicate in Hst as [-> _].
    unfold branch_sel in Hsel.
    destruct Hcur as [[-> Hc] | [-> Hc]].
    + rewrite Hor, Hc in Hsel. cbn in Hsel. rewrite Z.eqb_refl in Hsel.
      now injection Hsel.
    + rewrite Hex, Hc in Hsel. cbn in Hsel. rewrite Z.eqb_refl in Hsel.
      now injection Hsel.
  - destruct Hcur as [[Hc Hs] | [Hc Hs]].
    + rewrite Hgen, Hc in Hs. injection Hs as <-. now rewrite Z.eqb_refl.
    + rewrite Hload, Hc in Hs. injection Hs as <-. now rewrite Z.eqb_refl.
Qed.

(** X23.  [reset] always completes on a backend whose tables fit the saved
    network: it returns, raises nothing, leaves the saved network as the
    live one and a topology vector of [dim_topo] entries, each of them -1,
    1 or 2 when the slots fill the vector. *)
Theorem reset_completes (initial_grid : Grid F) (s : Backend F) :
  slots_wf (tables s) ->
  tables_sized (set_grid initial_grid s) ->
  _number_true_line (tables s) = Z.of_nat (length (line initial_grid)) ->
  length (line_status s)
  = (length (line initial_grid) + length (trafo initial_grid))%nat ->
  length (_topo_vect s) = dim_topo (tables s) ->
  exists s', reset initial_grid s = (Ok tt, s') /\
    _grid s' = initial_grid /\
    length (_topo_vect s') = dim_topo (tables s) /\
    (length (all_slots (tables s)) = dim_topo (tables s) ->
     Forall is_selector (_topo_vect s')).
Proof.
  intros Hwf Hsz Hnl Hls Htv. rewrite reset_unfold.
  destruct (reset_all_nan_spec (set_grid initial_grid s))
    as (s1 & Hr & _ & _ & Hg & Hl & Ht & Htb & _).
  rewrite (bind_Ok _ _ _ _ _ Hr), bind_get.
  change (_grid s1 = initial_grid) in Hg.
  change (line_status s1 = line_status s) in Hl.
  change (_topo_vect s1 = _topo_vect s) in Ht.
  change (tables s1 = tables s) in Htb.
  destruct (get_topo_vect_total s1) as (topo & Hrun & Hlen & Hsel).
  - now rewrite Htb.
  - unfold tables_sized in *. rewrite Htb, Hg. exact Hsz.
  - now rewrite Htb, Hg.
  - now rewrite Hl, Hg.
  - rewrite (bind_Ok _ _ s1 s1 topo) by (now rewrite lift_run, Hrun).
    rewrite (bind_Ok _ _ s1 s1 topo).
    2:{ rewrite lift_run. f_equal. unfold assign_all.
        replace (length topo =? length (_topo_vect s1))%nat with true; [reflexivity|].
        symmetry. apply Nat.eqb_eq. rewrite Hlen, Ht, Htv, Htb. reflexivity. }
    rewrite bind_modify. unfold modify.
    eexists. split; [reflexivity|]. cbn. rewrite Htb in Hlen, Hsel.
    split; [exact Hg|]. split; [exact Hlen | exact Hsel].
Qed.

(** ** What a successful solve publishes for the branches *)

Lemma update_vec_inv (a : Attr) (f : list F -> result (list F)) (s s1 : Backend F) :
  update_vec a f s = (Ok tt, s1) ->
  exists v, f (vec s a) = Ok v /\ s1 = set_vec a v s.
Proof.
  unfold update_vec. destruct (f (vec s a)) as [v|e]; [|discriminate].
  intros [= <-]. eauto.
Qed.

Lemma assign_vec_inv (a : Attr) (src : list F) (s s1 : Backend F) :
  assign_vec a src s = (Ok tt, s1) ->
  exists v, assign_all (vec s a) src = Ok v /\ s1 = set_vec a v s.
Proof.
  unfold assign_vec. destruct (assign_all (vec s a) src) as [v|e]; [|discriminate].
  intros [= <-]. eauto.
Qed.

Lemma zero_non_finite_eq (arr : list F) :
  zero_non_finite arr = Ok (map (fun x => if isfinite x then x else fconst 0) arr).
Proof.
  unfold zero_non_finite, mask_fill. rewrite length_map, Nat.eqb_refl. f_equal.
  induction arr as [|x arr IH]; [reflexivity|].
  cbn [map zip_with]. rewrite IH. now destruct (isfinite x).
Qed.

Lemma runpf_line_side_inv (p q v a : Attr) (cp1 cp2 cq1 cq2 cv1 cv2 ca1 ca2 : string)
    (s s1 : Backend F) :
  runpf_line_side p q v a cp1 cp2 cq1 cq2 cv1 cv2 ca1 ca2 s = (Ok tt, s1) ->
  exists vp vq vv va,
    assign_all (vec s p) (_aux_get_line_info s cp1 cp2) = Ok vp /\
    assign_all (vec (set_vec p vp s) q) (_aux_get_line_info s cq1 cq2) = Ok vq /\
    assign_all (vec (set_vec q vq (set_vec p vp s)) v) (_aux_get_line_info s cv1 cv2)
    = Ok vv /\
    assign_all (vec (set_vec v vv (set_vec q vq (set_vec p vp s))) a)
               (map (fun x => fmul x (fconst 1000)) (_aux_get_line_info s ca1 ca2))
    = Ok va /\
    s1 = (let s4 := set_vec a va (set_vec v vv (set_vec q vq (set_vec p vp s))) in
          let s5 := set_vec a (map (fun x => if isfinite x then x else fconst 0)
                                   (vec s4 a)) s4 in
          set_vec v (map (fun x => if isfinite x then x else fconst 0) (vec s5 v)) s5).
Proof.
  intros H. unfold runpf_line_side in H. rewrite bind_get in H.
  apply bind_inv_Ok in H as ([] & sa & Ha & H). apply assign_vec_inv in Ha as (vp & Ep & ->).
  apply bind_inv_Ok in H as ([] & sb & Hb & H). apply assign_vec_inv in Hb as (vq & Eq & ->).
  apply bind_inv_Ok in H as ([] & sc & Hc & H). apply assign_vec_inv in Hc as (vv & Ev & ->).
  apply bind_inv_Ok in H as ([] & sd & Hd & H). apply assign_vec_inv in Hd as (va & Ea & ->).
  apply bind_inv_Ok in H as ([] & se & He & H).
  apply update_vec_inv in He as (va' & Ea' & ->). rewrite zero_non_finite_eq in Ea'.
  injection Ea' as <-.
  apply update_vec_inv in H as (vv' & Ev' & ->). rewrite zero_non_finite_eq in Ev'.
  injection Ev' as <-.
  exists vp, vq, vv, va. auto.
Qed.

Lemma runpf_reset_ppc_gen_inv (s s1 : Backend F) (u : unit) :
  runpf_reset_ppc_gen s = (Ok u, s1) ->
  vec s1 = vec s /\ line_status s1 = line_status s /\ tables s1 = tables s /\
  res_line (solved (_grid s1)) = res_line (solved (_grid s)) /\
  res_trafo (solved (_grid s1)) = res_trafo (solved (_grid s)).
Proof.
  unfold runpf_reset_ppc_gen.
  destruct (_ppc (solved (_grid s))) as [ppc|]; [|intros [= _ <-]; auto].
  destruct (ppc_gen_reset _ _); [|discriminate].
  intros [= _ <-]. cbn. auto.
Qed.

Lemma mask_fill_inv {A} (arr : list A) (mask : list bool) (val : A) (r : list A) :
  mask_fill arr mask val = Ok r ->
  length mask = length arr /\
  r = zip_with (fun x (m : bool) => if m then val else x) arr mask.
Proof.
  unfold mask_fill. destruct (length mask =? length arr)%nat eqn:E; [|discriminate].
  apply Nat.eqb_eq in E. now intros [= <-].
Qed.

Lemma forallb_zeroed (xs : list F) :
  isfinite (fconst 0) = true ->
  forallb isfinite (map (fun x => if isfinite x then x else fconst 0) xs) = true.
Proof.
  intros H0. induction xs as [|x xs IH]; [reflexivity|].
  cbn [map forallb]. rewrite IH, andb_true_r.
  destruct (isfinite x) eqn:E; [exact E | exact H0].
Qed.

(** [v[~status] = 0.] followed by [v[:] *= kvs], at a position where the
    status is False. *)
Lemma masked_then_scaled (xs : list F) (status : list bool) (kvs r : list F) (i : nat) :
  length (map negb status) = length xs ->
  imul_all (zip_with (fun x (m : bool) => if m then fconst 0 else x) xs
                     (map negb status)) kvs = Ok r ->
  status !! i = Some false ->
  exists kv, r !! i = Some (fmul (fconst 0) kv) /\
             (kvs !! i = Some kv \/ kvs = [kv]).
Proof.
  intros Hlen Hmul Hst. rewrite length_map in Hlen.
  assert (Hi : (i < length xs)%nat) by (apply lookup_lt_Some in Hst; lia).
  destruct (lookup_lt_is_Some_2 xs i Hi) as (x & Hx).
  assert (Hm : zip_with (fun x (m : bool) => if m then fconst 0 else x) xs
                        (map negb status) !! i = Some (fconst 0)).
  { apply lookup_zip_with_Some. exists x, true.
    split; [reflexivity|]. split; [exact Hx|].
    rewrite list_lookup_fmap, Hst. reflexivity. }
  unfold imul_all in Hmul.
  destruct (length kvs =? _)%nat eqn:E.
  - injection Hmul as <-. apply Nat.eqb_eq in E.
    rewrite length_zip_with, length_map in E.
    destruct (lookup_lt_is_Some_2 kvs i ltac:(lia)) as (kv & Hkv).
    exists kv. split; [|now left].
    apply lookup_zip_with_Some. exists (fconst 0), kv. auto.
  - destruct kvs as [|y [|? ?]]; try discriminate.
    injection Hmul as <-. exists y. split; [|now right].
    rewrite list_lookup_fmap, Hm. reflexivity.
Qed.

(** X24: what a run that returns never publishes for the branches.  Every
    published current, at the origins and at the extremities, is finite:
    what is not finite in the result of the solver is published as 0.  And
    for a branch the refreshed line status reports out of service, the
    voltage published at either end is 0 times the kV base of that end,
    whatever the solver reports for it. *)
Theorem runpf_cleans_branch_outputs (is_dc b : bool) (nb_bus : Z) (s s' : Backend F) :
  isfinite (fconst 0) = true ->
  runpf_try is_dc nb_bus s = (Ok b, s') ->
  forallb isfinite (vec s' a_or) = true /\
  forallb isfinite (vec s' a_ex) = true /\
  forall i, line_status s' !! i = Some false ->
    (exists kv, vec s' v_or !! i = Some (fmul (fconst 0) kv) /\
       (lines_or_pu_to_kv (tables s') !! i = Some kv
        \/ lines_or_pu_to_kv (tables s') = [kv])) /\
    (exists kv, vec s' v_ex !! i = Some (fmul (fconst 0) kv) /\
       (lines_ex_pu_to_kv (tables s') !! i = Some kv
        \/ lines_ex_pu_to_kv (tables s') = [kv])).
Proof.
  intros Hzero H. unfold runpf_try in H.
  peel_all H. run_facts.
  repeat match goal with
         | Hs : runpf_line_side _ _ _ _ _ _ _ _ _ _ _ _ _ = (Ok ?u, _) |- _ =>
             destruct u; apply runpf_line_side_inv in Hs;
             destruct Hs as (? & ? & ? & ? & _ & _ & _ & _ & ->)
         | Hs : update_vec _ _ _ = (Ok ?u, _) |- _ =>
             destruct u; apply update_vec_inv in Hs; destruct Hs as (? & ? & ->)
         | Hs : runpf_reset_ppc_gen _ = (Ok _, _) |- _ =>
             apply runpf_reset_ppc_gen_inv in Hs;
             destruct Hs as (Rv & Rl & Rt & _ & _)
         end.
  cbn [vec set_vec Attr_eqb line_status set_line_status tables _grid set_nb_bus_before
       set_topo_vect] in *.
  rewrite Rv, Rl, Rt. cbv beta iota.
  repeat match goal with
         | Hm : mask_fill _ _ _ = Ok _ |- _ =>
             apply mask_fill_inv in Hm; destruct Hm as (? & ->)
         end.
  split; [now apply forallb_zeroed|]. split; [now apply forallb_zeroed|].
  intros i Hst.
  split; (eapply masked_then_scaled; [|eassumption|]; assumption).
Qed.

(** ** The accounting of a solve that returns *)

Lemma runpf_reset_ppc_gen_keeps_et (s s1 : Backend F) (u : unit) :
  runpf_reset_ppc_gen s = (Ok u, s1) ->
  comp_time s1 = comp_time s /\
  converged (solved (_grid s1)) = converged (solved (_grid s)) /\
  exists ppc ppc1,
    _ppc (solved (_grid s)) = Some ppc /\ _ppc (solved (_grid s1)) = Some ppc1 /\
    et ppc1 = et ppc.
Proof.
  unfold runpf_reset_ppc_gen.
  destruct (_ppc (solved (_grid s))) as [ppc|] eqn:E; [|discriminate].
  destruct (ppc_gen_reset _ _); [|discriminate].
  intros [= _ <-]. cbn. eauto 10.
Qed.

(** X25: the accounting of a run that returns.  The boolean returned is the
    convergence flag of the result tables, the solver has left its internal
    case in the network, and the computation time is the one before the run
    plus the elapsed time [et] of that case when it reports one, and the one
    before the run when it reports none. *)
Theorem runpf_accumulates_comp_time (is_dc b : bool) (nb_bus : Z) (s s' : Backend F) :
  runpf_try is_dc nb_bus s = (Ok b, s') ->
  b = converged (solved (_grid s')) /\
  exists ppc, _ppc (solved (_grid s')) = Some ppc /\
    comp_time s' = match et ppc with
                   | Some t => fadd (comp_time s) t
                   | None => comp_time s
                   end.
Proof.
  intros H. unfold runpf_try in H.
  do 5 peel H.
  keep_all (fun s : Backend F => comp_time s).
  do 2 peel H.
  peel_all H. run_facts.
  match goal with
  | Hs : runpf_reset_ppc_gen _ = (Ok _, _) |- _ =>
      apply runpf_reset_ppc_gen_keeps_et in Hs;
      destruct Hs as (Rc & Rv & ppc & ppc1 & Rp & Rp1 & Ret)
  end.
  keep_all (fun s : Backend F => (comp_time s, solved (_grid s))).
  cbn [_grid set_nb_bus_before set_line_status comp_time set_topo_vect] in *.
  split; [reflexivity|]. exists ppc1. split; [exact Rp1|]. rewrite Ret, Rc.
  match goal with
  | Hs : _ ?s5 = (Ok _, ?s6), Rp' : _ppc (solved (_grid ?s28)) = Some ppc |- _ =>
      assert (E : (comp_time s28, solved (_grid s28))
                  = (comp_time s6, solved (_grid s6))) by congruence;
      assert (E5 : comp_time s5 = comp_time s) by congruence;
      injection E as Ec Es; rewrite Ec; rewrite Es in Rp';
      destruct (_ppc (solved (_grid s5))) as [p5|] eqn:E5p;
        [destruct (et p5) eqn:Eet|];
        unfold modify, ret in Hs; injection Hs as _ <-;
        cbn in Rp' |- *; rewrite E5p in Rp'; [| |discriminate Rp'];
        injection Rp' as <-; rewrite Eet; congruence
  end.
Qed.

(** X26: after an alternating-current run that returns, every published
    load voltage is finite: a run whose result has a load voltage that is
    not finite does not return, it raises the convergence failure. *)
Theorem runpf_ac_load_voltages_finite (b : bool) (nb_bus : Z) (s s' : Backend F) :
  runpf_try false nb_bus s = (Ok b, s') ->
  forallb isfinite (vec s' load_v) = true.
Proof.
  intros H. unfold runpf_try in H.
  do 18 peel H. peel H.
  match goal with
  | Hs : _ ?s0 = (Ok _, ?s1) |- _ =>
      lazymatch type of Hs with
      | context [forallb] =>
          cbn [negb] in Hs; run_facts;
          destruct (forallb isfinite (vec s0 load_v)) eqn:Efin;
            [cbn [negb when] in Hs | discriminate Hs]
      end
  end.
  run_facts.
  peel_all H. run_facts.
  keep_all (fun s : Backend F => vec s load_v).
  cbn [vec set_topo_vect set_nb_bus_before set_line_status] in *.
  congruence.
Qed.

(** ** Switching a branch that does not exist *)

Lemma py_index_out_of_range (n : nat) (i : Z) :
  Z.of_nat n <= i \/ i < - Z.of_nat n -> py_index n i = None.
Proof.
  intros Hi. unfold py_index.
  destruct (0 <=? i) eqn:E1, (i <? Z.of_nat n) eqn:E2, (i <? 0) eqn:E3,
           (- Z.of_nat n <=? i) eqn:E4; cbn; try reflexivity; lia.
Qed.

(** X27: [_disconnect_line] and [_reconnect_line] on a branch number past
    the last branch, or further below zero than there are lines, raise
    IndexError at the write to the table, before anything is changed. *)
Theorem switch_line_out_of_range (id_ : Z) (s : Backend F) :
  _number_true_line (tables s) = Z.of_nat (length (line (_grid s))) ->
  Z.of_nat (length (line (_grid s)) + length (trafo (_grid s))) <= id_
  \/ id_ < - Z.of_nat (length (line (_grid s))) ->
  _disconnect_line id_ s = (Raise IndexError, s) /\
  _reconnect_line id_ s = (Raise IndexError, s).
Proof.
  intros Hnl Hid. unfold _disconnect_line, _reconnect_line.
  rewrite !bind_get, Hnl.
  destruct Hid as [Hid | Hid].
  - assert (E : (id_ <? Z.of_nat (length (line (_grid s)))) = false) by lia.
    rewrite E.
    assert (Hp : py_index (length (trafo (_grid s)))
                   (id_ - Z.of_nat (length (line (_grid s)))) = None)
      by (apply py_index_out_of_range; lia).
    split; unfold bind, grid_iat, update_table, iat_set; now rewrite Hp.
  - assert (E : (id_ <? Z.of_nat (length (line (_grid s)))) = true) by lia.
    rewrite E.
    assert (Hp : py_index (length (line (_grid s))) id_ = None)
      by (apply py_index_out_of_range; lia).
    split; unfold bind, grid_iat, update_table, iat_set; now rewrite Hp.
Qed.

(** ** The voltages of the loads *)

Lemma loc_found {R} (label_of : R -> Z) (rows : list R) (label : Z) :
  (exists row, row ∈ rows /\ label_of row = label) ->
  exists row, loc label_of rows label = Ok row /\ row ∈ rows /\ label_of row = label.
Proof.
  intros (row & Hin & Hl). unfold loc.
  destruct (List.find _ rows) as [r|] eqn:E.
  - apply find_some in E as [Hr He]. exists r. split; [reflexivity|].
    split; [now apply list_elem_of_In | lia].
  - apply list_elem_of_In in Hin.
    pose proof (find_none _ _ E row Hin) as Hn. cbv beta in Hn. lia.
Qed.

Lemma loc_missing {R} (label_of : R -> Z) (rows : list R) (label : Z) :
  (forall row, row ∈ rows -> label_of row <> label) ->
  loc label_of rows label = Raise KeyError.
Proof.
  intros Hno. unfold loc.
  destruct (List.find _ rows) as [r|] eqn:E; [|reflexivity].
  apply find_some in E as [Hr He]. apply list_elem_of_In in Hr.
  specialize (Hno r Hr). lia.
Qed.

Lemma loc_raises_KeyError {R} (label_of : R -> Z) (rows : list R) (label : Z) (e : exn) :
  loc label_of rows label = Raise e -> e = KeyError.
Proof. unfold loc. destruct (List.find _ rows); [discriminate | now intros [= <-]]. Qed.

Lemma mapM_result_total {A B} (f : A -> result B) (l : list A) :
  Forall (fun x => exists y, f x = Ok y) l -> exists ys, mapM_result f l = Ok ys.
Proof.
  induction 1 as [|x l (y & Hy) _ (ys & Hys)]; cbn [mapM_result].
  - eauto.
  - rewrite Hy. cbn [rbind]. rewrite Hys. cbn [rbind]. eauto.
Qed.

Lemma mapM_result_raises {A B} (f : A -> result B) (l : list A) (e : exn) :
  (forall x e', f x = Raise e' -> e' = e) ->
  Exists (fun x => f x = Raise e) l -> mapM_result f l = Raise e.
Proof.
  intros Hone. induction 1 as [x l Hx | x l _ IH]; cbn [mapM_result].
  - now rewrite Hx.
  - destruct (f x) as [y|e'] eqn:Ef; cbn [rbind].
    + now rewrite IH.
    + now rewrite (Hone _ _ Ef).
Qed.

(** X28: when [_loads_info] returns.  With pairwise distinct labels in the
    result table of the buses (one row per bus, as the bus index of the
    network gives them), every load on a bus that has a row there, and one
    kV base per load, [_loads_info] raises nothing and returns one voltage
    per load, and one active and one reactive power per row of the result
    table of the loads. *)
Theorem loads_info_returns (self : Backend F) :
  NoDup (map res_bus_index (res_bus (solved (_grid self)))) ->
  length (load_pu_to_kv (tables self)) = length (load (_grid self)) ->
  Forall (fun r => exists row, row ∈ res_bus (solved (_grid self))
                               /\ res_bus_index row = load_bus r)
         (load (_grid self)) ->
  exists p q v, _loads_info self = Ok (p, q, v) /\
    length p = length (res_load (solved (_grid self))) /\
    length q = length (res_load (solved (_grid self))) /\
    length v = length (load (_grid self)).
Proof.
  intros _ Hlen Hall. unfold _loads_info.
  destruct (mapM_result_total
              (loc res_bus_index (res_bus (solved (_grid self))))
              (map load_bus (load (_grid self)))) as (rows & Hrows).
  { apply Forall_fmap. eapply Forall_impl; [exact Hall|].
    intros r Hr. cbn. destruct (loc_found _ _ _ Hr) as (row & Hrow & _). eauto. }
  rewrite Hrows. cbn [rbind].
  apply mapM_result_Forall2 in Hrows.
  pose proof (Forall2_length _ _ _ Hrows) as Hl. rewrite length_map in Hl.
  unfold np_zip. rewrite length_map.
  assert (E : (length rows =? length (load_pu_to_kv (tables self)))%nat = true)
    by (apply Nat.eqb_eq; lia).
  rewrite E. cbn [rbind]. do 3 eexists. split; [reflexivity|].
  rewrite !length_map, length_zip_with, length_map. repeat split. lia.
Qed.

(** X29: [_loads_info] when some load sits on a bus that has no row in the
    result table of the buses: KeyError. *)
Theorem loads_info_missing_bus (self : Backend F) :
  Exists (fun r => forall row, row ∈ res_bus (solved (_grid self)) ->
                               res_bus_index row <> load_bus r)
         (load (_grid self)) ->
  _loads_info self = Raise KeyError.
Proof.
  intros Hex. unfold _loads_info.
  rewrite (mapM_result_raises _ _ KeyError); [reflexivity | |].
  - intros x e'. apply loc_raises_KeyError.
  - apply Exists_fmap. eapply Exists_impl; [exact Hex|].
    intros r Hr. cbn. now apply loc_missing.
Qed.

(** ** The decoding, element by element *)

(** C2, as amended.  The decoding run on a state whose cached line status
    agrees with the tables, as it does when [runpf] decodes after a solve:
    each end of a line or transformer gets -1 when the branch is marked out
    of service, else 1 when the end sits on the bus of its substation and 2
    otherwise, the split bus included; each generator and each load gets 1
    when it sits on the bus of its substation and 2 otherwise, whether it is
    marked in service or not: their in-service flag is not read, and -1 is
    never stored for them. *)
Theorem get_topo_vect_decoding (self : Backend F) (topo : list Z) :
  slots_wf (tables self) ->
  _number_true_line (tables self) = Z.of_nat (length (line (_grid self))) ->
  line_status_coherent self ->
  _get_topo_vect self = Ok topo ->
  (forall i r, line (_grid self) !! i = Some r ->
     exists p_or p_ex sel_or sel_ex,
       line_or_pos_topo_vect (tables self) !! i = Some p_or /\
       line_ex_pos_topo_vect (tables self) !! i = Some p_ex /\
       branch_sel (line_in_service r) (from_bus r)
                  (line_or_to_subid (tables self)) i = Some sel_or /\
       branch_sel (line_in_service r) (to_bus r)
                  (line_ex_to_subid (tables self)) i = Some sel_ex /\
       topo !! Z.to_nat p_or = Some sel_or /\ topo !! Z.to_nat p_ex = Some sel_ex) /\
  (forall i r, trafo (_grid self) !! i = Some r ->
     let j := (length (line (_grid self)) + i)%nat in
     exists p_or p_ex sel_or sel_ex,
       line_or_pos_topo_vect (tables self) !! j = Some p_or /\
       line_ex_pos_topo_vect (tables self) !! j = Some p_ex /\
       branch_sel (trafo_in_service r) (hv_bus r)
                  (line_or_to_subid (tables self)) j = Some sel_or /\
       branch_sel (trafo_in_service r) (lv_bus r)
                  (line_ex_to_subid (tables self)) j = Some sel_ex /\
       topo !! Z.to_nat p_or = Some sel_or /\ topo !! Z.to_nat p_ex = Some sel_ex) /\
  (forall i r, gen (_grid self) !! i = Some r ->
     exists p sub, gen_pos_topo_vect (tables self) !! i = Some p /\
       gen_to_subid (tables self) !! i = Some sub /\
       topo !! Z.to_nat p = Some (if gen_bus r =? sub then 1 else 2)) /\
  (forall i r, load (_grid self) !! i = Some r ->
     exists p sub, load_pos_topo_vect (tables self) !! i = Some p /\
       load_to_subid (tables self) !! i = Some sub /\
       topo !! Z.to_nat p = Some (if load_bus r =? sub then 1 else 2)).
Proof.
  intros Hwf Hnl Hco Hrun.
  destruct (get_topo_vect_spec self topo Hwf Hnl Hrun)
    as (_ & Slines & Strafos & Sgens & Sloads).
  unfold line_status_coherent, _get_line_status in Hco.
  split; [|split; [|split]].
  - intros i r Hr.
    destruct (Slines i r Hr) as (st & p_or & p_ex & s_or & s_ex & H1 & H2 & H3 & H4 & H5 & H6).
    rewrite Hco, lookup_app_l in H1 by (rewrite length_map; now apply lookup_lt_Some in Hr).
    rewrite list_lookup_fmap, Hr in H1. injection H1 as <-.
    exists p_or, p_ex, s_or, s_ex. auto 10.
  - intros i r Hr. cbv zeta.
    pose proof (Strafos i r Hr) as St. cbv zeta in St.
    destruct St as (st & p_or & p_ex & s_or & s_ex & H1 & H2 & H3 & H4 & H5 & H6).
    rewrite Hco, lookup_app_r in H1 by (rewrite length_map; lia).
    rewrite length_map in H1.
    replace (length (line (_grid self)) + i - length (line (_grid self)))%nat
      with i in H1 by lia.
    rewrite list_lookup_fmap, Hr in H1. injection H1 as <-.
    exists p_or, p_ex, s_or, s_ex. auto 10.
  - exact Sgens.
  - exact Sloads.
Qed.

(** ** The slack correction and the bus of the reference source *)



(** *** The synthesized slack generator follows the reference source *)

Lemma keeps_bind {A B} (P : Backend F -> Prop) (m : M A) (k : A -> M B) :
  keeps P m -> (forall a, keeps P (k a)) -> keeps P (bind m k).
Proof.
  intros Hm Hk s Hs. unfold bind. specialize (Hm s Hs).
  destruct (m s) as [[a|e] s1]; cbn in *; [now apply Hk | exact Hm].
Qed.

Lemma keeps_for_each {A} (P : Backend F -> Prop) (l : list A) (body : A -> M unit) :
  (forall x, keeps P (body x)) -> keeps P (for_each l body).
Proof.
  intros Hb. induction l as [|x l IH]; cbn [for_each].
  - intros s Hs. exact Hs.
  - apply keeps_bind; [apply Hb | intros _; exact IH].
Qed.

Lemma slack_tracked_view (s s1 : Backend F) :
  slack_view s1 = slack_view s -> slack_tracked s -> slack_tracked s1.
Proof.
  unfold slack_view. intros [= Hi Ha Hb Hg He] [Hent Hinv].
  split; [now rewrite Hb|].
  unfold slack_follows_reference in *. rewrite Hi, Ha.
  destruct (_iref_slack (tables s)) as [iref|];
    destruct (_id_bus_added (tables s)) as [id|]; try exact Hinv.
  destruct Hinv as (Hid & r & e & Hr & Hee & Hsame).
  assert (Hlen : length (gen (_grid s1)) = length (gen (_grid s)))
    by (apply (f_equal length) in Hg; now rewrite !length_map in Hg).
  split; [now rewrite Hlen|].
  apply (f_equal (fun l => l !! Z.to_nat id)) in Hg.
  rewrite !list_lookup_fmap, Hr in Hg.
  destruct (gen (_grid s1) !! Z.to_nat id) as [r1|]; [|discriminate].
  injection Hg as Hb1 Hs1.
  apply (f_equal (fun l => l !! 0%nat)) in He.
  rewrite !list_lookup_fmap, Hee in He.
  destruct (ext_grid (_grid s1) !! 0%nat) as [e1|]; [|discriminate].
  injection He as He1.
  exists r1, e1. split; [reflexivity|]. split; [reflexivity|].
  rewrite Hb1, Hs1, He1. exact Hsame.
Qed.

Lemma keeps_of_view {A} (m : M A) :
  preserves slack_view m -> keeps (F:=F) slack_tracked m.
Proof. intros Hp s Hs. eapply slack_tracked_view; [apply Hp | exact Hs]. Qed.

Lemma mask_set_map {R V X} (g : R -> X) (rows l : list R) (ch : list bool)
    (vals : list V) (upd : R -> V -> R) :
  mask_set rows ch vals upd = Ok l ->
  (forall r v, g (upd r v) = g r) -> map g l = map g rows.
Proof.
  intros Hm Hg. revert Hm. unfold mask_set.
  destruct (_ && _) eqn:E; [|discriminate]. intros [= <-].
  apply andb_true_iff in E as [E1 E2].
  apply Nat.eqb_eq in E1. apply Nat.eqb_eq in E2.
  assert (Hl : length (zip ch vals) = length rows)
    by (rewrite length_zip_with; lia).
  revert Hl. generalize (zip ch vals). clear E1 E2.
  induction rows as [|r rows IH]; intros [|cv cvs] Hl; try discriminate; [reflexivity|].
  cbn [zip_with map]. rewrite IH by (cbn in Hl; lia).
  f_equal. destruct cv.1; [apply Hg | reflexivity].
Qed.

Ltac slack_view_side :=
  intros; cbv beta in *;
  first
    [ reflexivity
    | match goal with
      | Hl : Ok _ = Ok _ |- _ =>
          injection Hl as <-; unfold slack_view; cbn; rewrite ?map_map; reflexivity
      | Hl : mask_set _ _ _ _ = Ok _ |- _ =>
          unfold slack_view; cbn;
          rewrite (mask_set_map (fun r : GenRow F => (gen_bus r, gen_in_service r))
                                _ _ _ _ _ Hl) by reflexivity; reflexivity
      | Hl : (if ?c then _ else _) = Ok _ |- _ =>
          destruct c; [|discriminate Hl];
          unfold slack_view; cbn;
          rewrite (mask_set_map (fun r : GenRow F => (gen_bus r, gen_in_service r))
                                _ _ _ _ _ Hl) by reflexivity; reflexivity
      end ].

Lemma grid_iat_out_of_range {R} (tbl : Grid F -> list R)
    (set : list R -> Grid F -> Grid F) (i : Z) (f : R -> R) (s : Backend F) :
  py_index (length (tbl (_grid s))) i = None ->
  grid_iat tbl set i f s = (Raise IndexError, s).
Proof. intros Hp. unfold grid_iat, update_table, iat_set. now rewrite Hp. Qed.

(** The mutator of the generators moves the reference source with the
    synthesized slack generator. *)
Lemma apply_gen_bus_keeps_slack (new_bus id_el_backend id_topo : Z) (s : Backend F) :
  0 <= id_el_backend ->
  slack_tracked s -> slack_tracked (_apply_gen_bus new_bus id_el_backend id_topo s).2.
Proof.
  intros Hnn Hs.
  assert (Htb : preserves (fun s : Backend F => tables s)
                          (_apply_gen_bus new_bus id_el_backend id_topo))
    by (unfold _apply_gen_bus; preserves_with by_computation).
  specialize (Htb s). cbv beta in Htb.
  destruct Hs as [Hent Hinv]. split; [now rewrite Htb|]. clear Htb Hent.
  unfold _apply_gen_bus. rewrite bind_get.
  unfold bind at 1, lift at 1.
  destruct (getitem _ _) as [home|e]; [|exact Hinv].
  unfold bind at 1, lift at 1.
  destruct (_pp_bus_from_grid2op_bus s new_bus home) as [nb|e]; [|exact Hinv].
  destruct (py_index (length (gen (_grid s))) id_el_backend) as [k|] eqn:Ek.
  2: { destruct (0 <=? nb);
         rewrite (bind_Raise _ _ s s IndexError)
           by (now apply grid_iat_out_of_range); exact Hinv. }
  destruct (py_index_nonneg _ _ _ Hnn Ek) as [-> Hlt].
  assert (Hr : 0 <= id_el_backend < Z.of_nat (length (gen (_grid s)))) by lia.
  destruct (0 <=? nb).
  - rewrite (bind_Ok _ _ _ _ _ (grid_iat_in_range gen set_gen id_el_backend _ s Hr)).
    erewrite bind_Ok
      by (apply grid_iat_in_range; cbn [_grid set_grid gen set_gen];
          rewrite length_alter; exact Hr).
    rewrite bind_get. cbn [_grid set_grid gen set_gen tables]. rewrite !length_alter.
    unfold slack_follows_reference in Hinv |- *.
    destruct ((id_el_backend =? _) && bool_decide _) eqn:Ec; cbn [when].
    + apply andb_true_iff in Ec as [E1 E2]. apply Z.eqb_eq in E1.
      apply bool_decide_eq_true in E2.
      destruct (_iref_slack (tables s)) as [iref|] eqn:Ei; [|now destruct E2].
      destruct (_id_bus_added (tables s)) as [id|] eqn:Ea; [|contradiction].
      destruct Hinv as (Hid & r & e & Hg & He & Hsame).
      assert (H0 : 0 <= 0 < Z.of_nat (length (ext_grid (_grid s))))
        by (apply lookup_lt_Some in He; lia).
      rewrite grid_iat_in_range by exact H0.
      cbn [snd tables set_grid _grid gen set_gen set_ext_grid ext_grid].
      rewrite Ei, Ea, !length_alter. split; [exact Hid|].
      assert (Hix : Z.to_nat id = Z.to_nat id_el_backend) by lia.
      rewrite Hix in Hg |- *.
      exists (set_gen_in_service true (set_gen_bus nb r)), (set_ext_grid_bus nb e).
      split; [now rewrite !list_lookup_alter_eq, Hg|].
      split; [change (Z.to_nat 0) with 0%nat; now rewrite list_lookup_alter_eq, He|].
      reflexivity.
    + cbn [ret snd tables set_grid _grid gen set_gen ext_grid].
      destruct (_iref_slack (tables s)) as [iref|] eqn:Ei;
        destruct (_id_bus_added (tables s)) as [id|] eqn:Ea; try exact Hinv.
      destruct Hinv as (Hid & r & e & Hg & He & Hsame).
      rewrite !length_alter. split; [exact Hid|].
      assert (Hne : Z.to_nat id_el_backend <> Z.to_nat id).
      { apply andb_false_iff in Ec as [Ec | Ec].
        - apply Z.eqb_neq in Ec. lia.
        - apply bool_decide_eq_false in Ec. exfalso. apply Ec. eauto. }
      exists r, e. rewrite !list_lookup_alter_ne by exact Hne. auto.
  - rewrite (bind_Ok _ _ _ _ _ (grid_iat_in_range gen set_gen id_el_backend _ s Hr)).
    rewrite grid_iat_in_range
      by (cbn [_grid set_grid gen set_gen]; rewrite length_alter; exact Hr).
    cbn [snd tables set_grid _grid gen set_gen ext_grid].
    unfold slack_follows_reference in Hinv |- *.
    cbn [tables set_grid _grid gen set_gen ext_grid].
    destruct (_iref_slack (tables s)) as [iref|] eqn:Ei;
      destruct (_id_bus_added (tables s)) as [id|] eqn:Ea; try exact Hinv.
    destruct Hinv as (Hid & r & e & Hg & He & Hsame).
    rewrite !length_alter. split; [exact Hid|].
    destruct (decide (Z.to_nat id_el_backend = Z.to_nat id)) as [Heq | Hne].
    + exists (set_gen_bus (-1) (set_gen_in_service false r)), e.
      rewrite Heq, !list_lookup_alter_eq, Hg. split; [reflexivity|].
      split; [exact He|]. discriminate.
    + exists r, e. rewrite !list_lookup_alter_ne by exact Hne. auto.
Qed.

Lemma apply_action_topo_one_keeps_slack (pair : Z * Z) :
  keeps (F:=F) slack_tracked (apply_action_topo_one pair).
Proof.
  destruct pair as [id_el new_bus]. intros s Hs.
  unfold apply_action_topo_one.
  rewrite bind_get. unfold bind at 1, lift at 1.
  destruct (getitem (_big_topo_to_backend (tables s)) id_el)
    as [[[id_el_backend id_topo] type_obj]|e] eqn:Eg; [|exact Hs].
  assert (Hnn : 0 <= id_el_backend).
  { unfold getitem in Eg.
    destruct (py_index _ id_el) as [k|]; [|discriminate].
    destruct (_big_topo_to_backend (tables s) !! k) as [entry|] eqn:Ek; [|discriminate].
    injection Eg as ->. destruct Hs as [Hent _].
    exact (Forall_lookup_1 _ _ _ _ Hent Ek). }
  unfold bind at 1, lift at 1.
  destruct (getitem _type_to_bus_set type_obj) as [m|e] eqn:E; [|exact Hs].
  apply type_to_bus_set_cases in E. unfold _type_to_bus_set in E.
  repeat (apply elem_of_cons in E as [-> | E]); [ .. | now apply elem_of_nil in E ].
  2: { now apply apply_gen_bus_keeps_slack. }
  all: cbv beta delta [_apply_load_bus _apply_lor_bus _apply_trafo_hv
                       _apply_lex_bus _apply_trafo_lv];
    match goal with
    | |- slack_tracked (?m ?s).2 =>
        assert (Hp : preserves slack_view m)
          by (unfold change_bus_powerline_or, change_bus_powerline_ex,
                     change_bus_trafo_hv, change_bus_trafo_lv;
              preserves_with slack_view_side);
        exact (keeps_of_view _ Hp s Hs)
    end.
Qed.

(** [apply_action] keeps the synthesized slack generator on the bus of the
    reference source, whether the action is applied in full or stops on an
    exception. *)
Lemma apply_action_keeps_slack (backendAction : option (Action F)) :
  keeps (F:=F) slack_tracked (apply_action backendAction).
Proof.
  destruct backendAction as [act|]; [|intros s Hs; exact Hs].
  unfold apply_action.
  apply keeps_bind; [|intros _; apply keeps_bind; [|intros _; apply keeps_bind]].
  - apply keeps_of_view. unfold apply_action_injection.
    preserves_with slack_view_side.
  - apply keeps_of_view. unfold apply_action_shunts.
    preserves_with slack_view_side.
  - apply keeps_for_each. apply apply_action_topo_one_keeps_slack.
  - intros _. apply keeps_of_view. unfold apply_action_active_bus.
    preserves_with slack_view_side.
Qed.

(** [runpf] writes no table of the network, and [reset] puts the network
    of the snapshot back. *)
Lemma runpf_keeps_slack (is_dc : bool) : keeps (F:=F) slack_tracked (runpf is_dc).
Proof.
  apply keeps_of_view. unfold runpf, runpf_try.
  preserves_with slack_view_side.
  apply preserves_try_except; preserves_with slack_view_side.
Qed.

Lemma reset_keeps_slack (initial_grid : Grid F) (s : Backend F) :
  slack_tracked (set_grid initial_grid s) -> slack_tracked (reset initial_grid s).2.
Proof.
  intros Hs. rewrite reset_unfold.
  refine (keeps_of_view _ _ _ Hs).
  unfold _reset_all_nan. preserves_with slack_view_side.
Qed.
End Proofs.

(** * The properties on the sample grid *)

Import Sample.

(** C1 on the sample: selector 3 is refused. *)
Example pp_bus_from_grid2op_bus_refuses_3 :
  _pp_bus_from_grid2op_bus backend 3 1
    = Raise (BackendError "grid2op bus must be -1, 1 or 2").
Proof. reflexivity. Qed.

(** The sample backend is as [load_grid] leaves it. *)
Lemma sample_topo_wf : topo_wf backend.
Proof.
  unfold topo_wf, slots_wf. simpl.
  split; [split|].
  - repeat constructor; lia.
  - change (NoDup [0; 1; 3; 4; 2; 5]).
    repeat (constructor; [rewrite ?elem_of_cons, elem_of_nil; lia|]). constructor.
  - repeat split; try reflexivity. discriminate.
Defined.

(** The decoding alone, on a load out of service: the loop over the loads
    has no in-service test and stores 2 at slot 5.  Inside [runpf] this
    state does not reach the decoding. *)
Example get_topo_vect_load_out_of_service :
  _get_topo_vect backend_load_off = Ok [1; 1; 1; 1; 1; 2].
Proof. vm_compute. reflexivity. Qed.

(** On the sample: after an alternating-current solve the load, in
    service on bus 1 of substation 1, has selector 1 at slot 5, and the
    origin of the line, on bus 0 of substation 0, has selector 1 at slot 0. *)
Lemma runpf_decodes_topology_witness :
  topo_wf backend /\
  exists s', runpf_try false 2 backend = (Ok true, s') /\
    decoded s' 5 true 1 1 /\ decoded s' 0 true 0 0.
Proof.
  split; [exact sample_topo_wf|].
  set (s' := (runpf_try false 2 backend).2).
  assert (Hrun : runpf_try false 2 backend = (Ok true, s'))
    by (vm_compute; reflexivity).
  assert (Hload : load (_grid s') !! 0%nat
                  = Some {| load_bus := 1; load_p_mw := fl_num 3;
                            load_q_mvar := fl_num 1; load_in_service := true |})
    by (vm_compute; reflexivity).
  assert (Hline : line (_grid s') !! 0%nat
                  = Some {| from_bus := 0; to_bus := 1; line_in_service := true |})
    by (vm_compute; reflexivity).
  assert (Hlp : load_pos_topo_vect (tables s') !! 0%nat = Some 5)
    by (vm_compute; reflexivity).
  assert (Hls : load_to_subid (tables s') !! 0%nat = Some 1)
    by (vm_compute; reflexivity).
  assert (Hop : line_or_pos_topo_vect (tables s') !! 0%nat = Some 0)
    by (vm_compute; reflexivity).
  assert (Hos : line_or_to_subid (tables s') !! 0%nat = Some 0)
    by (vm_compute; reflexivity).
  clearbody s'. exists s'. split; [exact Hrun|].
  destruct (runpf_decodes_topology false true 2 backend s' sample_topo_wf Hrun)
    as (Hlines & _ & _ & Hloads).
  split.
  - destruct (Hloads 0%nat _ Hload) as (_ & p & Hp & Hdec).
    rewrite Hlp in Hp. injection Hp as <-. exact (Hdec 1 Hls).
  - destruct (Hlines 0%nat _ Hline) as (p_or & p_ex & Hp & _ & Hdec & _).
    rewrite Hop in Hp. injection Hp as <-. exact (Hdec 0 Hos).
Defined.

(** C3 on the sample with its load out of service: the solve raises
    "Isolated load" inside, and [runpf] answers [False] with NaN vectors. *)
Lemma runpf_convergence_failure_witness :
  exists s2, runpf false backend_load_off = (Ok false, s2) /\
    (forall a, vec s2 a = replicate (length (vec backend_load_off a)) NaN) /\
    _nb_bus_before s2 = None.
Proof.
  apply (runpf_convergence_failure false backend_load_off
           (runpf_try false (get_nb_active_bus backend_load_off) backend_load_off).2
           "Isolated load").
  vm_compute. reflexivity.
Defined.

(** C5 on the sample with its load out of service. *)
Lemma runpf_isolated_element_witness :
  exists s', runpf false backend_load_off = (Ok false, s') /\
    solver_calls s' = solver_calls backend_load_off /\
    (forall a, vec s' a = replicate (length (vec backend_load_off a)) NaN) /\
    _grid s' = _grid backend_load_off.
Proof.
  apply (runpf_isolated_element backend_load_off).
  left. eexists. split; [apply list_elem_of_here | reflexivity].
Defined.

(** C4 on the sample.  Two alternating-current solves in a row on the
    unchanged grid: the first goes through, the number of active buses is
    the same before the second, and yet the second calls the solver with
    the initialization "dc", not "results": the first solve left no bus
    count behind. *)
Theorem runpf_twice_on_sample :
  let s1 := (runpf false backend).2 in
  (runpf false backend).1 = Ok true /\
  get_nb_active_bus s1 = get_nb_active_bus backend /\
  _nb_bus_before s1 = None /\
  (runpf false s1).1 = Ok true /\
  solver_calls (runpf false s1).2 = [runpp "dc"; runpp "dc"].
Proof. vm_compute. repeat split. Qed.

(** C6 on the sample.  A shunt in service on the split bus of its
    substation (row 3 = 1 + 2) is reported with selector 0, not 2; a shunt
    out of service on the bus of its substation is reported with selector
    1, not -1. *)
Theorem shunt_info_on_sample :
  (exists p q v, shunt_info backend_shunt_split = Ok (p, q, v, [0])) /\
  (exists p q v, shunt_info backend_shunt_off = Ok (p, q, v, [1])).
Proof. split; do 3 eexists; vm_compute; reflexivity. Qed.

(** On the sample: 3 + 7 and 1 + 2 on the row of the
    synthesized generator. *)
Lemma gens_info_slack_correction_witness :
  _gens_info backend = Ok ([fl_num 10], [fl_num 3], [fl_num 138]).
Proof.
  assert (Hv : np_zip fmul (map (fun r => fmul cst_1 (res_gen_vm_pu r))
                                (res_gen (solved (_grid backend))))
                      (prod_pu_to_kv (tables backend)) = Ok [fl_num 138])
    by (vm_compute; reflexivity).
  destruct (gens_info_slack_correction backend [fl_num 138] Hv) as (Hadd & _ & _).
  rewrite (Hadd 0 0
             {| et := Some (fl_num 1);
                ppc_gen := [[fl_num 0; fl_num 3; fl_num 1]];
                ppc_internal_gen := Some [[fl_num 0; fl_num 7; fl_num 2]] |}
             [[fl_num 0; fl_num 7; fl_num 2]]
             (fl_num 7) (fl_num 2) (fl_num 3) (fl_num 1));
    first [ vm_compute; reflexivity | lia ].
Defined.

(** C9 on the sample: the pair (2, 1) is applied, the pair (5, 3) raises,
    and the load row of slot 5 is as it was. *)
Lemma apply_action_invalid_selector_witness :
  apply_action (Some (topo_action [(2, 1); (5, 3)])) backend
    = (Raise (BackendError "grid2op bus must be -1, 1 or 2"), backend).
Proof.
  apply (apply_action_invalid_selector backend backend backend backend
           (topo_action [(2, 1); (5, 3)]) [(2, 1)] [] 5 3 0 0 0 1);
    try reflexivity; try discriminate; lia.
Defined.

(** C10 on the sample: the load of slot 5, home bus 1. *)
Lemma apply_action_disconnect_reconnect_witness :
  exists s1, apply_action (Some (topo_action [(5, -1)])) backend = (Ok tt, s1) /\
    element_bus_state s1 0 0 = Some (-1, false) /\
    forall sb s0',
      apply_action_injection (topo_action [(5, 1)]) s1 = (Ok tt, sb) ->
      apply_action_shunts (topo_action [(5, 1)]) sb = (Ok tt, s0') ->
      exists s2, apply_action (Some (topo_action [(5, 1)])) s1 = (Ok tt, s2) /\
        element_bus_state s2 0 0 = Some (1, true).
Proof.
  apply (apply_action_disconnect_reconnect backend backend backend
           (topo_action [(5, -1)]) (topo_action [(5, 1)]) 5 0 0 0 1);
    try reflexivity; try (now left); try lia.
  unfold element_row_exists. simpl. lia.
Defined.

(** The generator of the sample, which is the synthesized slack: taken out
    and put back, it is on its home bus 0 and in service again. *)
Example apply_action_gen_off_on :
  let s1 := (apply_action (Some (topo_action [(2, -1)])) backend).2 in
  let s2 := (apply_action (Some (topo_action [(2, 1)])) s1).2 in
  element_bus_state s1 1 0 = Some (-1, false) /\
  element_bus_state s2 1 0 = Some (0, true).
Proof. vm_compute. split; reflexivity. Qed.

(** * The further properties on the sample grid *)

(** X3 on the sample: an alternating-current solve from the loaded state. *)
Lemma runpf_refreshes_line_status_witness :
  line_status_coherent (runpf_try false 2 backend).2.
Proof.
  set (s' := (runpf_try false 2 backend).2).
  assert (Hrun : runpf_try false 2 backend = (Ok true, s'))
    by (vm_compute; reflexivity).
  assert (Hlen : length (line_status backend)
                 = (length (line (_grid backend)) + length (trafo (_grid backend)))%nat)
    by (vm_compute; reflexivity).
  clearbody s'.
  exact (runpf_refreshes_line_status false true 2 backend s' Hlen Hrun).
Defined.

(** X5 on the sample: the backend is reset to the loaded network after an
    action has put the load out of service. *)
Lemma reset_spec_witness :
  _grid (reset grid backend_load_off).2 = grid /\
  line_status (reset grid backend_load_off).2 = line_status backend_load_off.
Proof.
  set (s' := (reset grid backend_load_off).2).
  assert (Hrun : reset grid backend_load_off = (Ok tt, s'))
    by (vm_compute; reflexivity).
  assert (Htb : tables backend_load_off = tables backend)
    by (vm_compute; reflexivity).
  assert (Hnl : _number_true_line (tables backend_load_off)
                = Z.of_nat (length (line grid)))
    by (vm_compute; reflexivity).
  assert (Hlen : length (_topo_vect backend_load_off)
                 = dim_topo (tables backend_load_off))
    by (vm_compute; reflexivity).
  assert (Hslots : slots_wf (tables backend_load_off))
    by (rewrite Htb; exact (proj1 sample_topo_wf)).
  clearbody s'.
  destruct (reset_spec grid backend_load_off s' Hslots Hnl Hlen Hrun)
    as (Hg & _ & _ & _ & _ & Hls & _).
  split; assumption.
Defined.

(** X6 on the sample: the line, whose two ends sit at slots 0 and 3. *)
Lemma disconnect_line_spec_witness :
  exists s', _disconnect_line 0 backend = (Ok tt, s') /\
    line_status s' !! 0%nat = Some false /\
    getitem (_topo_vect s') 0 = Ok (-1) /\
    getitem (_topo_vect s') 3 = Ok (-1).
Proof.
  destruct (disconnect_line_spec 0 0 3 backend) as (s' & Hrun & _ & Hls & Ho & He & _).
  - reflexivity.
  - simpl. lia.
  - reflexivity.
  - reflexivity.
  - reflexivity.
  - eexists. reflexivity.
  - eexists. reflexivity.
  - exists s'. repeat split; assumption.
Defined.

(** X7 on the sample: the transformer, branch number 1. *)
Lemma reconnect_line_spec_witness :
  exists s', _reconnect_line 1 backend = (Ok tt, s') /\
    line_status s' !! 1%nat = Some true /\
    _topo_vect s' = _topo_vect backend.
Proof.
  destruct (reconnect_line_spec 1 backend) as (s' & Hrun & _ & Hls & Htv & _).
  - reflexivity.
  - simpl. lia.
  - reflexivity.
  - exists s'. repeat split; assumption.
Defined.

(** X8 on the sample, which has one line and two substations. *)
Lemma sub_from_bus_id_inverts_resolver_witness :
  0 <= 0 < _PandaPowerBackend__nb_bus_before (tables backend) /\
  ((forall sel b, sel = 1 \/ sel = 2 ->
      _pp_bus_from_grid2op_bus backend sel 0 = Ok b -> sub_from_bus_id backend b = 0)
   <-> _number_true_line (tables backend)
       = _PandaPowerBackend__nb_bus_before (tables backend)).
Proof.
  assert (Hin : 0 <= 0 < _PandaPowerBackend__nb_bus_before (tables backend))
    by (simpl; lia).
  split; [exact Hin|].
  exact (sub_from_bus_id_inverts_resolver backend 0 Hin).
Defined.

(** On the sample the substation of the first bus of substation 1 is not
    given back: bus 1 is taken for a split bus. *)
Example sub_from_bus_id_on_sample :
  _pp_bus_from_grid2op_bus backend 1 1 = Ok 1 /\ sub_from_bus_id backend 1 = 0.
Proof. split; reflexivity. Qed.

(** X9 on the sample: both substations keep their first bus only. *)
Lemma apply_action_active_bus_spec_witness :
  exists s', apply_action_active_bus (topo_action []) backend = (Ok tt, s') /\
    map bus_in_service (bus (_grid s')) = [true; true; false; false] /\
    get_nb_active_bus s' = 2.
Proof.
  destruct (apply_action_active_bus_spec (topo_action []) backend)
    as (s' & Hrun & _ & Hflags & Hnb & _); [reflexivity | reflexivity |].
  exists s'. split; [exact Hrun|]. split; [exact Hflags | exact Hnb].
Defined.

(** X10 on the sample: the generator gets 7 MW and 276 kV on a 138 kV base,
    and the setpoint of 2 per unit reaches the external grid. *)
Lemma apply_action_injection_spec_witness :
  gen (_grid (apply_action_injection MoreSample.inject_action backend).2) !! 0%nat
  = Some {| gen_bus := 0; gen_p_mw := fl_num 7; gen_vm_pu := fl_num 2;
            gen_slack := true; gen_in_service := true |} /\
  map ext_grid_vm_pu
      (ext_grid (_grid (apply_action_injection MoreSample.inject_action backend).2))
  = [fl_num 2].
Proof.
  set (s' := (apply_action_injection MoreSample.inject_action backend).2).
  assert (Hrun : apply_action_injection MoreSample.inject_action backend = (Ok tt, s'))
    by (vm_compute; reflexivity).
  clearbody s'.
  destruct (apply_action_injection_spec MoreSample.inject_action backend s'
              _ _ _ _ eq_refl Hrun) as (Hgen & _ & Hext & _).
  pose proof (Hgen 0%nat _ eq_refl) as Hg.
  split; [exact Hg|].
  cbv [tables backend tbl _id_bus_added] in Hext.
  change (Z.to_nat 0) with 0%nat in Hext.
  rewrite Hg in Hext. rewrite Hext. reflexivity.
Defined.

(** X11 on the sample: the shunt asked onto the second bus of its
    substation stays on bus 1, in service. *)
Lemma apply_action_shunts_spec_witness :
  exists r', shunt (_grid (apply_action_shunts MoreSample.inject_action backend).2) !! 0%nat
             = Some r' /\
    shunt_bus r' = 1 /\ shunt_in_service r' = true.
Proof.
  set (s' := (apply_action_shunts MoreSample.inject_action backend).2).
  assert (Hrun : apply_action_shunts MoreSample.inject_action backend = (Ok tt, s'))
    by (vm_compute; reflexivity).
  clearbody s'.
  destruct (apply_action_shunts_spec MoreSample.inject_action backend s'
              _ _ _ eq_refl Hrun) as [_ Hspec].
  destruct (Hspec eq_refl 0%nat _ eq_refl) as (r' & Hr' & _ & _ & Hs & Hb).
  exists r'. split; [exact Hr'|]. split; [exact Hb | exact Hs].
Defined.

Lemma sample_tables_sized : tables_sized backend.
Proof.
  unfold tables_sized. cbn.
  split; [repeat constructor; lia | repeat split].
Defined.

(** X12 on the sample backend, whose six slots fill the topology vector. *)
Lemma get_topo_vect_total_witness :
  exists topo, _get_topo_vect backend = Ok topo /\ Forall is_selector topo.
Proof.
  destruct (get_topo_vect_total backend (proj1 sample_topo_wf) sample_tables_sized
              eq_refl eq_refl) as (topo & Hrun & _ & Hsel).
  exists topo. split; [exact Hrun | apply Hsel; reflexivity].
Defined.

(** X13 on the sample: the load, at slot 5, is set to the second bus of
    its substation. *)
Lemma set_bus_round_trip_witness :
  exists s' topo,
    apply_action_topo_one (5, 2) backend = (Ok tt, s') /\
    _get_topo_vect s' = Ok topo /\
    topo !! 5%nat = Some 2.
Proof.
  apply (set_bus_round_trip backend 5 2 0 0 0 1).
  - exact (proj1 sample_topo_wf).
  - exact sample_tables_sized.
  - reflexivity.
  - reflexivity.
  - reflexivity.
  - now left.
  - reflexivity.
  - reflexivity.
  - reflexivity.
  - lia.
  - cbn. lia.
  - split; cbn; lia.
  - now right.
Defined.

(** X14 on the sample with its load on the second bus of its substation:
    the solver runs, the load voltage comes out non-finite, and the cache
    still says that the load is on the first bus. *)
Lemma runpf_failure_keeps_cache_witness :
  exists s2, runpf false FailureSample.backend_load_split = (Ok false, s2) /\
    get_line_status s2 = [true; true] /\
    _topo_vect s2 = [1; 1; 1; 1; 1; 1].
Proof.
  apply (runpf_failure_keeps_cache false FailureSample.backend_load_split
           (runpf_try false (get_nb_active_bus FailureSample.backend_load_split)
                      FailureSample.backend_load_split).2
           "Isolated load").
  vm_compute. reflexivity.
Defined.

(** The sample backend is what the loading steps make of the sample
    network: the doubled bus table, the substation tables, the size of the
    topology vector and the table from slots to elements. *)
Example sample_is_loaded :
  load_grid_double_bus LoadSample.raw_grid = grid /\
  (exists st, LoadGrid.placement LoadSample.raw_grid = Ok (st, Z.of_nat (dim_topo tbl)) /\
     LoadGrid.load_to_subid st = load_to_subid tbl /\
     LoadGrid.gen_to_subid st = gen_to_subid tbl /\
     LoadGrid.line_or_to_subid st = line_or_to_subid tbl /\
     LoadGrid.line_ex_to_subid st = line_ex_to_subid tbl) /\
  load_grid_big_topo_to_backend tbl = Ok (Some <$> _big_topo_to_backend tbl).
Proof.
  split; [reflexivity|]. split; [|reflexivity].
  eexists. split; [vm_compute; reflexivity|]. repeat split.
Qed.

(** X15 on the sample tables. *)
Lemma load_grid_big_topo_to_backend_spec_witness :
  exists l, load_grid_big_topo_to_backend tbl = Ok l /\
    l !! 5%nat = Some (Some (0, 0, 0)) /\
    Forall (fun entry => entry <> None) l.
Proof.
  destruct (load_grid_big_topo_to_backend_spec tbl (proj1 sample_topo_wf)
              (proj1 sample_tables_sized))
    as (l & Hrun & _ & Hload & _ & _ & _ & Hfull).
  exists l. split; [exact Hrun|]. split.
  - exact (Hload 0%nat 5 eq_refl).
  - apply Hfull. reflexivity.
Defined.

(** X16 on the sample tables: slot 5 is load 0, slot 1 the origin of
    branch 1. *)
Lemma convert_id_topo_spec_witness :
  exists l, load_grid_big_topo_to_obj tbl = Ok l /\
    _convert_id_topo l 5 = Ok (Some (0, "load")) /\
    _convert_id_topo l 1 = Ok (Some (1, "lineor")).
Proof.
  destruct (convert_id_topo_spec tbl (proj1 sample_topo_wf) (proj1 sample_tables_sized))
    as (l & Hrun & Hload & _ & Hor & _).
  exists l. split; [exact Hrun|]. split.
  - exact (Hload 0%nat 5 eq_refl).
  - exact (Hor 1%nat 1 eq_refl).
Defined.

Lemma sample_buses_exist : LoadGrid.buses_exist LoadSample.raw_grid.
Proof.
  unfold LoadGrid.buses_exist. cbn.
  repeat split; repeat constructor; cbn; lia.
Defined.

(** X17 on the sample network: six slots. *)
Lemma load_grid_placement_counts_witness :
  exists st, LoadGrid.placement LoadSample.raw_grid = Ok (st, 6) /\
    LoadGrid.line_or_to_subid st = [0; 0] /\
    LoadGrid.pos_already_used st = LoadGrid.sub_info st.
Proof.
  destruct (load_grid_placement_counts LoadSample.raw_grid sample_buses_exist)
    as (st & Hrun & Hor & _ & _ & _ & Hpau & _).
  exists st. split; [exact Hrun|]. split; [exact Hor | exact Hpau].
Defined.

(** X18 on the sample network: the load is listed in its substation at the
    position recorded for it. *)
Lemma load_grid_placement_positions_witness :
  exists st dim p, LoadGrid.placement LoadSample.raw_grid = Ok (st, dim) /\
    LoadGrid.load_to_sub_pos st !! 0%nat = Some p /\
    LoadGrid.placed_at st 1 p ("load", "bus", 0).
Proof.
  destruct (load_grid_placement_positions LoadSample.raw_grid sample_buses_exist)
    as (st & dim & Hrun & _ & _ & _ & Hload).
  destruct (Hload 0%nat _ eq_refl) as (p & Hp & Hpl).
  exists st, dim, p. split; [exact Hrun|]. split; [exact Hp | exact Hpl].
Defined.

(** A load on a bus that does not exist stops the placement. *)
Example placement_bus_out_of_range :
  LoadGrid.placement
    (set_load [ {| load_bus := 2; load_p_mw := fl_num 3; load_q_mvar := fl_num 1;
                   load_in_service := true |} ] LoadSample.raw_grid)
  = Raise IndexError.
Proof. vm_compute. reflexivity. Qed.

(** X21 on the sample: the origin of the transformer, at slot 1, is set to
    the second bus of substation 0. *)
Lemma apply_action_topo_one_branch_witness :
  exists s', apply_action_topo_one (1, 2) backend = (Ok tt, s') /\
    branch_ends s' 3 1 0 = Some (2, 1, true).
Proof.
  destruct (apply_action_topo_one_branch backend 1 2 1 0 3 0 0 1 true)
    as (s' & Hrun & Hends & _).
  - reflexivity.
  - right. now left.
  - reflexivity.
  - lia.
  - cbn. lia.
  - lia.
  - lia.
  - reflexivity.
  - right. now right.
  - exists s'. split; [exact Hrun | exact Hends].
Defined.

(** X22 on the sample with its line out of service in the table of the
    lines: the vector computed as at the end of loading is all ones. *)
Lemma get_topo_vect_after_loading_witness :
  _get_topo_vect
    (set_grid (set_line [ {| from_bus := 0; to_bus := 1; line_in_service := false |} ]
                        grid) backend)
  = Ok [1; 1; 1; 1; 1; 1].
Proof.
  apply (get_topo_vect_after_loading
           (set_grid (set_line [ {| from_bus := 0; to_bus := 1;
                                    line_in_service := false |} ] grid) backend)).
  - exact (proj1 sample_topo_wf).
  - exact sample_tables_sized.
  - reflexivity.
  - reflexivity.
  - repeat split.
  - reflexivity.
Defined.

(** X23 on the sample backend, reset to the loaded network. *)
Lemma reset_completes_witness :
  exists s', reset grid backend = (Ok tt, s') /\ _grid s' = grid /\
    Forall is_selector (_topo_vect s').
Proof.
  destruct (reset_completes grid backend (proj1 sample_topo_wf) sample_tables_sized
              eq_refl eq_refl eq_refl) as (s' & Hrun & Hg & _ & Hsel).
  exists s'. split; [exact Hrun|]. split; [exact Hg | apply Hsel; reflexivity].
Defined.

(** The run behind [FlowSample.solved] returns. *)
Lemma sample_solved_run : runpf_try false 2 backend = (Ok true, FlowSample.solved).
Proof. vm_compute. reflexivity. Qed.

(** X24 on the sample with its line out of service: the currents are
    finite and the voltage at the origin of the line is 0 times a base. *)
Lemma runpf_cleans_branch_outputs_witness :
  forallb isfinite (vec FlowSample.solved_line_off a_or) = true /\
  forallb isfinite (vec FlowSample.solved_line_off a_ex) = true /\
  exists kv, vec FlowSample.solved_line_off v_or !! 0%nat = Some (fmul (fconst 0) kv).
Proof.
  assert (Hrun : runpf_try false 2
                   (set_grid (set_line [ {| from_bus := 0; to_bus := 1;
                                            line_in_service := false |} ] grid) backend)
                 = (Ok true, FlowSample.solved_line_off))
    by (vm_compute; reflexivity).
  assert (Hst : line_status FlowSample.solved_line_off !! 0%nat = Some false)
    by (vm_compute; reflexivity).
  assert (Hz : isfinite (fl_num 0) = true) by reflexivity.
  destruct (runpf_cleans_branch_outputs false true 2 _ _ Hz Hrun)
    as (Hor & Hex & Hv).
  destruct (Hv 0%nat Hst) as ((kv & Hkv & _) & _).
  split; [exact Hor|]. split; [exact Hex|]. exists kv. exact Hkv.
Defined.

(** The voltages at the origins of the two branches there: 0 for the line,
    1 per unit on a 138 kV base for the transformer. *)
Example sample_solved_v_or :
  vec FlowSample.solved_line_off v_or = [fl_num 0; fl_num 138].
Proof. vm_compute. reflexivity. Qed.

(** X25 on the sample: the case of the solver reports one unit of time. *)
Lemma runpf_accumulates_comp_time_witness :
  true = converged (solved (_grid FlowSample.solved)) /\
  exists ppc, _ppc (solved (_grid FlowSample.solved)) = Some ppc /\
    comp_time FlowSample.solved = match et ppc with
                                  | Some t => fadd (comp_time backend) t
                                  | None => comp_time backend
                                  end.
Proof.
  exact (runpf_accumulates_comp_time false true 2 backend FlowSample.solved
           sample_solved_run).
Defined.

(** X26 on the sample. *)
Lemma runpf_ac_load_voltages_finite_witness :
  forallb isfinite (vec FlowSample.solved load_v) = true.
Proof.
  exact (runpf_ac_load_voltages_finite true 2 backend FlowSample.solved
           sample_solved_run).
Defined.

(** X27 on the sample, which has one line and one transformer: there is no
    branch 2. *)
Lemma switch_line_out_of_range_witness :
  _disconnect_line 2 backend = (Raise IndexError, backend) /\
  _reconnect_line 2 backend = (Raise IndexError, backend).
Proof.
  apply (switch_line_out_of_range 2 backend).
  - reflexivity.
  - left. cbn. lia.
Defined.

(** X28 on the sample: one load, on bus 1, which has its row. *)
Lemma loads_info_returns_witness :
  exists p q v, _loads_info backend = Ok (p, q, v) /\
    length p = 1%nat /\ length q = 1%nat /\ length v = 1%nat.
Proof.
  assert (Hnd : NoDup (map res_bus_index (res_bus (solved (_grid backend)))))
    by (apply (bool_decide_unpack _); vm_compute; reflexivity).
  assert (Hall : Forall (fun r => exists row, row ∈ res_bus (solved (_grid backend))
                                              /\ res_bus_index row = load_bus r)
                        (load (_grid backend))).
  { repeat constructor.
    exists {| res_bus_index := 1; res_bus_vm_pu := fl_num 1 |}.
    split; [|reflexivity]. cbn. repeat constructor. }
  exact (loads_info_returns backend Hnd eq_refl Hall).
Defined.

(** X29 on the sample with its load moved to a bus the solver reports
    nothing about. *)
Lemma loads_info_missing_bus_witness :
  _loads_info
    (set_grid (set_load [ {| load_bus := 7; load_p_mw := fl_num 3;
                             load_q_mvar := fl_num 1; load_in_service := true |} ]
                        grid) backend)
  = Raise KeyError.
Proof.
  apply loads_info_missing_bus. apply Exists_cons_hd.
  intros row Hrow. cbn in Hrow.
  repeat (apply elem_of_cons in Hrow as [-> | Hrow]; [cbn; lia|]).
  now apply elem_of_nil in Hrow.
Defined.

(** C2 as the specification words it fails on the sample with its load out
    of service: the decoding stores 2 at slot 5, the slot of the load, and
    not -1. *)
Lemma decoding_ignores_load_status : ~ decoding_as_specified backend_load_off.
Proof.
  intros Hd.
  assert (Htopo : _get_topo_vect backend_load_off = Ok [1; 1; 1; 1; 1; 2])
    by (vm_compute; reflexivity).
  destruct (Hd _ Htopo) as (_ & _ & _ & _ & _ & Hload).
  assert (Hr : load (_grid backend_load_off) !! 0%nat
               = Some {| load_bus := -1; load_p_mw := fl_num 3; load_q_mvar := fl_num 1;
                         load_in_service := false |})
    by (vm_compute; reflexivity).
  assert (Hp : load_pos_topo_vect (tables backend_load_off) !! 0%nat = Some 5)
    by (vm_compute; reflexivity).
  assert (Hs : load_to_subid (tables backend_load_off) !! 0%nat = Some 1)
    by (vm_compute; reflexivity).
  destruct (Hload _ _ _ _ Hr Hp Hs) as (sel & Hsel & Hoff & _).
  cbn in Hsel. injection Hsel as <-.
  specialize (Hoff eq_refl). discriminate Hoff.
Qed.

(** C2, as amended, on the same state: the load, out of service with bus
    -1, is decoded 2 at slot 5. *)
Lemma get_topo_vect_decoding_witness :
  exists r topo,
    load (_grid backend_load_off) !! 0%nat = Some r /\ load_in_service r = false /\
    _get_topo_vect backend_load_off = Ok topo /\ topo !! 5%nat = Some 2.
Proof.
  assert (Htopo : _get_topo_vect backend_load_off = Ok [1; 1; 1; 1; 1; 2])
    by (vm_compute; reflexivity).
  assert (Htb : tables backend_load_off = tables backend) by (vm_compute; reflexivity).
  assert (Hwf : slots_wf (tables backend_load_off))
    by (rewrite Htb; exact (proj1 sample_topo_wf)).
  assert (Hnl : _number_true_line (tables backend_load_off)
                = Z.of_nat (length (line (_grid backend_load_off))))
    by (vm_compute; reflexivity).
  assert (Hco : line_status_coherent backend_load_off) by (vm_compute; reflexivity).
  assert (Hr : load (_grid backend_load_off) !! 0%nat
               = Some {| load_bus := -1; load_p_mw := fl_num 3; load_q_mvar := fl_num 1;
                         load_in_service := false |})
    by (vm_compute; reflexivity).
  destruct (get_topo_vect_decoding backend_load_off _ Hwf Hnl Hco Htopo)
    as (_ & _ & _ & Hload).
  destruct (Hload _ _ Hr) as (p & sub & Hp & Hsub & Hsel).
  assert (Hp' : load_pos_topo_vect (tables backend_load_off) !! 0%nat = Some 5)
    by (vm_compute; reflexivity).
  assert (Hs' : load_to_subid (tables backend_load_off) !! 0%nat = Some 1)
    by (vm_compute; reflexivity).
  rewrite Hp' in Hp. injection Hp as <-.
  rewrite Hs' in Hsub. injection Hsub as <-.
  eexists _, _. split; [exact Hr|]. split; [reflexivity|].
  split; [exact Htopo | exact Hsel].
Defined.



(** Without a synthesized slack generator there is none to share a bus,
    and what the solver reports is returned as it is. *)
Example gens_info_without_synthesized_slack :
  slack_follows_reference SlackSample.backend_own_slack /\
  ~ slack_on_reference_bus SlackSample.backend_own_slack /\
  _gens_info SlackSample.backend_own_slack = Ok ([fl_num 3], [fl_num 1], [fl_num 138]).
Proof.
  split; [exact I|]. split; [|vm_compute; reflexivity].
  intros (id & _ & _ & Hid & _). discriminate Hid.
Qed.

(** The sample backend after an action that moves its generator to the
    second bus of substation 0: the reference source has moved with it. *)
Example apply_action_moves_reference_source :
  ext_grid_bus <$> ext_grid (_grid (apply_action (Some (topo_action [(2, 2)])) backend).2)
  = [2] /\
  gen_bus <$> gen (_grid (apply_action (Some (topo_action [(2, 2)])) backend).2) = [2].
Proof. vm_compute. split; reflexivity. Qed.

(** The decoding run by [reset] on a saved network whose load is out of
    service: 1 at slot 5, the load sitting on the bus of its substation. *)
Example reset_decodes_load_out_of_service :
  _topo_vect
    (reset (set_load [ {| load_bus := 1; load_p_mw := fl_num 3; load_q_mvar := fl_num 1;
                          load_in_service := false |} ] grid) backend).2
  = [1; 1; 1; 1; 1; 1].
Proof. vm_compute. reflexivity. Qed.
